(** * Sigmet raw-product utilities: bit copying, request protocol, client output

    A shallow embedding of the C sources of the repository
    ([copy_bits.c], [alloc3f.c], [sigmet_raw.h], [sigmet_raw_client.c],
    [data.c], [ray_headers.c], [sigmet.h]) and the properties proved about
    them.  What the sources only declare or talk to (the conversion of
    storage values, the daemon's side of the protocol, the binary angles) is
    written from the specification and marked as such.

    Conventions.  C unsigned integers of width [w] are values of [Z] in
    [0, 2^w) and every arithmetic operation of the source that can wrap is
    written with its [mod 2^w].  Byte buffers are [list Z] with entries in
    [0, 256); an access outside a buffer is undefined behaviour in C and is
    [None] here.  Pointers are byte addresses in [Z]. *)

From Stdlib Require Import ZArith List Lia.
From Stdlib Require Floats Uint63.
From stdpp Require Import base option list gmap strings pretty.

Local Open Scope Z_scope.

(** ** copy_bits.c *)

Module CopyBits.

Section copy_bits.

(** Width of [size_t] in bits. *)
Variable SIZE_BITS : Z.

Definition SIZE_MAX : Z := 2 ^ SIZE_BITS - 1.

(** Arithmetic on [size_t]. *)
Definition size_add (a b : Z) : Z := (a + b) mod 2 ^ SIZE_BITS.

(** Conversion to [uint8_t] at an assignment. *)
Definition to_uint8 (z : Z) : Z := z mod 256.

(** [memset(dest_bytes, 0, len)]. *)
Definition memset0 (dest : list Z) (len : Z) : option (list Z) :=
  if decide (len <= Z.of_nat (length dest))
  then Some (replicate (Z.to_nat len) 0 ++ drop (Z.to_nat len) dest)
  else None.

(** The body of the [for] loop at index [i]. *)
Definition copy_bit (src : list Z) (o i : Z) (dest : list Z) : option (list Z) :=
  let src_bit_pos := size_add o i in
  let src_byte := src_bit_pos / 8 in
  let src_bit := src_bit_pos mod 8 in
  s ← src !! Z.to_nat src_byte;
  let bit_val := Z.land (Z.shiftr s src_bit) 1 in
  let dest_byte := i / 8 in
  let dest_bit := i mod 8 in
  d ← dest !! Z.to_nat dest_byte;
  Some (<[Z.to_nat dest_byte := to_uint8 (Z.lor d (Z.shiftl bit_val dest_bit))]> dest).

(** [for (i = i0; i < i0 + k; ++i) body]: [k] iterations starting at [i]. *)
Fixpoint copy_loop (src : list Z) (o : Z) (k : nat) (i : Z) (dest : list Z)
  : option (list Z) :=
  match k with
  | O => Some dest
  | S k' => dest' ← copy_bit src o i dest; copy_loop src o k' (i + 1) dest'
  end.

Definition copy_bits_packed_right (src dest : list Z) (o n : Z) : option (list Z) :=
  let dest_bytes_len := size_add n 7 / 8 in
  dest0 ← memset0 dest dest_bytes_len;
  copy_loop src o (Z.to_nat n) 0 dest0.

(** Bit [p] of a byte buffer, bits numbered LSB-first within each byte. *)
Definition bit_of (bytes : list Z) (p : Z) : option bool :=
  b ← bytes !! Z.to_nat (p / 8); Some (Z.testbit b (p mod 8)).

End copy_bits.

End CopyBits.

(** ** Platform constants

    Sizes the sources obtain with [sizeof], [UINT_MAX] and the errno-free
    return conventions of the POSIX calls they make.  [int], [unsigned] and
    enumerations are 32 bits wide, [double] is 64 bits wide. *)

Module Platform.

Definition sizeof_int : Z := 4.
Definition sizeof_enum : Z := 4.
Definition sizeof_double : Z := 8.
Definition UINT_MAX : Z := 2 ^ 32 - 1.
Definition INT_MAX : Z := 2 ^ 31 - 1.
Definition SIZE_BITS : Z := 64.
Definition EXIT_SUCCESS : Z := 0.
Definition EXIT_FAILURE : Z := 1.

(** Conversion of a value to [unsigned]. *)
Definition to_unsigned (z : Z) : Z := z mod 2 ^ 32.

(** Conversion of a value to [int] (two's complement). *)
Definition to_int (z : Z) : Z := (z + 2 ^ 31) mod 2 ^ 32 - 2 ^ 31.

(** The [k] bytes of the object representation of an integer, least
    significant byte first. *)
Fixpoint le_bytes (k : nat) (z : Z) : list Z :=
  match k with
  | O => []
  | S k' => z mod 256 :: le_bytes k' (z / 256)
  end.

(** The integer whose object representation the bytes are. *)
Fixpoint le_value (bytes : list Z) : Z :=
  match bytes with
  | [] => 0
  | b :: bytes' => b + 256 * le_value bytes'
  end.

(** Arithmetic on [size_t]. *)
Definition size_add (a b : Z) : Z := (a + b) mod 2 ^ SIZE_BITS.

(** The C string a [char] array holds: its bytes up to the first nul. *)
Fixpoint cstring_of_bytes (bytes : list Z) : string :=
  match bytes with
  | [] => EmptyString
  | b :: bytes' =>
      if b =? 0 then EmptyString
      else String (Ascii.ascii_of_N (Z.to_N b)) (cstring_of_bytes bytes')
  end.

(** The double quote character, as a string. *)
Definition dquote : string := String (Ascii.ascii_of_nat 34) EmptyString.

(** The newline character, as a string. *)
Definition nl : string := String (Ascii.ascii_of_nat 10) EmptyString.

(** The bytes of a C string, without its terminator. *)
Definition bytes_of_string (s : string) : list Z :=
  map (fun c => Z.of_N (Ascii.N_of_ascii c)) (String.list_ascii_of_string s).

End Platform.

(** ** POSIX interface

    Messages, and processes as the traces of the calls they make. *)

Module Posix.

(** One element of a [msg_iov] array: the object it points to, as the bytes
    of its representation, and its length. *)
Record iovec := {
  iov_base : list Z;
  iov_len : Z
}.

(** A control message of a [msghdr]. *)
Inductive cmsg_level_t := SOL_SOCKET.
Inductive cmsg_type_t := SCM_RIGHTS.

Record cmsghdr := {
  cmsg_level : cmsg_level_t;
  cmsg_type : cmsg_type_t;
  cmsg_data : list Z
}.

Record msghdr := {
  msg_iov : list iovec;
  msg_iovlen : nat;
  msg_control : option cmsghdr
}.

(** What a process does that its environment can observe.  [L] is the type
    of the items the process writes to its standard output; [EvRecvmsg]
    carries the bytes the call delivered, or [None] when it returned -1. *)
Inductive event (L : Type) :=
| EvOpen (path : string) (fd : Z)
| EvClose (fd : Z)
| EvConnect (path : string) (skt_fd : Z)
| EvSendmsg (skt_fd : Z) (msg : msghdr) (ret : Z)
| EvRecvmsg (skt_fd : Z) (iov_lens : list Z) (bytes : option (list Z))
| EvSetenv (name value : string)
| EvStderr (text : string)
| EvStdout (item : L).

Arguments EvOpen {L} path fd.
Arguments EvClose {L} fd.
Arguments EvConnect {L} path skt_fd.
Arguments EvSendmsg {L} skt_fd msg ret.
Arguments EvRecvmsg {L} skt_fd iov_lens bytes.
Arguments EvSetenv {L} name value.
Arguments EvStderr {L} text.
Arguments EvStdout {L} item.

(** The messages a trace passes to [sendmsg], in order. *)
Definition sent_messages {L} (t : list (event L)) : list msghdr :=
  omap (fun e => match e with EvSendmsg _ m _ => Some m | _ => None end) t.

(** The descriptors a trace obtains from [open]. *)
Definition opened_fds {L} (t : list (event L)) : list (string * Z) :=
  omap (fun e => match e with EvOpen p fd => Some (p, fd) | _ => None end) t.

(** The responses a trace receives with [recvmsg]. *)
Definition received {L} (t : list (event L)) : list (list Z) :=
  omap (fun e => match e with EvRecvmsg _ _ b => b | _ => None end) t.

(** The shapes of the [msg_iov] arrays a trace receives responses with. *)
Definition recvmsg_shapes {L} (t : list (event L)) : list (list Z) :=
  omap (fun e => match e with EvRecvmsg _ lens _ => Some lens | _ => None end) t.

(** The environment variables a trace sets. *)
Definition setenv_of {L} (t : list (event L)) : list (string * string) :=
  omap (fun e => match e with EvSetenv n v => Some (n, v) | _ => None end) t.

(** What a trace writes to standard error and to standard output. *)
Definition stderr_of {L} (t : list (event L)) : list string :=
  omap (fun e => match e with EvStderr x => Some x | _ => None end) t.

Definition stdout_of {L} (t : list (event L)) : list L :=
  omap (fun e => match e with EvStdout x => Some x | _ => None end) t.

(** A process: the trace it leaves and how it goes on.  [Exit] is a call of
    [exit], [Undefined] an access outside an array. *)
Inductive step (A : Type) :=
| Ret (a : A)
| Exit (status : Z)
| Undefined.

Arguments Ret {A} a.
Arguments Exit {A} status.
Arguments Undefined {A}.

Definition proc (L A : Type) : Type := list (event L) * step A.

Definition proc_bind {L A B} (k : A -> proc L B) (m : proc L A) : proc L B :=
  match m with
  | (t, Ret a) => let (t', r) := k a in (t ++ t', r)
  | (t, Exit c) => (t, Exit c)
  | (t, Undefined) => (t, Undefined)
  end.

#[export] Instance proc_ret {L} : MRet (proc L) := fun A a => ([], Ret a).
#[export] Instance proc_mbind {L} : MBind (proc L) := fun A B k m => proc_bind k m.

Definition emit {L} (e : event L) : proc L unit := ([e], Ret tt).
Definition exit {L A} (status : Z) : proc L A := ([], Exit status).
Definition undefined {L A} : proc L A := ([], Undefined).
Definition fprintf_stderr {L} (text : string) : proc L unit := emit (EvStderr text).

(** The element [l[i]] of an array, if it has one. *)
Definition array_at {A} (l : list A) (i : Z) : option A :=
  if i <? 0 then None else l !! Z.to_nat i.

(** An access that is undefined when there is nothing to get. *)
Definition defined {L A} (o : option A) : proc L A :=
  match o with Some a => mret a | None => undefined end.

(** An array access: undefined outside the array. *)
Definition array_get {L A} (l : list A) (i : Z) : proc L A := defined (array_at l i).

(** The kinds of file [stat] tells apart with [S_ISREG], [S_ISFIFO] and
    [S_ISSOCK]. *)
Inductive file_kind := S_IFREG | S_IFIFO | S_IFSOCK | S_IFOTHER.

(** What the system answers to the calls of the [main] functions: the
    environment variable [APP_NAME], [basename], [sscanf] with "%d" and
    with "%u" ([None] when no item is converted), [stat] ([None] for -1)
    and [strerror(errno)]. *)
Record main_env := {
  getenv_APP_NAME : option string;
  basename : string -> string;
  sscanf_d : string -> option Z;
  sscanf_u : string -> option Z;
  stat : string -> option file_kind;
  stat_strerror : string
}.

(** The descriptors a trace closes, in order. *)
Definition closed_fds {L} (t : list (event L)) : list Z :=
  omap (fun e => match e with EvClose fd => Some fd | _ => None end) t.

(** The sockets a trace connects, with the paths they are connected to. *)
Definition connected {L} (t : list (event L)) : list (string * Z) :=
  omap (fun e => match e with EvConnect p fd => Some (p, fd) | _ => None end) t.

(** A trace that writes nothing to standard output or to standard error. *)
Definition silent {L} (t : list (event L)) : Prop :=
  stdout_of t = [] /\ stderr_of t = [].

(** A trace that only reports an error: nothing on standard output,
    something on standard error. *)
Definition failing {L} (t : list (event L)) : Prop :=
  stdout_of t = [] /\ stderr_of t <> [].

(** How a run of a client program ends when it keeps output and errors
    apart: a run that returns or exits with [EXIT_SUCCESS] has written
    nothing to standard error; any other exit is with [EXIT_FAILURE], after
    an error report and with nothing on standard output. *)
Definition outcome {L A} (run : proc L A) : Prop :=
  match snd run with
  | Ret _ => stderr_of (fst run) = []
  | Exit status =>
      (status = Platform.EXIT_SUCCESS /\ stderr_of (fst run) = [])
      \/ (status = Platform.EXIT_FAILURE /\ failing (fst run))
  | Undefined => True
  end.

(** A run that ends well: it returns, or exits with [EXIT_SUCCESS]. *)
Definition succeeds {L A} (run : proc L A) : Prop :=
  match snd run with
  | Ret _ => True
  | Exit status => status = Platform.EXIT_SUCCESS
  | Undefined => False
  end.

(** A run whose messages are the first of [want], in order, and all of
    [want] when it ends well. *)
Definition sends {L A} (want : list msghdr) (run : proc L A) : Prop :=
  sent_messages (fst run) `prefix_of` want /\
  (succeeds run -> sent_messages (fst run) = want).

End Posix.

(** ** sigmet.h *)

Module Sigmet.
Import Posix.

Definition SIGMET_MAX_SWPS : Z := 40.
Definition SIGMET_NUM_DATA_TYPES : Z := 89.

(** Number of bytes in "DB_TEMPERATURE16" NOT including nul terminator. *)
Definition SIGMET_DATA_TYPE_LEN : Z := 16.

(** Space for "UTC-11:-59". *)
Definition SIGMET_TZ_STRLEN : Z := 11.

(** The C floating types the sources compute with.  Only the operations the
    sources apply are listed; [NANf] is the macro [NAN], and a NaN operand
    makes a sum NaN. *)
Class CFloat := {
  float : Type;
  double : Type;
  NANf : float;
  NANd : double;
  float_of_unsigned : Z -> float;
  double_of_float : float -> double;
  dadd : double -> double -> double;
  bytes_of_double : double -> list Z;
  double_of_float_NAN : double_of_float NANf = NANd;
  dadd_NAN_r : forall x, dadd x NANd = NANd
}.

(** The part of [struct Sigmet_VolHdr] the clients read. *)
Record Sigmet_VolHdr := {
  (** [ingst_hdr.task_cfg.task_scan_info.num_swps], an [int16_t] *)
  vh_num_swps : Z;
  (** [ingst_hdr.ingst_cfg.num_rays], a [uint16_t] *)
  vh_num_rays : Z;
  (** [num_types], an [unsigned] *)
  vh_num_types : Z;
  (** [ingst_hdr.task_cfg.task_rng_info.num_bins_out], an [int16_t] *)
  vh_num_bins_out : Z;
  (** [ingst_hdr.task_cfg.task_dsp_info.curr_data_mask.mask_wd0] *)
  vh_mask_wd0 : Z
}.

Definition Sigmet_VolNumSwps (v : Sigmet_VolHdr) : Z := Platform.to_unsigned (vh_num_swps v).
Definition Sigmet_VolNumRays (v : Sigmet_VolHdr) : Z := Platform.to_unsigned (vh_num_rays v).
Definition Sigmet_VolNumTypes (v : Sigmet_VolHdr) : Z := Platform.to_unsigned (vh_num_types v).
Definition Sigmet_VolNumBins (v : Sigmet_VolHdr) : Z := Platform.to_unsigned (vh_num_bins_out v).

(** Return true if volume has extended ray header "data type". *)
Definition Sigmet_VolXHdr (v : Sigmet_VolHdr) : bool :=
  negb (Z.land (vh_mask_wd0 v) 1 =? 0).

Section types.
Context `{CFloat}.

(** Ray header. *)
Record Sigmet_RayHdr := {
  az0 : float;
  tilt0 : float;
  az1 : float;
  tilt1 : float;
  num_bins : Z;
  tm : Z
}.

(** Sigmet ray - header and data for one data type in one ray.  [dat] is
    [None] for the C null pointer; [Storage] is the file representation of
    the data values. *)
Record Sigmet_Ray {Storage : Type} := {
  ray_hdr : Sigmet_RayHdr;
  dat : option Storage
}.

End types.

Arguments Sigmet_Ray {_} Storage.

(** The element [rays[s][r][y]] of an array of rays dimensioned
    [num_swps][num_rays][num_types], if the indices are inside it. *)
Definition rays_at `{CFloat} {Storage : Type}
  (rays : list (list (list (Sigmet_Ray Storage)))) (s r y : Z)
  : option (Sigmet_Ray Storage) :=
  swp ← array_at rays s; ray ← array_at swp r; array_at ray y.

(** [rays[s][r][y]]. *)
Definition rays_get `{CFloat} {L Storage : Type}
  (rays : list (list (list (Sigmet_Ray Storage)))) (s r y : Z)
  : proc L (Sigmet_Ray Storage) :=
  defined (rays_at rays s r y).

(** Time as represented in various Sigmet raw headers. *)
Record Sigmet_YMDS_Tm := {
  sec : Z;
  msec : Z;
  dst : bool;
  utc : bool;
  ldst : bool;
  yr : Z;
  mon : Z;
  day : Z
}.

(** Sweep header. *)
Record Sigmet_SwpHdr `{CFloat} := {
  swp_tm : Sigmet_YMDS_Tm;
  angl : double
}.

(** The functions declared in [sigmet.h] whose definitions are in the Sigmet
    library proper: the data-type registry, the storage-to-value
    conversions and the time functions.  A [const struct Sigmet_DataType *]
    that may be null is an [option]. *)
Class SigmetLib `{CFloat} := {
  Sigmet_DataType : Type;
  Storage : Type;
  Sigmet_DataTypeGet : string -> option Sigmet_DataType;
  Sigmet_DataTypeAbbrv : Sigmet_DataType -> string;
  Sigmet_DataType_PrintFmt : Sigmet_DataType -> option string;
  Sigmet_VolTypeIdx : option Sigmet_DataType -> Sigmet_VolHdr -> Z;
  Sigmet_DTime : Sigmet_YMDS_Tm -> double;
  (** [Some (yr, mon, day, hr, min, sec)] when the call returns true. *)
  Sigmet_BkTime : double -> option (Z * Z * Z * Z * Z * float);
  (** Modelled from the spec: [storage_to_value(descriptor, n, out_f32[],
      in_storage[], volume)] of section 4.3, declared in [sigmet.h] as
      [Sigmet_DataTypeStorToVal] and defined outside the sources at hand.
      It takes the output array and returns it updated; it stores [n]
      values, so the array keeps its length and its elements from index
      [n] on. *)
  Sigmet_DataTypeStorToVal :
    option Sigmet_DataType -> Z -> list float -> option Storage -> Sigmet_VolHdr
    -> list float;
  StorToVal_length : forall t n out d v,
    length (Sigmet_DataTypeStorToVal t n out d v) = length out;
  StorToVal_frame : forall t n out d v (b : nat),
    (Z.to_nat n <= b)%nat ->
    Sigmet_DataTypeStorToVal t n out d v !! b = out !! b
}.

End Sigmet.

(** ** sigmet_raw.h *)

Module SigmetRaw.
Import Platform Sigmet.

(** Daemon subcommand specifiers. *)
Inductive SigmetRaw_SubCmdN :=
| SigmetRawExit | SigmetRawVolumeHeaders | SigmetRawSwpHeaders
| SigmetRawRayHeaders | SigmetRawData | SigmetRawCorx.

(** The integer value of an enumeration constant. *)
Definition SubCmdN_val (c : SigmetRaw_SubCmdN) : Z :=
  match c with
  | SigmetRawExit => 0 | SigmetRawVolumeHeaders => 1 | SigmetRawSwpHeaders => 2
  | SigmetRawRayHeaders => 3 | SigmetRawData => 4 | SigmetRawCorx => 5
  end.

(** Daemon status codes. *)
Inductive SigmetRaw_Status := SigmetRawError | SigmetRawOkay.

Definition Status_val (st : SigmetRaw_Status) : Z :=
  match st with SigmetRawError => 0 | SigmetRawOkay => 1 end.

(** Order of parameters in client-to-daemon requests. *)
Definition SIGMETRAW_RQST_IOVLEN : nat := 3.
Definition SigmetRawRqstSubCmd : nat := 0.
Definition SigmetRawRqstDataType : nat := 1.
Definition SigmetRawRqstSwpIdx : nat := 2.

(** Order of shared file descriptors in client-to-daemon requests. *)
Definition SigmetRawErrFD : nat := 0.
Definition SigmetRawHdrDataFD : nat := 1.

(** Client to daemon requests.  [sub_cmd_n] holds the value of the
    enumeration object, which [SigmetRaw_Rqst_Init] sets to [-1];
    [abbrv] is the array [char abbrv[SIGMET_DATA_TYPE_LEN]]. *)
Record SigmetRaw_Rqst := {
  sub_cmd_n : Z;
  abbrv : list Z;
  s : Z;
  hd_fd : Z;
  err_fd : Z
}.

(** Indices of the elements of a daemon response. *)
Definition SIGMETRAW_RPS_IOVLEN : nat := 7.

Inductive RpsIdx :=
| SigmetRawRpsStatus | SigmetRawRpsNumSwps | SigmetRawRpsNumRays
| SigmetRawRpsNumSwpBins | SigmetRawRpsSwpTm | SigmetRawRpsTZ | SigmetRawRpsErr.

Definition RpsIdx_val (i : RpsIdx) : nat :=
  match i with
  | SigmetRawRpsStatus => 0 | SigmetRawRpsNumSwps => 1 | SigmetRawRpsNumRays => 2
  | SigmetRawRpsNumSwpBins => 3 | SigmetRawRpsSwpTm => 4 | SigmetRawRpsTZ => 5
  | SigmetRawRpsErr => 6
  end%nat.

Definition SigmetRaw_GetAllSwps (i_swp : Z) : bool := i_swp =? UINT_MAX.

(** Sigmet raw header appended with extended header time, if available. *)
Record SigmetRaw_RayHdr `{CFloat} := {
  wray_hdr : Sigmet_RayHdr;
  wray_tm : double
}.

End SigmetRaw.

(** ** sigmet_raw_client.c *)

Module SigmetRawClient.
Import Platform Posix Sigmet SigmetRaw.

(** [memset(buf, 0, n)] on a [char] array. *)
Definition memset_zero (buf : list Z) (n : Z) : list Z :=
  replicate (Z.to_nat n) 0 ++ drop (Z.to_nat n) buf.

(** [snprintf(buf, size, "%s", str)]: at most [size - 1] bytes of [str] are
    stored, followed by a nul; the bytes of [buf] after the nul keep their
    values, and nothing is stored when [size] is zero. *)
Definition snprintf_s (buf : list Z) (size : Z) (str : string) : list Z :=
  if size <=? 0 then buf
  else
    let out := take (Z.to_nat (size - 1)) (bytes_of_string str) ++ [0] in
    out ++ drop (length out) buf.

Definition SigmetRaw_Rqst_Init : SigmetRaw_Rqst :=
  let rqst := {| sub_cmd_n := -1; abbrv := replicate (Z.to_nat SIGMET_DATA_TYPE_LEN) 0;
                 s := -1; hd_fd := -1; err_fd := -1 |} in
  {| sub_cmd_n := sub_cmd_n rqst;
     abbrv := memset_zero (abbrv rqst) SIGMET_DATA_TYPE_LEN;
     s := s rqst; hd_fd := hd_fd rqst; err_fd := err_fd rqst |}.

Definition SigmetRaw_Rqst_Set_SubCmd (rqst : SigmetRaw_Rqst) (c : SigmetRaw_SubCmdN)
  : SigmetRaw_Rqst :=
  {| sub_cmd_n := SubCmdN_val c; abbrv := abbrv rqst; s := s rqst;
     hd_fd := hd_fd rqst; err_fd := err_fd rqst |}.

Definition SigmetRaw_Rqst_Set_DataType (rqst : SigmetRaw_Rqst) (a : string)
  : SigmetRaw_Rqst :=
  {| sub_cmd_n := sub_cmd_n rqst;
     abbrv := snprintf_s (abbrv rqst) SIGMET_DATA_TYPE_LEN a;
     s := s rqst; hd_fd := hd_fd rqst; err_fd := err_fd rqst |}.

(** The parameter is [unsigned]; the member it is stored in is [int]. *)
Definition SigmetRaw_Rqst_Set_Swp (rqst : SigmetRaw_Rqst) (swp : Z) : SigmetRaw_Rqst :=
  {| sub_cmd_n := sub_cmd_n rqst; abbrv := abbrv rqst; s := to_int swp;
     hd_fd := hd_fd rqst; err_fd := err_fd rqst |}.

Definition SigmetRaw_Rqst_Set_ShFD (rqst : SigmetRaw_Rqst) (fd : Z) : SigmetRaw_Rqst :=
  {| sub_cmd_n := sub_cmd_n rqst; abbrv := abbrv rqst; s := s rqst;
     hd_fd := fd; err_fd := err_fd rqst |}.

Definition SigmetRaw_Rqst_Set_ErrFD (rqst : SigmetRaw_Rqst) (fd : Z) : SigmetRaw_Rqst :=
  {| sub_cmd_n := sub_cmd_n rqst; abbrv := abbrv rqst; s := s rqst;
     hd_fd := hd_fd rqst; err_fd := fd |}.

(** What the system answers to the calls of [SigmetRaw_Rqst_Send]:
    the value of [open("/dev/null", O_RDONLY)], whether [CMSG_FIRSTHDR]
    yields a header, the value of [sendmsg], and [strerror(errno)]. *)
Record send_env := {
  open_ret : Z;
  cmsg_firsthdr : bool;
  sendmsg_ret : Z;
  strerror_errno : string
}.

(** The result of [SigmetRaw_Rqst_Send]: its return value, what it did, and
    the text it left in the error message, if any. *)
Record send_result {L : Type} := {
  send_ret : Z;
  send_trace : list (event L);
  send_err_msg : option string
}.

Arguments send_result L : clear implicits.

Definition SigmetRaw_Rqst_Send {L} (os : send_env) (skt_fd : Z) (rqst : SigmetRaw_Rqst)
  : send_result L :=
  let func := "SigmetRaw_Rqst_Send"%string in
  let iov0 := replicate SIGMETRAW_RQST_IOVLEN {| iov_base := []; iov_len := 0 |} in
  let rqst_iov :=
    <[SigmetRawRqstSwpIdx :=
        {| iov_base := le_bytes (Z.to_nat sizeof_int) (to_unsigned (s rqst));
           iov_len := sizeof_int |}]>
    (<[SigmetRawRqstDataType :=
        {| iov_base := abbrv rqst; iov_len := SIGMET_DATA_TYPE_LEN |}]>
    (<[SigmetRawRqstSubCmd :=
        {| iov_base := le_bytes (Z.to_nat sizeof_enum) (to_unsigned (sub_cmd_n rqst));
           iov_len := sizeof_enum |}]> iov0)) in
  let placeholder := (err_fd rqst <? 0) || (hd_fd rqst <? 0) in
  let p0 := "/dev/null"%string in
  let fd0 := if placeholder then open_ret os else -1 in
  let opened := if placeholder then [EvOpen p0 fd0] else [] in
  if placeholder && (fd0 =? -1) then
    {| send_ret := 0; send_trace := opened;
       send_err_msg := Some (func ++ " coud not open placeholder file " ++ p0 ++ ". "
                               ++ strerror_errno os ++ ".")%string |}
  else
    let fd :=
      <[SigmetRawHdrDataFD := if 0 <=? hd_fd rqst then hd_fd rqst else fd0]>
      (<[SigmetRawErrFD := if 0 <=? err_fd rqst then err_fd rqst else fd0]> [-1; 0]) in
    if negb (cmsg_firsthdr os) then
      {| send_ret := 0; send_trace := opened;
         send_err_msg :=
           Some (func ++ " could not obtain memory for request message control.")%string |}
    else
      let rqst_msg :=
        {| msg_iov := rqst_iov; msg_iovlen := SIGMETRAW_RQST_IOVLEN;
           msg_control := Some {| cmsg_level := SOL_SOCKET; cmsg_type := SCM_RIGHTS;
                                  cmsg_data := fd |} |} in
      let w := sendmsg_ret os in
      if w =? -1 then
        {| send_ret := 0; send_trace := opened ++ [EvSendmsg skt_fd rqst_msg w];
           send_err_msg := Some (func ++ " failed to send message to daemon. "
                                   ++ strerror_errno os ++ ".")%string |}
      else
        {| send_ret := 1;
           send_trace := opened ++ [EvSendmsg skt_fd rqst_msg w; EvClose fd0];
           send_err_msg := None |}.

(** What the system answers to the calls of [SigmetRaw_DmnConnect]: the
    values of [socket] and [connect], the size of [sun_path], and
    [strerror(errno)]. *)
Record connect_env := {
  socket_ret : Z;
  sizeof_sun_path : Z;
  connect_ret : Z;
  connect_strerror : string
}.

Record connect_result {L : Type} := {
  conn_ret : Z;
  conn_trace : list (event L);
  conn_err_msg : option string
}.

Arguments connect_result L : clear implicits.

Definition SigmetRaw_DmnConnect {L} (os : connect_env) (skt_path : string)
  : connect_result L :=
  let func := "SigmetRaw_DmnConnect"%string in
  let skt_fd := socket_ret os in
  if skt_fd =? -1 then
    {| conn_ret := -1; conn_trace := [];
       conn_err_msg := Some (func ++ " could not create socket. "
                               ++ connect_strerror os ++ ".")%string |}
  else
    let plen := sizeof_sun_path os in
    let path_len := Z.of_nat (String.length skt_path) in
    if to_int plen <=? path_len then
      {| conn_ret := -1; conn_trace := [EvClose skt_fd];
         conn_err_msg := Some (func ++ ": path too big for unix socket address."
                                 ++ "System limit is " ++ pretty plen
                                 ++ " characters.")%string |}
    else if negb (connect_ret os =? 0) then
      {| conn_ret := -1; conn_trace := [EvConnect skt_path skt_fd; EvClose skt_fd];
         conn_err_msg := Some (func ++ " could not connect to daemon. "
                                 ++ connect_strerror os ++ ".")%string |}
    else
      {| conn_ret := skt_fd; conn_trace := [EvConnect skt_path skt_fd];
         conn_err_msg := None |}.

(** [recvmsg] on a stream socket: the delivered bytes fill the buffers of
    [msg_iov] in order; what the bytes do not reach keeps its value. *)
Fixpoint scatter (bufs : list (list Z)) (bytes : list Z) : list (list Z) :=
  match bufs with
  | [] => []
  | b :: bufs' =>
      (take (length b) bytes ++ drop (length bytes) b)
        :: scatter bufs' (drop (length b) bytes)
  end.

(** [recvmsg(skt_fd, &rps, 0)] with the buffers [bufs] in [msg_iov]: the
    buffers as the call leaves them, or [None] when it returns -1. *)
Definition recvmsg {L} (ret : option (list Z)) (skt_fd : Z) (bufs : list (list Z))
  : proc L (option (list (list Z))) :=
  ([EvRecvmsg skt_fd (map (fun b => Z.of_nat (length b)) bufs) ret],
   Ret (scatter bufs <$> ret)).

(** The text in [err_msg.str]: empty until a call fails. *)
Definition err_msg_text (m : option string) : string := default EmptyString m.

(** Run a call whose trace is known. *)
Definition traced {L} (t : list (event L)) : proc L unit := (t, Ret tt).

(** What the system answers during one exchange with the daemon: to
    [SigmetRaw_DmnConnect], to [pipe] for the headers/data channel and for
    the error channel (read end, write end), to [fdopen] on each, to
    [SigmetRaw_Rqst_Send], to [recvmsg], what the daemon wrote to the error
    channel, and [strerror(errno)]. *)
Record exchange_env := {
  x_connect : connect_env;
  x_pipe : option (Z * Z);
  x_fdopen_ok : bool;
  x_err_pipe : option (Z * Z);
  x_send : send_env;
  x_recvmsg : option (list Z);
  x_err_fdopen_ok : bool;
  x_err_text : string;
  x_strerror : string
}.

(** What every client does once it has the status of a response: a status
    other than [SigmetRawOkay] prints [prefix], closes [closes], opens the
    error channel, copies it to standard error and exits. *)
Definition check_status {L} (x : exchange_env) (status : Z) (prefix : string)
  (closes : list Z) (fdopen_msg : string) : proc L unit :=
  if status =? Status_val SigmetRawOkay then mret tt
  else
    fprintf_stderr prefix;;
    traced (map EvClose closes);;
    (if x_err_fdopen_ok x then mret tt
     else fprintf_stderr fdopen_msg;; exit EXIT_FAILURE);;
    fprintf_stderr (x_err_text x);;
    fprintf_stderr nl;;
    exit EXIT_FAILURE.

(** What the system answers to the calls of [SigmetRaw_Dmn_VolHdr]: to
    [pipe] (read end, write end; [None] for -1), to [fdopen], to
    [SigmetRaw_Rqst_Send], to [fread] of one [struct Sigmet_VolHdr] from the
    pipe ([None] when it does not return 1), and [strerror(errno)]. *)
Record vol_hdr_env := {
  dv_pipe : option (Z * Z);
  dv_fdopen_ok : bool;
  dv_send : send_env;
  dv_fread : option Sigmet_VolHdr;
  dv_strerror : string
}.

(** The result of [SigmetRaw_Dmn_VolHdr]: its return value, what it did, the
    text it left in the error message, if any, and the volume headers it
    stored at [vol_hdr_p], if it read them. *)
Record vol_hdr_result {L : Type} := {
  dv_ret : Z;
  dv_trace : list (event L);
  dv_err_msg : option string;
  dv_vol_hdr : option Sigmet_VolHdr
}.

Arguments vol_hdr_result L : clear implicits.

(** Obtain volume headers from the sigmet_raw daemon connection at [skt_fd].
    [fclose(vol_hdr_fl)] closes the read end of the pipe, which the stream
    was opened on. *)
Definition SigmetRaw_Dmn_VolHdr {L} (os : vol_hdr_env) (skt_fd : Z) : vol_hdr_result L :=
  let func := "SigmetRaw_Dmn_VolHdr"%string in
  match dv_pipe os with
  | None =>
      {| dv_ret := 0; dv_trace := [];
         dv_err_msg := Some (func ++ " could not create pipe to daemon. "
                               ++ dv_strerror os ++ ".")%string;
         dv_vol_hdr := None |}
  | Some p =>
      if negb (dv_fdopen_ok os) then
        {| dv_ret := 0; dv_trace := [];
           dv_err_msg := Some (func ++ " could not configure pipe to daemon. "
                                 ++ dv_strerror os ++ ".")%string;
           dv_vol_hdr := None |}
      else
        let rqst := SigmetRaw_Rqst_Init in
        let rqst := SigmetRaw_Rqst_Set_SubCmd rqst SigmetRawVolumeHeaders in
        let rqst := SigmetRaw_Rqst_Set_ShFD rqst (snd p) in
        let sent := SigmetRaw_Rqst_Send (dv_send os) skt_fd rqst in
        if send_ret sent =? 0 then
          {| dv_ret := 0; dv_trace := send_trace sent ++ [EvClose (fst p)];
             dv_err_msg := send_err_msg sent; dv_vol_hdr := None |}
        else
          match dv_fread os with
          | None =>
              {| dv_ret := 0; dv_trace := send_trace sent ++ [EvClose (fst p)];
                 dv_err_msg :=
                   Some (func ++ " could not read of volume headers from daemon.")%string;
                 dv_vol_hdr := None |}
          | Some vol_hdr =>
              {| dv_ret := 1;
                 dv_trace := send_trace sent ++ [EvClose (fst p); EvClose (snd p)];
                 dv_err_msg := None; dv_vol_hdr := Some vol_hdr |}
          end
  end.

(** The message a request travels as: the sub-command code, the data-type
    field and the sweep index as the three elements of [msg_iov], and the
    descriptors of the error channel and of the headers/data channel in one
    control message. *)
Definition rqst_message (sub_cmd : Z) (field : list Z) (swp : Z) (err hd : Z) : msghdr :=
  {| msg_iov :=
       [ {| iov_base := le_bytes 4 (to_unsigned sub_cmd); iov_len := 4 |};
         {| iov_base := field; iov_len := 16 |};
         {| iov_base := le_bytes 4 (to_unsigned swp); iov_len := 4 |} ];
     msg_iovlen := 3;
     msg_control := Some {| cmsg_level := SOL_SOCKET; cmsg_type := SCM_RIGHTS;
                            cmsg_data := [err; hd] |} |}.

End SigmetRawClient.

(** ** data.c *)

Module Data.
Import Platform Posix Sigmet SigmetRaw SigmetRawClient.

Section data.
Context `{SigmetLib}.

(** What the program writes to standard output: a line of values, each
    printed with the format of the data type and the line closed by a
    newline, or the values of one [fwrite]. *)
Inductive data_out :=
| TxtLine (fmt : string) (vals : list float)
| BinChunk (vals : list float).

(** What the Sigmet library and the allocator answer while a raw product file
    is read: whether [fopen] and the allocations succeed, the volume header
    [Sigmet_VolReadVHdr] reads ([None] when it returns 0), the values of
    [Sigmet_VolIDatSz] and [Sigmet_VolTZSet], the value of
    [Sigmet_VolReadDat] with the sweep headers and the ray array it fills,
    and the text the library leaves in [err_msg]. *)
Record vol_env := {
  fopen_ok : bool;
  fopen_strerror : string;
  Sigmet_VolReadVHdr : option Sigmet_VolHdr;
  Sigmet_VolIDatSz : Z;
  Sigmet_VolReadDat : Z * list Sigmet_SwpHdr * list (list (list (Sigmet_Ray Storage)));
  Sigmet_VolTZSet : bool;
  err_msg_str : string;
  calloc_swp_hdrs_ok : bool;
  calloc_rays_ok : bool;
  malloc_dat_buf_ok : bool;
  calloc_dat_ok : bool
}.


(** [for (int r = 0; r < num_rays; r++) if (rays[s][r][y].ray_hdr.num_bins >
    num_bins_max) num_bins_max = rays[s][r][y].ray_hdr.num_bins;] *)
Fixpoint num_bins_max_loop {L} (rays : list (list (list (Sigmet_Ray Storage))))
  (s y : Z) (rs : list Z) (num_bins_max : Z) : proc L Z :=
  match rs with
  | [] => mret num_bins_max
  | r :: rs' =>
      ray ← rays_get rays s r y;
      num_bins_max_loop rays s y rs'
        (if num_bins_max <? num_bins (ray_hdr ray)
         then num_bins (ray_hdr ray) else num_bins_max)
  end.

(** The text output loop of [data_fm_fl]; [dat] is the array of
    [num_bins_max] values the loop reuses for every ray. *)
Fixpoint fl_txt_loop (type : Sigmet_DataType) (vol_hdr : Sigmet_VolHdr) (fmt : string)
  (rays : list (list (list (Sigmet_Ray Storage)))) (s y num_bins_max : Z)
  (rs : list Z) (dat : list float) : proc data_out unit :=
  match rs with
  | [] => mret tt
  | r :: rs' =>
      let dat := replicate (Z.to_nat num_bins_max) NANf
                   ++ drop (Z.to_nat num_bins_max) dat in
      ray ← rays_get rays s r y;
      let dat :=
        match Sigmet.dat ray with
        | Some idat =>
            let nb := num_bins (ray_hdr ray) in
            Sigmet_DataTypeStorToVal (Some type) nb dat (Some idat) vol_hdr
        | None => dat
        end in
      emit (EvStdout (TxtLine fmt (take (Z.to_nat num_bins_max) dat)));;
      fl_txt_loop type vol_hdr fmt rays s y num_bins_max rs' dat
  end.

(** The native binary output loop of [data_fm_fl]; [fwrite] of more values
    than [dat] holds is undefined. *)
Fixpoint fl_bin_loop (type : Sigmet_DataType) (vol_hdr : Sigmet_VolHdr)
  (rays : list (list (list (Sigmet_Ray Storage)))) (s y : Z)
  (rs : list Z) (dat : list float) : proc data_out unit :=
  match rs with
  | [] => mret tt
  | r :: rs' =>
      ray ← rays_get rays s r y;
      match Sigmet.dat ray with
      | Some idat =>
          let nb := num_bins (ray_hdr ray) in
          let dat := Sigmet_DataTypeStorToVal (Some type) nb dat (Some idat) vol_hdr in
          (if decide (0 <= nb <= Z.of_nat (length dat))
           then emit (EvStdout (BinChunk (take (Z.to_nat nb) dat)))
           else undefined);;
          fl_bin_loop type vol_hdr rays s y rs' dat
      | None => fl_bin_loop type vol_hdr rays s y rs' dat
      end
  end.

(** Obtain data for data type [type], sweep [s] from Sigmet raw product file
    at [path], print, and exit. *)
Definition data_fm_fl (os : vol_env) (path : string) (type : Sigmet_DataType) (s : Z)
  (txt : bool) (cmd : string) : proc data_out unit :=
  (if fopen_ok os then mret tt
   else fprintf_stderr (cmd ++ ": could not open file. " ++ fopen_strerror os ++ nl)%string;; exit EXIT_FAILURE);;
  vol_hdr ← match Sigmet_VolReadVHdr os with
            | Some v => mret v
            | None =>
                fprintf_stderr (cmd ++ ": could not read volume headers from " ++ path
                                  ++ ". " ++ err_msg_str os ++ nl)%string;; exit EXIT_FAILURE
            end;
  let num_swps := to_int (Sigmet_VolNumSwps vol_hdr) in
  (if (s <? 0) || (num_swps <=? s) then
     fprintf_stderr (cmd ++ ": sweep index " ++ pretty s ++ " out of range. Volume has "
                       ++ pretty num_swps ++ " sweeps." ++ nl)%string;; exit EXIT_FAILURE
   else mret tt);;
  let num_rays := to_int (Sigmet_VolNumRays vol_hdr) in
  let num_types := to_int (Sigmet_VolNumTypes vol_hdr) in
  let y := to_int (Sigmet_VolTypeIdx (Some type) vol_hdr) in
  (if y =? -1 then
     fprintf_stderr (cmd ++ ": " ++ Sigmet_DataTypeAbbrv type
                       ++ " data type is not in volume at " ++ path ++ "." ++ nl)%string;; exit EXIT_FAILURE
   else mret tt);;
  let num_bins := to_int (Sigmet_VolNumBins vol_hdr) in
  (if num_bins <=? 0 then
     fprintf_stderr (cmd ++ ": " ++ path ++ " corrupt, claims " ++ pretty num_bins
                       ++ " bins per ray." ++ nl)%string;; exit EXIT_FAILURE
   else mret tt);;
  (if calloc_rays_ok os then mret tt
   else fprintf_stderr (cmd ++ " could not allocate memory for array of  "
                          ++ pretty num_swps ++ " by " ++ pretty num_rays
                          ++ " ray structures from raw product file " ++ path ++ nl)%string;; exit EXIT_FAILURE);;
  let dat_buf_sz := Sigmet_VolIDatSz os in
  (if dat_buf_sz =? 0 then
     fprintf_stderr (cmd ++ ": could not determine size of input data buffer. "
                       ++ err_msg_str os ++ nl)%string;; exit EXIT_FAILURE
   else mret tt);;
  (if malloc_dat_buf_ok os then mret tt
   else fprintf_stderr (cmd ++ ": could not allocate memory for " ++ pretty dat_buf_sz
                          ++ " bytes of data." ++ nl)%string;; exit EXIT_FAILURE);;
  let '(rd, _, rays) := Sigmet_VolReadDat os in
  (if rd =? 0 then
     fprintf_stderr (cmd ++ ": volume at " ++ path ++ " has no data. "
                       ++ err_msg_str os ++ nl)%string;; exit EXIT_FAILURE
   else mret tt);;
  num_bins_max ← num_bins_max_loop rays s y (seqZ 0 num_rays) 0;
  (if num_bins_max =? 0 then
     fprintf_stderr (cmd ++ ": raw product file " ++ path ++ " has no data." ++ nl)%string;; exit EXIT_FAILURE
   else mret tt);;
  (if calloc_dat_ok os then mret tt
   else fprintf_stderr (cmd ++ ": could not allocate memory for " ++ pretty num_rays
                          ++ " x " ++ pretty num_bins_max ++ " output array." ++ nl)%string;; exit EXIT_FAILURE);;
  let dat := replicate (Z.to_nat num_bins_max) (float_of_unsigned 0) in
  (if txt then
     fmt ← match Sigmet_DataType_PrintFmt type with
           | Some fmt => mret fmt
           | None =>
               fprintf_stderr (cmd ++ ": could not obtain print format for data type "
                                 ++ Sigmet_DataTypeAbbrv type ++ " in raw product file "
                                 ++ path ++ "." ++ nl)%string;; exit EXIT_FAILURE
           end;
     fl_txt_loop type vol_hdr fmt rays s y num_bins_max (seqZ 0 num_rays) dat
   else
     fl_bin_loop type vol_hdr rays s y (seqZ 0 num_rays) dat);;
  exit EXIT_SUCCESS.

(** What the system answers to [skt_to_txt]: the two exchanges with the
    daemon, whether the allocations succeed, the ray headers the daemon
    wrote to the headers pipe and the values it wrote to the data pipe. *)
Record skt_env := {
  rh_x : exchange_env;
  calloc_wray_hdrs_ok : bool;
  rh_fl : list SigmetRaw_RayHdr;
  calloc_dat_skt_ok : bool;
  dat_x : exchange_env;
  dat_fl : list float
}.

(** [for (int r = 0; r < num_rays; r++) num_bins_tot +=
    wray_hdrs[r].ray_hdr.num_bins;] with [num_bins_tot] a [size_t]. *)
Definition num_bins_tot_loop (wray_hdrs : list SigmetRaw_RayHdr) : Z :=
  fold_left (fun num_bins_tot h => size_add num_bins_tot (num_bins (wray_hdr h)))
    wray_hdrs 0.

(** [for (int r = 0; r < num_rays; r++) if (wray_hdrs[r].ray_hdr.num_bins >
    num_bins_max) num_bins_max = wray_hdrs[r].ray_hdr.num_bins;] *)
Definition skt_num_bins_max_loop (wray_hdrs : list SigmetRaw_RayHdr) : Z :=
  fold_left (fun num_bins_max h =>
               if num_bins_max <? num_bins (wray_hdr h)
               then num_bins (wray_hdr h) else num_bins_max)
    wray_hdrs 0.

(** The output loop of [skt_to_txt]; [dat] is what the pointer [dat] still
    has in front of it. *)
Fixpoint skt_txt_loop (fmt : string) (num_bins_max : Z)
  (wray_hdrs : list SigmetRaw_RayHdr) (dat : list float) : proc data_out unit :=
  match wray_hdrs with
  | [] => mret tt
  | h :: wray_hdrs' =>
      let nb := Z.to_nat (num_bins (wray_hdr h)) in
      if decide (nb <= length dat)%nat then
        emit (EvStdout (TxtLine fmt (take nb dat
                                       ++ replicate (Z.to_nat num_bins_max - nb) NANf)));;
        skt_txt_loop fmt num_bins_max wray_hdrs' (drop nb dat)
      else undefined
  end.

(** Obtain ray headers and sweep data for data type [type], sweep [s], from
    the sigmet_raw daemon monitoring the socket at [path].  Print the sweep
    data to standard output as text. *)
Definition skt_to_txt (os : skt_env) (path : string) (type : Sigmet_DataType) (s : Z)
  (cmd : string) : proc data_out unit :=
  let abbrv := Sigmet_DataTypeAbbrv type in
  let rh := rh_x os in
  let c := SigmetRaw_DmnConnect (x_connect rh) path in
  traced (conn_trace c);;
  let rh_skt_fd := conn_ret c in
  (if rh_skt_fd =? -1 then
     fprintf_stderr (cmd ++ " failed to connect to sigmet_raw daemon at " ++ path ++ ". "
                       ++ err_msg_text (conn_err_msg c) ++ nl)%string;;
     exit EXIT_FAILURE
   else mret tt);;
  rh_pipe ← match x_pipe rh with
            | Some p => mret p
            | None =>
                fprintf_stderr (cmd ++ " could not create pipe to read ray headers from "
                                  ++ "daemon at socket " ++ path ++ ". "
                                  ++ x_strerror rh ++ "." ++ nl)%string;;
                exit EXIT_FAILURE
            end;
  (if x_fdopen_ok rh then mret tt
   else fprintf_stderr (cmd ++ " could not configure pipe to read ray headers from daemon "
                          ++ "at socket " ++ path ++ ". " ++ x_strerror rh ++ "."
                          ++ nl)%string;;
        exit EXIT_FAILURE);;
  rh_err_pipe ← match x_err_pipe rh with
                | Some p => mret p
                | None =>
                    fprintf_stderr (cmd ++ " could not create pipe to read ray header error "
                                      ++ "information from daemon at socket " ++ path ++ ". "
                                      ++ x_strerror rh ++ "." ++ nl)%string;;
                    exit EXIT_FAILURE
                end;
  let rh_rqst := SigmetRaw_Rqst_Init in
  let rh_rqst := SigmetRaw_Rqst_Set_SubCmd rh_rqst SigmetRawRayHeaders in
  let rh_rqst := SigmetRaw_Rqst_Set_Swp rh_rqst (to_unsigned s) in
  let rh_rqst := SigmetRaw_Rqst_Set_DataType rh_rqst abbrv in
  let rh_rqst := SigmetRaw_Rqst_Set_ShFD rh_rqst (snd rh_pipe) in
  let rh_rqst := SigmetRaw_Rqst_Set_ErrFD rh_rqst (snd rh_err_pipe) in
  let sent := SigmetRaw_Rqst_Send (x_send rh) rh_skt_fd rh_rqst in
  traced (send_trace sent);;
  (if send_ret sent =? 0 then
     fprintf_stderr (cmd ++ " failed to request ray headers from daemon at socket " ++ path
                       ++ ". " ++ err_msg_text (send_err_msg sent) ++ "." ++ nl)%string;;
     exit EXIT_FAILURE
   else mret tt);;
  rh_rps ← recvmsg (x_recvmsg rh) rh_skt_fd
             [ le_bytes (Z.to_nat sizeof_enum) (Status_val SigmetRawError);
               le_bytes (Z.to_nat sizeof_int) (to_unsigned (-1));
               le_bytes (Z.to_nat sizeof_int) (to_unsigned (-1));
               bytes_of_double NANd;
               replicate (Z.to_nat SIGMET_TZ_STRLEN) 0 ];
  '(rh_stat, num_rays) ←
    match rh_rps with
    | Some [rh_stat; num_swps; num_rays; swp_tm; tz] =>
        mret (le_value rh_stat, to_int (le_value num_rays))
    | _ =>
        fprintf_stderr (cmd ++ ": when requesting ray headers could not get response from "
                          ++ "daemon at " ++ path ++ ". " ++ x_strerror rh ++ "."
                          ++ nl)%string;;
        exit EXIT_FAILURE
    end;
  emit (EvClose (snd rh_pipe));;
  emit (EvClose (snd rh_err_pipe));;
  emit (EvClose rh_skt_fd);;
  check_status rh rh_stat (cmd ++ " failed for " ++ path ++ ". ")%string []
    (cmd ++ " when requesting ray headers could not configure pipe to read "
       ++ "error information from daemon at socket " ++ path ++ ". "
       ++ x_strerror rh ++ "." ++ nl)%string;;
  emit (EvClose (fst rh_err_pipe));;
  (if num_rays <=? 0 then
     fprintf_stderr (cmd ++ ": got impossible ray count (" ++ pretty num_rays
                       ++ ") from daemon at socket " ++ path ++ "." ++ nl)%string;;
     exit EXIT_FAILURE
   else mret tt);;
  (if calloc_wray_hdrs_ok os then mret tt
   else fprintf_stderr (cmd ++ " could not allocate memory for " ++ pretty num_rays
                          ++ " rays headers from daemon at socket " ++ path ++ nl)%string;;
        exit EXIT_FAILURE);;
  wray_hdrs ← (if decide (num_rays <= Z.of_nat (length (rh_fl os)))
               then mret (take (Z.to_nat num_rays) (rh_fl os))
               else fprintf_stderr (cmd ++ ": could not read ray headers from daemon at "
                                      ++ "socket " ++ path ++ nl ++ ".")%string;;
                    exit EXIT_FAILURE);
  let num_bins_tot := num_bins_tot_loop wray_hdrs in
  (if calloc_dat_skt_ok os then mret tt
   else fprintf_stderr (cmd ++ " " ++ abbrv ++ " " ++ pretty s
                          ++ ": could not allocate memory for array of "
                          ++ pretty num_bins_tot ++ " data values from daemon at socket "
                          ++ path ++ ".")%string;;
        exit EXIT_FAILURE);;
  let dx := dat_x os in
  let c := SigmetRaw_DmnConnect (x_connect dx) path in
  traced (conn_trace c);;
  let dat_skt_fd := conn_ret c in
  (if dat_skt_fd =? -1 then
     fprintf_stderr (cmd ++ " failed to connect to sigmet_raw daemon at " ++ path ++ ". "
                       ++ err_msg_text (conn_err_msg c) ++ nl)%string;;
     exit EXIT_FAILURE
   else mret tt);;
  dat_pipe ← match x_pipe dx with
             | Some p => mret p
             | None =>
                 fprintf_stderr (cmd ++ " could not create pipe to daemon at socket " ++ path
                                   ++ ". " ++ x_strerror dx ++ "." ++ nl)%string;;
                 exit EXIT_FAILURE
             end;
  (if x_fdopen_ok dx then mret tt
   else fprintf_stderr (cmd ++ " could not configure pipe to read from daemon at socket "
                          ++ path ++ ". " ++ x_strerror dx ++ "." ++ nl)%string;;
        exit EXIT_FAILURE);;
  dat_err_fd ← match x_err_pipe dx with
               | Some p => mret p
               | None =>
                   fprintf_stderr (cmd ++ " could not create pipe to read error information "
                                     ++ "from daemon at socket " ++ path ++ ". "
                                     ++ x_strerror dx ++ "." ++ nl)%string;;
                   exit EXIT_FAILURE
               end;
  let dat_rqst := SigmetRaw_Rqst_Init in
  let dat_rqst := SigmetRaw_Rqst_Set_SubCmd dat_rqst SigmetRawData in
  let dat_rqst := SigmetRaw_Rqst_Set_DataType dat_rqst abbrv in
  let dat_rqst := SigmetRaw_Rqst_Set_Swp dat_rqst (to_unsigned s) in
  let dat_rqst := SigmetRaw_Rqst_Set_ShFD dat_rqst (snd dat_pipe) in
  let dat_rqst := SigmetRaw_Rqst_Set_ErrFD dat_rqst (snd dat_err_fd) in
  let sent := SigmetRaw_Rqst_Send (x_send dx) dat_skt_fd dat_rqst in
  traced (send_trace sent);;
  (if send_ret sent =? 0 then
     fprintf_stderr (cmd ++ " failed to request ray headers from daemon at socket " ++ path
                       ++ ". " ++ err_msg_text (send_err_msg sent) ++ "." ++ nl)%string;;
     exit EXIT_FAILURE
   else mret tt);;
  dat_rps ← recvmsg (x_recvmsg dx) dat_skt_fd
              [ le_bytes (Z.to_nat sizeof_enum) (Status_val SigmetRawError) ];
  dat_stat ←
    match dat_rps with
    | Some [dat_stat] => mret (le_value dat_stat)
    | _ =>
        fprintf_stderr (cmd ++ ": could not get response from daemon at " ++ path ++ ". "
                          ++ x_strerror dx ++ "." ++ nl)%string;;
        exit EXIT_FAILURE
    end;
  emit (EvClose (snd dat_pipe));;
  emit (EvClose (snd dat_err_fd));;
  emit (EvClose dat_skt_fd);;
  check_status dx dat_stat (cmd ++ " failed for daemon at socket " ++ path ++ ". ")%string []
    (cmd ++ " could not configure pipe to read error information from daemon "
       ++ "at socket " ++ path ++ ". " ++ x_strerror dx ++ "." ++ nl)%string;;
  emit (EvClose (fst dat_err_fd));;
  dat ← (if decide (num_bins_tot <= Z.of_nat (length (dat_fl os)))
         then mret (take (Z.to_nat num_bins_tot) (dat_fl os))
         else fprintf_stderr (cmd ++ ": could not read " ++ abbrv ++ " data for sweep "
                                ++ pretty s ++ " from sigmet_raw daemon at socket " ++ path
                                ++ "." ++ nl)%string;;
              exit EXIT_FAILURE);
  let num_bins_max := skt_num_bins_max_loop wray_hdrs in
  fmt ← match Sigmet_DataType_PrintFmt type with
        | Some fmt => mret fmt
        | None =>
            fprintf_stderr (cmd ++ ": could not obtain print format for data type " ++ abbrv
                              ++ " in daemon at socket " ++ path ++ "." ++ nl)%string;;
            exit EXIT_FAILURE
        end;
  skt_txt_loop fmt num_bins_max wray_hdrs dat;;
  exit EXIT_SUCCESS.

Definition STDOUT_FILENO : Z := 1.

(** Request the sigmet_raw daemon at [path] to send sweep data for data type
    [type], sweep [s], to the standard output of this process in native
    binary. *)
Definition skt_to_bin (x : exchange_env) (path : string) (type : Sigmet_DataType) (s : Z)
  (cmd : string) : proc data_out unit :=
  let abbrv := Sigmet_DataTypeAbbrv type in
  let c := SigmetRaw_DmnConnect (x_connect x) path in
  traced (conn_trace c);;
  let skt_fd := conn_ret c in
  (if skt_fd =? -1 then
     fprintf_stderr (cmd ++ " failed to connect to sigmet_raw daemon at " ++ path ++ ". "
                       ++ err_msg_text (conn_err_msg c) ++ nl)%string;;
     exit EXIT_FAILURE
   else mret tt);;
  err_pipe ← match x_err_pipe x with
             | Some p => mret p
             | None =>
                 fprintf_stderr (cmd ++ " could not create pipe to read error information "
                                   ++ "from daemon at socket " ++ path ++ ". "
                                   ++ x_strerror x ++ "." ++ nl)%string;;
                 exit EXIT_FAILURE
             end;
  let rqst := SigmetRaw_Rqst_Init in
  let rqst := SigmetRaw_Rqst_Set_SubCmd rqst SigmetRawData in
  let rqst := SigmetRaw_Rqst_Set_DataType rqst abbrv in
  let rqst := SigmetRaw_Rqst_Set_Swp rqst (to_unsigned s) in
  let rqst := SigmetRaw_Rqst_Set_ShFD rqst STDOUT_FILENO in
  let rqst := SigmetRaw_Rqst_Set_ErrFD rqst (snd err_pipe) in
  let sent := SigmetRaw_Rqst_Send (x_send x) skt_fd rqst in
  traced (send_trace sent);;
  (if send_ret sent =? 0 then
     fprintf_stderr (cmd ++ " failed to request ray headers from daemon at socket " ++ path
                       ++ ". " ++ err_msg_text (send_err_msg sent) ++ "." ++ nl)%string;;
     exit EXIT_FAILURE
   else mret tt);;
  rps ← recvmsg (x_recvmsg x) skt_fd
          [ le_bytes (Z.to_nat sizeof_enum) (Status_val SigmetRawError) ];
  status ←
    match rps with
    | Some [status] => mret (le_value status)
    | _ =>
        fprintf_stderr (cmd ++ ": could not get response from daemon at socket " ++ path
                          ++ ". " ++ x_strerror x ++ "." ++ nl)%string;;
        exit EXIT_FAILURE
    end;
  emit (EvClose (snd err_pipe));;
  check_status x status (cmd ++ " failed for daemon at socket " ++ path ++ ". ")%string []
    (cmd ++ " could not configure pipe to read error information from daemon "
       ++ "at socket " ++ path ++ ". " ++ x_strerror x ++ "." ++ nl)%string;;
  exit EXIT_SUCCESS.

(** What the text output owes a ray: a line of [num_bins_max] values that
    are all NaN when the ray is absent and NaN from the ray's own bin count
    on in any case. *)
Definition nan_padded_line (fmt : string) (num_bins_max : Z) (ray : Sigmet_Ray Storage)
  (line : data_out) : Prop :=
  exists vals,
    line = TxtLine fmt vals /\
    length vals = Z.to_nat num_bins_max /\
    (dat ray = None -> vals = replicate (Z.to_nat num_bins_max) NANf) /\
    (forall b : nat,
       (Z.to_nat (num_bins (ray_hdr ray)) <= b < Z.to_nat num_bins_max)%nat ->
       vals !! b = Some NANf).

(** What the system answers to a run of the program. *)
Record data_env := {
  d_main : main_env;
  d_vol : vol_env;
  d_txt : skt_env;
  d_bin : exchange_env
}.

(** [main]; [argv] holds the [argc] arguments.  The value is the exit status
    of a run that returns from [main]. *)
Definition main (os : data_env) (argv : list string) : proc data_out Z :=
  let cmd := match getenv_APP_NAME (d_main os) with
             | Some app_name => app_name
             | None => basename (d_main os) (default EmptyString (argv !! 0%nat))
             end in
  let usage : proc data_out (string * string * string * bool) :=
    fprintf_stderr ("Usage: " ++ cmd
                      ++ " [-b] data_type sweep_index raw_product_file|socket" ++ nl)%string;;
    exit EXIT_FAILURE in
  '(abbrv, s_s, path, txt) ←
    match argv with
    | [_; a1; a2; a3] => mret (a1, a2, a3, true)
    | [_; a1; a2; a3; a4] =>
        if String.eqb a1 "-b" then mret (a2, a3, a4, false) else usage
    | _ => usage
    end;
  type ← match Sigmet_DataTypeGet abbrv with
         | Some type => mret type
         | None =>
             fprintf_stderr (cmd ++ ": " ++ abbrv ++ " is not a Sigmet data type."
                               ++ nl)%string;;
             exit EXIT_FAILURE
         end;
  s ← match sscanf_d (d_main os) s_s with
      | Some s => mret s
      | None =>
          fprintf_stderr (cmd ++ ": expected integer for sweep index, got " ++ s_s
                            ++ nl)%string;;
          exit EXIT_FAILURE
      end;
  st_mode ← match stat (d_main os) path with
            | Some k => mret k
            | None =>
                fprintf_stderr ("sigmet_raw " ++ cmd ++ " " ++ abbrv ++ " " ++ s_s
                                  ++ ": could not get information about " ++ path ++ ". "
                                  ++ stat_strerror (d_main os) ++ nl)%string;;
                exit EXIT_FAILURE
            end;
  match st_mode with
  | S_IFREG | S_IFIFO => data_fm_fl (d_vol os) path type s txt cmd
  | S_IFSOCK =>
      if txt then skt_to_txt (d_txt os) path type s cmd
      else skt_to_bin (d_bin os) path type s cmd
  | S_IFOTHER =>
      fprintf_stderr (cmd ++ ": " ++ path ++ " must be a file, fifo, or socket.")%string;;
      exit EXIT_FAILURE
  end;;
  mret 0.

End data.

End Data.

(** ** ray_headers.c *)

Module RayHeaders.
Import Platform Posix Sigmet SigmetRaw SigmetRawClient.

Section ray_headers.
Context `{SigmetLib}.

(** One line of output, printed with [RAY_HDR_FMT]: sweep and ray index,
    the broken-down time, and the ray header whose angles and bin count
    follow. *)
Record ray_hdr_line := {
  ln_s : Z;
  ln_r : Z;
  ln_time : Z * Z * Z * Z * Z * float;
  ln_ray_hdr : Sigmet_RayHdr
}.

(** [if ( !Sigmet_BkTime(t, &yr, &mon, &day, &hr, &min, &sec) ) yr = mon =
    day = hr = min = sec = 0;] *)
Definition bk_time (t : double) : Z * Z * Z * Z * Z * float :=
  match Sigmet_BkTime t with
  | Some tm => tm
  | None => (0, 0, 0, 0, 0, float_of_unsigned 0)
  end.

(** What the Sigmet library and the allocator answer to [ray_hdrs_fm_fl]. *)
Record vol_env := {
  fopen_ok : bool;
  fopen_strerror : string;
  Sigmet_VolReadVHdr : option Sigmet_VolHdr;
  Sigmet_VolIDatSz : Z;
  Sigmet_VolReadDat : Z * list Sigmet_SwpHdr * list (list (list (Sigmet_Ray Storage)));
  Sigmet_VolTZSet : bool;
  err_msg_str : string;
  calloc_swp_hdrs_ok : bool;
  calloc_rays_ok : bool;
  malloc_dat_buf_ok : bool
}.


(** The body of the inner loop of [ray_hdrs_fm_fl]: the time offset of the
    ray. *)
Definition fl_ray_tm (vol_hdr : Sigmet_VolHdr) (hav_xhdr : bool)
  (xhdr : option Sigmet_DataType) (ray_hdr : Sigmet_RayHdr)
  (xhdr_dat : option Storage) : float :=
  let ray_tm := NANf in
  if hav_xhdr then
    match Sigmet_DataTypeStorToVal xhdr 1 [ray_tm] xhdr_dat vol_hdr with
    | ray_tm :: _ => ray_tm
    | [] => ray_tm
    end
  else float_of_unsigned (tm ray_hdr).

(** [for (unsigned r = 0; r < num_rays; r++) ...] for sweep [s]. *)
Fixpoint fl_ray_loop (vol_hdr : Sigmet_VolHdr) (hav_xhdr : bool)
  (xhdr : option Sigmet_DataType) (rays : list (list (list (Sigmet_Ray Storage))))
  (y y_hxdr : Z) (s : Z) (swp_tm : double) (rs : list Z) : proc ray_hdr_line unit :=
  match rs with
  | [] => mret tt
  | r :: rs' =>
      ray ← rays_get rays s r y;
      let ray_hdr := Sigmet.ray_hdr ray in
      ray_tm ← (if hav_xhdr then
                  xray ← rays_get rays s r y_hxdr;
                  mret (fl_ray_tm vol_hdr hav_xhdr xhdr ray_hdr (dat xray))
                else mret (fl_ray_tm vol_hdr hav_xhdr xhdr ray_hdr None));
      emit (EvStdout {| ln_s := s; ln_r := r;
                        ln_time := bk_time (dadd swp_tm (double_of_float ray_tm));
                        ln_ray_hdr := ray_hdr |});;
      fl_ray_loop vol_hdr hav_xhdr xhdr rays y y_hxdr s swp_tm rs'
  end.

(** [for (unsigned s = s0; s < s1; s++) ...]. *)
Fixpoint fl_swp_loop (vol_hdr : Sigmet_VolHdr) (hav_xhdr : bool)
  (xhdr : option Sigmet_DataType) (swp_hdrs : list Sigmet_SwpHdr)
  (rays : list (list (list (Sigmet_Ray Storage))))
  (y y_hxdr num_rays : Z) (ss : list Z) : proc ray_hdr_line unit :=
  match ss with
  | [] => mret tt
  | s :: ss' =>
      swp_hdr ← array_get swp_hdrs s;
      let swp_tm := Sigmet_DTime (Sigmet.swp_tm swp_hdr) in
      fl_ray_loop vol_hdr hav_xhdr xhdr rays y y_hxdr s swp_tm (seqZ 0 num_rays);;
      fl_swp_loop vol_hdr hav_xhdr xhdr swp_hdrs rays y y_hxdr num_rays ss'
  end.

(** The sweeps the loops of [ray_hdrs_fm_fl] visit: [s0 <= s < s1]. *)
Definition swp_range (i_swp num_swps : Z) : list Z :=
  let s0 := if SigmetRaw_GetAllSwps i_swp then 0 else i_swp in
  let s1 := if SigmetRaw_GetAllSwps i_swp then num_swps else to_unsigned (i_swp + 1) in
  seqZ s0 (s1 - s0).

(** Obtain ray headers for data type [type], sweep [i_swp] from the Sigmet raw
    product file at [path] and print.  If [type] is null, use the first data
    type in the volume. *)
Definition ray_hdrs_fm_fl (os : vol_env) (path : string) (type : option Sigmet_DataType)
  (i_swp : Z) (cmd : string) : proc ray_hdr_line unit :=
  (if fopen_ok os then mret tt
   else fprintf_stderr (cmd ++ ": could not open raw product file " ++ path ++ ". "
                          ++ fopen_strerror os ++ nl)%string;;
        exit EXIT_FAILURE);;
  vol_hdr ← match Sigmet_VolReadVHdr os with
            | Some v => mret v
            | None =>
                fprintf_stderr (cmd ++ ": could not read volume headers from " ++ path
                                  ++ ". " ++ err_msg_str os ++ nl)%string;;
                exit EXIT_FAILURE
            end;
  let num_swps := Sigmet_VolNumSwps vol_hdr in
  (if negb (SigmetRaw_GetAllSwps i_swp) && (num_swps <=? i_swp) then
     fprintf_stderr (cmd ++ ": sweep index " ++ pretty (to_int i_swp)
                       ++ " out of range. Volume " ++ path ++ " has "
                       ++ pretty (to_int num_swps) ++ " sweeps." ++ nl)%string;;
     exit EXIT_FAILURE
   else mret tt);;
  let hav_xhdr := Sigmet_VolXHdr vol_hdr in
  let y := if hav_xhdr then 1 else 0 in
  y ← match type with
      | Some t =>
          let y_ := to_int (Sigmet_VolTypeIdx type vol_hdr) in
          if y_ =? -1 then
            fprintf_stderr (cmd ++ ": " ++ Sigmet_DataTypeAbbrv t
                              ++ " data type is not in volume at " ++ path ++ "."
                              ++ nl)%string;;
            exit EXIT_FAILURE
          else mret (to_unsigned y_)
      | None => mret y
      end;
  (if calloc_swp_hdrs_ok os then mret tt
   else fprintf_stderr (cmd ++ " could not allocate memory for "
                          ++ pretty (to_int num_swps)
                          ++ " sweep headers from raw product file " ++ path
                          ++ nl)%string;;
        exit EXIT_FAILURE);;
  let num_rays := Sigmet_VolNumRays vol_hdr in
  let num_types := Sigmet_VolNumTypes vol_hdr in
  (if calloc_rays_ok os then mret tt
   else fprintf_stderr (cmd ++ " could not allocate memory for array of  "
                          ++ pretty (to_int num_swps) ++ " by " ++ pretty (to_int num_rays)
                          ++ " ray structures from raw product file " ++ path
                          ++ nl)%string;;
        exit EXIT_FAILURE);;
  (if hav_xhdr then
     let dat_buf_sz := Sigmet_VolIDatSz os in
     (if dat_buf_sz =? 0 then
        fprintf_stderr (cmd ++ ": could not determine size of input data buffer. "
                          ++ err_msg_str os ++ nl)%string;;
        exit EXIT_FAILURE
      else mret tt);;
     (if malloc_dat_buf_ok os then mret tt
      else fprintf_stderr (cmd ++ ": could not allocate memory for " ++ pretty dat_buf_sz
                             ++ " bytes of data." ++ nl)%string;;
           exit EXIT_FAILURE)
   else mret tt);;
  let '(rd, swp_hdrs, rays) := Sigmet_VolReadDat os in
  (if rd =? 0 then
     fprintf_stderr (cmd ++ ": raw product file " ++ path ++ " has no data. "
                       ++ err_msg_str os ++ nl)%string;;
     exit EXIT_FAILURE
   else mret tt);;
  (if Sigmet_VolTZSet os then mret tt
   else fprintf_stderr (cmd ++ ": could not set time zone from " ++ path ++ "."
                          ++ nl)%string;;
        exit EXIT_FAILURE);;
  let xhdr := Sigmet_DataTypeGet "DB_XHDR" in
  let y_hxdr := to_int (Sigmet_VolTypeIdx xhdr vol_hdr) in
  fl_swp_loop vol_hdr hav_xhdr xhdr swp_hdrs rays y y_hxdr num_rays
    (swp_range i_swp num_swps).

(** What the system answers to [ray_hdrs_fm_skt]: the exchange with the
    daemon, whether [setenv] and [calloc] succeed, and the ray headers the
    daemon wrote to the pipe. *)
Record skt_env := {
  rh_x : exchange_env;
  setenv_ok : bool;
  calloc_wray_hdrs_ok : bool;
  ray_hdr_fl : list SigmetRaw_RayHdr
}.

(** [for (r = 0; r < num_rays && n < num_wray_hdrs; r++, n++) ...] for sweep
    [s]; the value is [n] after the loop. *)
Fixpoint skt_ray_loop (wray_hdrs : list SigmetRaw_RayHdr) (num_wray_hdrs : Z) (s : Z)
  (rs : list Z) (n : Z) : proc ray_hdr_line Z :=
  match rs with
  | [] => mret n
  | r :: rs' =>
      if n <? num_wray_hdrs then
        h ← array_get wray_hdrs n;
        emit (EvStdout {| ln_s := s; ln_r := r; ln_time := bk_time (wray_tm h);
                          ln_ray_hdr := wray_hdr h |});;
        skt_ray_loop wray_hdrs num_wray_hdrs s rs' (to_unsigned (n + 1))
      else mret n
  end.

(** [for (unsigned n = 0, s = 0; s < num_swps; s++) ...]. *)
Fixpoint skt_swp_loop (wray_hdrs : list SigmetRaw_RayHdr) (num_wray_hdrs num_rays : Z)
  (ss : list Z) (n : Z) : proc ray_hdr_line unit :=
  match ss with
  | [] => mret tt
  | s :: ss' =>
      n ← skt_ray_loop wray_hdrs num_wray_hdrs s (seqZ 0 num_rays) n;
      skt_swp_loop wray_hdrs num_wray_hdrs num_rays ss' n
  end.

(** Obtain ray headers for data type [type], sweep [i_swp] from the sigmet_raw
    daemon monitoring the socket at [path] and print.  If [type] is null, the
    daemon will set a default. *)
Definition ray_hdrs_fm_skt (os : skt_env) (path : string) (type : option Sigmet_DataType)
  (i_swp : Z) (cmd : string) : proc ray_hdr_line unit :=
  let x := rh_x os in
  let c := SigmetRaw_DmnConnect (x_connect x) path in
  traced (conn_trace c);;
  let skt_fd := conn_ret c in
  (if skt_fd =? -1 then
     fprintf_stderr (cmd ++ " failed to connect to sigmet_raw daemon at " ++ path ++ ". "
                       ++ err_msg_text (conn_err_msg c) ++ nl)%string;;
     exit EXIT_FAILURE
   else mret tt);;
  ray_hdr_fd ← match x_pipe x with
               | Some p => mret p
               | None =>
                   fprintf_stderr (cmd ++ " could not create pipe to read ray headers from "
                                     ++ "daemon at socket " ++ path ++ ". "
                                     ++ x_strerror x ++ "." ++ nl)%string;;
                   exit EXIT_FAILURE
               end;
  (if x_fdopen_ok x then mret tt
   else fprintf_stderr (cmd ++ " could not configure pipe to read from daemon at socket "
                          ++ path ++ ". " ++ x_strerror x ++ "." ++ nl)%string;;
        exit EXIT_FAILURE);;
  err_fd ← match x_err_pipe x with
           | Some p => mret p
           | None =>
               fprintf_stderr (cmd ++ " could not create pipe to read error information "
                                 ++ "from daemon at socket " ++ path ++ ". "
                                 ++ x_strerror x ++ "." ++ nl)%string;;
               exit EXIT_FAILURE
           end;
  let rqst := SigmetRaw_Rqst_Init in
  let rqst := SigmetRaw_Rqst_Set_SubCmd rqst SigmetRawRayHeaders in
  let rqst := SigmetRaw_Rqst_Set_Swp rqst i_swp in
  let rqst := SigmetRaw_Rqst_Set_DataType rqst
                match type with
                | Some t => Sigmet_DataTypeAbbrv t
                | None => EmptyString
                end in
  let rqst := SigmetRaw_Rqst_Set_ShFD rqst (snd ray_hdr_fd) in
  let rqst := SigmetRaw_Rqst_Set_ErrFD rqst (snd err_fd) in
  let sent := SigmetRaw_Rqst_Send (x_send x) skt_fd rqst in
  traced (send_trace sent);;
  (if send_ret sent =? 0 then
     fprintf_stderr (cmd ++ " failed to request ray headers from daemon at socket " ++ path
                       ++ ". " ++ err_msg_text (send_err_msg sent) ++ "." ++ nl)%string;;
     exit EXIT_FAILURE
   else mret tt);;
  rps ← recvmsg (x_recvmsg x) skt_fd
          [ le_bytes (Z.to_nat sizeof_enum) (Status_val SigmetRawError);
            le_bytes (Z.to_nat sizeof_int) 0;
            le_bytes (Z.to_nat sizeof_int) 0;
            replicate (Z.to_nat SIGMET_TZ_STRLEN) 0 ];
  '(status, num_swps, num_rays, tz) ←
    match rps with
    | Some [status; num_swps; num_rays; tz] =>
        mret (le_value status, le_value num_swps, le_value num_rays, tz)
    | _ =>
        fprintf_stderr (cmd ++ ": could not get response from daemon at socket " ++ path
                          ++ ". " ++ x_strerror x ++ "." ++ nl)%string;;
        exit EXIT_FAILURE
    end;
  emit (EvClose (snd ray_hdr_fd));;
  emit (EvClose (snd err_fd));;
  check_status x status (cmd ++ " failed for daemon at socket " ++ path ++ ". ")%string
    [fst ray_hdr_fd]
    (cmd ++ " could not configure pipe to read error information from daemon "
       ++ "at socket " ++ path ++ ". " ++ x_strerror x ++ "." ++ nl)%string;;
  (if num_swps =? 0 then
     fprintf_stderr (cmd ++ ": got impossible sweep count (" ++ pretty (to_int num_rays)
                       ++ ") from daemon at socket " ++ path ++ "." ++ nl)%string;;
     exit EXIT_FAILURE
   else mret tt);;
  (if num_rays =? 0 then
     fprintf_stderr (cmd ++ ": got impossible ray count (" ++ pretty (to_int num_rays)
                       ++ ") from daemon at socket " ++ path ++ "." ++ nl)%string;;
     exit EXIT_FAILURE
   else mret tt);;
  emit (EvSetenv "TZ" (cstring_of_bytes tz));;
  (if setenv_ok os then mret tt
   else fprintf_stderr (cmd ++ " could not set TZ environment variable to "
                          ++ cstring_of_bytes tz ++ " for daemon at socket " ++ path
                          ++ ". " ++ x_strerror x ++ ".")%string;;
        exit EXIT_FAILURE);;
  let num_wray_hdrs := to_unsigned (num_swps * num_rays) in
  (if calloc_wray_hdrs_ok os then mret tt
   else fprintf_stderr (cmd ++ " could not allocate memory for " ++ pretty (to_int num_swps)
                          ++ " * " ++ pretty (to_int num_rays)
                          ++ " ray headers from daemon at socket " ++ path ++ nl)%string;;
        exit EXIT_FAILURE);;
  let wray_hdrs := take (Z.to_nat num_wray_hdrs) (ray_hdr_fl os) in
  let num_rd := Z.of_nat (length wray_hdrs) in
  (if num_rd =? 0 then
     fprintf_stderr (cmd ++ ": could not read ray headers from daemon at socket " ++ path
                       ++ "." ++ nl)%string;;
     exit EXIT_FAILURE
   else mret tt);;
  let num_wray_hdrs := to_unsigned num_rd in
  skt_swp_loop wray_hdrs num_wray_hdrs num_rays (seqZ 0 num_swps) 0.

(** What a printed line owes the ray it is for, when the sweep started at
    [swp_tm]: the header is the ray's, and the time printed is the sweep
    time plus an offset; with extended headers the offset is what the
    conversion of the first data word of the ray's extended-header data
    yields, otherwise it is the time of the ray header; an offset that is NaN
    makes the time NaN. *)
Definition ray_time_line (vol_hdr : Sigmet_VolHdr) (hav_xhdr : bool)
  (xhdr : option Sigmet_DataType) (rays : list (list (list (Sigmet_Ray Storage))))
  (y y_hxdr : Z) (swp_tm : double) (line : ray_hdr_line) : Prop :=
  exists ray offset,
    rays_at rays (ln_s line) (ln_r line) y = Some ray /\
    ln_ray_hdr line = Sigmet.ray_hdr ray /\
    ln_time line = bk_time (dadd swp_tm (double_of_float offset)) /\
    (if hav_xhdr then
       exists xray,
         rays_at rays (ln_s line) (ln_r line) y_hxdr = Some xray /\
         Sigmet_DataTypeStorToVal xhdr 1 [NANf] (dat xray) vol_hdr = [offset]
     else offset = float_of_unsigned (tm (Sigmet.ray_hdr ray))) /\
    (offset = NANf -> ln_time line = bk_time NANd).

(** The same for the lines of a run over sweeps with headers [swp_hdrs]. *)
Definition swp_ray_time_line (vol_hdr : Sigmet_VolHdr) (hav_xhdr : bool)
  (xhdr : option Sigmet_DataType) (swp_hdrs : list Sigmet_SwpHdr)
  (rays : list (list (list (Sigmet_Ray Storage))))
  (y y_hxdr : Z) (line : ray_hdr_line) : Prop :=
  exists swp_hdr,
    array_at swp_hdrs (ln_s line) = Some swp_hdr /\
    ray_time_line vol_hdr hav_xhdr xhdr rays y y_hxdr
      (Sigmet_DTime (Sigmet.swp_tm swp_hdr)) line.

(** What the system answers to a run of the program. *)
Record ray_headers_env := {
  r_main : main_env;
  r_vol : vol_env;
  r_skt : skt_env
}.

(** The sweep index [main] reads from its argument: an integer or "all". *)
Definition parse_i_swp (os : main_env) (s_swp : string) : option Z :=
  if String.eqb s_swp "all" then Some UINT_MAX
  else sscanf_u os s_swp.

(** [main]; [argv] holds the [argc] arguments.  The value is the exit status
    of a run that returns from [main]. *)
Definition main (os : ray_headers_env) (argv : list string) : proc ray_hdr_line Z :=
  let argc := length argv in
  let cmd := match getenv_APP_NAME (r_main os) with
             | Some app_name => app_name
             | None => basename (r_main os) (default EmptyString (argv !! 0%nat))
             end in
  (if negb ((argc =? 3)%nat || (argc =? 4)%nat) then
     fprintf_stderr ("Usage: " ++ cmd ++ " sweep_index [data_type] raw_product_file|socket"
                       ++ nl)%string;;
     exit EXIT_FAILURE
   else mret tt);;
  let s_swp := default EmptyString (argv !! 1%nat) in
  let path := default EmptyString (argv !! (argc - 1)%nat) in
  type ← (if (argc =? 4)%nat then
            let abbrv := default EmptyString (argv !! 2%nat) in
            match Sigmet_DataTypeGet abbrv with
            | Some type => mret (Some type)
            | None =>
                fprintf_stderr (cmd ++ ": " ++ abbrv ++ " is not a Sigmet data type."
                                  ++ nl)%string;;
                exit EXIT_FAILURE
            end
          else mret None);
  i_swp ← match parse_i_swp (r_main os) s_swp with
          | Some i_swp => mret i_swp
          | None =>
              fprintf_stderr (cmd ++ ": expected integer or " ++ dquote ++ "all" ++ dquote
                                ++ " for sweep index, got " ++ s_swp ++ nl)%string;;
              exit EXIT_FAILURE
          end;
  st_mode ← match stat (r_main os) path with
            | Some k => mret k
            | None =>
                fprintf_stderr (cmd ++ ": could not get information about " ++ path ++ ". "
                                  ++ stat_strerror (r_main os) ++ "." ++ nl)%string;;
                exit EXIT_FAILURE
            end;
  match st_mode with
  | S_IFREG | S_IFIFO => ray_hdrs_fm_fl (r_vol os) path type i_swp cmd
  | S_IFSOCK => ray_hdrs_fm_skt (r_skt os) path type i_swp cmd
  | S_IFOTHER =>
      fprintf_stderr (cmd ++ ": " ++ path ++ " must be a file, fifo, or socket.")%string;;
      exit EXIT_FAILURE
  end;;
  mret 0.

(** The line [ray_hdrs_fm_skt] prints for the header it read as number [n],
    when a sweep has [num_rays] rays: the sweep and ray index are the
    quotient and the remainder of [n] by [num_rays]. *)
Definition skt_line (num_rays : Z) (n : nat) (h : SigmetRaw_RayHdr) : ray_hdr_line :=
  {| ln_s := Z.of_nat n / num_rays; ln_r := Z.of_nat n mod num_rays;
     ln_time := bk_time (wray_tm h); ln_ray_hdr := wray_hdr h |}.

End ray_headers.

End RayHeaders.

(** ** alloc3f.c *)

Module Alloc3f.

Section alloc3f.

(** Width of [size_t] in bits and size of a pointer in bytes. *)
Variable SIZE_BITS : Z.
Variable sizeof_ptr : Z.

(** [malloc]: the address of a new block of the size asked for, or [None]
    for the null pointer. *)
Variable malloc : Z -> option Z.

Definition sizeof_float : Z := 4.

(** Arithmetic on [size_t]. *)
Definition size_add (a b : Z) : Z := (a + b) mod 2 ^ SIZE_BITS.
Definition size_mul (a b : Z) : Z := (a * b) mod 2 ^ SIZE_BITS.

(** Store a pointer at [addr]; outside the block [block, block + size) the
    store is undefined.  The memory maps the address of a pointer object to
    the address it holds. *)
Definition store (block size : Z) (mem : gmap Z Z) (addr v : Z) : option (gmap Z Z) :=
  if decide (block <= addr /\ addr + sizeof_ptr <= block + size)
  then Some (<[addr := v]> mem)
  else None.

(** Load the pointer at [addr]. *)
Definition load (mem : gmap Z Z) (addr : Z) : option Z := mem !! addr.

(** [for (size_t j = 0; j < num_j; ++j) f[i][j] = f_k + (i * num_j * num_k) +
    (j * num_k);] *)
Fixpoint loop_j (block size f f_k num_j num_k i : Z) (js : list Z) (mem : gmap Z Z)
  : option (gmap Z Z) :=
  match js with
  | [] => Some mem
  | j :: js' =>
      f_i ← load mem (f + sizeof_ptr * i);
      mem' ← store block size mem (f_i + sizeof_ptr * j)
               (f_k + sizeof_float * size_mul (size_mul i num_j) num_k
                    + sizeof_float * size_mul j num_k);
      loop_j block size f f_k num_j num_k i js' mem'
  end.

(** [for (size_t i = 0; i < num_i; ++i) { f[i] = f_j + i * num_j; ... }] *)
Fixpoint loop_i (block size f f_j f_k num_j num_k : Z) (idx : list Z) (mem : gmap Z Z)
  : option (gmap Z Z) :=
  match idx with
  | [] => Some mem
  | i :: idx' =>
      mem' ← store block size mem (f + sizeof_ptr * i)
               (f_j + sizeof_ptr * size_mul i num_j);
      mem'' ← loop_j block size f f_k num_j num_k i (seqZ 0 num_j) mem';
      loop_i block size f f_j f_k num_j num_k idx' mem''
  end.

(** What a call does: it returns the null pointer, it returns [f] with the
    pointers it stored in the block, or it stores outside the block. *)
Inductive result :=
| Null
| Array (f : Z) (size : Z) (mem : gmap Z Z)
| Overrun.

Definition create_3d_float_array (num_i num_j num_k : Z) : result :=
  let ptrs_size := size_add (size_mul num_i sizeof_ptr)
                     (size_mul (size_mul num_i num_j) sizeof_ptr) in
  let data_size := size_mul (size_mul (size_mul num_i num_j) num_k) sizeof_float in
  let size := size_add ptrs_size data_size in
  match malloc size with
  | None => Null
  | Some block =>
      let f := block in
      let f_j := block + size_mul num_i sizeof_ptr in
      let f_k := block + ptrs_size in
      match loop_i block size f f_j f_k num_j num_k (seqZ 0 num_i) ∅ with
      | Some mem => Array f size mem
      | None => Overrun
      end
  end.

(** The address of [f[i][j][k]]. *)
Definition elem_addr (mem : gmap Z Z) (f i j k : Z) : option Z :=
  f_i ← load mem (f + sizeof_ptr * i);
  f_ij ← load mem (f_i + sizeof_ptr * j);
  Some (f_ij + sizeof_float * k).

End alloc3f.

End Alloc3f.

(** ** The daemon

    The daemon's sources are not at hand; what the clients rely on is
    written down here from [sigmet_raw.h] and the specification. *)

Module Daemon.
Import Platform Posix Sigmet SigmetRaw.

Section daemon.
Context `{SigmetLib}.

(** Modelled from the spec: the response message of section 4.4, "a fixed
    seven-slot vector, all slots present in all responses", with the slots
    in the order of the enumeration in [sigmet_raw.h] and the types of the
    parameters of [SigmetRaw_Rqst] there.  The daemon's function that sends
    it is missing. *)
Record SigmetRaw_Rps := {
  rps_status : SigmetRaw_Status;
  rps_num_swps : Z;
  rps_num_rays : Z;
  rps_num_swp_bins : Z;
  rps_swp_tm : double;
  rps_tz : list Z;
  rps_err : list Z
}.

Definition rps_iov (r : SigmetRaw_Rps) : list iovec :=
  let int_slot z := {| iov_base := le_bytes (Z.to_nat sizeof_int) (to_unsigned z);
                       iov_len := sizeof_int |} in
  <[RpsIdx_val SigmetRawRpsErr :=
      {| iov_base := rps_err r; iov_len := Z.of_nat (length (rps_err r)) |}]>
  (<[RpsIdx_val SigmetRawRpsTZ :=
      {| iov_base := rps_tz r; iov_len := SIGMET_TZ_STRLEN |}]>
  (<[RpsIdx_val SigmetRawRpsSwpTm :=
      {| iov_base := bytes_of_double (rps_swp_tm r); iov_len := sizeof_double |}]>
  (<[RpsIdx_val SigmetRawRpsNumSwpBins := int_slot (rps_num_swp_bins r)]>
  (<[RpsIdx_val SigmetRawRpsNumRays := int_slot (rps_num_rays r)]>
  (<[RpsIdx_val SigmetRawRpsNumSwps := int_slot (rps_num_swps r)]>
  (<[RpsIdx_val SigmetRawRpsStatus :=
      {| iov_base := le_bytes (Z.to_nat sizeof_enum) (Status_val (rps_status r));
         iov_len := sizeof_enum |}]>
  (replicate SIGMETRAW_RPS_IOVLEN {| iov_base := []; iov_len := 0 |}))))))).

(** The bytes a message puts on a stream socket. *)
Definition iov_bytes (iov : list iovec) : list Z :=
  concat (map (fun v => take (Z.to_nat (iov_len v)) (iov_base v)) iov).

Definition rps_bytes (r : SigmetRaw_Rps) : list Z := iov_bytes (rps_iov r).

(** Modelled from the spec: the bulk channel of the [Data] subcommand,
    "physical values, rays concatenated in order", to which "absent rays
    contribute zero values", the bin counts being those of the ray headers
    ("clients reconstruct per-ray bin counts from a preceding RayHeaders
    request"); the design notes say it again: the spec "mandates zero-fill
    in the bulk Data channel".  So a ray with data contributes its converted
    values and an absent ray contributes a zero for each of its bins.  The
    daemon's function that writes the channel is missing.  [rays] are the
    rays of the sweep for the data type. *)
Definition data_bulk (type : Sigmet_DataType) (vol_hdr : Sigmet_VolHdr)
  (rays : list (Sigmet_Ray Storage)) : list float :=
  concat (map (fun ray =>
                 match dat ray with
                 | Some idat =>
                     let nb := num_bins (ray_hdr ray) in
                     take (Z.to_nat nb)
                       (Sigmet_DataTypeStorToVal (Some type) nb
                          (replicate (Z.to_nat nb) (float_of_unsigned 0))
                          (Some idat) vol_hdr)
                 | None =>
                     replicate (Z.to_nat (num_bins (ray_hdr ray))) (float_of_unsigned 0)
                 end) rays).

End daemon.

End Daemon.

(** ** Binary angles

    [sigmet.h] declares [Sigmet_Bin2Rad] and [Sigmet_Bin4Rad]; the functions
    themselves are not among the sources.  They are written here as the
    spec describes them, in double precision. *)

Module BinaryAngle.
Import PrimFloat.

(** Modelled from the spec: the factor 2 pi of [bin2_to_radians] and
    [bin4_to_radians], as the double nearest to it. *)
Definition twopi : float := 0x1.921fb54442d18p+2%float.

(** Modelled from the spec: [Sigmet_Bin2Rad] is declared in [sigmet.h] and
    defined elsewhere; the spec gives [bin2_to_radians(u16)] as
    [(u / 65536) * 2 pi]. *)
Definition bin2_to_radians (u : Z) : float :=
  (of_uint63 (Uint63.of_Z u) / 65536 * twopi)%float.

(** Modelled from the spec: [Sigmet_Bin4Rad] is declared in [sigmet.h] and
    defined elsewhere; the spec gives [bin4_to_radians(u32)] as
    [(u / 2^32) * 2 pi]. *)
Definition bin4_to_radians (u : Z) : float :=
  (of_uint63 (Uint63.of_Z u) / 4294967296 * twopi)%float.

(** Modelled from the spec: the distance the round trip of the spec's
    testable invariant ends away from [u],
    [| (bin2_to_radians(u) / 2 pi * 65536) - u |]. *)
Definition bin2_roundtrip (u : Z) : float :=
  abs (bin2_to_radians u / twopi * 65536 - of_uint63 (Uint63.of_Z u))%float.

(** Modelled from the spec: the same for 32 bits,
    [| (bin4_to_radians(u) / 2 pi * 2^32) - u |]. *)
Definition bin4_roundtrip (u : Z) : float :=
  abs (bin4_to_radians u / twopi * 4294967296 - of_uint63 (Uint63.of_Z u))%float.

End BinaryAngle.

(** ** A small instance of the library interface

    Used to run the programs on concrete inputs.  A floating-point value is
    an integer or NaN ([None]); the registry knows three data types; the
    storage of a ray is the list of its values. *)

Module Model.
Import Platform Posix Sigmet SigmetRaw.

#[export, refine] Instance model_float : CFloat := {|
  float := option Z;
  double := option Z;
  NANf := None;
  NANd := None;
  float_of_unsigned := Some;
  double_of_float := fun x => x;
  dadd := fun x y => match x, y with Some a, Some b => Some (a + b) | _, _ => None end;
  bytes_of_double := fun x => le_bytes 8 (default 0 x)
|}.
Proof.
  - reflexivity.
  - intros [a|]; reflexivity.
Defined.

Definition model_types : list string := ["DB_XHDR"; "DB_DBZ"; "DB_VEL"]%string.

Definition model_type_idx (t : option string) : Z :=
  match t with
  | Some a =>
      if String.eqb a "DB_XHDR" then 0
      else if String.eqb a "DB_DBZ" then 1
      else if String.eqb a "DB_VEL" then 2
      else -1
  | None => -1
  end.

Definition model_stor_to_val (n : Z) (out : list (option Z)) (d : option (list Z))
  : list (option Z) :=
  match d with
  | Some xs => imap (fun b o => if decide (b < Z.to_nat n)%nat then xs !! b else o) out
  | None => out
  end.

#[export, refine] Instance model_lib : SigmetLib := {|
  Sigmet_DataType := string;
  Storage := list Z;
  Sigmet_DataTypeGet := fun a => if decide (a ∈ model_types) then Some a else None;
  Sigmet_DataTypeAbbrv := fun t => t;
  Sigmet_DataType_PrintFmt := fun _ => Some "%6.1f "%string;
  Sigmet_VolTypeIdx := fun t _ => model_type_idx t;
  Sigmet_DTime := fun t => Some (sec t);
  Sigmet_BkTime := fun d => match d with
                            | Some z => Some (1970, 1, 1, 0, 0, Some z)
                            | None => None
                            end;
  Sigmet_DataTypeStorToVal := fun _ n out d _ => model_stor_to_val n out d
|}.
Proof.
  - intros _ n out [xs|] _; simpl; [apply length_imap|reflexivity].
  - intros _ n out [xs|] _ b Hb; simpl; [|reflexivity].
    rewrite list_lookup_imap.
    match goal with |- _ <$> ?x = _ => destruct x end; simpl; [|reflexivity].
    rewrite decide_False by lia. reflexivity.
Defined.

(** Answers of the system for the runs below. *)
Definition main_env0 : main_env := {|
  getenv_APP_NAME := None;
  basename := fun a => a;
  sscanf_d := fun a => if String.eqb a "0" then Some 0
                       else if String.eqb a "1" then Some 1 else None;
  sscanf_u := fun a => if String.eqb a "0" then Some 0
                       else if String.eqb a "1" then Some 1 else None;
  stat := fun a => if String.eqb a "/tmp/sock" then Some S_IFSOCK
                   else if String.eqb a "vol.raw" then Some S_IFREG else None;
  stat_strerror := "No such file or directory"
|}.

Definition connect_env0 : SigmetRawClient.connect_env := {|
  SigmetRawClient.socket_ret := 3;
  SigmetRawClient.sizeof_sun_path := 108;
  SigmetRawClient.connect_ret := 0;
  SigmetRawClient.connect_strerror := ""
|}.

Definition send_env0 : SigmetRawClient.send_env := {|
  SigmetRawClient.open_ret := 9;
  SigmetRawClient.cmsg_firsthdr := true;
  SigmetRawClient.sendmsg_ret := 24;
  SigmetRawClient.strerror_errno := ""
|}.

(** An exchange in which every call succeeds and the daemon answers with the
    bytes [rps]. *)
Definition exchange_env0 (rps : list Z) : SigmetRawClient.exchange_env := {|
  SigmetRawClient.x_connect := connect_env0;
  SigmetRawClient.x_pipe := Some (4, 5);
  SigmetRawClient.x_fdopen_ok := true;
  SigmetRawClient.x_err_pipe := Some (6, 7);
  SigmetRawClient.x_send := send_env0;
  SigmetRawClient.x_recvmsg := Some rps;
  SigmetRawClient.x_err_fdopen_ok := true;
  SigmetRawClient.x_err_text := "";
  SigmetRawClient.x_strerror := ""
|}.

(** A volume of one sweep with three rays and two data types, the extended
    headers and DB_DBZ; the second ray is absent. *)
Definition vol_hdr0 : Sigmet_VolHdr := {|
  vh_num_swps := 1; vh_num_rays := 3; vh_num_types := 2; vh_num_bins_out := 4;
  vh_mask_wd0 := 5
|}.

Definition ray_hdr0 (n t : Z) : Sigmet_RayHdr := {|
  az0 := Some 0; tilt0 := Some 0; az1 := Some 0; tilt1 := Some 0; num_bins := n; tm := t
|}.

Definition rays0 : list (list (list (Sigmet_Ray (list Z)))) :=
  [ [ [ {| ray_hdr := ray_hdr0 1 2; dat := Some [10] |};
        {| ray_hdr := ray_hdr0 3 2; dat := Some [7; 8; 9] |} ];
      [ {| ray_hdr := ray_hdr0 0 0; dat := None |};
        {| ray_hdr := ray_hdr0 0 0; dat := None |} ];
      [ {| ray_hdr := ray_hdr0 1 5; dat := Some [20] |};
        {| ray_hdr := ray_hdr0 2 5; dat := Some [1; 2] |} ] ] ].

Definition swp_hdrs0 : list Sigmet_SwpHdr :=
  [ {| swp_tm := {| sec := 1000; msec := 0; dst := false; utc := true; ldst := false;
                    yr := 2020; mon := 1; day := 1 |};
       angl := Some 0 |} ].

Definition data_vol_env0 : Data.vol_env := {|
  Data.fopen_ok := true;
  Data.fopen_strerror := "";
  Data.Sigmet_VolReadVHdr := Some vol_hdr0;
  Data.Sigmet_VolIDatSz := 64;
  Data.Sigmet_VolReadDat := (1, swp_hdrs0, rays0);
  Data.Sigmet_VolTZSet := true;
  Data.err_msg_str := "";
  Data.calloc_swp_hdrs_ok := true;
  Data.calloc_rays_ok := true;
  Data.malloc_dat_buf_ok := true;
  Data.calloc_dat_ok := true
|}.

(** The rays of the sweep for DB_DBZ, as the daemon holds them, the wide ray
    headers it sends for them, and its responses. *)
Definition dbz_rays0 : list (Sigmet_Ray (list Z)) :=
  [ {| ray_hdr := ray_hdr0 3 2; dat := Some [7; 8; 9] |};
    {| ray_hdr := ray_hdr0 0 0; dat := None |};
    {| ray_hdr := ray_hdr0 2 5; dat := Some [1; 2] |} ].

Definition wray_hdrs0 : list SigmetRaw_RayHdr :=
  map (fun ray => {| wray_hdr := ray_hdr ray; wray_tm := Some (1000 + tm (ray_hdr ray)) |})
    dbz_rays0.

Definition rps0 : Daemon.SigmetRaw_Rps := {|
  Daemon.rps_status := SigmetRawOkay;
  Daemon.rps_num_swps := 1;
  Daemon.rps_num_rays := 3;
  Daemon.rps_num_swp_bins := 5;
  Daemon.rps_swp_tm := Some 1000;
  Daemon.rps_tz := bytes_of_string "UTC" ++ replicate 8 0;
  Daemon.rps_err := [0]
|}.

Definition data_skt_env0 : Data.skt_env := {|
  Data.rh_x := exchange_env0 (Daemon.rps_bytes rps0);
  Data.calloc_wray_hdrs_ok := true;
  Data.rh_fl := wray_hdrs0;
  Data.calloc_dat_skt_ok := true;
  Data.dat_x := exchange_env0 (Daemon.rps_bytes rps0);
  Data.dat_fl := Daemon.data_bulk "DB_DBZ"%string vol_hdr0 dbz_rays0
|}.

Definition data_env0 : Data.data_env := {|
  Data.d_main := main_env0;
  Data.d_vol := data_vol_env0;
  Data.d_txt := data_skt_env0;
  Data.d_bin := exchange_env0 (Daemon.rps_bytes rps0)
|}.







Definition ray_headers_vol_env0 : RayHeaders.vol_env := {|
  RayHeaders.fopen_ok := true;
  RayHeaders.fopen_strerror := "";
  RayHeaders.Sigmet_VolReadVHdr := Some vol_hdr0;
  RayHeaders.Sigmet_VolIDatSz := 64;
  RayHeaders.Sigmet_VolReadDat := (1, swp_hdrs0, rays0);
  RayHeaders.Sigmet_VolTZSet := true;
  RayHeaders.err_msg_str := "";
  RayHeaders.calloc_swp_hdrs_ok := true;
  RayHeaders.calloc_rays_ok := true;
  RayHeaders.malloc_dat_buf_ok := true
|}.

Definition ray_headers_env0 : RayHeaders.ray_headers_env := {|
  RayHeaders.r_main := main_env0;
  RayHeaders.r_vol := ray_headers_vol_env0;
  RayHeaders.r_skt := {| RayHeaders.rh_x := exchange_env0 (Daemon.rps_bytes rps0);
                         RayHeaders.setenv_ok := true;
                         RayHeaders.calloc_wray_hdrs_ok := true;
                         RayHeaders.ray_hdr_fl := wray_hdrs0 |}
|}.

(** A volume of two sweeps with two rays each and two data types, the
    extended headers and DB_DBZ. *)
Definition vol_hdr2 : Sigmet_VolHdr := {|
  vh_num_swps := 2; vh_num_rays := 2; vh_num_types := 2; vh_num_bins_out := 4;
  vh_mask_wd0 := 5
|}.

Definition rays2 : list (list (list (Sigmet_Ray (list Z)))) :=
  [ [ [ {| ray_hdr := ray_hdr0 1 2; dat := Some [10] |};
        {| ray_hdr := ray_hdr0 3 2; dat := Some [7; 8; 9] |} ];
      [ {| ray_hdr := ray_hdr0 1 5; dat := Some [20] |};
        {| ray_hdr := ray_hdr0 2 5; dat := Some [1; 2] |} ] ];
    [ [ {| ray_hdr := ray_hdr0 1 3; dat := Some [30] |};
        {| ray_hdr := ray_hdr0 1 3; dat := Some [4] |} ];
      [ {| ray_hdr := ray_hdr0 1 6; dat := Some [40] |};
        {| ray_hdr := ray_hdr0 1 6; dat := Some [5] |} ] ] ].

Definition swp_hdrs2 : list Sigmet_SwpHdr :=
  [ {| swp_tm := {| sec := 1000; msec := 0; dst := false; utc := true; ldst := false;
                    yr := 2020; mon := 1; day := 1 |};
       angl := Some 0 |};
    {| swp_tm := {| sec := 2000; msec := 0; dst := false; utc := true; ldst := false;
                    yr := 2020; mon := 1; day := 1 |};
       angl := Some 1 |} ].

Definition ray_headers_env2 : RayHeaders.ray_headers_env := {|
  RayHeaders.r_main := main_env0;
  RayHeaders.r_vol := {|
    RayHeaders.fopen_ok := true;
    RayHeaders.fopen_strerror := "";
    RayHeaders.Sigmet_VolReadVHdr := Some vol_hdr2;
    RayHeaders.Sigmet_VolIDatSz := 64;
    RayHeaders.Sigmet_VolReadDat := (1, swp_hdrs2, rays2);
    RayHeaders.Sigmet_VolTZSet := true;
    RayHeaders.err_msg_str := "";
    RayHeaders.calloc_swp_hdrs_ok := true;
    RayHeaders.calloc_rays_ok := true;
    RayHeaders.malloc_dat_buf_ok := true |};
  RayHeaders.r_skt := RayHeaders.r_skt ray_headers_env0
|}.

End Model.

(** * Properties *)

(** ** copy_bits.c *)

Module CopyBitsFacts.
Import CopyBits.

Lemma testbit_one (q : Z) : Z.testbit 1 q = bool_decide (q = 0).
Proof.
  destruct (decide (q = 0)) as [->|Hq].
  - reflexivity.
  - rewrite bool_decide_eq_false_2 by done.
    destruct (decide (q < 0)).
    + apply Z.testbit_neg_r; lia.
    + change 1 with (2 ^ 0). apply Z.pow2_bits_false. lia.
Qed.

(** The byte stored by one loop iteration: bit [db] receives bit [sb] of the
    source byte, every other bit of the low eight keeps its value. *)
Lemma testbit_or_bit (d s sb db q : Z) :
  0 <= sb -> 0 <= db < 8 -> 0 <= q < 8 ->
  Z.testbit (to_uint8 (Z.lor d (Z.shiftl (Z.land (Z.shiftr s sb) 1) db))) q
  = Z.testbit d q || (bool_decide (q = db) && Z.testbit s sb).
Proof.
  intros Hsb Hdb Hq. unfold to_uint8.
  change 256 with (2 ^ 8). rewrite Z.mod_pow2_bits_low by lia.
  rewrite Z.lor_spec. f_equal.
  rewrite Z.shiftl_spec by lia. rewrite Z.land_spec, testbit_one.
  destruct (decide (q = db)) as [->|Hne].
  - rewrite Z.sub_diag, Z.shiftr_spec by lia.
    rewrite !bool_decide_eq_true_2 by done. simpl.
    rewrite andb_true_r. f_equal; lia.
  - rewrite (bool_decide_eq_false_2 (q = db)) by done.
    rewrite (bool_decide_eq_false_2 (q - db = 0)) by lia.
    simpl. apply andb_false_r.
Qed.

Lemma bit_of_insert (dest : list Z) (i p v : Z) :
  0 <= i -> 0 <= p -> is_Some (dest !! Z.to_nat (i / 8)) ->
  bit_of (<[Z.to_nat (i / 8) := v]> dest) p
  = if decide (p / 8 = i / 8) then Some (Z.testbit v (p mod 8)) else bit_of dest p.
Proof.
  intros Hi Hp Hd. unfold bit_of.
  apply lookup_lt_is_Some in Hd.
  destruct (decide (p / 8 = i / 8)) as [->|Hne].
  - rewrite list_lookup_insert_eq by done. reflexivity.
  - rewrite list_lookup_insert_ne; [done|].
    intros Heq. apply Hne. apply Z2Nat.inj in Heq; [done| |];
      apply Z.div_pos; lia.
Qed.

Section loop.
Variable SIZE_BITS : Z.
Variable src : list Z.
Variable o : Z.
Hypothesis Ho : 0 <= o.
Hypothesis Hsrc : 8 * Z.of_nat (length src) <= SIZE_MAX SIZE_BITS.

Lemma size_add_small (i : Z) :
  0 <= i -> o + i < 8 * Z.of_nat (length src) -> size_add SIZE_BITS o i = o + i.
Proof.
  intros Hi Hlt. unfold size_add. apply Z.mod_small.
  unfold SIZE_MAX in Hsrc. lia.
Qed.

(** One iteration ORs source bit [o + i] into destination bit [i]. *)
Lemma copy_bit_spec (i : Z) (dest : list Z) :
  0 <= i -> o + i < 8 * Z.of_nat (length src) ->
  i < 8 * Z.of_nat (length dest) ->
  exists dest' sb db,
    copy_bit SIZE_BITS src o i dest = Some dest' /\
    length dest' = length dest /\
    bit_of src (o + i) = Some sb /\ bit_of dest i = Some db /\
    forall p, 0 <= p ->
      bit_of dest' p = if decide (p = i) then Some (db || sb) else bit_of dest p.
Proof.
  intros Hi Hs Hd. unfold copy_bit. rewrite size_add_small by done.
  destruct (lookup_lt_is_Some_2 src (Z.to_nat ((o + i) / 8))) as [s Hs'].
  { apply Nat2Z.inj_lt. rewrite Z2Nat.id by (apply Z.div_pos; lia).
    apply Z.div_lt_upper_bound; lia. }
  destruct (lookup_lt_is_Some_2 dest (Z.to_nat (i / 8))) as [d Hd'].
  { apply Nat2Z.inj_lt. rewrite Z2Nat.id by (apply Z.div_pos; lia).
    apply Z.div_lt_upper_bound; lia. }
  rewrite Hs', Hd'. simpl.
  eexists _, (Z.testbit s ((o + i) mod 8)), (Z.testbit d (i mod 8)).
  split; [reflexivity|]. split; [apply length_insert|].
  split; [unfold bit_of; by rewrite Hs'|].
  split; [unfold bit_of; by rewrite Hd'|].
  intros p Hp. rewrite bit_of_insert by eauto.
  pose proof (Z.mod_pos_bound i 8 ltac:(lia)).
  pose proof (Z.mod_pos_bound p 8 ltac:(lia)).
  pose proof (Z.mod_pos_bound (o + i) 8 ltac:(lia)).
  destruct (decide (p / 8 = i / 8)) as [Heq|Hne].
  - rewrite testbit_or_bit by lia.
    destruct (decide (p = i)) as [->|Hpi].
    + by rewrite bool_decide_eq_true_2.
    + rewrite bool_decide_eq_false_2.
      * simpl. rewrite orb_false_r. unfold bit_of.
        rewrite Heq, Hd'. reflexivity.
      * intros Hmod. apply Hpi.
        rewrite (Z.div_mod p 8), (Z.div_mod i 8) by lia. lia.
  - destruct (decide (p = i)) as [->|]; [done|reflexivity].
Qed.

(** [k] iterations from [i] OR source bits [o+i .. o+i+k) into destination
    bits [i .. i+k) and leave every other bit alone. *)
Lemma copy_loop_spec (k : nat) : forall (i : Z) (dest : list Z),
  0 <= i -> o + i + Z.of_nat k <= 8 * Z.of_nat (length src) ->
  i + Z.of_nat k <= 8 * Z.of_nat (length dest) ->
  exists dest',
    copy_loop SIZE_BITS src o k i dest = Some dest' /\
    length dest' = length dest /\
    forall p, 0 <= p ->
      bit_of dest' p =
        if decide (i <= p < i + Z.of_nat k)
        then db ← bit_of dest p; sb ← bit_of src (o + p); Some (db || sb)
        else bit_of dest p.
Proof.
  induction k as [|k IH]; intros i dest Hi Hs Hd.
  - exists dest. split; [done|]. split; [done|].
    intros p Hp. rewrite decide_False by lia. done.
  - destruct (copy_bit_spec i dest) as (d1 & sb & db & E1 & L1 & Bs & Bd & P1);
      [lia..|].
    destruct (IH (i + 1) d1) as (d2 & E2 & L2 & P2); [lia..|].
    exists d2. simpl. rewrite E1. simpl. split; [exact E2|].
    split; [congruence|].
    intros p Hp. rewrite P2 by done. rewrite !P1 by done.
    destruct (decide (p = i)) as [->|Hpi].
    + rewrite decide_False by lia. rewrite decide_True by lia.
      rewrite Bd, Bs. reflexivity.
    + destruct (decide (i + 1 <= p < i + 1 + Z.of_nat k)).
      * rewrite decide_True by lia. reflexivity.
      * rewrite decide_False by lia. reflexivity.
Qed.
End loop.

Lemma bit_of_memset0 (dest dest0 : list Z) (len p : Z) :
  memset0 dest len = Some dest0 -> 0 <= p < 8 * len ->
  length dest0 = length dest /\ bit_of dest0 p = Some false.
Proof.
  unfold memset0. intros Hm Hp. case_decide as Hlen; [|done].
  injection Hm as <-. split.
  - rewrite length_app, length_replicate, length_drop. lia.
  - unfold bit_of. rewrite lookup_app_l.
    + rewrite lookup_replicate_2; [simpl; by rewrite Z.bits_0|].
      apply Nat2Z.inj_lt. rewrite !Z2Nat.id by (try apply Z.div_pos; lia).
      apply Z.div_lt_upper_bound; lia.
    + rewrite length_replicate.
      apply Nat2Z.inj_lt. rewrite !Z2Nat.id by (try apply Z.div_pos; lia).
      apply Z.div_lt_upper_bound; lia.
Qed.

(** C1.  Whenever [src] holds at least [o + n] bits (its bit offsets being
    representable in [size_t]) and [dest] has room for [n] bits,
    [copy_bits_packed_right] returns, bit [i] of the destination equals
    source bit [o + i] for every [i < n], and every destination bit from
    position [n] up to the end of the [ceil(n/8)] destination bytes is
    zero. *)
Theorem copy_bits_packed_right_correct (SIZE_BITS : Z) (src dest : list Z) (o n : Z) :
  3 <= SIZE_BITS -> 0 <= o -> 0 <= n ->
  o + n <= 8 * Z.of_nat (length src) ->
  8 * Z.of_nat (length src) <= SIZE_MAX SIZE_BITS ->
  (n + 7) / 8 <= Z.of_nat (length dest) ->
  exists dest',
    copy_bits_packed_right SIZE_BITS src dest o n = Some dest' /\
    length dest' = length dest /\
    (forall i, 0 <= i < n ->
       exists b, bit_of src (o + i) = Some b /\ bit_of dest' i = Some b) /\
    (forall i, n <= i < 8 * ((n + 7) / 8) -> bit_of dest' i = Some false).
Proof.
  intros Hw Ho Hn Hsrc Hmax Hdest.
  assert (Hadd : size_add SIZE_BITS n 7 = n + 7).
  { unfold size_add. apply Z.mod_small. unfold SIZE_MAX in Hmax.
    assert (H8 : 2 ^ SIZE_BITS = 8 * 2 ^ (SIZE_BITS - 3)).
    { change 8 with (2 ^ 3). rewrite <- Z.pow_add_r by lia. f_equal. lia. }
    lia. }
  unfold copy_bits_packed_right. rewrite Hadd.
  destruct (memset0 dest ((n + 7) / 8)) as [dest0|] eqn:Hm; simpl.
  2:{ unfold memset0 in Hm. by rewrite decide_True in Hm. }
  assert (Hlen0 : length dest0 = length dest).
  { unfold memset0 in Hm. case_decide; [|done]. injection Hm as <-.
    rewrite length_app, length_replicate, length_drop. lia. }
  assert (Hceil : n <= 8 * ((n + 7) / 8)).
  { pose proof (Z.div_mod (n + 7) 8 ltac:(lia)).
    pose proof (Z.mod_pos_bound (n + 7) 8 ltac:(lia)). lia. }
  destruct (copy_loop_spec SIZE_BITS src o Ho Hmax (Z.to_nat n) 0 dest0)
    as (dest' & E & L & P); [lia..|].
  exists dest'. split; [exact E|]. split; [congruence|]. split.
  - intros i Hi. rewrite P by lia. rewrite decide_True by lia.
    destruct (bit_of_memset0 dest dest0 _ i Hm) as [_ ->]; [lia|].
    simpl. destruct (bit_of src (o + i)) as [b|] eqn:Hb.
    + exists b. done.
    + exfalso. unfold bit_of in Hb.
      destruct (lookup_lt_is_Some_2 src (Z.to_nat ((o + i) / 8))) as [s Hs].
      { apply Nat2Z.inj_lt. rewrite Z2Nat.id by (apply Z.div_pos; lia).
        apply Z.div_lt_upper_bound; lia. }
      by rewrite Hs in Hb.
  - intros i Hi. rewrite P by lia. rewrite decide_False by lia.
    destruct (bit_of_memset0 dest dest0 _ i Hm) as [_ ->]; [lia|done].
Qed.

Lemma copy_bits_packed_right_correct_witness :
  exists dest',
    copy_bits_packed_right 64 [181; 60] [255; 255; 255] 3 11 = Some dest' /\
    length dest' = length [255; 255; 255] /\
    (forall i, 0 <= i < 11 ->
       exists b, bit_of [181; 60] (3 + i) = Some b /\ bit_of dest' i = Some b) /\
    (forall i, 11 <= i < 8 * ((11 + 7) / 8) -> bit_of dest' i = Some false).
Proof.
  apply (copy_bits_packed_right_correct 64 [181; 60] [255; 255; 255] 3 11);
    vm_compute; discriminate.
Defined.

Example copy_bits_packed_right_ex :
  copy_bits_packed_right 64 [181; 60] [255; 255; 255] 3 11 = Some [150; 7; 255].
Proof. reflexivity. Qed.

End CopyBitsFacts.

(** ** Processes *)

Module ProcFacts.
Import Platform Posix.

Lemma fst_bind {L A B} (m : proc L A) (k : A -> proc L B) :
  fst (m ≫= k) = fst m ++ match snd m with Ret a => fst (k a) | _ => [] end.
Proof.
  destruct m as [t [a| |]]; unfold mbind, proc_mbind, proc_bind; simpl.
  - destruct (k a); reflexivity.
  - by rewrite app_nil_r.
  - by rewrite app_nil_r.
Qed.

Lemma snd_bind {L A B} (m : proc L A) (k : A -> proc L B) :
  snd (m ≫= k) = match snd m with
                 | Ret a => snd (k a)
                 | Exit c => Exit c
                 | Undefined => Undefined
                 end.
Proof.
  destruct m as [t [a| |]]; unfold mbind, proc_mbind, proc_bind; simpl; try done.
  destruct (k a); reflexivity.
Qed.

Lemma bind_ret {L A B} (a : A) (k : A -> proc L B) : mret a ≫= k = k a.
Proof.
  unfold mbind, proc_mbind, proc_bind, mret, proc_ret. by destruct (k a).
Qed.

(** A check that prints a message and exits when it fails. *)
Lemma bind_guard {L B} (c : bool) (msg : string) (code : Z) (k : unit -> proc L B) :
  ((if c then mret tt else fprintf_stderr msg;; exit code) ≫= k)
  = if c then k tt else ([EvStderr msg], Exit code).
Proof. destruct c; [apply bind_ret|reflexivity]. Qed.

Lemma bind_guard_neg {L B} (c : bool) (msg : string) (code : Z) (k : unit -> proc L B) :
  ((if c then fprintf_stderr msg;; exit code else mret tt) ≫= k)
  = if c then ([EvStderr msg], Exit code) else k tt.
Proof. destruct c; [reflexivity|apply bind_ret]. Qed.

Lemma bind_guard_opt {L A B} (o : option A) (msg : string) (code : Z)
  (k : A -> proc L B) :
  (match o with Some v => mret v | None => fprintf_stderr msg;; exit code end ≫= k)
  = match o with Some v => k v | None => ([EvStderr msg], Exit code) end.
Proof. destruct o; [apply bind_ret|reflexivity]. Qed.

Lemma bind_traced {L B} (t : list (event L)) (k : unit -> proc L B) :
  (SigmetRawClient.traced t ≫= k) = (t ++ fst (k tt), snd (k tt)).
Proof.
  unfold SigmetRawClient.traced, mbind, proc_mbind, proc_bind. by destruct (k tt).
Qed.

Lemma bind_emit {L B} (e : event L) (k : unit -> proc L B) :
  (emit e ≫= k) = ([e] ++ fst (k tt), snd (k tt)).
Proof. apply (bind_traced [e]). Qed.

Lemma bind_recvmsg {L B} (ret : option (list Z)) (skt_fd : Z) (bufs : list (list Z))
  (k : option (list (list Z)) -> proc L B) :
  (SigmetRawClient.recvmsg ret skt_fd bufs ≫= k)
  = ([EvRecvmsg skt_fd (map (fun b => Z.of_nat (length b)) bufs) ret]
       ++ fst (k (SigmetRawClient.scatter bufs <$> ret)),
     snd (k (SigmetRawClient.scatter bufs <$> ret))).
Proof.
  unfold SigmetRawClient.recvmsg, mbind, proc_mbind, proc_bind.
  by destruct (k _).
Qed.

Lemma bind_fail {L A B} (msg : string) (code : Z) (k : A -> proc L B) :
  ((fprintf_stderr msg;; exit code) ≫= k) = ([EvStderr msg], Exit code).
Proof. reflexivity. Qed.

Lemma bind_assoc {L A B C} (m : proc L A) (f : A -> proc L B) (g : B -> proc L C) :
  ((m ≫= f) ≫= g) = (m ≫= fun a => f a ≫= g).
Proof.
  destruct m as [t [a| |]]; unfold mbind, proc_mbind, proc_bind; try done.
  destruct (f a) as [t1 [b| |]]; try done; [|by rewrite ?app_assoc..].
  destruct (g b) as [t2 r]. by rewrite app_assoc.
Qed.

Lemma bind_guard_dec {L A B} (P : Prop) `{Decision P} (v : A) (msg : string) (code : Z)
  (k : A -> proc L B) :
  ((if decide P then mret v else fprintf_stderr msg;; exit code) ≫= k)
  = if decide P then k v else ([EvStderr msg], Exit code).
Proof. destruct (decide P); [apply bind_ret|reflexivity]. Qed.

(** An integer that fits four bytes is read back from its representation. *)
Lemma le_value_le_bytes4 (z : Z) :
  0 <= z < 2 ^ 32 -> le_value (le_bytes 4 z) = z.
Proof.
  intros Hz. cbn [le_bytes le_value]. change (2 ^ 32) with 4294967296 in Hz.
  Z.div_mod_to_equations. lia.
Qed.

Lemma to_int_to_unsigned (z : Z) : 0 <= z <= INT_MAX -> to_int (to_unsigned z) = z.
Proof.
  intros Hz. unfold to_int, to_unsigned, INT_MAX in *.
  change (2 ^ 31) with 2147483648 in *. change (2 ^ 32) with 4294967296.
  Z.div_mod_to_equations. lia.
Qed.

Lemma stdout_of_app {L} (t1 t2 : list (event L)) :
  stdout_of (t1 ++ t2) = stdout_of t1 ++ stdout_of t2.
Proof. unfold stdout_of. apply omap_app. Qed.

Lemma stdout_of_bind {L A B} (m : proc L A) (k : A -> proc L B) :
  stdout_of (fst (m ≫= k))
  = stdout_of (fst m) ++ match snd m with Ret a => stdout_of (fst (k a)) | _ => [] end.
Proof.
  rewrite fst_bind, stdout_of_app. by destruct (snd m).
Qed.

End ProcFacts.

(** ** sigmet_raw_client.c *)

Module SigmetRawClientFacts.
Import Platform Posix Sigmet SigmetRaw SigmetRawClient.

Lemma length_bytes_of_string (a : string) :
  length (bytes_of_string a) = String.length a.
Proof.
  unfold bytes_of_string. rewrite length_map.
  induction a as [|c a IH]; simpl; congruence.
Qed.

Lemma length_snprintf_s (buf : list Z) (size : Z) (a : string) :
  size <= Z.of_nat (length buf) -> length (snprintf_s buf size a) = length buf.
Proof.
  intros Hsz. unfold snprintf_s. destruct (size <=? 0) eqn:E; [done|].
  apply Z.leb_gt in E. cbv zeta.
  rewrite !length_app, length_drop, !length_take. simpl. lia.
Qed.

(** An abbreviation of at most fifteen bytes, set on a fresh request, fills
    the field and is followed by zeros only. *)
Lemma Set_DataType_short (a : string) :
  (String.length a <= 15)%nat ->
  abbrv (SigmetRaw_Rqst_Set_DataType SigmetRaw_Rqst_Init a)
  = bytes_of_string a ++ replicate (16 - String.length a) 0.
Proof.
  intros Hlen. pose proof (length_bytes_of_string a) as Hb.
  simpl. unfold snprintf_s. simpl.
  change (Z.to_nat (SIGMET_DATA_TYPE_LEN - 1)) with 15%nat.
  rewrite take_ge by lia. rewrite <- app_assoc. f_equal.
  rewrite length_app, Hb. simpl.
  change (memset_zero _ _) with (replicate 16 0).
  rewrite drop_replicate.
  replace (16 - String.length a)%nat with (S (16 - (String.length a + 1)))
    by lia.
  reflexivity.
Qed.

(** An abbreviation of sixteen bytes loses its last byte to the terminator
    that [snprintf] stores. *)
Lemma Set_DataType_long (rqst : SigmetRaw_Rqst) (a : string) :
  length (abbrv rqst) = 16%nat -> (16 <= String.length a)%nat ->
  abbrv (SigmetRaw_Rqst_Set_DataType rqst a) = take 15 (bytes_of_string a) ++ [0].
Proof.
  intros Hbuf Hlen. pose proof (length_bytes_of_string a) as Hb.
  simpl. unfold snprintf_s. simpl.
  change (Z.to_nat (SIGMET_DATA_TYPE_LEN - 1)) with 15%nat.
  rewrite drop_ge; [by rewrite app_nil_r|].
  rewrite length_app, length_take, Hb, Hbuf. cbn [length]. lia.
Qed.

(** C2.  Setting the sixteen-byte abbreviation "DB_TEMPERATURE16" on a fresh
    request leaves "DB_TEMPERATURE1" and a nul in the data-type field: the
    sixteenth character is not transmitted. *)
Theorem Set_DataType_DB_TEMPERATURE16 :
  abbrv (SigmetRaw_Rqst_Set_DataType SigmetRaw_Rqst_Init "DB_TEMPERATURE16")
  = bytes_of_string "DB_TEMPERATURE1" ++ [0]
  /\ abbrv (SigmetRaw_Rqst_Set_DataType SigmetRaw_Rqst_Init "DB_TEMPERATURE16")
     <> bytes_of_string "DB_TEMPERATURE16".
Proof. split; [reflexivity|discriminate]. Qed.

(** The data-type field keeps its sixteen bytes under every setter. *)
Lemma length_abbrv_Set_DataType (rqst : SigmetRaw_Rqst) (a : string) :
  length (abbrv rqst) = 16%nat ->
  length (abbrv (SigmetRaw_Rqst_Set_DataType rqst a)) = 16%nat.
Proof.
  intros Hlen. simpl. rewrite length_snprintf_s; [done|].
  rewrite Hlen. done.
Qed.

(** Connecting, sending and the status check write nothing to standard
    output. *)
Lemma stdout_of_DmnConnect {L} (os : connect_env) (skt_path : string) :
  stdout_of (conn_trace (SigmetRaw_DmnConnect (L := L) os skt_path)) = [].
Proof.
  unfold SigmetRaw_DmnConnect.
  destruct (_ =? -1); [done|]. destruct (_ <=? _); [done|].
  by destruct (negb _).
Qed.

Lemma stdout_of_Rqst_Send {L} (os : send_env) (skt_fd : Z) (rqst : SigmetRaw_Rqst) :
  stdout_of (send_trace (SigmetRaw_Rqst_Send (L := L) os skt_fd rqst)) = [].
Proof.
  unfold SigmetRaw_Rqst_Send.
  destruct ((err_fd rqst <? 0) || (hd_fd rqst <? 0));
    destruct (open_ret os =? -1) eqn:Eo; destruct (cmsg_firsthdr os);
    destruct (sendmsg_ret os =? -1) eqn:Ew; simpl; rewrite ?Eo, ?Ew; reflexivity.
Qed.

Lemma bind_check_status {L B} (x : exchange_env) (status : Z) (prefix : string)
  (closes : list Z) (fdopen_msg : string) (k : unit -> proc L B) :
  exists t, stdout_of t = [] /\
    (check_status x status prefix closes fdopen_msg ≫= k)
    = if status =? Status_val SigmetRawOkay then k tt else (t, Exit EXIT_FAILURE).
Proof.
  unfold check_status. destruct (status =? Status_val SigmetRawOkay).
  - exists []. split; [done|]. apply ProcFacts.bind_ret.
  - destruct (x_err_fdopen_ok x); eexists; (split; [|reflexivity]).
    + unfold stdout_of. simpl. rewrite omap_app. simpl. rewrite app_nil_r.
      induction closes; [done|]. simpl. done.
    + unfold stdout_of. simpl. rewrite omap_app. simpl. rewrite app_nil_r.
      induction closes; [done|]. simpl. done.
Qed.

(** C4.  Every message [SigmetRaw_Rqst_Send] passes to [sendmsg] has exactly
    three data items (the subcommand code, the sixteen-byte abbreviation
    field, the sweep index) and one [SCM_RIGHTS] control message with
    exactly two non-negative descriptors, the error channel in slot 0 and
    the headers/data channel in slot 1; a descriptor the client did not
    supply is replaced by the one just opened on "/dev/null".  A successful
    send has passed exactly one such message. *)
Theorem Rqst_Send_message_shape (L : Type) (os : send_env) (skt_fd : Z)
  (rqst : SigmetRaw_Rqst) :
  open_ret os = -1 \/ 0 <= open_ret os ->
  let r := SigmetRaw_Rqst_Send (L := L) os skt_fd rqst in
  let e := if 0 <=? err_fd rqst then err_fd rqst else open_ret os in
  let h := if 0 <=? hd_fd rqst then hd_fd rqst else open_ret os in
  let m :=
    {| msg_iov :=
         [ {| iov_base := le_bytes 4 (to_unsigned (sub_cmd_n rqst)); iov_len := 4 |};
           {| iov_base := abbrv rqst; iov_len := 16 |};
           {| iov_base := le_bytes 4 (to_unsigned (s rqst)); iov_len := 4 |} ];
       msg_iovlen := 3;
       msg_control := Some {| cmsg_level := SOL_SOCKET; cmsg_type := SCM_RIGHTS;
                              cmsg_data := [e; h] |} |} in
  (sent_messages (send_trace r) = [] \/
   sent_messages (send_trace r) = [m] /\ 0 <= e /\ 0 <= h /\
   (err_fd rqst < 0 \/ hd_fd rqst < 0 ->
    opened_fds (send_trace r) = [("/dev/null"%string, open_ret os)]))
  /\ (send_ret r = 1 -> sent_messages (send_trace r) = [m]).
Proof.
  intros Hopen r e h m. subst r e h m. unfold SigmetRaw_Rqst_Send.
  destruct (err_fd rqst <? 0) eqn:Ee; destruct (hd_fd rqst <? 0) eqn:Eh;
    destruct (open_ret os =? -1) eqn:Eo; destruct (cmsg_firsthdr os);
    destruct (sendmsg_ret os =? -1) eqn:Ew; simpl;
    rewrite ?Eo; simpl; rewrite ?Ew; simpl;
    try (split; [left; reflexivity | discriminate]);
    apply Z.ltb_ge in Ee || apply Z.ltb_lt in Ee;
    apply Z.ltb_ge in Eh || apply Z.ltb_lt in Eh;
    apply Z.eqb_neq in Eo || apply Z.eqb_eq in Eo;
    repeat match goal with
    | |- context [0 <=? ?x] =>
        (rewrite (proj2 (Z.leb_le 0 x)) by lia) || (rewrite (proj2 (Z.leb_gt 0 x)) by lia)
    end;
    (split; [right; (split; [reflexivity|]); (split; [lia|]); (split; [lia|]);
             intros; (reflexivity || lia)
            | intros; reflexivity]).
Qed.

Lemma Rqst_Send_message_shape_witness :
  let os := {| open_ret := 5; cmsg_firsthdr := true; sendmsg_ret := 24;
               strerror_errno := "" |} in
  let rqst := SigmetRaw_Rqst_Set_ShFD
                (SigmetRaw_Rqst_Set_SubCmd SigmetRaw_Rqst_Init SigmetRawVolumeHeaders) 4 in
  (open_ret os = -1 \/ 0 <= open_ret os) /\
  sent_messages (send_trace (SigmetRaw_Rqst_Send (L := unit) os 3 rqst))
  = [ {| msg_iov :=
           [ {| iov_base := [1; 0; 0; 0]; iov_len := 4 |};
             {| iov_base := replicate 16 0; iov_len := 16 |};
             {| iov_base := [255; 255; 255; 255]; iov_len := 4 |} ];
         msg_iovlen := 3;
         msg_control := Some {| cmsg_level := SOL_SOCKET; cmsg_type := SCM_RIGHTS;
                                cmsg_data := [5; 4] |} |} ].
Proof.
  intros os rqst.
  assert (Hopen : open_ret os = -1 \/ 0 <= open_ret os) by (right; simpl; lia).
  split; [exact Hopen|].
  exact (proj2 (Rqst_Send_message_shape unit os 3 rqst Hopen) eq_refl).
Defined.

End SigmetRawClientFacts.

(** ** data.c *)

Module DataFacts.
Import Platform Posix Sigmet SigmetRaw SigmetRawClient ProcFacts SigmetRawClientFacts Data.

Section data_facts.
Context `{SigmetLib}.

Lemma stdout_of_defined {L A} (o : option A) :
  stdout_of (fst (defined (L := L) o)) = [].
Proof. by destruct o. Qed.

Lemma stdout_of_emit_stdout {L} (x : L) : stdout_of (fst (emit (EvStdout x))) = [x].
Proof. reflexivity. Qed.

(** The loop that finds the largest bin count prints nothing and, when it
    returns, returns the maximum of its start value and the bin counts of
    the rays. *)
Lemma num_bins_max_loop_spec {L}
  (rays : list (list (list (Sigmet_Ray Storage)))) (s y : Z) (rs : list Z) :
  forall acc,
    let run := num_bins_max_loop (L := L) rays s y rs acc in
    fst run = [] /\
    match snd run with
    | Ret m =>
        acc <= m /\
        (forall r ray, r ∈ rs -> rays_at rays s r y = Some ray ->
                       num_bins (ray_hdr ray) <= m) /\
        (m = acc \/ exists r ray, r ∈ rs /\ rays_at rays s r y = Some ray /\
                                  num_bins (ray_hdr ray) = m)
    | Exit _ => False
    | Undefined => True
    end.
Proof.
  induction rs as [|r rs IH]; intros acc run; subst run.
  - simpl. split; [done|]. split; [lia|]. split; [|by left].
    intros r ray Hin. by apply elem_of_nil in Hin.
  - cbn [num_bins_max_loop]. unfold rays_get.
    destruct (rays_at rays s r y) as [ray|] eqn:Hray; [|done].
    cbn [defined]. rewrite bind_ret.
    set (acc' := if acc <? num_bins (ray_hdr ray) then num_bins (ray_hdr ray) else acc).
    assert (Hacc : acc <= acc' /\ num_bins (ray_hdr ray) <= acc' /\
                   (acc' = acc \/ acc' = num_bins (ray_hdr ray))).
    { unfold acc'. destruct (Z.ltb_spec acc (num_bins (ray_hdr ray))); lia. }
    destruct (IH acc') as [IH1 IH2]. split; [exact IH1|].
    destruct (snd (num_bins_max_loop rays s y rs acc')) as [m| |]; [|done..].
    destruct IH2 as (Hle & Hub & Hatt). split; [lia|]. split.
    + intros r' ray' Hin Hray'. apply elem_of_cons in Hin as [->|Hin].
      * rewrite Hray in Hray'. injection Hray' as <-. lia.
      * by eapply Hub.
    + destruct Hatt as [->|(r' & ray' & Hin & Hray' & Hm)].
      * destruct Hacc as (_ & _ & [->| ->]); [by left|].
        right. exists r, ray. split; [apply list_elem_of_here|done].
      * right. exists r', ray'. split; [by apply list_elem_of_further|done].
Qed.

(** The text loop of [data_fm_fl] prints one line for each ray it reaches,
    in order; the line is padded with NaN as [nan_padded_line] says, and a
    loop that returns has reached every ray. *)
Lemma fl_txt_loop_lines (type : Sigmet_DataType) (vol_hdr : Sigmet_VolHdr) (fmt : string)
  (rays : list (list (list (Sigmet_Ray Storage)))) (s y num_bins_max : Z) (rs : list Z) :
  forall dat,
    let run := fl_txt_loop type vol_hdr fmt rays s y num_bins_max rs dat in
    Forall2 (fun r line =>
               exists ray, rays_at rays s r y = Some ray /\
                           nan_padded_line fmt num_bins_max ray line)
      (take (length (stdout_of (fst run))) rs) (stdout_of (fst run)) /\
    (snd run = Ret tt -> length (stdout_of (fst run)) = length rs) /\
    (forall status, snd run <> Exit status).
Proof.
  induction rs as [|r rs IH]; intros dat0 run; subst run.
  - simpl. split; [constructor|done].
  - cbn [fl_txt_loop]. unfold rays_get.
    destruct (rays_at rays s r y) as [ray|] eqn:Hray.
    2:{ simpl. split; [constructor|done]. }
    cbn [defined]. rewrite bind_ret.
    set (dat1 := replicate (Z.to_nat num_bins_max) NANf
                   ++ drop (Z.to_nat num_bins_max) dat0).
    set (dat2 := match dat ray with
                 | Some idat =>
                     Sigmet_DataTypeStorToVal (Some type) (num_bins (ray_hdr ray)) dat1
                       (Some idat) vol_hdr
                 | None => dat1
                 end).
    specialize (IH dat2). cbv zeta in IH.
    rewrite !stdout_of_bind, !snd_bind, stdout_of_emit_stdout.
    cbn [fst snd emit app length take].
    destruct IH as (IH1 & IH2 & IH3). split; [|split].
    + constructor; [|exact IH1].
      exists ray. split; [done|].
      assert (Hlen1 : length dat1 = (Z.to_nat num_bins_max
                                     + (length dat0 - Z.to_nat num_bins_max))%nat).
      { unfold dat1. by rewrite length_app, length_replicate, length_drop. }
      assert (Hlen2 : length dat2 = length dat1).
      { unfold dat2. destruct (dat ray); [apply StorToVal_length|done]. }
      exists (take (Z.to_nat num_bins_max) dat2).
      split; [done|]. split; [rewrite length_take; lia|]. split.
      * intros Hnone. unfold dat2. rewrite Hnone. unfold dat1.
        apply take_app_length'. by rewrite length_replicate.
      * intros b [Hb1 Hb2]. rewrite lookup_take_lt by done.
        transitivity (dat1 !! b).
        { unfold dat2. destruct (dat ray); [by apply StorToVal_frame|done]. }
        unfold dat1. rewrite lookup_app_l by (by rewrite length_replicate).
        by apply lookup_replicate_2.
    + intros Hret. f_equal. apply IH2. exact Hret.
    + exact IH3.
Qed.

(** The file-reading path of C6: [data_fm_fl] in text mode prints, for the
    rays of sweep [s] in order, lines padded with NaN; a run that exits with
    success has printed a line for every ray, and the padding is to the
    largest bin count among these rays. *)
Lemma data_fm_fl_txt_lines (os : vol_env) (path : string) (type : Sigmet_DataType)
  (s : Z) (cmd : string) (vol_hdr : Sigmet_VolHdr) (rd : Z)
  (swp_hdrs : list Sigmet_SwpHdr) (rays : list (list (list (Sigmet_Ray Storage)))) :
  Sigmet_VolReadVHdr os = Some vol_hdr ->
  Sigmet_VolReadDat os = (rd, swp_hdrs, rays) ->
  let run := data_fm_fl os path type s true cmd in
  let y := to_int (Sigmet_VolTypeIdx (Some type) vol_hdr) in
  let num_rays := to_int (Sigmet_VolNumRays vol_hdr) in
  exists fmt num_bins_max,
    Forall2 (fun r line =>
               exists ray, rays_at rays s r y = Some ray /\
                           nan_padded_line fmt num_bins_max ray line)
      (take (length (stdout_of (fst run))) (seqZ 0 num_rays)) (stdout_of (fst run)) /\
    (snd run = Exit EXIT_SUCCESS ->
     length (stdout_of (fst run)) = Z.to_nat num_rays /\
     (forall r ray, 0 <= r < num_rays -> rays_at rays s r y = Some ray ->
                    num_bins (ray_hdr ray) <= num_bins_max) /\
     (exists r ray, 0 <= r < num_rays /\ rays_at rays s r y = Some ray /\
                    num_bins (ray_hdr ray) = num_bins_max)).
Proof.
  intros Hvol Hdat run y num_rays.
  set (Q := fun run : proc data_out unit =>
    exists fmt num_bins_max,
      Forall2 (fun r line =>
                 exists ray, rays_at rays s r y = Some ray /\
                             nan_padded_line fmt num_bins_max ray line)
        (take (length (stdout_of (fst run))) (seqZ 0 num_rays)) (stdout_of (fst run)) /\
      (snd run = Exit EXIT_SUCCESS ->
       length (stdout_of (fst run)) = Z.to_nat num_rays /\
       (forall r ray, 0 <= r < num_rays -> rays_at rays s r y = Some ray ->
                      num_bins (ray_hdr ray) <= num_bins_max) /\
       (exists r ray, 0 <= r < num_rays /\ rays_at rays s r y = Some ray /\
                      num_bins (ray_hdr ray) = num_bins_max))).
  change (Q run).
  assert (Hfail : forall t r, stdout_of t = [] -> r <> Exit EXIT_SUCCESS -> Q (t, r)).
  { intros t r Ht Hr. exists EmptyString, 0. cbn [fst snd]. rewrite Ht.
    split; [constructor|done]. }
  subst run. unfold data_fm_fl.
  rewrite bind_guard. destruct (fopen_ok os); [|by apply Hfail].
  rewrite Hvol, bind_ret.
  rewrite bind_guard_neg. destruct (_ || _); [by apply Hfail|].
  rewrite bind_guard_neg. destruct (_ =? -1); [by apply Hfail|].
  rewrite bind_guard_neg. destruct (_ <=? 0); [by apply Hfail|].
  rewrite bind_guard. destruct (calloc_rays_ok os); [|by apply Hfail].
  rewrite bind_guard_neg. destruct (_ =? 0); [by apply Hfail|].
  rewrite bind_guard. destruct (malloc_dat_buf_ok os); [|by apply Hfail].
  rewrite Hdat.
  rewrite bind_guard_neg. destruct (rd =? 0); [by apply Hfail|].
  fold y num_rays.
  pose proof (num_bins_max_loop_spec (L := data_out) rays s y (seqZ 0 num_rays) 0)
    as [Hmt Hmr].
  destruct (num_bins_max_loop rays s y (seqZ 0 num_rays) 0) as [mt [m| |]] eqn:Hloop;
    cbn [fst snd] in Hmt, Hmr; subst mt; [|done|by apply Hfail].
  change (([] : list (event data_out)), Ret m) with (mret (M := proc data_out) m).
  rewrite bind_ret.
  rewrite bind_guard_neg. destruct (m =? 0) eqn:Hm0; [by apply Hfail|].
  rewrite bind_guard. destruct (calloc_dat_ok os); [|by apply Hfail].
  rewrite bind_guard_opt.
  destruct (Sigmet_DataType_PrintFmt type) as [fmt|]; [|by apply Hfail].
  set (dat := replicate (Z.to_nat m) (float_of_unsigned 0)).
  pose proof (fl_txt_loop_lines type vol_hdr fmt rays s y m (seqZ 0 num_rays) dat)
    as (Hl1 & Hl2 & Hl3).
  destruct (fl_txt_loop type vol_hdr fmt rays s y m (seqZ 0 num_rays) dat)
    as [t [[]| |]] eqn:Htxt; cbn [fst snd] in Hl1, Hl2, Hl3.
  - exists fmt, m. unfold mbind, proc_mbind, proc_bind, exit. cbn [fst snd].
    rewrite app_nil_r. split; [exact Hl1|]. intros _.
    split; [rewrite Hl2 by done; apply length_seqZ|].
    destruct Hmr as (_ & Hub & Hatt). split.
    + intros r ray Hr. apply Hub. apply elem_of_seqZ. lia.
    + destruct Hatt as [->|(r & ray & Hin & Hray & Hnb)]; [done|].
      exists r, ray. apply elem_of_seqZ in Hin. split; [lia|done].
  - exists fmt, m. unfold mbind, proc_mbind, proc_bind. cbn [fst snd].
    split; [exact Hl1|]. intros Hs. by destruct (Hl3 status).
  - exists fmt, m. unfold mbind, proc_mbind, proc_bind. cbn [fst snd].
    split; [exact Hl1|done].
Qed.

(** The total bin count [skt_to_txt] computes in [size_t] is the sum of the
    bin counts when these are counts that fit an [int]. *)
Lemma num_bins_tot_loop_sum (hdrs : list SigmetRaw_RayHdr) :
  Forall (fun h => 0 <= num_bins (wray_hdr h) <= INT_MAX) hdrs ->
  Z.of_nat (length hdrs) <= INT_MAX ->
  num_bins_tot_loop hdrs
  = Z.of_nat (sum_list_with (fun h => Z.to_nat (num_bins (wray_hdr h))) hdrs).
Proof.
  intros Hnb Hlen. unfold num_bins_tot_loop, size_add.
  change INT_MAX with 2147483647 in *.
  change (2 ^ SIZE_BITS) with 18446744073709551616 in *.
  assert (Haux : forall acc,
    0 <= acc -> acc + Z.of_nat (length hdrs) * 2147483647 < 18446744073709551616 ->
    fold_left (fun num_bins_tot h =>
                 (num_bins_tot + num_bins (wray_hdr h)) mod 18446744073709551616)
      hdrs acc
    = acc + Z.of_nat (sum_list_with (fun h => Z.to_nat (num_bins (wray_hdr h))) hdrs)).
  { clear Hlen. induction hdrs as [|h hdrs IH]; intros acc Hacc Hbound.
    - simpl. lia.
    - apply Forall_cons in Hnb as [Hh Hnb]. cbn [fold_left sum_list_with length] in *.
      rewrite Z.mod_small by lia.
      rewrite IH by (try done; lia). lia. }
  rewrite Haux; lia.
Qed.

(** The largest bin count [skt_to_txt] computes bounds every bin count and
    is zero or one of them. *)
Lemma skt_num_bins_max_loop_spec (hdrs : list SigmetRaw_RayHdr) :
  let m := skt_num_bins_max_loop hdrs in
  Forall (fun h => num_bins (wray_hdr h) <= m) hdrs /\
  (m = 0 \/ exists h, h ∈ hdrs /\ num_bins (wray_hdr h) = m).
Proof.
  unfold skt_num_bins_max_loop.
  assert (Haux : forall acc,
    let m := fold_left (fun num_bins_max h =>
                          if num_bins_max <? num_bins (wray_hdr h)
                          then num_bins (wray_hdr h) else num_bins_max) hdrs acc in
    acc <= m /\ Forall (fun h => num_bins (wray_hdr h) <= m) hdrs /\
    (m = acc \/ exists h, h ∈ hdrs /\ num_bins (wray_hdr h) = m)).
  { induction hdrs as [|h hdrs IH]; intros acc m; subst m.
    - simpl. split; [lia|]. split; [constructor|by left].
    - cbn [fold_left].
      set (acc' := if acc <? num_bins (wray_hdr h) then num_bins (wray_hdr h) else acc).
      assert (Hacc : acc <= acc' /\ num_bins (wray_hdr h) <= acc' /\
                     (acc' = acc \/ acc' = num_bins (wray_hdr h))).
      { unfold acc'. destruct (Z.ltb_spec acc (num_bins (wray_hdr h))); lia. }
      destruct (IH acc') as (Hle & Hub & Hatt). split; [lia|]. split.
      + constructor; [lia|done].
      + destruct Hatt as [->|(h' & Hin & Hm)].
        * destruct Hacc as (_ & _ & [->| ->]); [by left|].
          right. exists h. split; [apply list_elem_of_here|done].
        * right. exists h'. split; [by apply list_elem_of_further|done]. }
  destruct (Haux 0) as (_ & Hub & Hatt). cbv zeta. by split.
Qed.

(** The output loop of [skt_to_txt], given the values of all bins, prints
    one line for each ray header: the values of the ray, then NaN up to
    [num_bins_max]. *)
Lemma skt_txt_loop_lines (fmt : string) (num_bins_max : Z)
  (hdrs : list SigmetRaw_RayHdr) :
  forall dat,
    (sum_list_with (fun h => Z.to_nat (num_bins (wray_hdr h))) hdrs <= length dat)%nat ->
    let run := skt_txt_loop fmt num_bins_max hdrs dat in
    snd run = Ret tt /\
    Forall2 (fun h line =>
               exists vals,
                 length vals = Z.to_nat (num_bins (wray_hdr h)) /\
                 line = TxtLine fmt
                          (vals ++ replicate (Z.to_nat num_bins_max
                                              - Z.to_nat (num_bins (wray_hdr h))) NANf))
      hdrs (stdout_of (fst run)).
Proof.
  induction hdrs as [|h hdrs IH]; intros dat Hlen run; subst run.
  - simpl. split; [done|constructor].
  - cbn [skt_txt_loop sum_list_with] in *.
    rewrite decide_True by lia.
    destruct (IH (drop (Z.to_nat (num_bins (wray_hdr h))) dat)) as [IH1 IH2].
    { rewrite length_drop. lia. }
    rewrite snd_bind, stdout_of_bind, stdout_of_emit_stdout. cbn [emit fst snd app].
    split; [exact IH1|]. constructor; [|exact IH2].
    eexists. split; [|reflexivity]. rewrite length_take. lia.
Qed.

(** What [skt_to_txt] reads with its five-element [msg_iov] from a response
    of the daemon: the first three buffers receive the status, the sweep
    count and the ray count. *)
Lemma skt_to_txt_rh_rps (rps : Daemon.SigmetRaw_Rps) :
  exists swp_tm tz,
    scatter [ le_bytes (Z.to_nat sizeof_enum) (Status_val SigmetRawError);
              le_bytes (Z.to_nat sizeof_int) (to_unsigned (-1));
              le_bytes (Z.to_nat sizeof_int) (to_unsigned (-1));
              bytes_of_double NANd;
              replicate (Z.to_nat SIGMET_TZ_STRLEN) 0 ]
      (Daemon.rps_bytes rps)
    = [ le_bytes 4 (Status_val (Daemon.rps_status rps));
        le_bytes 4 (to_unsigned (Daemon.rps_num_swps rps));
        le_bytes 4 (to_unsigned (Daemon.rps_num_rays rps));
        swp_tm; tz ].
Proof. eexists _, _. reflexivity. Qed.

(** Lines that carry the values of a ray and then NaN are padded as the
    claim says when no bin count exceeds [num_bins_max] and absent rays
    have no bins. *)
Lemma lines_nan_padded (fmt : string) (num_bins_max : Z) (hdrs : list SigmetRaw_RayHdr) :
  forall (rays : list (Sigmet_Ray Storage)) (lines : list data_out),
    Forall2 (fun h ray => wray_hdr h = ray_hdr ray) hdrs rays ->
    Forall2 (fun h line =>
               exists vals,
                 length vals = Z.to_nat (num_bins (wray_hdr h)) /\
                 line = TxtLine fmt
                          (vals ++ replicate (Z.to_nat num_bins_max
                                              - Z.to_nat (num_bins (wray_hdr h))) NANf))
      hdrs lines ->
    Forall (fun h => num_bins (wray_hdr h) <= num_bins_max) hdrs ->
    Forall (fun ray => dat ray = None -> Z.to_nat (num_bins (ray_hdr ray)) = 0%nat) rays ->
    Forall2 (nan_padded_line fmt num_bins_max) rays lines.
Proof.
  induction hdrs as [|h hdrs IH]; intros rays lines Hhr Hhl Hmax Habs.
  - apply Forall2_nil_inv_l in Hhr as ->. apply Forall2_nil_inv_l in Hhl as ->.
    constructor.
  - apply Forall2_cons_inv_l in Hhr as (ray & rays' & Hh & Hhr & ->).
    apply Forall2_cons_inv_l in Hhl as (line & lines' & (vals & Hlen & ->) & Hhl & ->).
    apply Forall_cons in Hmax as [Hm Hmax]. apply Forall_cons in Habs as [Ha Habs].
    constructor; [|by apply IH].
    rewrite Hh in *. eexists. split; [reflexivity|]. split; [|split].
    + rewrite length_app, length_replicate. lia.
    + intros Hnone. specialize (Ha Hnone). rewrite Ha in *.
      destruct vals; [|done]. simpl. f_equal. lia.
    + intros b Hb. rewrite lookup_app_r by lia.
      apply lookup_replicate_2. lia.
Qed.

(** Where the socket-reading path pads with NaN.  The daemon holds the
    rays [rays] of the sweep; it answers the request for ray headers with a
    response that reports their number and writes their headers to the
    headers pipe.  [skt_to_txt] cannot tell an absent ray from a ray with
    data: it prints as many values of the data stream as the header of the
    ray has bins, then NaN.  So when every absent ray has a bin count of
    zero, a run that exits with success has printed one line for each ray,
    in order, padded with NaN to the largest bin count of the sweep, and all
    NaN for an absent ray; for an absent ray with bins see
    [skt_to_txt_absent_ray_prints_zeros]. *)
Lemma skt_to_txt_lines (os : skt_env) (path : string) (type : Sigmet_DataType) (s : Z)
  (cmd : string) (rays : list (Sigmet_Ray Storage))
  (rps : Daemon.SigmetRaw_Rps) :
  x_recvmsg (rh_x os) = Some (Daemon.rps_bytes rps) ->
  Daemon.rps_num_rays rps = Z.of_nat (length rays) ->
  Forall2 (fun h ray => wray_hdr h = ray_hdr ray) (rh_fl os) rays ->
  Forall (fun ray => dat ray = None -> num_bins (ray_hdr ray) = 0) rays ->
  Forall (fun ray => 0 <= num_bins (ray_hdr ray) <= INT_MAX) rays ->
  Z.of_nat (length rays) <= INT_MAX ->
  let run := skt_to_txt os path type s cmd in
  snd run = Exit EXIT_SUCCESS ->
  exists fmt num_bins_max,
    Forall2 (nan_padded_line fmt num_bins_max) rays (stdout_of (fst run)) /\
    Forall (fun ray => num_bins (ray_hdr ray) <= num_bins_max) rays /\
    (num_bins_max = 0 \/
     exists ray, ray ∈ rays /\ num_bins (ray_hdr ray) = num_bins_max).
Proof.
  intros Hrecv Hnum Hhdrs Habs Hnb Hlen run.
  set (Q := fun run : proc data_out unit =>
    snd run = Exit EXIT_SUCCESS ->
    exists fmt num_bins_max,
      Forall2 (nan_padded_line fmt num_bins_max) rays (stdout_of (fst run)) /\
      Forall (fun ray => num_bins (ray_hdr ray) <= num_bins_max) rays /\
      (num_bins_max = 0 \/
       exists ray, ray ∈ rays /\ num_bins (ray_hdr ray) = num_bins_max)).
  change (Q run).
  assert (Qfail : forall t msg, Q (t, Exit EXIT_FAILURE) /\ Q ([EvStderr msg], Exit EXIT_FAILURE)).
  { intros t msg. split; intros Hs; discriminate Hs. }
  assert (Qpre : forall t (p : proc data_out unit),
             stdout_of t = [] -> Q p -> Q (t ++ fst p, snd p)).
  { intros t p Ht Hp Hs. cbn [fst snd] in *. rewrite stdout_of_app, Ht. by apply Hp. }
  assert (Hlenh : length (rh_fl os) = length rays) by (by eapply Forall2_length).
  subst run. unfold skt_to_txt. cbv zeta.
  rewrite bind_traced. apply Qpre; [apply stdout_of_DmnConnect|]. cbv beta.
  rewrite bind_guard_neg. destruct (_ =? -1); [apply Qfail; exact []|].
  rewrite bind_guard_opt. destruct (x_pipe (rh_x os)) as [rh_pipe|]; [|apply Qfail; exact []].
  rewrite bind_guard. destruct (x_fdopen_ok (rh_x os)); [|apply Qfail; exact []].
  rewrite bind_guard_opt.
  destruct (x_err_pipe (rh_x os)) as [rh_err_pipe|]; [|apply Qfail; exact []].
  rewrite bind_traced. apply Qpre; [apply stdout_of_Rqst_Send|]. cbv beta.
  rewrite bind_guard_neg. destruct (send_ret _ =? 0); [apply Qfail; exact []|].
  rewrite bind_recvmsg. apply Qpre; [reflexivity|].
  rewrite Hrecv. cbn [fmap option_fmap option_map].
  destruct (skt_to_txt_rh_rps rps) as (b_swp_tm & b_tz & ->).
  rewrite bind_ret.
  rewrite le_value_le_bytes4
    by (unfold to_unsigned; apply Z.mod_pos_bound; done).
  rewrite Hnum, to_int_to_unsigned by lia.
  rewrite bind_emit. apply Qpre; [reflexivity|]. cbv beta.
  rewrite bind_emit. apply Qpre; [reflexivity|]. cbv beta.
  rewrite bind_emit. apply Qpre; [reflexivity|]. cbv beta.
  match goal with
  | |- Q (check_status ?x ?st ?pre ?cl ?msg ≫= ?k) =>
      destruct (bind_check_status x st pre cl msg k) as (t & Ht & ->)
  end.
  destruct (_ =? Status_val SigmetRawOkay); [|apply Qfail; exact EmptyString].
  rewrite bind_emit. apply Qpre; [reflexivity|]. cbv beta.
  rewrite bind_guard_neg. destruct (_ <=? 0); [apply Qfail; exact []|].
  rewrite bind_guard. destruct (calloc_wray_hdrs_ok os); [|apply Qfail; exact []].
  rewrite bind_guard_dec. destruct (decide _) as [_|_]; [|apply Qfail; exact []].
  rewrite Nat2Z.id, <- Hlenh, firstn_all.
  rewrite bind_guard. destruct (calloc_dat_skt_ok os); [|apply Qfail; exact []].
  rewrite bind_traced. apply Qpre; [apply stdout_of_DmnConnect|]. cbv beta.
  rewrite bind_guard_neg. destruct (_ =? -1); [apply Qfail; exact []|].
  rewrite bind_guard_opt. destruct (x_pipe (dat_x os)) as [dat_pipe|]; [|apply Qfail; exact []].
  rewrite bind_guard. destruct (x_fdopen_ok (dat_x os)); [|apply Qfail; exact []].
  rewrite bind_guard_opt.
  destruct (x_err_pipe (dat_x os)) as [dat_err_fd|]; [|apply Qfail; exact []].
  rewrite bind_traced. apply Qpre; [apply stdout_of_Rqst_Send|]. cbv beta.
  rewrite bind_guard_neg. destruct (send_ret _ =? 0); [apply Qfail; exact []|].
  rewrite bind_recvmsg. apply Qpre; [reflexivity|].
  destruct (x_recvmsg (dat_x os)) as [dat_bytes|]; cbn [fmap option_fmap option_map scatter];
    [|apply Qfail; exact []].
  rewrite bind_ret.
  rewrite bind_emit. apply Qpre; [reflexivity|]. cbv beta.
  rewrite bind_emit. apply Qpre; [reflexivity|]. cbv beta.
  rewrite bind_emit. apply Qpre; [reflexivity|]. cbv beta.
  match goal with
  | |- Q (check_status ?x ?st ?pre ?cl ?msg ≫= ?k) =>
      destruct (bind_check_status x st pre cl msg k) as (t' & Ht' & ->)
  end.
  destruct (_ =? Status_val SigmetRawOkay); [|apply Qfail; exact EmptyString].
  rewrite bind_emit. apply Qpre; [reflexivity|]. cbv beta.
  assert (Hnbh : Forall (fun h => 0 <= num_bins (wray_hdr h) <= INT_MAX) (rh_fl os)).
  { clear -Hhdrs Hnb. induction Hhdrs as [|h ray hdrs rays' Hh _ IH]; [constructor|].
    apply Forall_cons in Hnb as [Hr Hnb]. constructor; [by rewrite Hh|by apply IH]. }
  rewrite (num_bins_tot_loop_sum (rh_fl os) Hnbh) by lia.
  rewrite bind_guard_dec. destruct (decide _) as [Htot|_]; [|apply Qfail; exact []].
  rewrite Nat2Z.id.
  rewrite bind_guard_opt.
  destruct (Sigmet_DataType_PrintFmt type) as [fmt|]; [|apply Qfail; exact []].
  set (num_bins_max := skt_num_bins_max_loop (rh_fl os)).
  set (tot := sum_list_with (fun h => Z.to_nat (num_bins (wray_hdr h))) (rh_fl os)) in *.
  destruct (skt_txt_loop_lines fmt num_bins_max (rh_fl os) (take tot (dat_fl os)))
    as [Hret Hlines].
  { rewrite length_take. fold tot. lia. }
  destruct (skt_txt_loop fmt num_bins_max (rh_fl os) (take tot (dat_fl os)))
    as [t'' r''] eqn:Hloop. cbn [fst snd] in Hret, Hlines. subst r''.
  intros _. unfold mbind, proc_mbind, proc_bind, exit. cbn [fst snd].
  rewrite app_nil_r.
  destruct (skt_num_bins_max_loop_spec (rh_fl os)) as [Hub Hatt]. fold num_bins_max in Hub, Hatt.
  exists fmt, num_bins_max. clearbody num_bins_max. split; [|split].
  - apply (lines_nan_padded fmt num_bins_max (rh_fl os)); [done..|].
    eapply Forall_impl; [exact Habs|]. intros ray Hray Hnone.
    by rewrite Hray.
  - clear -Hhdrs Hub. induction Hhdrs as [|h ray hdrs rays' Hh _ IH]; [constructor|].
    apply Forall_cons in Hub as [Hr Hub]. constructor; [by rewrite <- Hh|by apply IH].
  - destruct Hatt as [->|(h & Hin & Hm)]; [by left|]. right.
    clear -Hhdrs Hin Hm. induction Hhdrs as [|h' ray hdrs rays' Hh _ IH].
    + by apply elem_of_nil in Hin.
    + apply elem_of_cons in Hin as [->|Hin].
      * exists ray. split; [apply list_elem_of_here|by rewrite <- Hh].
      * destruct (IH Hin) as (ray' & Hin' & Hm').
        exists ray'. split; [by apply list_elem_of_further|done].
Qed.

End data_facts.

Import Model.


End DataFacts.

(** ** ray_headers.c *)

Module RayHeadersFacts.
Import Platform Posix Sigmet SigmetRaw SigmetRawClient ProcFacts RayHeaders.

Section ray_headers_facts.
Context `{SigmetLib}.

Lemma stdout_of_emit_line (x : ray_hdr_line) : stdout_of (fst (emit (EvStdout x))) = [x].
Proof. reflexivity. Qed.

(** The conversion of one value leaves an array of one value. *)
Lemma StorToVal_one (xhdr : option Sigmet_DataType) (dat : option Storage)
  (vol_hdr : Sigmet_VolHdr) (x : float) :
  exists v, Sigmet_DataTypeStorToVal xhdr 1 [x] dat vol_hdr = [v].
Proof.
  pose proof (StorToVal_length xhdr 1 [x] dat vol_hdr) as Hlen.
  destruct (Sigmet_DataTypeStorToVal xhdr 1 [x] dat vol_hdr) as [|v [|w l]];
    [done| |done].
  by exists v.
Qed.

(** The ray loop of [ray_hdrs_fm_fl] prints, for the rays it reaches, lines
    with the time the claim gives; when it returns it has printed every ray
    of the sweep in order. *)
Lemma fl_ray_loop_lines (vol_hdr : Sigmet_VolHdr) (hav_xhdr : bool)
  (xhdr : option Sigmet_DataType) (rays : list (list (list (Sigmet_Ray Storage))))
  (y y_hxdr s : Z) (swp_tm : double) (rs : list Z) :
  let run := fl_ray_loop vol_hdr hav_xhdr xhdr rays y y_hxdr s swp_tm rs in
  Forall (fun line => ln_s line = s /\
                      ray_time_line vol_hdr hav_xhdr xhdr rays y y_hxdr swp_tm line)
    (stdout_of (fst run)) /\
  (snd run = Ret tt ->
   map (fun line => (ln_s line, ln_r line)) (stdout_of (fst run))
   = map (fun r => (s, r)) rs) /\
  (forall status, snd run <> Exit status).
Proof.
  induction rs as [|r rs IH]; intros run; subst run.
  - simpl. split; [constructor|done].
  - cbn [fl_ray_loop]. unfold rays_get.
    destruct (rays_at rays s r y) as [ray|] eqn:Hray.
    2:{ simpl. split; [constructor|done]. }
    cbn [defined]. rewrite bind_ret.
    destruct IH as (IH1 & IH2 & IH3).
    assert (Hnan : forall x, dadd x (double_of_float NANf) = NANd).
    { intros x. by rewrite double_of_float_NAN, dadd_NAN_r. }
    destruct hav_xhdr eqn:Hx.
    + destruct (rays_at rays s r y_hxdr) as [xray|] eqn:Hxray.
      2:{ simpl. split; [constructor|done]. }
      cbn [defined]. rewrite !bind_ret.
      rewrite stdout_of_bind, snd_bind, stdout_of_emit_line. cbn [emit fst snd app].
      split; [|split; [|done]].
      * constructor; [|done]. split; [done|]. unfold fl_ray_tm.
        destruct (StorToVal_one xhdr (dat xray) vol_hdr NANf) as [v Hv].
        rewrite Hv. exists ray, v. cbn [ln_s ln_r ln_time ln_ray_hdr].
        split; [done|]. split; [done|]. split; [done|]. split.
        -- exists xray. done.
        -- intros ->. by rewrite Hnan.
      * intros Hret. cbn [map ln_s ln_r]. f_equal. by apply IH2.
    + rewrite !bind_ret.
      rewrite stdout_of_bind, snd_bind, stdout_of_emit_line. cbn [emit fst snd app].
      split; [|split; [|done]].
      * constructor; [|done]. split; [done|]. unfold fl_ray_tm.
        exists ray, (float_of_unsigned (tm (ray_hdr ray))).
        cbn [ln_s ln_r ln_time ln_ray_hdr].
        split; [done|]. split; [done|]. split; [done|]. split; [done|].
        intros ->. by rewrite Hnan.
      * intros Hret. cbn [map ln_s ln_r]. f_equal. by apply IH2.
Qed.

(** The sweep loop does so for every sweep it is given. *)
Lemma fl_swp_loop_lines (vol_hdr : Sigmet_VolHdr) (hav_xhdr : bool)
  (xhdr : option Sigmet_DataType) (swp_hdrs : list Sigmet_SwpHdr)
  (rays : list (list (list (Sigmet_Ray Storage)))) (y y_hxdr num_rays : Z)
  (ss : list Z) :
  let run := fl_swp_loop vol_hdr hav_xhdr xhdr swp_hdrs rays y y_hxdr num_rays ss in
  Forall (swp_ray_time_line vol_hdr hav_xhdr xhdr swp_hdrs rays y y_hxdr)
    (stdout_of (fst run)) /\
  (snd run = Ret tt ->
   map (fun line => (ln_s line, ln_r line)) (stdout_of (fst run))
   = s ← ss; map (fun r => (s, r)) (seqZ 0 num_rays)) /\
  (forall status, snd run <> Exit status).
Proof.
  induction ss as [|s ss IH]; intros run; subst run.
  - simpl. split; [constructor|done].
  - cbn [fl_swp_loop]. unfold array_get.
    destruct (array_at swp_hdrs s) as [swp_hdr|] eqn:Hswp.
    2:{ simpl. split; [constructor|done]. }
    cbn [defined]. rewrite bind_ret.
    destruct IH as (IH1 & IH2 & IH3).
    pose proof (fl_ray_loop_lines vol_hdr hav_xhdr xhdr rays y y_hxdr s
                  (Sigmet_DTime (swp_tm swp_hdr)) (seqZ 0 num_rays)) as (R1 & R2 & R3).
    rewrite stdout_of_bind, snd_bind.
    destruct (fl_ray_loop vol_hdr hav_xhdr xhdr rays y y_hxdr s
                (Sigmet_DTime (swp_tm swp_hdr)) (seqZ 0 num_rays)) as [t [[]| |]];
      cbn [fst snd] in *.
    + split; [|split; [|done]].
      * apply Forall_app. split; [|done].
        eapply Forall_impl; [exact R1|]. intros line [Hs Hline].
        exists swp_hdr. by rewrite Hs.
      * intros Hret. rewrite map_app, R2, IH2 by done. reflexivity.
    + by destruct (R3 status).
    + rewrite app_nil_r. split; [|done].
      eapply Forall_impl; [exact R1|]. intros line [Hs Hline].
      exists swp_hdr. by rewrite Hs.
Qed.

(** C7.  For every ray [ray_hdrs_fm_fl] prints, the time it reports is the
    sweep start time plus the time offset of the ray; when the volume has
    the extended-header bit set the offset is what the conversion of the
    first data word of the ray's extended-header data yields, otherwise it
    is the time of the ray header; an offset that is NaN makes the time NaN.
    A run that returns has printed every ray of every requested sweep. *)
Theorem ray_time_is_sweep_time_plus_offset (os : vol_env) (path : string)
  (type : option Sigmet_DataType) (i_swp : Z) (cmd : string) (vol_hdr : Sigmet_VolHdr)
  (rd : Z) (swp_hdrs : list Sigmet_SwpHdr)
  (rays : list (list (list (Sigmet_Ray Storage)))) :
  Sigmet_VolReadVHdr os = Some vol_hdr ->
  Sigmet_VolReadDat os = (rd, swp_hdrs, rays) ->
  let run := ray_hdrs_fm_fl os path type i_swp cmd in
  let hav_xhdr := Sigmet_VolXHdr vol_hdr in
  let y := match type with
           | Some _ => to_unsigned (to_int (Sigmet_VolTypeIdx type vol_hdr))
           | None => if hav_xhdr then 1 else 0
           end in
  let xhdr := Sigmet_DataTypeGet "DB_XHDR" in
  let y_hxdr := to_int (Sigmet_VolTypeIdx xhdr vol_hdr) in
  Forall (swp_ray_time_line vol_hdr hav_xhdr xhdr swp_hdrs rays y y_hxdr)
    (stdout_of (fst run)) /\
  (snd run = Ret tt ->
   map (fun line => (ln_s line, ln_r line)) (stdout_of (fst run))
   = s ← swp_range i_swp (Sigmet_VolNumSwps vol_hdr);
     map (fun r => (s, r)) (seqZ 0 (Sigmet_VolNumRays vol_hdr))).
Proof.
  intros Hvol Hdat run hav_xhdr y xhdr y_hxdr.
  set (Q := fun run : proc ray_hdr_line unit =>
    Forall (swp_ray_time_line vol_hdr hav_xhdr xhdr swp_hdrs rays y y_hxdr)
      (stdout_of (fst run)) /\
    (snd run = Ret tt ->
     map (fun line => (ln_s line, ln_r line)) (stdout_of (fst run))
     = s ← swp_range i_swp (Sigmet_VolNumSwps vol_hdr);
       map (fun r => (s, r)) (seqZ 0 (Sigmet_VolNumRays vol_hdr)))).
  change (Q run).
  assert (Qfail : forall msg, Q ([EvStderr msg], Exit EXIT_FAILURE)).
  { intros msg. split; [constructor|done]. }
  subst run. unfold ray_hdrs_fm_fl.
  rewrite bind_guard. destruct (fopen_ok os); [|apply Qfail].
  rewrite Hvol, bind_ret.
  rewrite bind_guard_neg. destruct (_ && _); [apply Qfail|].
  fold hav_xhdr.
  assert (Hy : forall k : Z -> proc ray_hdr_line unit,
    (forall msg, Q ([EvStderr msg], Exit EXIT_FAILURE)) -> Q (k y) ->
    Q (match type with
       | Some t =>
           if to_int (Sigmet_VolTypeIdx type vol_hdr) =? -1 then
             fprintf_stderr (cmd ++ ": " ++ Sigmet_DataTypeAbbrv t
                               ++ " data type is not in volume at " ++ path ++ "."
                               ++ nl)%string;;
             exit EXIT_FAILURE
           else mret (to_unsigned (to_int (Sigmet_VolTypeIdx type vol_hdr)))
       | None => mret (if hav_xhdr then 1 else 0)
       end ≫= k)).
  { intros k Hf Hk. subst y. destruct type as [t|].
    - destruct (_ =? -1); [rewrite bind_fail; apply Hf|by rewrite bind_ret].
    - by rewrite bind_ret. }
  apply Hy; [exact Qfail|]. clear Hy.
  rewrite bind_guard. destruct (calloc_swp_hdrs_ok os); [|apply Qfail].
  rewrite bind_guard. destruct (calloc_rays_ok os); [|apply Qfail].
  assert (Hx : forall k : unit -> proc ray_hdr_line unit,
    Q (k tt) ->
    Q ((if hav_xhdr then
          (if Sigmet_VolIDatSz os =? 0 then
             fprintf_stderr (cmd ++ ": could not determine size of input data buffer. "
                               ++ err_msg_str os ++ nl)%string;;
             exit EXIT_FAILURE
           else mret tt);;
          (if malloc_dat_buf_ok os then mret tt
           else fprintf_stderr (cmd ++ ": could not allocate memory for "
                                  ++ pretty (Sigmet_VolIDatSz os)
                                  ++ " bytes of data." ++ nl)%string;;
                exit EXIT_FAILURE)
        else mret tt) ≫= k)).
  { intros k Hk. destruct hav_xhdr; [|by rewrite bind_ret].
    rewrite bind_assoc, bind_guard_neg. destruct (_ =? 0); [apply Qfail|].
    rewrite bind_guard. by destruct (malloc_dat_buf_ok os). }
  apply Hx. clear Hx.
  rewrite Hdat.
  rewrite bind_guard_neg. destruct (rd =? 0); [apply Qfail|].
  rewrite bind_guard. destruct (Sigmet_VolTZSet os); [|apply Qfail].
  fold xhdr y_hxdr.
  pose proof (fl_swp_loop_lines vol_hdr hav_xhdr xhdr swp_hdrs rays y y_hxdr
                (Sigmet_VolNumRays vol_hdr)
                (swp_range i_swp (Sigmet_VolNumSwps vol_hdr))) as (L1 & L2 & _).
  split; [exact L1|exact L2].
Qed.

End ray_headers_facts.

Import Model.

Lemma ray_time_is_sweep_time_plus_offset_witness :
  let run := ray_hdrs_fm_fl ray_headers_vol_env0 "vol.raw" (Some "DB_DBZ"%string)
               UINT_MAX "ray_headers" in
  snd run = Ret tt /\
  map ln_time (stdout_of (fst run))
  = [ (1970, 1, 1, 0, 0, Some 1010); (0, 0, 0, 0, 0, Some 0);
      (1970, 1, 1, 0, 0, Some 1020) ] /\
  Forall (swp_ray_time_line vol_hdr0 true (Some "DB_XHDR"%string) swp_hdrs0 rays0 1 0)
    (stdout_of (fst run)).
Proof.
  split; [vm_compute; reflexivity|]. split; [vm_compute; reflexivity|].
  exact (proj1 (ray_time_is_sweep_time_plus_offset ray_headers_vol_env0 "vol.raw"%string
                  (Some "DB_DBZ"%string) UINT_MAX "ray_headers"%string vol_hdr0 1
                  swp_hdrs0 rays0 eq_refl eq_refl)).
Defined.

(** What [ray_hdrs_fm_skt] reads with its four-element [msg_iov] from a
    seven-slot response: the buffer for the time zone receives the bin count
    of the sweep and the first seven bytes of the sweep time. *)
Lemma ray_hdrs_fm_skt_rps `{SigmetLib} (rps : Daemon.SigmetRaw_Rps) :
  length (bytes_of_double (Daemon.rps_swp_tm rps)) = 8%nat ->
  scatter [ le_bytes (Z.to_nat sizeof_enum) (Status_val SigmetRawError);
            le_bytes (Z.to_nat sizeof_int) 0;
            le_bytes (Z.to_nat sizeof_int) 0;
            replicate (Z.to_nat SIGMET_TZ_STRLEN) 0 ]
    (Daemon.rps_bytes rps)
  = [ le_bytes 4 (Status_val (Daemon.rps_status rps));
      le_bytes 4 (to_unsigned (Daemon.rps_num_swps rps));
      le_bytes 4 (to_unsigned (Daemon.rps_num_rays rps));
      le_bytes 4 (to_unsigned (Daemon.rps_num_swp_bins rps))
        ++ take 7 (bytes_of_double (Daemon.rps_swp_tm rps)) ].
Proof.
  intros Hlen. unfold Daemon.rps_bytes, Daemon.iov_bytes. simpl.
  change (Z.to_nat sizeof_double) with 8%nat.
  rewrite (take_ge (bytes_of_double _) 8) by lia.
  rewrite take_app_le by lia.
  rewrite drop_ge by (rewrite length_app; simpl; lia).
  by rewrite app_nil_r.
Qed.

(** C3.  The daemon answers with seven slots; [ray_hdrs_fm_skt] receives the
    answer with four buffers and [skt_to_txt] with five and with one.  On
    the response [rps0], whose time zone is "UTC", [ray_hdrs_fm_skt] reads
    the bin count 5 into its time zone and sets [TZ] to the string made of
    the character 5. *)
Theorem ray_hdrs_fm_skt_misreads_response :
  let run := ray_hdrs_fm_skt (r_skt ray_headers_env0) "/tmp/sock" None UINT_MAX
               "ray_headers" in
  let txt := Data.skt_to_txt data_skt_env0 "/tmp/sock" "DB_DBZ"%string 0 "data" in
  map iov_len (Daemon.rps_iov rps0) = [4; 4; 4; 4; 8; 11; 1] /\
  received (fst run) = [Daemon.rps_bytes rps0] /\
  recvmsg_shapes (fst run) = [[4; 4; 4; 11]] /\
  recvmsg_shapes (fst txt) = [[4; 4; 4; 8; 11]; [4]] /\
  cstring_of_bytes (Daemon.rps_tz rps0) = "UTC"%string /\
  setenv_of (fst run) = [("TZ", String (Ascii.ascii_of_nat 5) EmptyString)]%string.
Proof. vm_compute. repeat split. Qed.

End RayHeadersFacts.

(** ** The [main] functions *)

Module MainFacts.
Import Platform Posix Sigmet SigmetRaw SigmetRawClient.

(** C5, as amended.  A data-type abbreviation the registry does not know is
    rejected by the client itself: [main] of [data] and of [ray_headers]
    prints "<cmd>: <abbrv> is not a Sigmet data type." to standard error and
    exits with [EXIT_FAILURE], which is not zero; these are the whole run, so
    no request is sent and no response is received. *)
Theorem unknown_data_type_rejected_by_client `{SigmetLib} (abbrv : string) :
  Sigmet_DataTypeGet abbrv = None ->
  let cmd (os : main_env) (a0 : string) :=
    match getenv_APP_NAME os with Some app_name => app_name | None => basename os a0 end in
  let rejected {L} (os : main_env) (a0 : string) : proc L Z :=
    ([EvStderr (cmd os a0 ++ ": " ++ abbrv ++ " is not a Sigmet data type." ++ nl)%string],
     Exit EXIT_FAILURE) in
  (forall os a0 s_s path,
     Data.main os [a0; abbrv; s_s; path] = rejected (Data.d_main os) a0) /\
  (forall os a0 s_s path,
     Data.main os [a0; "-b"%string; abbrv; s_s; path] = rejected (Data.d_main os) a0) /\
  (forall os a0 s_swp path,
     RayHeaders.main os [a0; s_swp; abbrv; path] = rejected (RayHeaders.r_main os) a0) /\
  EXIT_FAILURE <> 0.
Proof.
  intros Hget cmd rejected. subst cmd rejected. repeat split.
  - intros os a0 s_s path. unfold Data.main. simpl. rewrite Hget. reflexivity.
  - intros os a0 s_s path. unfold Data.main. simpl. rewrite Hget. reflexivity.
  - intros os a0 s_swp path. unfold RayHeaders.main. simpl. rewrite Hget. reflexivity.
  - discriminate.
Qed.

Lemma unknown_data_type_rejected_by_client_witness :
  Sigmet_DataTypeGet (SigmetLib := Model.model_lib) "BOGUS" = None /\
  Data.main Model.data_env0 ["data"; "BOGUS"; "0"; "/tmp/sock"]%string
  = ([EvStderr ("data: BOGUS is not a Sigmet data type." ++ nl)%string], Exit 1).
Proof.
  assert (Hget : Sigmet_DataTypeGet (SigmetLib := Model.model_lib) "BOGUS" = None)
    by reflexivity.
  split; [exact Hget|].
  exact (proj1 (unknown_data_type_rejected_by_client "BOGUS" Hget)
           Model.data_env0 "data"%string "0"%string "/tmp/sock"%string).
Defined.

(** C5, as stated, fails: with a daemon listening on the socket and an
    abbreviation the registry does not know, the run of [data] receives no
    response at all, so none with status [SigmetRawError], and it sends no
    request. *)
Lemma unknown_data_type_no_daemon_response :
  let run := Data.main Model.data_env0 ["data"; "BOGUS"; "0"; "/tmp/sock"]%string in
  Sigmet_DataTypeGet (SigmetLib := Model.model_lib) "BOGUS" = None /\
  stat Model.main_env0 "/tmp/sock" = Some S_IFSOCK /\
  ~ (exists rps, In rps (received (fst run)) /\
                 le_value (take 4 rps) = Status_val SigmetRawError) /\
  sent_messages (fst run) = [].
Proof.
  repeat split.
  intros (rps & Hin & _). exact Hin.
Qed.

End MainFacts.

(** ** alloc3f.c *)

Module Alloc3fFacts.
Import Alloc3f.

Lemma idx_lt (i j ni nj : Z) :
  0 <= i < ni -> 0 <= j < nj -> 0 <= i * nj + j /\ i * nj + j + 1 <= ni * nj.
Proof. intros Hi Hj. nia. Qed.

Lemma idx_inj (i j i' j' nj : Z) :
  0 <= i -> 0 <= i' -> 0 <= j < nj -> 0 <= j' < nj ->
  i * nj + j = i' * nj + j' -> i = i' /\ j = j'.
Proof.
  intros Hi Hi' Hj Hj' Heq.
  assert (i = i') as ->; [|lia].
  destruct (Z.lt_trichotomy i i') as [Hlt|[->|Hgt]]; [|done|]; nia.
Qed.

Section layout.
Variable SIZE_BITS : Z.
Variable sizeof_ptr : Z.
Variable malloc : Z -> option Z.
Variables num_i num_j num_k : Z.

Hypothesis Hptr : 0 < sizeof_ptr.
Hypothesis Hi : 0 <= num_i.
Hypothesis Hj : 0 <= num_j.
Hypothesis Hk : 0 <= num_k.

(** The sizes the function computes do not wrap. *)
Hypothesis Hfit :
  num_i * sizeof_ptr + num_i * num_j * sizeof_ptr + num_i * num_j * num_k * sizeof_float
  < 2 ^ SIZE_BITS.

Variable block : Z.

Let ptrs_size : Z := num_i * sizeof_ptr + num_i * num_j * sizeof_ptr.
Let size : Z := ptrs_size + num_i * num_j * num_k * sizeof_float.
Let f : Z := block.
Let f_j : Z := block + num_i * sizeof_ptr.
Let f_k : Z := block + ptrs_size.

(** Where [f[i]] and [f[i][j]] are stored, and what is stored there. *)
Let A (i : Z) : Z := f + sizeof_ptr * i.
Let FJ (i : Z) : Z := f_j + sizeof_ptr * (i * num_j).
Let B (i j : Z) : Z := f_j + sizeof_ptr * (i * num_j + j).
Let V (i j : Z) : Z := f_k + sizeof_float * ((i * num_j + j) * num_k).

Lemma size_mul_exact (a b : Z) :
  0 <= a -> 0 <= b -> a * b < 2 ^ SIZE_BITS -> size_mul SIZE_BITS a b = a * b.
Proof. intros Ha Hb Hlt. unfold size_mul. apply Z.mod_small. nia. Qed.

Lemma size_add_exact (a b : Z) :
  0 <= a -> 0 <= b -> a + b < 2 ^ SIZE_BITS -> size_add SIZE_BITS a b = a + b.
Proof. intros Ha Hb Hlt. unfold size_add. apply Z.mod_small. lia. Qed.

Lemma products_fit (i j : Z) :
  0 <= i < num_i -> 0 <= j < num_j ->
  0 <= i * num_j /\ i * num_j < 2 ^ SIZE_BITS /\
  0 <= i * num_j * num_k /\ i * num_j * num_k < 2 ^ SIZE_BITS /\
  0 <= j * num_k /\ j * num_k < 2 ^ SIZE_BITS.
Proof.
  intros Hir Hjr. unfold sizeof_float in Hfit.
  pose proof (idx_lt i j num_i num_j Hir Hjr) as [H0 H1].
  assert (0 <= num_i * num_j * num_k) by nia.
  assert (i * num_j * num_k <= num_i * num_j * num_k) by nia.
  assert (j * num_k <= num_i * num_j * num_k) by nia.
  assert (i * num_j <= num_i * num_j) by nia.
  assert (0 <= num_i * num_j) by nia.
  assert (num_i * num_j <= num_i * num_j * sizeof_ptr) by nia.
  assert (0 <= num_i * sizeof_ptr) by nia.
  repeat split; nia.
Qed.

Lemma slots_in_block (i j : Z) :
  0 <= i < num_i -> 0 <= j < num_j ->
  f <= A i /\ A i + sizeof_ptr <= f_j /\
  f_j <= B i j /\ B i j + sizeof_ptr <= f_k /\ f_k <= block + size.
Proof.
  intros Hir Hjr. subst A B f f_j f_k size ptrs_size. cbv beta.
  pose proof (idx_lt i j num_i num_j Hir Hjr) as [H0 H1].
  unfold sizeof_float. repeat split; nia.
Qed.

Lemma loop_j_spec (i : Z) (js : list Z) :
  0 <= i < num_i ->
  forall mem,
    (forall j, j ∈ js -> 0 <= j < num_j) ->
    mem !! A i = Some (FJ i) ->
    exists mem',
      loop_j SIZE_BITS sizeof_ptr block size f f_k num_j num_k i js mem = Some mem' /\
      (forall a, (forall j, j ∈ js -> a <> B i j) -> mem' !! a = mem !! a) /\
      (forall j, j ∈ js -> mem' !! B i j = Some (V i j)).
Proof.
  intros Hir. induction js as [|j js IH]; intros mem Hjs HA.
  - exists mem. split; [done|]. split; [done|]. intros j Hin. by apply elem_of_nil in Hin.
  - assert (Hjr : 0 <= j < num_j) by (apply Hjs, list_elem_of_here).
    destruct (products_fit i j Hir Hjr) as (P1 & P2 & P3 & P4 & P5 & P6).
    destruct (slots_in_block i j Hir Hjr) as (S1 & S2 & S3 & S4 & S5).
    cbn [loop_j]. unfold load. fold (A i). rewrite HA. cbn [mbind option_bind].
    rewrite (size_mul_exact i num_j), (size_mul_exact (i * num_j) num_k),
      (size_mul_exact j num_k) by lia.
    replace (FJ i + sizeof_ptr * j) with (B i j) by (subst FJ B; cbv beta; lia).
    replace (f_k + sizeof_float * (i * num_j * num_k) + sizeof_float * (j * num_k))
      with (V i j) by (subst V; cbv beta; lia).
    unfold store. rewrite decide_True by lia. cbn [mbind option_bind].
    destruct (IH (<[B i j := V i j]> mem)) as (mem' & E & Hframe & Hval).
    { intros j' Hin. apply Hjs. by apply list_elem_of_further. }
    { rewrite lookup_insert_ne by lia. exact HA. }
    exists mem'. split; [exact E|]. split.
    + intros a Ha. rewrite Hframe.
      * apply lookup_insert_ne. intros Heq. by apply (Ha j); [apply list_elem_of_here|].
      * intros j' Hin. apply Ha. by apply list_elem_of_further.
    + intros j' Hin. destruct (decide (j' ∈ js)) as [Hin'|Hnin]; [by apply Hval|].
      apply elem_of_cons in Hin as [->|Hin]; [|done].
      rewrite Hframe; [apply lookup_insert_eq|].
      intros j' Hin' Heq. apply Hnin.
      assert (j' = j) as ->; [|done].
      assert (0 <= j' < num_j) by (apply Hjs; by apply list_elem_of_further).
      subst B. cbv beta in Heq. nia.
Qed.

Lemma loop_i_spec (idx : list Z) :
  forall mem,
    (forall i, i ∈ idx -> 0 <= i < num_i) ->
    exists mem',
      loop_i SIZE_BITS sizeof_ptr block size f f_j f_k num_j num_k idx mem = Some mem' /\
      (forall a, (forall i, i ∈ idx ->
                    a <> A i /\ forall j, 0 <= j < num_j -> a <> B i j) ->
                 mem' !! a = mem !! a) /\
      (forall i, i ∈ idx ->
         mem' !! A i = Some (FJ i) /\
         forall j, 0 <= j < num_j -> mem' !! B i j = Some (V i j)).
Proof.
  induction idx as [|i idx IH]; intros mem Hidx.
  - exists mem. split; [done|]. split; [done|]. intros i Hin. by apply elem_of_nil in Hin.
  - assert (Hir : 0 <= i < num_i) by (apply Hidx, list_elem_of_here).
    assert (HAB : forall i0 i' j',
               0 <= i0 < num_i -> 0 <= i' < num_i -> 0 <= j' < num_j -> A i0 <> B i' j').
    { intros i0 i' j' Hi0 Hi' Hj'.
      destruct (slots_in_block i' j' Hi' Hj') as (_ & _ & S3 & _).
      assert (A i0 + sizeof_ptr <= f_j); [|lia].
      subst A f f_j. cbv beta. nia. }
    cbn [loop_i].
    assert (Hfj : 0 <= i * num_j /\ i * num_j < 2 ^ SIZE_BITS).
    { unfold sizeof_float in Hfit.
      assert (i * num_j <= num_i * num_j) by nia.
      assert (0 <= num_i * num_j * num_k) by nia.
      assert (0 <= num_i * sizeof_ptr) by nia.
      split; nia. }
    rewrite (size_mul_exact i num_j) by lia. fold (A i) (FJ i).
    unfold store at 1. rewrite decide_True.
    2:{ subst A f size ptrs_size. cbv beta. unfold sizeof_float.
        assert (0 <= num_i * num_j * sizeof_ptr) by nia.
        assert (0 <= num_i * num_j * num_k) by nia. nia. }
    cbn [mbind option_bind].
    destruct (loop_j_spec i (seqZ 0 num_j) Hir (<[A i := FJ i]> mem))
      as (mem1 & E1 & Hframe1 & Hval1).
    { intros j Hin. apply elem_of_seqZ in Hin. lia. }
    { apply lookup_insert_eq. }
    rewrite E1. cbn [mbind option_bind].
    destruct (IH mem1) as (mem2 & E2 & Hframe2 & Hval2).
    { intros i' Hin. apply Hidx. by apply list_elem_of_further. }
    exists mem2. split; [exact E2|]. split.
    + intros a Ha. rewrite Hframe2.
      2:{ intros i' Hin. apply Ha. by apply list_elem_of_further. }
      destruct (Ha i (list_elem_of_here _ _)) as [HaA HaB].
      rewrite Hframe1.
      * by apply lookup_insert_ne.
      * intros j Hin. apply elem_of_seqZ in Hin. apply HaB. lia.
    + intros i' Hin. destruct (decide (i' ∈ idx)) as [Hin'|Hnin]; [by apply Hval2|].
      apply elem_of_cons in Hin as [->|Hin]; [|done]. split.
      * rewrite Hframe2.
        -- rewrite Hframe1; [apply lookup_insert_eq|].
           intros j Hin. apply elem_of_seqZ in Hin. apply HAB; lia.
        -- intros i' Hin'.
           assert (Hi'r : 0 <= i' < num_i) by (apply Hidx; by apply list_elem_of_further).
           split; [|intros j Hjr; by apply HAB].
           intros Heq. apply Hnin. assert (i' = i) as ->; [|done].
           subst A. cbv beta in Heq. nia.
      * intros j Hjr. rewrite Hframe2.
        -- apply Hval1. apply elem_of_seqZ. lia.
        -- intros i' Hin'.
           assert (Hi'r : 0 <= i' < num_i) by (apply Hidx; by apply list_elem_of_further).
           split; [intros Heq; by apply (HAB i' i j)|].
           intros j' Hj'r Heq. apply Hnin.
           assert (i * num_j + j = i' * num_j + j') as Hidxeq.
           { subst B. cbv beta in Heq. nia. }
           destruct (idx_inj i j i' j' num_j) as [-> _]; [lia..|done].
Qed.

(** C10, as amended.  When the sizes the function computes do not wrap,
    [create_3d_float_array] returns null exactly when [malloc] does, and
    otherwise returns the block with its pointers set so that [f[i][j][k]]
    is the float at element offset [(i * num_j + j) * num_k + k] of the data
    region behind the pointers, inside the block; distinct index triples
    have distinct offsets, so these are [num_i * num_j * num_k] floats that
    do not overlap. *)
Theorem create_3d_float_array_layout :
  let r := create_3d_float_array SIZE_BITS sizeof_ptr malloc num_i num_j num_k in
  let ptrs := num_i * sizeof_ptr + num_i * num_j * sizeof_ptr in
  let total := ptrs + num_i * num_j * num_k * sizeof_float in
  (r = Null <-> malloc total = None) /\
  (malloc total = Some block ->
   exists mem,
     r = Array block total mem /\
     forall i j k,
       0 <= i < num_i -> 0 <= j < num_j -> 0 <= k < num_k ->
       let offset := (i * num_j + j) * num_k + k in
       elem_addr sizeof_ptr mem block i j k
       = Some (block + ptrs + sizeof_float * offset) /\
       0 <= offset < num_i * num_j * num_k /\
       block + ptrs + sizeof_float * offset + sizeof_float <= block + total) /\
  (forall i j k i' j' k',
     0 <= i < num_i -> 0 <= j < num_j -> 0 <= k < num_k ->
     0 <= i' < num_i -> 0 <= j' < num_j -> 0 <= k' < num_k ->
     (i * num_j + j) * num_k + k = (i' * num_j + j') * num_k + k' ->
     i = i' /\ j = j' /\ k = k').
Proof.
  intros r ptrs total. subst r.
  assert (Hnn : 0 <= num_i * num_j /\ 0 <= num_i * num_j * num_k /\
                0 <= num_i * sizeof_ptr /\ 0 <= num_i * num_j * sizeof_ptr) by nia.
  destruct Hnn as (N1 & N2 & N3 & N4). pose proof Hfit as Hfit'.
  unfold sizeof_float in Hfit'.
  assert (Hsize : size_add SIZE_BITS
            (size_add SIZE_BITS (size_mul SIZE_BITS num_i sizeof_ptr)
               (size_mul SIZE_BITS (size_mul SIZE_BITS num_i num_j) sizeof_ptr))
            (size_mul SIZE_BITS (size_mul SIZE_BITS (size_mul SIZE_BITS num_i num_j) num_k)
               sizeof_float) = total
          /\ size_add SIZE_BITS (size_mul SIZE_BITS num_i sizeof_ptr)
               (size_mul SIZE_BITS (size_mul SIZE_BITS num_i num_j) sizeof_ptr) = ptrs
          /\ size_mul SIZE_BITS num_i sizeof_ptr = num_i * sizeof_ptr).
  { assert (E1 : size_mul SIZE_BITS num_i sizeof_ptr = num_i * sizeof_ptr)
      by (apply size_mul_exact; nia).
    assert (E2 : size_mul SIZE_BITS num_i num_j = num_i * num_j)
      by (apply size_mul_exact; nia).
    assert (E3 : size_mul SIZE_BITS (num_i * num_j) sizeof_ptr = num_i * num_j * sizeof_ptr)
      by (apply size_mul_exact; nia).
    assert (E4 : size_mul SIZE_BITS (num_i * num_j) num_k = num_i * num_j * num_k)
      by (apply size_mul_exact; nia).
    assert (E5 : size_mul SIZE_BITS (num_i * num_j * num_k) sizeof_float
                 = num_i * num_j * num_k * sizeof_float)
      by (apply size_mul_exact; unfold sizeof_float; nia).
    rewrite E1, E2, E3, E4, E5.
    rewrite (size_add_exact (num_i * sizeof_ptr)) by nia.
    split; [|done]. apply size_add_exact; unfold sizeof_float; nia. }
  destruct Hsize as (Etotal & Eptrs & Efj).
  unfold create_3d_float_array. rewrite Etotal, Eptrs, Efj.
  split; [|split].
  - destruct (malloc total) as [b|]; [|done].
    split; [|done]. by destruct (loop_i _ _ _ _ _ _ _ _ _ _ _).
  - intros Hm. rewrite Hm.
    destruct (loop_i_spec (seqZ 0 num_i) ∅) as (mem & E & _ & Hval).
    { intros i Hin. apply elem_of_seqZ in Hin. lia. }
    subst size ptrs_size f f_j f_k. fold ptrs total in E. rewrite E.
    exists mem. split; [done|]. intros i j k Hir Hjr Hkr.
    set (offset := (i * num_j + j) * num_k + k).
    destruct (Hval i) as [HA HB]; [apply elem_of_seqZ; lia|].
    specialize (HB j Hjr). unfold elem_addr, load.
    subst A FJ B V. cbv beta in HA, HB. rewrite HA. cbn [mbind option_bind].
    replace (block + num_i * sizeof_ptr + sizeof_ptr * (i * num_j) + sizeof_ptr * j)
      with (block + num_i * sizeof_ptr + sizeof_ptr * (i * num_j + j)) by lia.
    rewrite HB. cbn [mbind option_bind].
    pose proof (idx_lt i j num_i num_j Hir Hjr) as [I0 I1].
    assert (Hoff : 0 <= offset < num_i * num_j * num_k) by (subst offset; nia).
    split; [f_equal; subst offset; fold ptrs; lia|]. split; [exact Hoff|].
    subst total. unfold sizeof_float. lia.
  - intros i j k i' j' k' Hir Hjr Hkr Hi'r Hj'r Hk'r Heq.
    pose proof (idx_lt i j num_i num_j Hir Hjr) as [I0 _].
    pose proof (idx_lt i' j' num_i num_j Hi'r Hj'r) as [I0' _].
    destruct (idx_inj (i * num_j + j) k (i' * num_j + j') k' num_k) as [Hij ->];
      [lia..|].
    destruct (idx_inj i j i' j' num_j) as [-> ->]; [lia..|done].
Qed.

End layout.

Lemma create_3d_float_array_layout_witness :
  let malloc := fun _ : Z => Some 4096 in
  exists mem,
    create_3d_float_array 64 8 malloc 2 3 4 = Array 4096 160 mem /\
    elem_addr 8 mem 4096 1 2 3 = Some (4096 + 64 + 4 * 23).
Proof.
  destruct (create_3d_float_array_layout 64 8 (fun _ => Some 4096) 2 3 4
              ltac:(lia) ltac:(lia) ltac:(lia) ltac:(lia) ltac:(vm_compute; reflexivity) 4096)
    as (_ & Hlayout & _).
  destruct (Hlayout eq_refl) as (mem & Hr & Helem).
  exists mem. split; [exact Hr|].
  destruct (Helem 1 2 3 ltac:(lia) ltac:(lia) ltac:(lia)) as [He _]. exact He.
Defined.

(** C10, as stated, fails.  With a 64-bit [size_t], eight-byte pointers and
    dimensions 1, 1 and 2^62 the size of the data wraps to zero: the function
    asks [malloc] for the 16 bytes of its two pointers, and [f[0][0]] points
    at the end of that block, so the float [f[0][0][1]] it returns the
    address of lies outside the block. *)
Lemma create_3d_float_array_wraps :
  let malloc := fun sz : Z => if sz =? 16 then Some 4096 else None in
  exists mem,
    create_3d_float_array 64 8 malloc 1 1 (2 ^ 62) = Array 4096 16 mem /\
    elem_addr 8 mem 4096 0 0 1 = Some 4116 /\
    ~ (4116 + sizeof_float <= 4096 + 16).
Proof.
  eexists. split; [vm_compute; reflexivity|]. split; [vm_compute; reflexivity|].
  vm_compute. intros H. apply H. reflexivity.
Qed.

End Alloc3fFacts.

(** ** Runs on the small instance *)

Module ModelRuns.
Import Platform Posix Sigmet SigmetRaw SigmetRawClient Model.

Example data_txt_fm_fl :
  stdout_of (fst (Data.main data_env0 ["data"; "DB_DBZ"; "0"; "vol.raw"]%string))
  = [ Data.TxtLine "%6.1f " [Some 7; Some 8; Some 9];
      Data.TxtLine "%6.1f " [None; None; None];
      Data.TxtLine "%6.1f " [Some 1; Some 2; None] ].
Proof. vm_compute. reflexivity. Qed.

Example data_txt_fm_skt :
  stdout_of (fst (Data.main data_env0 ["data"; "DB_DBZ"; "0"; "/tmp/sock"]%string))
  = [ Data.TxtLine "%6.1f " [Some 7; Some 8; Some 9];
      Data.TxtLine "%6.1f " [None; None; None];
      Data.TxtLine "%6.1f " [Some 1; Some 2; None] ].
Proof. vm_compute. reflexivity. Qed.

Example ray_headers_fm_fl :
  map RayHeaders.ln_time
    (stdout_of (fst (RayHeaders.main ray_headers_env0 ["ray_headers"; "all"; "vol.raw"]%string)))
  = [ (1970, 1, 1, 0, 0, Some 1010); (0, 0, 0, 0, 0, Some 0);
      (1970, 1, 1, 0, 0, Some 1020) ].
Proof. vm_compute. reflexivity. Qed.

End ModelRuns.

(** ** copy_bits.c: the bytes of the destination *)

Module CopyBitsValueFacts.
Import CopyBits CopyBitsFacts.

Lemma div8_lt (p : Z) (len : nat) :
  0 <= p -> p < 8 * Z.of_nat len -> (Z.to_nat (p / 8) < len)%nat.
Proof.
  intros Hp Hlt. apply Nat2Z.inj_lt. rewrite Z2Nat.id by (apply Z.div_pos; lia).
  apply Z.div_lt_upper_bound; lia.
Qed.

Lemma div8_ge (p : Z) (len : nat) :
  0 <= p -> 8 * Z.of_nat len <= p -> (len <= Z.to_nat (p / 8))%nat.
Proof.
  intros Hp Hge. apply Nat2Z.inj_le. rewrite Z2Nat.id by (apply Z.div_pos; lia).
  apply Z.div_le_lower_bound; lia.
Qed.

Lemma ceil8_bounds (n : Z) : 0 <= n -> n <= 8 * ((n + 7) / 8) < n + 8.
Proof.
  intros Hn. pose proof (Z.div_mod (n + 7) 8 ltac:(lia)).
  pose proof (Z.mod_pos_bound (n + 7) 8 ltac:(lia)). lia.
Qed.

(** [n + 7] does not wrap when [n] bits fit a buffer whose bit offsets are
    representable. *)
Lemma size_add_7 (SIZE_BITS n len : Z) :
  3 <= SIZE_BITS -> 0 <= n -> n <= 8 * len -> 8 * len <= SIZE_MAX SIZE_BITS ->
  size_add SIZE_BITS n 7 = n + 7.
Proof.
  intros Hw Hn Hlen Hmax. unfold size_add. apply Z.mod_small. unfold SIZE_MAX in Hmax.
  assert (H8 : 2 ^ SIZE_BITS = 8 * 2 ^ (SIZE_BITS - 3)).
  { change 8 with (2 ^ 3). rewrite <- Z.pow_add_r by lia. f_equal. lia. }
  lia.
Qed.

Lemma length_memset0 (dest dest0 : list Z) (len : Z) :
  memset0 dest len = Some dest0 -> length dest0 = length dest.
Proof.
  unfold memset0. intros Hm. case_decide; [|done]. injection Hm as <-.
  rewrite length_app, length_replicate, length_drop. lia.
Qed.

(** [memset] leaves the bits behind the bytes it clears. *)
Lemma bit_of_memset0_high (dest dest0 : list Z) (len p : Z) :
  memset0 dest len = Some dest0 -> 0 <= len -> 8 * len <= p ->
  bit_of dest0 p = bit_of dest p.
Proof.
  unfold memset0. intros Hm Hlen Hp. case_decide as Hle; [|done].
  injection Hm as <-. unfold bit_of.
  assert (Hj : (Z.to_nat len <= Z.to_nat (p / 8))%nat).
  { apply Z2Nat.inj_le; [lia|apply Z.div_pos; lia|].
    apply Z.div_le_lower_bound; lia. }
  rewrite lookup_app_r by (rewrite length_replicate; lia).
  rewrite length_replicate, lookup_drop.
  replace (Z.to_nat len + (Z.to_nat (p / 8) - Z.to_nat len))%nat
    with (Z.to_nat (p / 8)) by lia.
  reflexivity.
Qed.

(** Every bit of the destination after the call. *)
Lemma copy_bits_packed_right_bits (SIZE_BITS : Z) (src dest : list Z) (o n : Z) :
  3 <= SIZE_BITS -> 0 <= o -> 0 <= n ->
  o + n <= 8 * Z.of_nat (length src) ->
  8 * Z.of_nat (length src) <= SIZE_MAX SIZE_BITS ->
  (n + 7) / 8 <= Z.of_nat (length dest) ->
  exists dest0 dest',
    memset0 dest ((n + 7) / 8) = Some dest0 /\
    copy_loop SIZE_BITS src o (Z.to_nat n) 0 dest0 = Some dest' /\
    copy_bits_packed_right SIZE_BITS src dest o n = Some dest' /\
    length dest' = length dest /\
    forall p, 0 <= p ->
      bit_of dest' p =
        if decide (p < n) then bit_of src (o + p)
        else if decide (p < 8 * ((n + 7) / 8)) then Some false
             else bit_of dest p.
Proof.
  intros Hw Ho Hn Hsrc Hmax Hdest.
  pose proof (ceil8_bounds n Hn) as Hceil.
  unfold copy_bits_packed_right.
  rewrite (size_add_7 SIZE_BITS n (Z.of_nat (length src))) by lia.
  destruct (memset0 dest ((n + 7) / 8)) as [dest0|] eqn:Hm; simpl.
  2:{ unfold memset0 in Hm. by rewrite decide_True in Hm. }
  pose proof (length_memset0 _ _ _ Hm) as Hlen0.
  destruct (copy_loop_spec SIZE_BITS src o Ho Hmax (Z.to_nat n) 0 dest0)
    as (dest' & E & L & P); [lia..|].
  exists dest0, dest'. split; [done|]. split; [exact E|]. split; [exact E|].
  split; [congruence|].
  intros p Hp. rewrite P by lia.
  destruct (decide (p < n)) as [Hlt|Hge].
  - rewrite decide_True by lia.
    destruct (bit_of_memset0 dest dest0 _ p Hm) as [_ ->]; [lia|].
    simpl. by destruct (bit_of src (o + p)).
  - rewrite decide_False by lia.
    destruct (decide (p < 8 * ((n + 7) / 8))) as [Hlt8|Hge8].
    + by destruct (bit_of_memset0 dest dest0 _ p Hm) as [_ ->]; [lia|].
    + apply (bit_of_memset0_high dest dest0 ((n + 7) / 8)); [done| |lia].
      apply Z.div_pos; lia.
Qed.

(** One iteration writes one byte, in front of index [m] when bit [i] is. *)
Lemma copy_bit_frame (SIZE_BITS : Z) (src : list Z) (o i : Z) (dest dest' : list Z)
  (m : nat) :
  copy_bit SIZE_BITS src o i dest = Some dest' ->
  (Z.to_nat (i / 8) < m)%nat ->
  length dest' = length dest /\ drop m dest' = drop m dest /\
  (Forall (fun b => 0 <= b < 256) (take m dest) ->
   Forall (fun b => 0 <= b < 256) (take m dest')).
Proof.
  unfold copy_bit. intros Hc Hm.
  destruct (src !! Z.to_nat (size_add SIZE_BITS o i / 8)) as [s|]; [|done].
  destruct (dest !! Z.to_nat (i / 8)) as [d|]; [|done].
  simpl in Hc. injection Hc as <-.
  split; [apply length_insert|]. split; [by apply drop_insert_lt|].
  intros Hb. rewrite take_insert_lt by done. apply Forall_insert; [done|].
  unfold to_uint8. apply Z.mod_pos_bound. lia.
Qed.

Lemma copy_loop_frame (SIZE_BITS : Z) (src : list Z) (o : Z) (m : nat) (k : nat) :
  forall (i : Z) (dest dest' : list Z),
    copy_loop SIZE_BITS src o k i dest = Some dest' ->
    0 <= i -> i + Z.of_nat k <= 8 * Z.of_nat m ->
    length dest' = length dest /\ drop m dest' = drop m dest /\
    (Forall (fun b => 0 <= b < 256) (take m dest) ->
     Forall (fun b => 0 <= b < 256) (take m dest')).
Proof.
  induction k as [|k IH]; intros i dest dest' Hc Hi Hk.
  - injection Hc as <-. done.
  - cbn [copy_loop] in Hc.
    destruct (copy_bit SIZE_BITS src o i dest) as [d1|] eqn:E1; [|done].
    simpl in Hc.
    destruct (copy_bit_frame _ _ _ _ _ _ m E1) as (L1 & D1 & B1).
    { apply div8_lt; lia. }
    destruct (IH (i + 1) d1 dest' Hc) as (L2 & D2 & B2); [lia..|].
    split; [congruence|]. split; [congruence|]. auto.
Qed.

(** The source byte each iteration reads is inside the source. *)
Lemma copy_loop_reads (SIZE_BITS : Z) (src : list Z) (o : Z) (k : nat) :
  forall (i : Z) (dest dest' : list Z),
    copy_loop SIZE_BITS src o k i dest = Some dest' ->
    forall j, i <= j < i + Z.of_nat k ->
      is_Some (src !! Z.to_nat (size_add SIZE_BITS o j / 8)).
Proof.
  induction k as [|k IH]; intros i dest dest' Hc j Hj; [lia|].
  cbn [copy_loop] in Hc.
  destruct (copy_bit SIZE_BITS src o i dest) as [d1|] eqn:E1; [|done].
  simpl in Hc. destruct (decide (j = i)) as [->|Hne].
  - unfold copy_bit in E1.
    destruct (src !! Z.to_nat (size_add SIZE_BITS o i / 8)); [by eexists|done].
  - apply (IH (i + 1) d1 dest' Hc). lia.
Qed.

(** Bit [p] of the integer whose little-endian representation the bytes
    are. *)
Lemma testbit_le_value (bytes : list Z) :
  Forall (fun b => 0 <= b < 256) bytes ->
  forall p, 0 <= p ->
    Z.testbit (Platform.le_value bytes) p = default false (bit_of bytes p).
Proof.
  induction 1 as [|b bytes Hb Hbytes IH]; intros p Hp.
  - simpl. apply Z.bits_0.
  - cbn [Platform.le_value]. set (v := Platform.le_value bytes) in *.
    destruct (decide (p < 8)) as [Hlt|Hge].
    + rewrite <- (Z.mod_pow2_bits_low (b + 256 * v) 8 p) by lia.
      replace ((b + 256 * v) mod 2 ^ 8) with b.
      2:{ change (2 ^ 8) with 256. rewrite (Z.mul_comm 256 v), Z.mod_add by lia.
          symmetry. apply Z.mod_small. lia. }
      unfold bit_of. rewrite Z.div_small by lia. simpl.
      rewrite Z.mod_small by lia. reflexivity.
    + replace p with ((p - 8) + 8) at 1 by lia.
      rewrite <- Z.div_pow2_bits by lia.
      replace ((b + 256 * v) / 2 ^ 8) with v.
      2:{ change (2 ^ 8) with 256. rewrite (Z.mul_comm 256 v), Z.div_add by lia.
          rewrite Z.div_small by lia. reflexivity. }
      rewrite IH by lia. unfold bit_of.
      replace (p / 8) with ((p - 8) / 8 + 1).
      2:{ replace p with ((p - 8) + 1 * 8) at 2 by lia.
          rewrite Z.div_add by lia. reflexivity. }
      replace (p mod 8) with ((p - 8) mod 8).
      2:{ replace p with ((p - 8) + 1 * 8) at 2 by lia.
          rewrite Z.mod_add by lia. reflexivity. }
      rewrite Z2Nat.inj_add by (try apply Z.div_pos; lia).
      rewrite Nat.add_comm. reflexivity.
Qed.

Lemma bit_of_take (l : list Z) (m : nat) (p : Z) :
  0 <= p ->
  bit_of (take m l) p = if decide (p < 8 * Z.of_nat m) then bit_of l p else None.
Proof.
  intros Hp. unfold bit_of. destruct (decide (p < 8 * Z.of_nat m)) as [Hlt|Hge].
  - rewrite lookup_take_lt by (apply div8_lt; lia). reflexivity.
  - rewrite lookup_take_ge by (apply div8_ge; lia). reflexivity.
Qed.

(** Arrays of bytes with the same bits are equal. *)
Lemma bytes_bits_ext (l1 l2 : list Z) :
  length l1 = length l2 ->
  Forall (fun b => 0 <= b < 256) l1 -> Forall (fun b => 0 <= b < 256) l2 ->
  (forall p, 0 <= p -> bit_of l1 p = bit_of l2 p) ->
  l1 = l2.
Proof.
  intros Hlen H1 H2 Hbits. apply list_eq. intros i.
  destruct (l1 !! i) as [x|] eqn:Ex.
  - destruct (lookup_lt_is_Some_2 l2 i) as [y Ey].
    { rewrite <- Hlen. by eapply lookup_lt_Some. }
    rewrite Ey. f_equal.
    pose proof (proj1 (Forall_lookup _ _) H1 i x Ex) as Hx.
    pose proof (proj1 (Forall_lookup _ _) H2 i y Ey) as Hy.
    cbv beta in Hx, Hy.
    apply Z.bits_inj'. intros q Hq.
    destruct (decide (q < 8)) as [Hlt|Hge].
    + assert (Hpos : 0 <= 8 * Z.of_nat i + q) by lia.
      specialize (Hbits (8 * Z.of_nat i + q) Hpos). unfold bit_of in Hbits.
      replace ((8 * Z.of_nat i + q) / 8) with (Z.of_nat i) in Hbits.
      2:{ rewrite (Z.mul_comm 8), Z.add_comm, Z.div_add by lia.
          rewrite Z.div_small by lia. reflexivity. }
      replace ((8 * Z.of_nat i + q) mod 8) with q in Hbits.
      2:{ rewrite (Z.mul_comm 8), Z.add_comm, Z.mod_add by lia.
          symmetry. apply Z.mod_small. lia. }
      rewrite Nat2Z.id, Ex, Ey in Hbits. simpl in Hbits. congruence.
    + rewrite <- (Z.mod_small x (2 ^ 8)), <- (Z.mod_small y (2 ^ 8))
        by (change (2 ^ 8) with 256; lia).
      rewrite !Z.mod_pow2_bits_high by lia. reflexivity.
  - symmetry. apply lookup_ge_None. rewrite <- Hlen. by apply lookup_ge_None.
Qed.

(** X1.  The call writes only the [ceil(n/8)] bytes it is documented to need:
    whenever it is defined, the destination keeps its length and every
    byte behind the first [ceil(n/8)]. *)
Theorem copy_bits_packed_right_frame (SIZE_BITS : Z) (src dest dest' : list Z) (o n : Z) :
  0 <= SIZE_BITS -> 0 <= n ->
  copy_bits_packed_right SIZE_BITS src dest o n = Some dest' ->
  length dest' = length dest /\
  drop (Z.to_nat ((n + 7) / 8)) dest' = drop (Z.to_nat ((n + 7) / 8)) dest.
Proof.
  intros Hw Hn Hc. unfold copy_bits_packed_right in Hc.
  set (len0 := size_add SIZE_BITS n 7 / 8) in *.
  assert (Hlen0 : 0 <= len0 <= (n + 7) / 8).
  { subst len0. unfold size_add.
    pose proof (Z.pow_pos_nonneg 2 SIZE_BITS ltac:(lia) Hw).
    pose proof (Z.mod_pos_bound (n + 7) (2 ^ SIZE_BITS) ltac:(lia)).
    pose proof (Z.mod_le (n + 7) (2 ^ SIZE_BITS) ltac:(lia) ltac:(lia)).
    split; [apply Z.div_pos; lia|apply Z.div_le_mono; lia]. }
  destruct (memset0 dest len0) as [dest0|] eqn:Hm; [|done]. simpl in Hc.
  pose proof (length_memset0 _ _ _ Hm) as L0.
  destruct (copy_loop_frame SIZE_BITS src o (Z.to_nat ((n + 7) / 8)) (Z.to_nat n)
              0 dest0 dest' Hc) as (L & D & _); [lia| |].
  { pose proof (ceil8_bounds n Hn). rewrite !Z2Nat.id by lia. lia. }
  split; [congruence|]. rewrite D.
  unfold memset0 in Hm. case_decide as Hle; [|done]. injection Hm as <-.
  rewrite drop_app_ge by (rewrite length_replicate; lia).
  rewrite length_replicate, drop_drop. f_equal. lia.
Qed.

Lemma copy_bits_packed_right_frame_witness :
  length [150; 7; 255] = length [255; 255; 255] /\
  drop (Z.to_nat ((11 + 7) / 8)) [150; 7; 255]
  = drop (Z.to_nat ((11 + 7) / 8)) [255; 255; 255].
Proof.
  apply (copy_bits_packed_right_frame 64 [181; 60] [255; 255; 255] [150; 7; 255] 3 11);
    [vm_compute; discriminate|vm_compute; discriminate|reflexivity].
Defined.

(** X2.  When the offsets do not wrap, the call is defined exactly when the
    source holds [o + n] bits and the destination [ceil(n/8)] bytes: with
    less of either it reads or writes outside its arguments. *)
Theorem copy_bits_packed_right_defined (SIZE_BITS : Z) (src dest : list Z) (o n : Z) :
  3 <= SIZE_BITS -> 0 <= o -> 0 < n ->
  o + n <= 2 ^ SIZE_BITS -> n + 7 < 2 ^ SIZE_BITS ->
  8 * Z.of_nat (length src) <= SIZE_MAX SIZE_BITS ->
  is_Some (copy_bits_packed_right SIZE_BITS src dest o n) <->
  o + n <= 8 * Z.of_nat (length src) /\ (n + 7) / 8 <= Z.of_nat (length dest).
Proof.
  intros Hw Ho Hn Hon Hn7 Hmax. split.
  - intros [dest' Hc]. unfold copy_bits_packed_right in Hc.
    assert (Hadd : size_add SIZE_BITS n 7 = n + 7).
    { unfold size_add. apply Z.mod_small. lia. }
    rewrite Hadd in Hc.
    destruct (memset0 dest ((n + 7) / 8)) as [dest0|] eqn:Hm; [|done].
    simpl in Hc. split.
    + pose proof (copy_loop_reads _ _ _ _ _ _ _ Hc (n - 1) ltac:(lia)) as Hr.
      apply lookup_lt_is_Some in Hr.
      assert (Hs : size_add SIZE_BITS o (n - 1) = o + (n - 1)).
      { unfold size_add. apply Z.mod_small. lia. }
      rewrite Hs in Hr.
      destruct (decide (o + n <= 8 * Z.of_nat (length src))) as [|Hgt]; [done|].
      exfalso. pose proof (div8_ge (o + (n - 1)) (length src) ltac:(lia) ltac:(lia)).
      lia.
    + unfold memset0 in Hm. by case_decide.
  - intros [Hsrc Hdest].
    destruct (copy_bits_packed_right_bits SIZE_BITS src dest o n)
      as (dest0 & dest' & _ & _ & E & _); [lia..|].
    by exists dest'.
Qed.

Lemma copy_bits_packed_right_defined_witness :
  copy_bits_packed_right 64 [181; 60] [255; 255; 255] 6 11 = None.
Proof.
  destruct (copy_bits_packed_right 64 [181; 60] [255; 255; 255] 6 11) as [d|] eqn:E;
    [|reflexivity].
  exfalso.
  assert (Hsome : is_Some (copy_bits_packed_right 64 [181; 60] [255; 255; 255] 6 11))
    by (rewrite E; by eexists).
  apply (copy_bits_packed_right_defined 64 [181; 60] [255; 255; 255] 6 11) in Hsome;
    [|vm_compute; discriminate..].
  destruct Hsome as [Hsrc _]. vm_compute in Hsrc. apply Hsrc. reflexivity.
Defined.

(** X3.  Read as little-endian integers, the first [ceil(n/8)] bytes of the
    destination are the source shifted right by [o] bits and cut to [n]
    bits, whatever the destination held before. *)
Theorem copy_bits_packed_right_value (SIZE_BITS : Z) (src dest : list Z) (o n : Z) :
  3 <= SIZE_BITS -> 0 <= o -> 0 <= n ->
  o + n <= 8 * Z.of_nat (length src) ->
  8 * Z.of_nat (length src) <= SIZE_MAX SIZE_BITS ->
  (n + 7) / 8 <= Z.of_nat (length dest) ->
  Forall (fun b => 0 <= b < 256) src ->
  exists dest',
    copy_bits_packed_right SIZE_BITS src dest o n = Some dest' /\
    Platform.le_value (take (Z.to_nat ((n + 7) / 8)) dest')
    = (Platform.le_value src / 2 ^ o) mod 2 ^ n.
Proof.
  intros Hw Ho Hn Hsrc Hmax Hdest Hbytes.
  pose proof (ceil8_bounds n Hn) as Hceil.
  assert (Hm0 : 0 <= (n + 7) / 8) by (apply Z.div_pos; lia).
  destruct (copy_bits_packed_right_bits SIZE_BITS src dest o n)
    as (dest0 & dest' & Hm & Hl & E & L & P); [lia..|].
  exists dest'. split; [exact E|].
  set (m := Z.to_nat ((n + 7) / 8)).
  assert (Hrange : Forall (fun b => 0 <= b < 256) (take m dest')).
  { destruct (copy_loop_frame SIZE_BITS src o m (Z.to_nat n) 0 dest0 dest' Hl)
      as (_ & _ & B); [lia|subst m; lia|].
    apply B. unfold memset0 in Hm. case_decide; [|done]. injection Hm as <-.
    fold m. rewrite take_app_le by (rewrite length_replicate; lia).
    rewrite take_replicate. apply Forall_replicate. lia. }
  apply Z.bits_inj'. intros p Hp.
  rewrite (testbit_le_value _ Hrange) by done.
  rewrite bit_of_take by done. subst m. rewrite Z2Nat.id by lia.
  destruct (decide (p < n)) as [Hlt|Hge].
  - rewrite decide_True by lia. rewrite P by done. rewrite decide_True by done.
    rewrite Z.mod_pow2_bits_low by lia. rewrite Z.div_pow2_bits by lia.
    rewrite (testbit_le_value _ Hbytes) by lia. by rewrite (Z.add_comm p o).
  - rewrite Z.mod_pow2_bits_high by lia.
    destruct (decide (p < 8 * ((n + 7) / 8))); [|done].
    rewrite P by done. rewrite decide_False by done. by rewrite decide_True.
Qed.

Lemma copy_bits_packed_right_value_witness :
  exists dest',
    copy_bits_packed_right 64 [181; 60] [255; 255; 255] 3 11 = Some dest' /\
    Platform.le_value (take 2 dest') = (15541 / 2 ^ 3) mod 2 ^ 11.
Proof.
  destruct (copy_bits_packed_right_value 64 [181; 60] [255; 255; 255] 3 11)
    as (dest' & E & V); [vm_compute; discriminate..| |].
  { repeat constructor; vm_compute; discriminate. }
  exists dest'. split; [exact E|exact V].
Defined.

(** X4.  With a bit offset and a bit count that are whole bytes the call is
    [memcpy]: it stores bytes [a .. a + b) of the source in the first [b]
    bytes of the destination and leaves the rest. *)
Theorem copy_bits_packed_right_aligned (SIZE_BITS : Z) (src dest : list Z) (a b : nat) :
  3 <= SIZE_BITS ->
  (a + b <= length src)%nat ->
  8 * Z.of_nat (length src) <= SIZE_MAX SIZE_BITS ->
  (b <= length dest)%nat ->
  Forall (fun x => 0 <= x < 256) src ->
  copy_bits_packed_right SIZE_BITS src dest (8 * Z.of_nat a) (8 * Z.of_nat b)
  = Some (take b (drop a src) ++ drop b dest).
Proof.
  intros Hw Hab Hmax Hb Hbytes.
  assert (Hm : (8 * Z.of_nat b + 7) / 8 = Z.of_nat b).
  { rewrite (Z.mul_comm 8), Z.add_comm, Z.div_add by lia.
    rewrite Z.div_small by lia. lia. }
  destruct (copy_bits_packed_right_bits SIZE_BITS src dest (8 * Z.of_nat a)
              (8 * Z.of_nat b)) as (dest0 & dest' & Hms & Hl & E & L & P); [lia..|].
  rewrite E. f_equal. rewrite Hm in Hms, P.
  destruct (copy_loop_frame SIZE_BITS src (8 * Z.of_nat a) b (Z.to_nat (8 * Z.of_nat b))
              0 dest0 dest' Hl) as (_ & D & B); [lia..|].
  assert (D0 : drop b dest0 = drop b dest /\ take b dest0 = replicate b 0).
  { unfold memset0 in Hms. case_decide; [|done]. injection Hms as <-.
    rewrite Nat2Z.id. split.
    - rewrite drop_app_length'; [done|]. by rewrite length_replicate.
    - rewrite take_app_length'; [done|]. by rewrite length_replicate. }
  destruct D0 as [D0 T0].
  rewrite <- (take_drop b dest'). rewrite D, D0. f_equal.
  apply bytes_bits_ext.
  - rewrite !length_take, length_drop. lia.
  - apply B. rewrite T0. apply Forall_replicate. lia.
  - by apply Forall_take, Forall_drop.
  - intros p Hp. rewrite !bit_of_take by done.
    destruct (decide (p < 8 * Z.of_nat b)) as [Hlt|Hge]; [|done].
    rewrite P by done. rewrite decide_True by done.
    unfold bit_of. rewrite lookup_drop.
    replace ((8 * Z.of_nat a + p) / 8) with (Z.of_nat a + p / 8).
    2:{ rewrite (Z.mul_comm 8), Z.div_add_l by lia. reflexivity. }
    replace ((8 * Z.of_nat a + p) mod 8) with (p mod 8).
    2:{ rewrite (Z.mul_comm 8), (Z.add_comm (Z.of_nat a * 8) p), Z.mod_add by lia.
        reflexivity. }
    rewrite Z2Nat.inj_add by (try apply Z.div_pos; lia).
    rewrite Nat2Z.id. reflexivity.
Qed.

Lemma copy_bits_packed_right_aligned_witness :
  copy_bits_packed_right 64 [1; 2; 3; 4] [9; 9; 9] (8 * Z.of_nat 1) (8 * Z.of_nat 2)
  = Some [2; 3; 9].
Proof.
  apply (copy_bits_packed_right_aligned 64 [1; 2; 3; 4] [9; 9; 9] 1 2).
  - vm_compute; discriminate.
  - simpl; lia.
  - vm_compute; discriminate.
  - simpl; lia.
  - repeat constructor; vm_compute; discriminate.
Defined.

End CopyBitsValueFacts.

(** ** sigmet_raw_client.c: requests, descriptors and outcomes *)

Module RequestFacts.
Import Platform Posix Sigmet SigmetRaw SigmetRawClient ProcFacts SigmetRawClientFacts.

Lemma bytes_of_string_cons (c : Ascii.ascii) (a : string) :
  bytes_of_string (String c a) = Z.of_N (Ascii.N_of_ascii c) :: bytes_of_string a.
Proof. reflexivity. Qed.

(** A string without nul characters is read back from its bytes and a
    terminator, whatever follows the terminator. *)
Lemma cstring_of_bytes_of_string (a : string) (rest : list Z) :
  0 ∉ bytes_of_string a ->
  cstring_of_bytes (bytes_of_string a ++ 0 :: rest) = a.
Proof.
  induction a as [|c a IH]; intros Hnul; [reflexivity|].
  rewrite bytes_of_string_cons in *. apply not_elem_of_cons in Hnul as [Hc Ha].
  cbn [app cstring_of_bytes].
  rewrite (proj2 (Z.eqb_neq _ _)) by done.
  rewrite N2Z.id, Ascii.ascii_N_embedding. f_equal. by apply IH.
Qed.

Lemma take_bytes_of_string (n : nat) (a : string) :
  take n (bytes_of_string a) = bytes_of_string (String.substring 0 n a).
Proof.
  revert a. induction n as [|n IH]; intros [|c a]; try reflexivity.
  cbn [String.substring]. rewrite !bytes_of_string_cons. cbn [take]. f_equal. apply IH.
Qed.

Lemma substring_all (n : nat) (a : string) :
  (String.length a <= n)%nat -> String.substring 0 n a = a.
Proof.
  revert a. induction n as [|n IH]; intros [|c a] Hlen; try reflexivity.
  - simpl in Hlen. lia.
  - cbn [String.substring]. f_equal. apply IH. simpl in Hlen. lia.
Qed.

(** X5.  Setting the data type on any request, fresh or used, leaves a field
    that reads back, as a C string, as the first fifteen characters of the
    abbreviation: as the abbreviation itself when it has at most fifteen. *)
Theorem Set_DataType_reads_back (rqst : SigmetRaw_Rqst) (a : string) :
  length (abbrv rqst) = 16%nat ->
  0 ∉ bytes_of_string a ->
  cstring_of_bytes (abbrv (SigmetRaw_Rqst_Set_DataType rqst a)) = String.substring 0 15 a /\
  ((String.length a <= 15)%nat ->
   cstring_of_bytes (abbrv (SigmetRaw_Rqst_Set_DataType rqst a)) = a).
Proof.
  intros Hbuf Hnul.
  assert (Hsub : cstring_of_bytes (abbrv (SigmetRaw_Rqst_Set_DataType rqst a))
                 = String.substring 0 15 a).
  { cbn [SigmetRaw_Rqst_Set_DataType abbrv]. unfold snprintf_s.
    change (SIGMET_DATA_TYPE_LEN <=? 0) with false. cbv iota zeta.
    change (Z.to_nat (SIGMET_DATA_TYPE_LEN - 1)) with 15%nat.
    rewrite take_bytes_of_string, <- app_assoc. cbn [app].
    apply cstring_of_bytes_of_string.
    rewrite <- take_bytes_of_string. intros Hin. apply Hnul.
    by apply (subseteq_take 15). }
  split; [exact Hsub|]. intros Hlen. rewrite Hsub. by apply substring_all.
Qed.

Lemma Set_DataType_reads_back_witness :
  cstring_of_bytes
    (abbrv (SigmetRaw_Rqst_Set_DataType
              (SigmetRaw_Rqst_Set_DataType SigmetRaw_Rqst_Init "DB_VELC") "DB_W"))
  = "DB_W"%string.
Proof.
  assert (H16 : length (abbrv (SigmetRaw_Rqst_Set_DataType SigmetRaw_Rqst_Init "DB_VELC"))
                = 16%nat) by reflexivity.
  assert (Hnul : 0 ∉ bytes_of_string "DB_W").
  { vm_compute. intros Hin. by repeat (apply elem_of_cons in Hin as [Hin|Hin]; [done|]);
      apply elem_of_nil in Hin. }
  assert (Hlen : (String.length "DB_W" <= 15)%nat) by (vm_compute; lia).
  exact (proj2 (Set_DataType_reads_back _ "DB_W" H16 Hnul) Hlen).
Defined.

(** X6.  [SigmetRaw_Rqst_Send] returns 1 or 0; it returns 1 exactly when the
    placeholder, if one is needed, could be opened, the control header was
    obtained and [sendmsg] did not fail; it leaves an error message exactly
    when it returns 0; and it hands a message to [sendmsg] only once the
    placeholder and the control header are there. *)
Theorem Rqst_Send_outcome (L : Type) (os : send_env) (skt_fd : Z) (rqst : SigmetRaw_Rqst) :
  let r := SigmetRaw_Rqst_Send (L := L) os skt_fd rqst in
  let placeholder := err_fd rqst < 0 \/ hd_fd rqst < 0 in
  let ready := (placeholder -> open_ret os <> -1) /\ cmsg_firsthdr os = true in
  (send_ret r = 1 \/ send_ret r = 0) /\
  (send_ret r = 1 <-> ready /\ sendmsg_ret os <> -1) /\
  (send_err_msg r = None <-> send_ret r = 1) /\
  (sent_messages (send_trace r) <> [] <-> ready).
Proof.
  intros r placeholder ready. subst r placeholder ready. unfold SigmetRaw_Rqst_Send.
  destruct (err_fd rqst <? 0) eqn:Ee; destruct (hd_fd rqst <? 0) eqn:Eh;
    destruct (open_ret os =? -1) eqn:Eo; destruct (cmsg_firsthdr os);
    destruct (sendmsg_ret os =? -1) eqn:Ew; simpl;
    rewrite ?Eo; simpl; rewrite ?Ew; simpl;
    apply Z.ltb_ge in Ee || apply Z.ltb_lt in Ee;
    apply Z.ltb_ge in Eh || apply Z.ltb_lt in Eh;
    apply Z.eqb_neq in Eo || apply Z.eqb_eq in Eo;
    apply Z.eqb_neq in Ew || apply Z.eqb_eq in Ew;
    repeat split; try (by left); try (by right); try done; try lia;
    try (intros [[? ?] ?]; (done || lia));
    try (intros [? ?]; (done || lia));
    try (intros; lia).
Qed.

(** X7.  The descriptors of [SigmetRaw_Rqst_Send]: it opens "/dev/null" exactly
    when the request lacks a descriptor, and the only descriptor it ever
    closes is that placeholder, which it closes only when it returns 1.  A
    call that fails after opening the placeholder leaves it open, and the
    descriptors the caller supplied are never closed. *)
Theorem Rqst_Send_descriptors (L : Type) (os : send_env) (skt_fd : Z)
  (rqst : SigmetRaw_Rqst) :
  let r := SigmetRaw_Rqst_Send (L := L) os skt_fd rqst in
  let placeholder := (err_fd rqst <? 0) || (hd_fd rqst <? 0) in
  opened_fds (send_trace r)
  = (if placeholder then [("/dev/null"%string, open_ret os)] else []) /\
  closed_fds (send_trace r)
  = (if send_ret r =? 1 then [if placeholder then open_ret os else -1] else []).
Proof.
  intros r placeholder. subst r placeholder. unfold SigmetRaw_Rqst_Send.
  destruct ((err_fd rqst <? 0) || (hd_fd rqst <? 0));
    destruct (open_ret os =? -1) eqn:Eo; destruct (cmsg_firsthdr os);
    destruct (sendmsg_ret os =? -1) eqn:Ew; simpl;
    rewrite ?Eo; simpl; rewrite ?Ew; simpl; done.
Qed.

(** X8.  [SigmetRaw_DmnConnect] returns the descriptor of the socket exactly when
    the socket was created, the path fits [sun_path] and [connect] returned
    0, and -1 otherwise, with an error message.  It calls [connect] only
    with a path that fits, and whenever it fails after creating the socket
    it has closed the socket. *)
Theorem DmnConnect_outcome (L : Type) (os : connect_env) (skt_path : string) :
  let r := SigmetRaw_DmnConnect (L := L) os skt_path in
  let fits := Z.of_nat (String.length skt_path) < to_int (sizeof_sun_path os) in
  let ok := socket_ret os <> -1 /\ fits /\ connect_ret os = 0 in
  (ok -> conn_ret r = socket_ret os /\ conn_err_msg r = None /\
         connected (conn_trace r) = [(skt_path, socket_ret os)] /\
         closed_fds (conn_trace r) = []) /\
  (~ ok -> conn_ret r = -1 /\ conn_err_msg r <> None /\
           closed_fds (conn_trace r)
           = (if socket_ret os =? -1 then [] else [socket_ret os])) /\
  (connected (conn_trace r) <> [] -> fits).
Proof.
  intros r fits ok. subst r fits ok. unfold SigmetRaw_DmnConnect.
  destruct (socket_ret os =? -1) eqn:Es;
    destruct (to_int (sizeof_sun_path os) <=? Z.of_nat (String.length skt_path)) eqn:Ep;
    destruct (connect_ret os =? 0) eqn:Ec; simpl;
    apply Z.eqb_neq in Es || apply Z.eqb_eq in Es;
    apply Z.leb_gt in Ep || apply Z.leb_le in Ep;
    apply Z.eqb_neq in Ec || apply Z.eqb_eq in Ec;
    (split; [intros (? & ? & ?); (done || lia)|]);
    (split; [intros Hn; try (exfalso; apply Hn; (split; [done|]); (split; [lia|done]));
             done|]);
    intros ?; (done || lia).
Qed.

(** X9.  The request of [SigmetRaw_Dmn_VolHdr]: at most one message, with the
    sub-command code of [SigmetRawVolumeHeaders], an empty data-type field
    and the sweep index -1; the error-channel slot holds a placeholder and
    the headers/data slot the write end of the pipe.  A call that returns 1
    has sent it and stored the headers it read from the pipe.  The function
    never receives the response of the daemon. *)
Theorem Dmn_VolHdr_request (L : Type) (os : vol_hdr_env) (skt_fd : Z) (p : Z * Z) :
  dv_pipe os = Some p -> 0 <= snd p ->
  let r := SigmetRaw_Dmn_VolHdr (L := L) os skt_fd in
  let m := rqst_message (SubCmdN_val SigmetRawVolumeHeaders) (replicate 16 0) (-1)
             (open_ret (dv_send os)) (snd p) in
  (sent_messages (dv_trace r) = [] \/ sent_messages (dv_trace r) = [m]) /\
  (dv_ret r = 1 -> sent_messages (dv_trace r) = [m] /\ is_Some (dv_vol_hdr r) /\
                   dv_vol_hdr r = dv_fread os) /\
  recvmsg_shapes (dv_trace r) = [].
Proof.
  intros Hp Hfd r m. subst r m. unfold SigmetRaw_Dmn_VolHdr. rewrite Hp.
  destruct (dv_fdopen_ok os); cbn [negb].
  2:{ split; [by left|]. split; [discriminate|done]. }
  unfold SigmetRaw_Rqst_Send.
  cbn [SigmetRaw_Rqst_Init SigmetRaw_Rqst_Set_SubCmd SigmetRaw_Rqst_Set_ShFD
       err_fd hd_fd s sub_cmd_n abbrv].
  change (-1 <? 0) with true. cbn [orb andb].
  rewrite (proj2 (Z.leb_le 0 (snd p))) by done.
  change (0 <=? -1) with false.
  destruct (open_ret (dv_send os) =? -1) eqn:Eo; cbn [send_ret send_trace].
  { split; [by left|]. split; [discriminate|done]. }
  destruct (cmsg_firsthdr (dv_send os)); cbn [negb send_ret send_trace].
  2:{ split; [by left|]. split; [discriminate|done]. }
  destruct (sendmsg_ret (dv_send os) =? -1) eqn:Ew; cbn [send_ret send_trace].
  { split; [by right|]. split; [discriminate|done]. }
  change (1 =? 0) with false. cbv iota.
  destruct (dv_fread os) as [v|]; cbn [dv_ret dv_trace dv_vol_hdr].
  - split; [by right|]. split; [|done]. intros _. split; [done|]. split; [by eexists|done].
  - split; [by right|]. split; [discriminate|done].
Qed.

Lemma Dmn_VolHdr_request_witness :
  let os := {| dv_pipe := Some (4, 5); dv_fdopen_ok := true;
               dv_send := {| open_ret := 9; cmsg_firsthdr := true; sendmsg_ret := 24;
                             strerror_errno := "" |};
               dv_fread := None; dv_strerror := "" |} in
  sent_messages (dv_trace (SigmetRaw_Dmn_VolHdr (L := unit) os 3)) = []
  \/ sent_messages (dv_trace (SigmetRaw_Dmn_VolHdr (L := unit) os 3))
     = [rqst_message 1 (replicate 16 0) (-1) 9 5].
Proof.
  intros os.
  refine (proj1 (Dmn_VolHdr_request unit os 3 (4, 5) eq_refl _)).
  simpl. lia.
Defined.

(** X10.  [SigmetRaw_Dmn_VolHdr] returns 1 exactly when every call it makes
    succeeds, and then it has closed both ends of the pipe and the
    placeholder.  When it returns 0 the write end of the pipe is still
    open: a failed call closes at most the placeholder and the read end. *)
Theorem Dmn_VolHdr_outcome (L : Type) (os : vol_hdr_env) (skt_fd : Z) :
  let r := SigmetRaw_Dmn_VolHdr (L := L) os skt_fd in
  let fd0 := open_ret (dv_send os) in
  (dv_ret r = 1 <->
     is_Some (dv_pipe os) /\ dv_fdopen_ok os = true /\ fd0 <> -1 /\
     cmsg_firsthdr (dv_send os) = true /\ sendmsg_ret (dv_send os) <> -1 /\
     is_Some (dv_fread os)) /\
  (dv_ret r <> 1 -> dv_ret r = 0 /\ dv_vol_hdr r = None) /\
  (forall p, dv_pipe os = Some p ->
     (dv_ret r = 1 -> closed_fds (dv_trace r) = [fd0; fst p; snd p]) /\
     (dv_ret r = 0 -> closed_fds (dv_trace r) = []
                      \/ closed_fds (dv_trace r) = [fst p]
                      \/ closed_fds (dv_trace r) = [fd0; fst p])).
Proof.
  intros r fd0. subst r fd0. unfold SigmetRaw_Dmn_VolHdr.
  destruct (dv_pipe os) as [p|].
  2:{ split; [|split; [done|discriminate]].
      split; [discriminate|]. by intros ([? ?] & _). }
  destruct (dv_fdopen_ok os); cbn [negb].
  2:{ split; [|split; [done|]].
      - split; [discriminate|]. by intros (_ & ? & _).
      - intros ? [= <-]. split; [discriminate|]. by left. }
  unfold SigmetRaw_Rqst_Send.
  cbn [SigmetRaw_Rqst_Init SigmetRaw_Rqst_Set_SubCmd SigmetRaw_Rqst_Set_ShFD
       err_fd hd_fd s sub_cmd_n abbrv].
  change (-1 <? 0) with true. cbn [orb andb].
  destruct (open_ret (dv_send os) =? -1) eqn:Eo; cbn [send_ret send_trace];
    [apply Z.eqb_eq in Eo|apply Z.eqb_neq in Eo].
  { split; [|split; [done|]].
    - split; [discriminate|]. by intros (_ & _ & ? & _).
    - intros ? [= <-]. split; [discriminate|]. right. by left. }
  destruct (cmsg_firsthdr (dv_send os)); cbn [negb send_ret send_trace].
  2:{ split; [|split; [done|]].
      - split; [discriminate|]. by intros (_ & _ & _ & ? & _).
      - intros ? [= <-]. split; [discriminate|]. right. by left. }
  destruct (sendmsg_ret (dv_send os) =? -1) eqn:Ew; cbn [send_ret send_trace];
    [apply Z.eqb_eq in Ew|apply Z.eqb_neq in Ew].
  { split; [|split; [done|]].
    - split; [discriminate|]. by intros (_ & _ & _ & _ & ? & _).
    - intros ? [= <-]. split; [discriminate|]. right. by left. }
  change (1 =? 0) with false. cbv iota.
  destruct (dv_fread os) as [v|]; cbn [dv_ret dv_trace dv_vol_hdr].
  - split; [|split; [done|]].
    + split; [|done]. intros _. repeat split; (done || by eexists).
    + intros ? [= <-]. split; [done|discriminate].
  - split; [|split; [done|]].
    + split; [discriminate|]. by intros (_ & _ & _ & _ & _ & [? ?]).
    + intros ? [= <-]. split; [discriminate|]. intros _. right. by right.
Qed.

(** X11.  What is set on a request is what is sent: a request built with the five
    setters, with an abbreviation of at most fifteen characters, a sweep
    index that fits [unsigned] and both descriptors, travels as one message
    whose items read back as the sub-command code, the abbreviation and the
    sweep index, with the two descriptors in their slots; no placeholder is
    opened for it. *)
Theorem request_reads_back (L : Type) (os : send_env) (skt_fd : Z)
  (c : SigmetRaw_SubCmdN) (a : string) (swp err hd : Z) :
  (String.length a <= 15)%nat -> 0 ∉ bytes_of_string a ->
  0 <= swp < 2 ^ 32 -> 0 <= err -> 0 <= hd ->
  let rqst :=
    SigmetRaw_Rqst_Set_ErrFD
      (SigmetRaw_Rqst_Set_ShFD
         (SigmetRaw_Rqst_Set_DataType
            (SigmetRaw_Rqst_Set_Swp
               (SigmetRaw_Rqst_Set_SubCmd SigmetRaw_Rqst_Init c) swp) a) hd) err in
  let r := SigmetRaw_Rqst_Send (L := L) os skt_fd rqst in
  let field := bytes_of_string a ++ replicate (16 - String.length a) 0 in
  let m := rqst_message (SubCmdN_val c) field (to_int swp) err hd in
  sent_messages (send_trace r) = (if cmsg_firsthdr os then [m] else []) /\
  opened_fds (send_trace r) = [] /\
  le_value (le_bytes 4 (to_unsigned (SubCmdN_val c))) = SubCmdN_val c /\
  length field = 16%nat /\ cstring_of_bytes field = a /\
  le_value (le_bytes 4 (to_unsigned (to_int swp))) = swp.
Proof.
  intros Hlen Hnul Hswp Herr Hhd rqst r field m.
  assert (Hfield : abbrv rqst = field).
  { subst rqst field. cbn [SigmetRaw_Rqst_Set_ErrFD SigmetRaw_Rqst_Set_ShFD abbrv].
    rewrite <- (Set_DataType_short a Hlen). reflexivity. }
  assert (Hs : to_unsigned (to_int swp) = swp).
  { unfold to_unsigned, to_int.
    rewrite Zminus_mod_idemp_l.
    replace (swp + 2 ^ 31 - 2 ^ 31) with swp by lia. apply Z.mod_small. lia. }
  split; [|split; [|split; [|split; [|split]]]].
  - subst r m. unfold SigmetRaw_Rqst_Send. rewrite Hfield.
    subst rqst. cbn [SigmetRaw_Rqst_Set_ErrFD SigmetRaw_Rqst_Set_ShFD
                     SigmetRaw_Rqst_Set_DataType SigmetRaw_Rqst_Set_Swp
                     SigmetRaw_Rqst_Set_SubCmd SigmetRaw_Rqst_Init
                     err_fd hd_fd s sub_cmd_n].
    rewrite (proj2 (Z.ltb_ge err 0)), (proj2 (Z.ltb_ge hd 0)) by lia.
    rewrite (proj2 (Z.leb_le 0 err)), (proj2 (Z.leb_le 0 hd)) by lia.
    cbn [orb andb]. destruct (cmsg_firsthdr os); cbn [negb]; [|done].
    destruct (sendmsg_ret os =? -1); reflexivity.
  - subst r. unfold SigmetRaw_Rqst_Send.
    subst rqst. cbn [SigmetRaw_Rqst_Set_ErrFD SigmetRaw_Rqst_Set_ShFD
                     SigmetRaw_Rqst_Set_DataType SigmetRaw_Rqst_Set_Swp
                     SigmetRaw_Rqst_Set_SubCmd SigmetRaw_Rqst_Init
                     err_fd hd_fd s sub_cmd_n].
    rewrite (proj2 (Z.ltb_ge err 0)), (proj2 (Z.ltb_ge hd 0)) by lia.
    cbn [orb andb]. destruct (cmsg_firsthdr os); cbn [negb]; [|done].
    destruct (sendmsg_ret os =? -1); reflexivity.
  - by destruct c.
  - subst field. rewrite length_app, length_replicate, length_bytes_of_string. lia.
  - subst field.
    replace (16 - String.length a)%nat with (S (15 - String.length a)) by lia.
    cbn [replicate]. by apply cstring_of_bytes_of_string.
  - rewrite Hs. apply le_value_le_bytes4. lia.
Qed.

Lemma request_reads_back_witness :
  sent_messages
    (send_trace
       (SigmetRaw_Rqst_Send (L := unit) Model.send_env0 3
          (SigmetRaw_Rqst_Set_ErrFD
             (SigmetRaw_Rqst_Set_ShFD
                (SigmetRaw_Rqst_Set_DataType
                   (SigmetRaw_Rqst_Set_Swp
                      (SigmetRaw_Rqst_Set_SubCmd SigmetRaw_Rqst_Init SigmetRawData)
                      (2 ^ 32 - 1)) "DB_DBZ") 5) 7)))
  = [rqst_message 4 (bytes_of_string "DB_DBZ" ++ replicate 10 0) (-1) 7 5].
Proof.
  assert (Hlen : (String.length "DB_DBZ" <= 15)%nat) by (vm_compute; lia).
  assert (Hnul : 0 ∉ bytes_of_string "DB_DBZ").
  { vm_compute. intros Hin. by repeat (apply elem_of_cons in Hin as [Hin|Hin]; [done|]);
      apply elem_of_nil in Hin. }
  assert (Hswp : 0 <= 2 ^ 32 - 1 < 2 ^ 32) by (vm_compute; split; [discriminate|reflexivity]).
  assert (H7 : 0 <= 7) by lia.
  assert (H5 : 0 <= 5) by lia.
  exact (proj1 (request_reads_back unit Model.send_env0 3 SigmetRawData "DB_DBZ"
                  (2 ^ 32 - 1) 7 5 Hlen Hnul Hswp H7 H5)).
Defined.

End RequestFacts.

(** ** alloc3f.c: what the function writes *)

Module Alloc3fStoreFacts.
Import Alloc3f Alloc3fFacts.

Section stores.
Variable SIZE_BITS : Z.
Variable sizeof_ptr : Z.
Variable malloc : Z -> option Z.
Variables num_i num_j num_k : Z.

Hypothesis Hptr : 0 < sizeof_ptr.
Hypothesis Hi : 0 <= num_i.
Hypothesis Hj : 0 <= num_j.
Hypothesis Hk : 0 <= num_k.

(** The sizes the function computes do not wrap. *)
Hypothesis Hfit :
  num_i * sizeof_ptr + num_i * num_j * sizeof_ptr + num_i * num_j * num_k * sizeof_float
  < 2 ^ SIZE_BITS.

Lemma sizes_exact :
  let ptrs := num_i * sizeof_ptr + num_i * num_j * sizeof_ptr in
  let total := ptrs + num_i * num_j * num_k * sizeof_float in
  size_mul SIZE_BITS num_i sizeof_ptr = num_i * sizeof_ptr /\
  size_add SIZE_BITS (size_mul SIZE_BITS num_i sizeof_ptr)
    (size_mul SIZE_BITS (size_mul SIZE_BITS num_i num_j) sizeof_ptr) = ptrs /\
  size_add SIZE_BITS
    (size_add SIZE_BITS (size_mul SIZE_BITS num_i sizeof_ptr)
       (size_mul SIZE_BITS (size_mul SIZE_BITS num_i num_j) sizeof_ptr))
    (size_mul SIZE_BITS (size_mul SIZE_BITS (size_mul SIZE_BITS num_i num_j) num_k)
       sizeof_float) = total.
Proof.
  intros ptrs total. subst ptrs total. unfold sizeof_float in *.
  assert (N1 : 0 <= num_i * num_j) by nia.
  assert (N2 : 0 <= num_i * num_j * num_k) by nia.
  assert (N3 : 0 <= num_i * sizeof_ptr) by nia.
  assert (N4 : 0 <= num_i * num_j * sizeof_ptr) by nia.
  assert (N5 : num_i * num_j <= num_i * num_j * sizeof_ptr) by nia.
  unfold size_mul, size_add.
  rewrite (Z.mod_small (num_i * sizeof_ptr)) by lia.
  rewrite (Z.mod_small (num_i * num_j)) by lia.
  rewrite (Z.mod_small (num_i * num_j * sizeof_ptr)) by lia.
  rewrite (Z.mod_small (num_i * num_j * num_k)) by lia.
  rewrite (Z.mod_small (num_i * num_j * num_k * 4)) by lia.
  rewrite (Z.mod_small (num_i * sizeof_ptr + num_i * num_j * sizeof_ptr)) by lia.
  rewrite Z.mod_small by lia. done.
Qed.

(** X12.  The function initialises the two pointer tables and nothing else: when
    the sizes do not wrap and [malloc] returns a block, every store lands
    in the pointer tables at the front of the block and stores a pointer
    into the block behind the first table; the region of the floats is not
    written, so the floats are as [malloc] left them. *)
Theorem create_3d_float_array_stores (block : Z) :
  let ptrs := num_i * sizeof_ptr + num_i * num_j * sizeof_ptr in
  let total := ptrs + num_i * num_j * num_k * sizeof_float in
  malloc total = Some block ->
  exists mem,
    create_3d_float_array SIZE_BITS sizeof_ptr malloc num_i num_j num_k
    = Array block total mem /\
    forall a v, mem !! a = Some v ->
      (block <= a /\ a + sizeof_ptr <= block + ptrs) /\
      (block + num_i * sizeof_ptr <= v <= block + total).
Proof.
  intros ptrs total Hm.
  destruct sizes_exact as (E1 & E2 & E3). fold ptrs total in E2, E3.
  unfold create_3d_float_array. rewrite E3, E2, E1, Hm.
  destruct (loop_i_spec SIZE_BITS sizeof_ptr num_i num_j num_k Hptr Hi Hj Hk Hfit
              block (seqZ 0 num_i) ∅) as (mem & E & Hframe & Hval).
  { intros i Hin. apply elem_of_seqZ in Hin. lia. }
  fold ptrs total in E, Hval. rewrite E.
  exists mem. split; [done|]. intros a v Hav.
  assert (N1 : 0 <= num_i * num_j) by nia.
  assert (N2 : 0 <= num_i * num_j * num_k) by nia.
  assert (Htot : ptrs <= total) by (subst total; unfold sizeof_float; lia).
  destruct (decide (Exists (fun i =>
              a = block + sizeof_ptr * i \/
              Exists (fun j => a = block + num_i * sizeof_ptr + sizeof_ptr * (i * num_j + j))
                (seqZ 0 num_j)) (seqZ 0 num_i))) as [Hex|Hnex].
  - apply Exists_exists in Hex as (i & Hin & Hcase).
    apply elem_of_seqZ in Hin.
    destruct (Hval i) as [HA HB]; [apply elem_of_seqZ; lia|].
    assert (Hrow : 0 <= i * num_j /\ i * num_j + num_j <= num_i * num_j) by nia.
    destruct Hcase as [->|Hex].
    + rewrite HA in Hav. injection Hav as <-. subst ptrs. split; nia.
    + apply Exists_exists in Hex as (j & Hjn & ->).
      apply elem_of_seqZ in Hjn.
      rewrite HB in Hav by lia. injection Hav as <-.
      pose proof (idx_lt i j num_i num_j ltac:(lia) ltac:(lia)) as [I0 I1].
      assert (0 <= (i * num_j + j) * num_k
              /\ (i * num_j + j) * num_k <= num_i * num_j * num_k) by nia.
      subst total ptrs. unfold sizeof_float. split; nia.
  - exfalso. rewrite Hframe in Hav; [by rewrite lookup_empty in Hav|].
    intros i Hin. split.
    + intros ->. apply Hnex. apply Exists_exists. exists i. split; [done|by left].
    + intros j Hjr ->. apply Hnex. apply Exists_exists. exists i. split; [done|].
      right. apply Exists_exists. exists j. split; [|done]. apply elem_of_seqZ. lia.
Qed.

End stores.

Lemma create_3d_float_array_stores_witness :
  let malloc := fun _ : Z => Some 4096 in
  exists mem,
    create_3d_float_array 64 8 malloc 2 3 4 = Array 4096 160 mem /\
    forall a v, mem !! a = Some v ->
      (4096 <= a /\ a + 8 <= 4096 + 64) /\ (4096 + 2 * 8 <= v <= 4096 + 160).
Proof.
  assert (H8 : 0 < 8) by lia.
  assert (H2 : 0 <= 2) by lia.
  assert (H3 : 0 <= 3) by lia.
  assert (H4 : 0 <= 4) by lia.
  assert (Hfit : 2 * 8 + 2 * 3 * 8 + 2 * 3 * 4 * sizeof_float < 2 ^ 64)
    by (vm_compute; reflexivity).
  exact (create_3d_float_array_stores 64 8 (fun _ => Some 4096) 2 3 4
           H8 H2 H3 H4 Hfit 4096 eq_refl).
Defined.

End Alloc3fStoreFacts.

(** ** Runs: traces, outcomes and the steps of a client *)

Module RunFacts.
Import Platform Posix Sigmet SigmetRaw SigmetRawClient ProcFacts SigmetRawClientFacts.

Lemma stderr_of_app {L} (t1 t2 : list (event L)) :
  stderr_of (t1 ++ t2) = stderr_of t1 ++ stderr_of t2.
Proof. unfold stderr_of. apply omap_app. Qed.

Lemma sent_messages_app {L} (t1 t2 : list (event L)) :
  sent_messages (t1 ++ t2) = sent_messages t1 ++ sent_messages t2.
Proof. unfold sent_messages. apply omap_app. Qed.

Lemma stderr_of_bind {L A B} (m : proc L A) (k : A -> proc L B) :
  stderr_of (fst (m ≫= k))
  = stderr_of (fst m) ++ match snd m with Ret a => stderr_of (fst (k a)) | _ => [] end.
Proof.
  rewrite fst_bind, stderr_of_app. f_equal. by destruct (snd m).
Qed.

Lemma silent_nil {L} : silent (L := L) [].
Proof. done. Qed.

Lemma silent_app {L} (t1 t2 : list (event L)) : silent t1 -> silent t2 -> silent (t1 ++ t2).
Proof.
  intros [H1 H2] [H3 H4]. split.
  - by rewrite stdout_of_app, H1, H3.
  - by rewrite stderr_of_app, H2, H4.
Qed.

Lemma silent_DmnConnect {L} (os : connect_env) (skt_path : string) :
  silent (conn_trace (SigmetRaw_DmnConnect (L := L) os skt_path)).
Proof.
  unfold SigmetRaw_DmnConnect.
  destruct (_ =? -1); [done|]. destruct (_ <=? _); [done|].
  by destruct (negb _).
Qed.

Lemma sent_DmnConnect {L} (os : connect_env) (skt_path : string) :
  sent_messages (conn_trace (SigmetRaw_DmnConnect (L := L) os skt_path)) = [].
Proof.
  unfold SigmetRaw_DmnConnect.
  destruct (_ =? -1); [done|]. destruct (_ <=? _); [done|].
  by destruct (negb _).
Qed.

Lemma silent_Rqst_Send {L} (os : send_env) (skt_fd : Z) (rqst : SigmetRaw_Rqst) :
  silent (send_trace (SigmetRaw_Rqst_Send (L := L) os skt_fd rqst)).
Proof.
  unfold SigmetRaw_Rqst_Send.
  destruct ((err_fd rqst <? 0) || (hd_fd rqst <? 0));
    destruct (open_ret os =? -1) eqn:Eo; destruct (cmsg_firsthdr os);
    destruct (sendmsg_ret os =? -1) eqn:Ew; simpl; rewrite ?Eo, ?Ew; done.
Qed.

(** The message of a request that has both descriptors. *)
Lemma Rqst_Send_sent {L} (os : send_env) (skt_fd : Z) (rqst : SigmetRaw_Rqst) :
  0 <= err_fd rqst -> 0 <= hd_fd rqst ->
  let r := SigmetRaw_Rqst_Send (L := L) os skt_fd rqst in
  let m := rqst_message (sub_cmd_n rqst) (abbrv rqst) (s rqst) (err_fd rqst) (hd_fd rqst) in
  (send_ret r = 0 /\ (sent_messages (send_trace r) = [] \/ sent_messages (send_trace r) = [m]))
  \/ (send_ret r = 1 /\ sent_messages (send_trace r) = [m]).
Proof.
  intros He Hh r m. subst r m. unfold SigmetRaw_Rqst_Send.
  rewrite (proj2 (Z.ltb_ge (err_fd rqst) 0)), (proj2 (Z.ltb_ge (hd_fd rqst) 0)) by lia.
  rewrite (proj2 (Z.leb_le 0 (err_fd rqst))), (proj2 (Z.leb_le 0 (hd_fd rqst))) by lia.
  cbn [orb andb]. destruct (cmsg_firsthdr os); cbn [negb].
  - destruct (sendmsg_ret os =? -1); [left|right]; (split; [done|]); [by right|done].
  - left. split; [done|by left].
Qed.

Lemma omap_map_close {L B} (f : event L -> option B) (closes : list Z) :
  (forall fd, f (EvClose fd) = None) -> omap f (map EvClose closes) = [].
Proof. intros Hf. induction closes as [|fd closes IH]; [done|]. simpl. by rewrite Hf. Qed.

(** The status check either goes on or reports the error of the daemon and
    exits. *)
Lemma bind_check_status_cases {L B} (x : exchange_env) (status : Z) (prefix : string)
  (closes : list Z) (fdopen_msg : string) (k : unit -> proc L B) :
  exists t, failing t /\ sent_messages t = [] /\
    (check_status x status prefix closes fdopen_msg ≫= k)
    = if status =? Status_val SigmetRawOkay then k tt else (t, Exit EXIT_FAILURE).
Proof.
  unfold check_status. destruct (status =? Status_val SigmetRawOkay).
  - exists [EvStderr EmptyString]. split; [by split|]. split; [done|]. apply bind_ret.
  - destruct (x_err_fdopen_ok x); eexists; (split; [|split; [|reflexivity]]).
    + unfold failing, stdout_of, stderr_of. simpl. rewrite !omap_app.
      rewrite (omap_map_close _ closes) by done. by split.
    + unfold sent_messages. simpl. rewrite !omap_app.
      by rewrite (omap_map_close _ closes).
    + unfold failing, stdout_of, stderr_of. simpl. rewrite !omap_app.
      rewrite (omap_map_close _ closes) by done. by split.
    + unfold sent_messages. simpl. rewrite !omap_app.
      by rewrite (omap_map_close _ closes).
Qed.

Lemma outcome_fail {L A} (t : list (event L)) :
  failing t -> outcome (A := A) (t, Exit EXIT_FAILURE).
Proof. intros Ht. right. done. Qed.

Lemma outcome_prefix {L A} (t : list (event L)) (p : proc L A) :
  silent t -> outcome p -> outcome (t ++ fst p, snd p).
Proof.
  intros [Ho He]. unfold outcome, failing. cbn [fst snd].
  rewrite stdout_of_app, stderr_of_app, Ho, He. done.
Qed.

Lemma outcome_bind_mret {L A B} (m : proc L A) (b : B) :
  outcome m -> outcome (m ≫= fun _ => mret b).
Proof.
  destruct m as [t [a| |]]; unfold outcome, mbind, proc_mbind, proc_bind, mret, proc_ret;
    cbn [fst snd]; [|done..].
  by rewrite app_nil_r.
Qed.

(** Output that is followed by [exit(EXIT_SUCCESS)]. *)
Lemma outcome_exit_success {L A} (m : proc L unit) :
  stderr_of (fst m) = [] -> (forall status, snd m <> Exit status) ->
  outcome (A := A) (m ≫= fun _ => exit EXIT_SUCCESS).
Proof.
  destruct m as [t [[]| |]]; unfold outcome, mbind, proc_mbind, proc_bind, exit;
    cbn [fst snd]; intros He Hx.
  - rewrite app_nil_r. by left.
  - by destruct (Hx status).
  - done.
Qed.

Lemma sends_fail {L A} (want : list msghdr) (t : list (event L)) :
  sent_messages t = [] -> sends (A := A) want (t, Exit EXIT_FAILURE).
Proof.
  intros Ht. split; cbn [fst snd]; [rewrite Ht; apply prefix_nil|discriminate].
Qed.

Lemma sends_prefix {L A} (want : list msghdr) (t : list (event L)) (p : proc L A) :
  sent_messages t = [] -> sends want p -> sends want (t ++ fst p, snd p).
Proof.
  intros Ht [Hp1 Hp2]. unfold sends, succeeds in *. cbn [fst snd].
  by rewrite sent_messages_app, Ht.
Qed.

(** The call of [SigmetRaw_Rqst_Send] and the check of its value, then the
    run that follows when it returned 1. *)
Lemma sends_step {L A} (want : list msghdr) (m : msghdr) (st : list (event L)) (ret : Z)
  (msg : string) (rest : proc L A) :
  (ret = 0 /\ (sent_messages st = [] \/ sent_messages st = [m]))
  \/ (ret = 1 /\ sent_messages st = [m]) ->
  sends want rest ->
  sends (m :: want)
    (st ++ fst (if ret =? 0 then ([EvStderr msg], Exit EXIT_FAILURE) else rest),
     snd (if ret =? 0 then ([EvStderr msg], Exit EXIT_FAILURE) else rest)).
Proof.
  unfold sends, succeeds.
  intros [[-> Hst]|[-> Hst]] [Hr1 Hr2]; cbn [Z.eqb fst snd].
  - rewrite sent_messages_app. cbn [sent_messages omap]. rewrite app_nil_r.
    split; [|discriminate].
    destruct Hst as [->| ->]; [apply prefix_nil|]. by apply prefix_cons, prefix_nil.
  - rewrite sent_messages_app, Hst. cbn [app]. split.
    + by apply prefix_cons.
    + intros Hs. f_equal. by apply Hr2.
Qed.

(** A run that ends in a loop which sends nothing. *)
Lemma sends_nil {L A} (run : proc L A) : sent_messages (fst run) = [] -> sends [] run.
Proof. intros Ht. split; [rewrite Ht; apply prefix_nil|done]. Qed.

(** A run that never returns, followed by anything. *)
Lemma outcome_never_ret {L A B} (m : proc L A) (k : A -> proc L B) :
  outcome m -> (forall a, snd m <> Ret a) ->
  outcome (m ≫= k) /\ (forall b, snd (m ≫= k) <> Ret b).
Proof.
  destruct m as [t [a| |]]; unfold outcome, mbind, proc_mbind, proc_bind;
    cbn [fst snd]; intros Ho Hr; [by destruct (Hr a)|done..].
Qed.

Lemma stdout_of_map_stdout {L} (lines : list L) :
  stdout_of (map EvStdout lines) = lines.
Proof. induction lines as [|x lines IH]; [done|]. simpl. by f_equal. Qed.

Lemma stderr_of_map_stdout {L} (lines : list L) :
  stderr_of (map EvStdout lines) = [].
Proof. by induction lines. Qed.

Lemma sent_messages_map_stdout {L} (lines : list L) :
  sent_messages (map EvStdout lines) = [].
Proof. by induction lines. Qed.

Lemma to_int_to_unsigned_int (z : Z) :
  - 2 ^ 31 <= z < 2 ^ 31 -> to_int (to_unsigned z) = z.
Proof.
  intros Hz. unfold to_int, to_unsigned.
  rewrite Zplus_mod_idemp_l.
  rewrite Z.mod_small by lia. lia.
Qed.

Lemma failing_app {L} (t1 t2 : list (event L)) :
  silent t1 -> failing t2 -> failing (t1 ++ t2).
Proof.
  intros [H1 H2] [H3 H4]. unfold failing.
  by rewrite stdout_of_app, stderr_of_app, H1, H2, H3.
Qed.

(** An [int] that [recvmsg] has filled in part only: the bytes that did not
    arrive keep the 0xff of the -1 the buffer was initialised with, so the
    value is negative. *)
Lemma le_value_short (l : list Z) :
  Forall (fun b => 0 <= b < 256) l -> (length l < 4)%nat ->
  to_int (le_value (take 4 l ++ drop (length l) [255; 255; 255; 255])) < 0.
Proof.
  intros Hb Hl.
  destruct l as [|a [|b [|c [|d l]]]]; cbn [length] in Hl; try lia;
    repeat match goal with
           | Hf : Forall _ (_ :: _) |- _ => apply Forall_cons in Hf as [? Hf]
           end;
    cbn [take drop length app le_value]; unfold to_int;
    change (2 ^ 31) with 2147483648; change (2 ^ 32) with 4294967296;
    Z.div_mod_to_equations; lia.
Qed.

Lemma to_unsigned_to_int (z : Z) : to_unsigned (to_int z) = to_unsigned z.
Proof.
  unfold to_int, to_unsigned. rewrite Zminus_mod_idemp_l.
  f_equal. lia.
Qed.

(** The sweep index of a request that was set from an [unsigned]. *)
Lemma rqst_message_unsigned (sub_cmd : Z) (field : list Z) (swp err hd : Z) :
  rqst_message sub_cmd field swp err hd
  = rqst_message sub_cmd field (to_int swp) err hd.
Proof. unfold rqst_message. by rewrite to_unsigned_to_int. Qed.

Lemma to_unsigned_small (z : Z) : 0 <= z < 2 ^ 32 -> 0 <= z /\ to_unsigned z = z.
Proof. intros Hz. split; [lia|]. unfold to_unsigned. by rewrite Z.mod_small. Qed.

(** The sweep index of a request is an [int]. *)
Lemma rqst_message_swp (sub_cmd : Z) (field : list Z) (swp err hd : Z) :
  - 2 ^ 31 <= swp < 2 ^ 31 ->
  rqst_message sub_cmd field swp err hd
  = rqst_message sub_cmd field (to_int (to_unsigned swp)) err hd.
Proof. intros Hs. by rewrite to_int_to_unsigned_int. Qed.


End RunFacts.

(** Walking the body of a client: [Hfail] closes the branches that report
    an error and exit, [Hpre] peels a call whose trace is known off the
    front. *)
Ltac trace_side :=
  solve [ apply RunFacts.silent_DmnConnect
        | apply RunFacts.silent_Rqst_Send
        | apply RunFacts.sent_DmnConnect
        | apply SigmetRawClientFacts.stdout_of_DmnConnect
        | apply SigmetRawClientFacts.stdout_of_Rqst_Send
        | done
        | unfold Posix.failing, Posix.silent; cbn; repeat split; done ].

Ltac walk_guard Hfail :=
  first
    [ rewrite ProcFacts.bind_guard;
      match goal with |- _ (if ?c then _ else _) => destruct c eqn:? end;
      [|solve [apply Hfail; trace_side]]
    | rewrite ProcFacts.bind_guard_neg;
      match goal with |- _ (if ?c then _ else _) => destruct c eqn:? end;
      [solve [apply Hfail; trace_side]|]
    | rewrite ProcFacts.bind_guard_opt;
      match goal with
      | |- _ (match ?o with Some _ => _ | None => _ end) => destruct o eqn:?
      end;
      [|solve [apply Hfail; trace_side]]
    | rewrite ProcFacts.bind_guard_dec;
      match goal with |- _ (if decide ?P then _ else _) => destruct (decide P) end;
      [|solve [apply Hfail; trace_side]]
    | rewrite ProcFacts.bind_fail; solve [apply Hfail; trace_side] ].

Ltac walk_prefix Hpre :=
  first
    [ rewrite ProcFacts.bind_traced; apply Hpre; [trace_side|]
    | rewrite ProcFacts.bind_emit; apply Hpre; [trace_side|]
    | rewrite ProcFacts.bind_recvmsg; apply Hpre; [trace_side|] ].

Ltac walk Hfail Hpre :=
  cbv beta iota zeta;
  repeat (first [ rewrite ProcFacts.bind_ret | walk_guard Hfail | walk_prefix Hpre ];
          cbv beta iota zeta).

Ltac walk_send :=
  rewrite ProcFacts.bind_traced; cbv beta iota zeta; rewrite ProcFacts.bind_guard_neg;
  apply RunFacts.sends_step;
  [apply RunFacts.Rqst_Send_sent; simpl; unfold Data.STDOUT_FILENO; lia|].

Ltac walk_status Hfail :=
  match goal with
  | |- _ (SigmetRawClient.check_status ?x ?st ?pre ?cl ?msg ≫= ?k) =>
      let t := fresh "t" in
      let Ht := fresh "Ht" in
      let Hs := fresh "Hs" in
      destruct (RunFacts.bind_check_status_cases x st pre cl msg k) as (t & Ht & Hs & ->);
      match goal with |- _ (if ?c then _ else _) => destruct c eqn:? end;
      [clear t Ht Hs; cbv beta iota zeta
      |solve [apply Hfail; first [exact Ht | exact Hs | trace_side]]]
  end.

(** ** data.c: outcomes, binary output and bounds *)

Module DataRunFacts.
Import Platform Posix Sigmet SigmetRaw SigmetRawClient ProcFacts SigmetRawClientFacts.
Import RunFacts Data DataFacts.

Section data_run.
Context `{SigmetLib}.

(** The output loops write to standard output only, and never exit. *)
Lemma fl_txt_loop_quiet (type : Sigmet_DataType) (vol_hdr : Sigmet_VolHdr) (fmt : string)
  (rays : list (list (list (Sigmet_Ray Storage)))) (s y num_bins_max : Z) (rs : list Z) :
  forall buf,
    let run := fl_txt_loop type vol_hdr fmt rays s y num_bins_max rs buf in
    stderr_of (fst run) = [] /\ (forall status, snd run <> Exit status).
Proof.
  induction rs as [|r rs IH]; intros buf run; subst run; [done|].
  cbn [fl_txt_loop]. cbv zeta. unfold rays_get.
  destruct (rays_at rays s r y) as [ray|]; [|done].
  cbn [defined]. rewrite bind_ret, stderr_of_bind, snd_bind. cbn [emit fst snd app].
  apply IH.
Qed.

Lemma fl_bin_loop_quiet (type : Sigmet_DataType) (vol_hdr : Sigmet_VolHdr)
  (rays : list (list (list (Sigmet_Ray Storage)))) (s y : Z) (rs : list Z) :
  forall buf,
    let run := fl_bin_loop type vol_hdr rays s y rs buf in
    stderr_of (fst run) = [] /\ (forall status, snd run <> Exit status).
Proof.
  induction rs as [|r rs IH]; intros buf run; subst run; [done|].
  cbn [fl_bin_loop]. unfold rays_get.
  destruct (rays_at rays s r y) as [ray|]; [|done].
  cbn [defined]. rewrite bind_ret.
  destruct (dat ray) as [idat|]; [|apply IH]. cbv zeta.
  rewrite stderr_of_bind, snd_bind.
  destruct (decide _); cbn [emit undefined fst snd app]; [apply IH|done].
Qed.

(** [data_fm_fl] never returns, and it keeps output and errors apart. *)
Lemma data_fm_fl_outcome (os : vol_env) (path : string) (type : Sigmet_DataType) (s : Z)
  (txt : bool) (cmd : string) :
  let run := data_fm_fl os path type s txt cmd in
  outcome run /\ forall a, snd run <> Ret a.
Proof.
  intros run.
  set (Q := fun run : proc data_out unit => outcome run /\ forall a, snd run <> Ret a).
  change (Q run).
  assert (Hfail : forall t, failing t -> Q (t, Exit EXIT_FAILURE)).
  { intros t Ht. split; [by apply outcome_fail|done]. }
  assert (Hpre : forall t (p : proc data_out unit),
             silent t -> Q p -> Q (t ++ fst p, snd p)).
  { intros t p Ht [Hp1 Hp2]. split; [by apply outcome_prefix|done]. }
  subst run. unfold data_fm_fl. walk Hfail Hpre.
  destruct (Sigmet_VolReadDat os) as [[rd swp_hdrs] rays]. walk Hfail Hpre.
  match goal with
  | |- Q (num_bins_max_loop ?rays ?s ?y ?rs ?acc ≫= ?k) =>
      pose proof (num_bins_max_loop_spec (L := data_out) rays s y rs acc) as [Hmt Hmr];
      destruct (num_bins_max_loop rays s y rs acc) as [mt [m| |]];
      cbn [fst snd] in Hmt, Hmr; subst mt; [|done|by split]
  end.
  change (([] : list (event data_out)), Ret m) with (mret (M := proc data_out) m).
  walk Hfail Hpre.
  destruct txt.
  - rewrite bind_assoc. walk Hfail Hpre.
    match goal with
    | |- Q (?loop ≫= _) =>
        split; [apply outcome_exit_success; apply fl_txt_loop_quiet|];
        intros a; rewrite snd_bind; by destruct (snd loop)
    end.
  - match goal with
    | |- Q (?loop ≫= _) =>
        split; [apply outcome_exit_success; apply fl_bin_loop_quiet|];
        intros a; rewrite snd_bind; by destruct (snd loop)
    end.
Qed.

(** The native binary loop writes one chunk for each ray that has data, of
    as many values as the ray has bins, and nothing for a ray without. *)
Lemma fl_bin_loop_chunks (type : Sigmet_DataType) (vol_hdr : Sigmet_VolHdr)
  (rays : list (list (list (Sigmet_Ray Storage)))) (s y : Z) (rs : list Z) :
  forall buf,
    let run := fl_bin_loop type vol_hdr rays s y rs buf in
    snd run = Ret tt ->
    exists sweep,
      Forall2 (fun r ray => rays_at rays s r y = Some ray) rs sweep /\
      Forall2 (fun ray chunk =>
                 exists b,
                   length b = length buf /\
                   0 <= num_bins (ray_hdr ray) <= Z.of_nat (length buf) /\
                   chunk = BinChunk
                             (take (Z.to_nat (num_bins (ray_hdr ray)))
                                (Sigmet_DataTypeStorToVal (Some type) (num_bins (ray_hdr ray))
                                   b (dat ray) vol_hdr)))
        (filter (fun ray => is_Some (dat ray)) sweep) (stdout_of (fst run)).
Proof.
  induction rs as [|r rs IH]; intros buf run; subst run.
  - intros _. exists []. split; constructor.
  - cbn [fl_bin_loop]. unfold rays_get.
    destruct (rays_at rays s r y) as [ray|] eqn:Hray; [|discriminate].
    cbn [defined]. rewrite bind_ret.
    destruct (dat ray) as [idat|] eqn:Hd.
    + cbv zeta.
      set (buf' := Sigmet_DataTypeStorToVal (Some type) (num_bins (ray_hdr ray)) buf
                     (Some idat) vol_hdr).
      assert (Hlen : length buf' = length buf) by apply StorToVal_length.
      rewrite snd_bind, stdout_of_bind.
      destruct (decide (0 <= num_bins (ray_hdr ray) <= Z.of_nat (length buf'))) as [Hnb|];
        cbn [emit undefined fst snd]; [|discriminate].
      intros Hret. destruct (IH buf' Hret) as (sweep & F1 & F2).
      exists (ray :: sweep). split; [by constructor|].
      rewrite filter_cons_True by (rewrite Hd; by eexists).
      change (stdout_of [EvStdout ?x]) with [x]. cbn [app]. constructor.
      * exists buf. rewrite Hd. fold buf'. split; [done|]. split; [lia|done].
      * eapply Forall2_impl; [exact F2|]. intros ray' chunk (b & Hb & Hr & Hc).
        exists b. rewrite <- Hlen. done.
    + intros Hret. destruct (IH buf Hret) as (sweep & F1 & F2).
      exists (ray :: sweep). split; [by constructor|].
      rewrite filter_cons_False; [done|]. rewrite Hd. by intros [? ?].
Qed.

(** X13.  In native binary mode [data_fm_fl] skips the rays that have no data: a
    run that exits with success has written, for the rays of the sweep in
    order, one chunk for each ray that has data and none for the others;
    the chunk of a ray holds as many values as the ray has bins, as
    [Sigmet_DataTypeStorToVal] stored them. *)
Theorem data_fm_fl_bin_chunks (os : vol_env) (path : string) (type : Sigmet_DataType)
  (s : Z) (cmd : string) (vol_hdr : Sigmet_VolHdr) (rd : Z)
  (swp_hdrs : list Sigmet_SwpHdr) (rays : list (list (list (Sigmet_Ray Storage)))) :
  Sigmet_VolReadVHdr os = Some vol_hdr ->
  Sigmet_VolReadDat os = (rd, swp_hdrs, rays) ->
  let run := data_fm_fl os path type s false cmd in
  let y := to_int (Sigmet_VolTypeIdx (Some type) vol_hdr) in
  let num_rays := to_int (Sigmet_VolNumRays vol_hdr) in
  snd run = Exit EXIT_SUCCESS ->
  exists sweep,
    Forall2 (fun r ray => rays_at rays s r y = Some ray) (seqZ 0 num_rays) sweep /\
    Forall2 (fun ray chunk =>
               exists b vals,
                 chunk = BinChunk vals /\
                 vals = take (Z.to_nat (num_bins (ray_hdr ray)))
                          (Sigmet_DataTypeStorToVal (Some type) (num_bins (ray_hdr ray))
                             b (dat ray) vol_hdr) /\
                 0 <= num_bins (ray_hdr ray) /\
                 length vals = Z.to_nat (num_bins (ray_hdr ray)))
      (filter (fun ray => is_Some (dat ray)) sweep) (stdout_of (fst run)).
Proof.
  intros Hvol Hdat run y num_rays.
  set (Q := fun run : proc data_out unit =>
    snd run = Exit EXIT_SUCCESS ->
    exists sweep,
      Forall2 (fun r ray => rays_at rays s r y = Some ray) (seqZ 0 num_rays) sweep /\
      Forall2 (fun ray chunk =>
                 exists b vals,
                   chunk = BinChunk vals /\
                   vals = take (Z.to_nat (num_bins (ray_hdr ray)))
                            (Sigmet_DataTypeStorToVal (Some type) (num_bins (ray_hdr ray))
                               b (dat ray) vol_hdr) /\
                   0 <= num_bins (ray_hdr ray) /\
                   length vals = Z.to_nat (num_bins (ray_hdr ray)))
        (filter (fun ray => is_Some (dat ray)) sweep) (stdout_of (fst run))).
  change (Q run).
  assert (Hfail : forall t, failing t -> Q (t, Exit EXIT_FAILURE)).
  { intros t _ Hs. discriminate Hs. }
  assert (Hpre : forall t (p : proc data_out unit),
             stdout_of t = [] -> Q p -> Q (t ++ fst p, snd p)).
  { intros t p Ht Hp Hs. cbn [fst snd] in *. rewrite stdout_of_app, Ht. by apply Hp. }
  subst run. unfold data_fm_fl. rewrite Hvol. walk Hfail Hpre.
  rewrite Hdat. walk Hfail Hpre. fold y num_rays.
  pose proof (num_bins_max_loop_spec (L := data_out) rays s y (seqZ 0 num_rays) 0)
    as [Hmt Hmr].
  destruct (num_bins_max_loop rays s y (seqZ 0 num_rays) 0) as [mt [m| |]];
    cbn [fst snd] in Hmt, Hmr; subst mt; [|done|intros Hs; discriminate Hs].
  change (([] : list (event data_out)), Ret m) with (mret (M := proc data_out) m).
  walk Hfail Hpre.
  set (buf := replicate (Z.to_nat m) (float_of_unsigned 0)).
  pose proof (fl_bin_loop_chunks type vol_hdr rays s y (seqZ 0 num_rays) buf) as Hloop.
  pose proof (fl_bin_loop_quiet type vol_hdr rays s y (seqZ 0 num_rays) buf) as [_ Hx].
  cbv zeta in Hloop, Hx.
  destruct (fl_bin_loop type vol_hdr rays s y (seqZ 0 num_rays) buf) as [t [[]| |]];
    cbn [fst snd] in Hloop, Hx; [|by destruct (Hx status)|intros Hs; discriminate Hs].
  intros _. unfold mbind, proc_mbind, proc_bind, exit. cbn [fst snd].
  rewrite app_nil_r. destruct (Hloop eq_refl) as (sweep & F1 & F2).
  exists sweep. split; [exact F1|].
  eapply Forall2_impl; [exact F2|]. intros ray chunk (b & Hb & Hr & ->).
  eexists b, _. split; [reflexivity|]. split; [reflexivity|]. split; [lia|].
  rewrite length_take, StorToVal_length. lia.
Qed.

Lemma num_bins_max_loop_ret {L} (rays : list (list (list (Sigmet_Ray Storage))))
  (s y : Z) (rs : list Z) :
  (forall r, r ∈ rs -> is_Some (rays_at rays s r y)) ->
  forall acc, exists m, snd (num_bins_max_loop (L := L) rays s y rs acc) = Ret m.
Proof.
  induction rs as [|r rs IH]; intros Hrs acc; [by eexists|].
  cbn [num_bins_max_loop]. unfold rays_get.
  destruct (Hrs r (list_elem_of_here _ _)) as [ray ->].
  cbn [defined]. rewrite bind_ret. apply IH.
  intros r' Hin. apply Hrs. by apply list_elem_of_further.
Qed.

Lemma fl_txt_loop_ret (type : Sigmet_DataType) (vol_hdr : Sigmet_VolHdr) (fmt : string)
  (rays : list (list (list (Sigmet_Ray Storage)))) (s y num_bins_max : Z) (rs : list Z) :
  (forall r, r ∈ rs -> is_Some (rays_at rays s r y)) ->
  forall buf, snd (fl_txt_loop type vol_hdr fmt rays s y num_bins_max rs buf) = Ret tt.
Proof.
  induction rs as [|r rs IH]; intros Hrs buf; [done|].
  cbn [fl_txt_loop]. cbv zeta. unfold rays_get.
  destruct (Hrs r (list_elem_of_here _ _)) as [ray ->].
  cbn [defined]. rewrite bind_ret, snd_bind. cbn [emit snd]. apply IH.
  intros r' Hin. apply Hrs. by apply list_elem_of_further.
Qed.

Lemma fl_bin_loop_ret (type : Sigmet_DataType) (vol_hdr : Sigmet_VolHdr)
  (rays : list (list (list (Sigmet_Ray Storage)))) (s y : Z) (rs : list Z) (n : nat) :
  (forall r, r ∈ rs ->
     exists ray, rays_at rays s r y = Some ray /\
                 0 <= num_bins (ray_hdr ray) <= Z.of_nat n) ->
  forall buf, length buf = n -> snd (fl_bin_loop type vol_hdr rays s y rs buf) = Ret tt.
Proof.
  induction rs as [|r rs IH]; intros Hrs buf Hbuf; [done|].
  cbn [fl_bin_loop]. unfold rays_get.
  destruct (Hrs r (list_elem_of_here _ _)) as (ray & -> & Hnb).
  cbn [defined]. rewrite bind_ret.
  assert (Hrs' : forall r', r' ∈ rs ->
            exists ray, rays_at rays s r' y = Some ray /\
                        0 <= num_bins (ray_hdr ray) <= Z.of_nat n).
  { intros r' Hin. apply Hrs. by apply list_elem_of_further. }
  destruct (dat ray) as [idat|]; [|by apply IH]. cbv zeta.
  rewrite snd_bind. rewrite decide_True by (rewrite StorToVal_length, Hbuf; done).
  cbn [emit snd]. apply IH; [done|]. by rewrite StorToVal_length.
Qed.

(** X14.  [data_fm_fl] stays inside its arrays.  When the ray array has the
    dimensions it is allocated with, the library reports the index of a
    type of the volume or -1, and no bin count is negative, then no run
    indexes outside the ray array, and the output array, which is sized by
    the largest bin count of the sweep, holds every ray that is written. *)
Theorem data_fm_fl_in_bounds (os : vol_env) (path : string) (type : Sigmet_DataType)
  (s : Z) (txt : bool) (cmd : string) (vol_hdr : Sigmet_VolHdr) (rd : Z)
  (swp_hdrs : list Sigmet_SwpHdr) (rays : list (list (list (Sigmet_Ray Storage)))) :
  Sigmet_VolReadVHdr os = Some vol_hdr ->
  Sigmet_VolReadDat os = (rd, swp_hdrs, rays) ->
  let num_swps := to_int (Sigmet_VolNumSwps vol_hdr) in
  let num_rays := to_int (Sigmet_VolNumRays vol_hdr) in
  let num_types := to_int (Sigmet_VolNumTypes vol_hdr) in
  let y := to_int (Sigmet_VolTypeIdx (Some type) vol_hdr) in
  (forall s' r' y', 0 <= s' < num_swps -> 0 <= r' < num_rays -> 0 <= y' < num_types ->
                    is_Some (rays_at rays s' r' y')) ->
  (y = -1 \/ 0 <= y < num_types) ->
  (forall r ray, rays_at rays s r y = Some ray -> 0 <= num_bins (ray_hdr ray)) ->
  snd (data_fm_fl os path type s txt cmd) <> Undefined.
Proof.
  intros Hvol Hdat num_swps num_rays num_types y Hdims Hidx Hnb.
  subst num_swps num_rays num_types y.
  set (Q := fun run : proc data_out unit => snd run <> Undefined).
  change (Q (data_fm_fl os path type s txt cmd)).
  assert (Hfail : forall t, failing t -> Q (t, Exit EXIT_FAILURE)) by done.
  assert (Hpre : forall t (p : proc data_out unit),
             stdout_of t = [] -> Q p -> Q (t ++ fst p, snd p)) by done.
  unfold data_fm_fl. rewrite Hvol. walk Hfail Hpre.
  rewrite Hdat. walk Hfail Hpre.
  set (y := to_int (Sigmet_VolTypeIdx (Some type) vol_hdr)) in *.
  set (num_rays := to_int (Sigmet_VolNumRays vol_hdr)) in *.
  set (num_swps := to_int (Sigmet_VolNumSwps vol_hdr)) in *.
  assert (Hrow : forall r, r ∈ seqZ 0 num_rays -> is_Some (rays_at rays s r y)).
  { intros r Hin. apply elem_of_seqZ in Hin.
    repeat match goal with
           | E : (_ || _) = false |- _ => apply orb_false_iff in E as [? ?]
           | E : (_ <? _) = false |- _ => apply Z.ltb_ge in E
           | E : (_ <=? _) = false |- _ => apply Z.leb_gt in E
           | E : (_ =? _) = false |- _ => apply Z.eqb_neq in E
           end.
    apply Hdims; lia. }
  destruct (num_bins_max_loop_ret (L := data_out) rays s y (seqZ 0 num_rays) Hrow 0)
    as [m Hm].
  pose proof (num_bins_max_loop_spec (L := data_out) rays s y (seqZ 0 num_rays) 0)
    as [Hmt Hmr].
  destruct (num_bins_max_loop rays s y (seqZ 0 num_rays) 0) as [mt r0];
    cbn [fst snd] in Hmt, Hmr, Hm; subst mt r0. destruct Hmr as (Hm0 & Hub & _).
  change (([] : list (event data_out)), Ret m) with (mret (M := proc data_out) m).
  walk Hfail Hpre.
  destruct txt.
  - rewrite bind_assoc. walk Hfail Hpre. unfold Q. rewrite snd_bind.
    by rewrite fl_txt_loop_ret.
  - unfold Q. rewrite snd_bind.
    rewrite (fl_bin_loop_ret type vol_hdr rays s y (seqZ 0 num_rays) (Z.to_nat m));
      [done| |by rewrite length_replicate].
    intros r Hin. destruct (Hrow r Hin) as [ray Hray]. exists ray. split; [done|].
    split; [by eapply Hnb|]. rewrite Z2Nat.id by lia. by eapply Hub.
Qed.

(** The output loop of [skt_to_txt]: the lines it prints, each the values of
    a ray followed by NaN up to [num_bins_max]; the values are consecutive
    pieces of the values it is given. *)
Lemma skt_txt_loop_trace (fmt : string) (num_bins_max : Z) (hdrs : list SigmetRaw_RayHdr) :
  forall buf,
    exists lines r,
      skt_txt_loop fmt num_bins_max hdrs buf = (map EvStdout lines, r) /\
      (r = Ret tt \/ r = Undefined) /\
      ((sum_list_with (fun h => Z.to_nat (num_bins (wray_hdr h))) hdrs <= length buf)%nat ->
       r = Ret tt /\
       exists rows,
         Forall2 (fun h vals => length vals = Z.to_nat (num_bins (wray_hdr h))) hdrs rows /\
         concat rows
         = take (sum_list_with (fun h => Z.to_nat (num_bins (wray_hdr h))) hdrs) buf /\
         lines = zip_with
                   (fun h vals =>
                      TxtLine fmt
                        (vals ++ replicate (Z.to_nat num_bins_max
                                            - Z.to_nat (num_bins (wray_hdr h))) NANf))
                   hdrs rows).
Proof.
  induction hdrs as [|h hdrs IH]; intros buf.
  - exists [], (Ret tt). split; [done|]. split; [by left|]. intros _.
    split; [done|]. exists []. split; [constructor|]. by split.
  - cbn [skt_txt_loop sum_list_with]. cbv zeta.
    set (nb := Z.to_nat (num_bins (wray_hdr h))).
    destruct (decide (nb <= length buf)%nat) as [Hle|Hgt].
    + destruct (IH (drop nb buf)) as (lines & r & E & Hr & Hrows).
      rewrite bind_emit, E. cbn [fst snd app].
      eexists (_ :: lines), r. split; [reflexivity|]. split; [exact Hr|].
      intros Hsum. destruct Hrows as [-> (rows & F & Hc & ->)].
      { rewrite length_drop. lia. }
      split; [done|]. exists (take nb buf :: rows). split; [|split].
      * constructor; [|done]. rewrite length_take. lia.
      * cbn [concat]. rewrite Hc. apply take_take_drop.
      * reflexivity.
    + exists [], Undefined. split; [done|]. split; [by right|]. intros Hsum. lia.
Qed.

(** [skt_to_txt] never returns, and it keeps output and errors apart. *)
Lemma skt_to_txt_outcome (os : skt_env) (path : string) (type : Sigmet_DataType) (s : Z)
  (cmd : string) :
  let run := skt_to_txt os path type s cmd in
  outcome run /\ forall a, snd run <> Ret a.
Proof.
  intros run.
  set (Q := fun run : proc data_out unit => outcome run /\ forall a, snd run <> Ret a).
  change (Q run).
  assert (Hfail : forall t, failing t -> Q (t, Exit EXIT_FAILURE)).
  { intros t Ht. split; [by apply outcome_fail|done]. }
  assert (Hpre : forall t (p : proc data_out unit),
             silent t -> Q p -> Q (t ++ fst p, snd p)).
  { intros t p Ht [Hp1 Hp2]. split; [by apply outcome_prefix|done]. }
  subst run. unfold skt_to_txt. walk Hfail Hpre.
  destruct (x_recvmsg (rh_x os)) as [bytes|]; cbn [fmap option_fmap option_map scatter];
    walk Hfail Hpre.
  walk_status Hfail. walk Hfail Hpre.
  destruct (x_recvmsg (dat_x os)) as [dat_bytes|];
    cbn [fmap option_fmap option_map scatter]; walk Hfail Hpre.
  walk_status Hfail. walk Hfail Hpre.
  match goal with
  | |- Q (skt_txt_loop ?fmt ?m ?hdrs ?buf ≫= _) =>
      destruct (skt_txt_loop_trace fmt m hdrs buf) as (lines & r & -> & Hr & _)
  end.
  split.
  - apply outcome_exit_success; cbn [fst snd]; [apply stderr_of_map_stdout|].
    by destruct Hr as [-> | ->].
  - intros a. rewrite snd_bind. cbn [snd]. by destruct Hr as [-> | ->].
Qed.

(** [skt_to_bin] never returns, and it keeps output and errors apart. *)
Lemma skt_to_bin_outcome (x : exchange_env) (path : string) (type : Sigmet_DataType) (s : Z)
  (cmd : string) :
  let run := skt_to_bin x path type s cmd in
  outcome run /\ forall a, snd run <> Ret a.
Proof.
  intros run.
  set (Q := fun run : proc data_out unit => outcome run /\ forall a, snd run <> Ret a).
  change (Q run).
  assert (Hfail : forall t, failing t -> Q (t, Exit EXIT_FAILURE)).
  { intros t Ht. split; [by apply outcome_fail|done]. }
  assert (Hpre : forall t (p : proc data_out unit),
             silent t -> Q p -> Q (t ++ fst p, snd p)).
  { intros t p Ht [Hp1 Hp2]. split; [by apply outcome_prefix|done]. }
  subst run. unfold skt_to_bin. walk Hfail Hpre.
  destruct (x_recvmsg x) as [bytes|]; cbn [fmap option_fmap option_map scatter];
    walk Hfail Hpre.
  walk_status Hfail.
  split; [by left|done].
Qed.

(** X15.  [skt_to_bin] hands its own standard output to the daemon: the one
    request it sends is for the data of the sweep, with descriptor 1
    ([STDOUT_FILENO]) in the headers/data slot and the write end of the
    error pipe in the error slot, and the client writes nothing to its
    standard output itself.  A run that exits with success has sent the
    request. *)
Theorem skt_to_bin_request (x : exchange_env) (path : string) (type : Sigmet_DataType)
  (s : Z) (cmd : string) (err_pipe : Z * Z) :
  x_err_pipe x = Some err_pipe -> 0 <= snd err_pipe ->
  - 2 ^ 31 <= s < 2 ^ 31 ->
  let run := skt_to_bin x path type s cmd in
  let field := abbrv (SigmetRaw_Rqst_Set_DataType SigmetRaw_Rqst_Init
                        (Sigmet_DataTypeAbbrv type)) in
  let m := rqst_message (SubCmdN_val SigmetRawData) field s (snd err_pipe) STDOUT_FILENO in
  sends [m] run /\ stdout_of (fst run) = [].
Proof.
  intros Herr Hfd Hs run field m. split.
  - assert (Hm : m = rqst_message (SubCmdN_val SigmetRawData) field
                       (to_int (to_unsigned s)) (snd err_pipe) STDOUT_FILENO).
    { subst m. by rewrite to_int_to_unsigned_int. }
    rewrite Hm. clear Hm. clearbody m. clear m.
    set (m := rqst_message _ _ _ _ _).
    subst run. unfold skt_to_bin. rewrite Herr.
    walk (sends_fail (L := data_out) (A := unit) [m]) (sends_prefix (L := data_out) (A := unit) [m]).
    walk_send.
    walk (sends_fail (L := data_out) (A := unit) []) (sends_prefix (L := data_out) (A := unit) []).
    destruct (x_recvmsg x) as [bytes|]; cbn [fmap option_fmap option_map scatter];
      walk (sends_fail (L := data_out) (A := unit) []) (sends_prefix (L := data_out) (A := unit) []).
    walk_status (sends_fail (L := data_out) (A := unit) []).
    by apply sends_nil.
  - set (Q := fun run : proc data_out unit => stdout_of (fst run) = []).
    change (Q run).
    assert (Hfail : forall t, failing t -> Q (t, Exit EXIT_FAILURE)) by (by intros t [? ?]).
    assert (Hpre : forall t (p : proc data_out unit),
               stdout_of t = [] -> Q p -> Q (t ++ fst p, snd p)).
    { intros t p Ht Hp. unfold Q in *. cbn [fst]. by rewrite stdout_of_app, Ht. }
    subst run. unfold skt_to_bin. walk Hfail Hpre.
    destruct (x_recvmsg x) as [bytes|]; cbn [fmap option_fmap option_map scatter];
      walk Hfail Hpre.
    walk_status Hfail. done.
Qed.

(** X16.  [skt_to_txt] asks the daemon twice: first for the ray headers of the
    sweep, to be written to the headers pipe, then for the data of the sweep,
    to be written to the data pipe, each with the write end of that
    exchange's error pipe in the error slot.  It sends nothing else, the
    requests go out in this order, and a run that exits with success has
    sent both. *)
Theorem skt_to_txt_requests (os : skt_env) (path : string) (type : Sigmet_DataType)
  (s : Z) (cmd : string) (rh_pipe rh_err_pipe dat_pipe dat_err_fd : Z * Z) :
  x_pipe (rh_x os) = Some rh_pipe -> x_err_pipe (rh_x os) = Some rh_err_pipe ->
  x_pipe (dat_x os) = Some dat_pipe -> x_err_pipe (dat_x os) = Some dat_err_fd ->
  0 <= snd rh_pipe -> 0 <= snd rh_err_pipe -> 0 <= snd dat_pipe -> 0 <= snd dat_err_fd ->
  - 2 ^ 31 <= s < 2 ^ 31 ->
  let field := abbrv (SigmetRaw_Rqst_Set_DataType SigmetRaw_Rqst_Init
                        (Sigmet_DataTypeAbbrv type)) in
  sends [ rqst_message (SubCmdN_val SigmetRawRayHeaders) field s
            (snd rh_err_pipe) (snd rh_pipe);
          rqst_message (SubCmdN_val SigmetRawData) field s
            (snd dat_err_fd) (snd dat_pipe) ]
    (skt_to_txt os path type s cmd).
Proof.
  intros Hp1 He1 Hp2 He2 N1 N2 N3 N4 Hs field.
  rewrite !(rqst_message_swp _ _ s) by done.
  set (m1 := rqst_message (SubCmdN_val SigmetRawRayHeaders) _ _ _ _).
  set (m2 := rqst_message (SubCmdN_val SigmetRawData) _ _ _ _).
  unfold skt_to_txt. rewrite Hp1, He1, Hp2, He2.
  walk (sends_fail (L := data_out) (A := unit) [m1; m2])
       (sends_prefix (L := data_out) (A := unit) [m1; m2]).
  walk_send.
  walk (sends_fail (L := data_out) (A := unit) [m2])
       (sends_prefix (L := data_out) (A := unit) [m2]).
  destruct (x_recvmsg (rh_x os)) as [bytes|]; cbn [fmap option_fmap option_map scatter];
    walk (sends_fail (L := data_out) (A := unit) [m2])
         (sends_prefix (L := data_out) (A := unit) [m2]).
  walk_status (sends_fail (L := data_out) (A := unit) [m2]).
  walk (sends_fail (L := data_out) (A := unit) [m2])
       (sends_prefix (L := data_out) (A := unit) [m2]).
  walk_send.
  walk (sends_fail (L := data_out) (A := unit) [])
       (sends_prefix (L := data_out) (A := unit) []).
  destruct (x_recvmsg (dat_x os)) as [dat_bytes|];
    cbn [fmap option_fmap option_map scatter];
    walk (sends_fail (L := data_out) (A := unit) [])
         (sends_prefix (L := data_out) (A := unit) []).
  walk_status (sends_fail (L := data_out) (A := unit) []).
  walk (sends_fail (L := data_out) (A := unit) [])
       (sends_prefix (L := data_out) (A := unit) []).
  apply sends_nil.
  match goal with
  | |- context [skt_txt_loop ?fmt ?m ?hdrs ?buf] =>
      destruct (skt_txt_loop_trace fmt m hdrs buf) as (lines & r & -> & Hr & _)
  end.
  rewrite fst_bind. cbn [fst]. rewrite sent_messages_app, sent_messages_map_stdout.
  by destruct Hr as [-> | ->].
Qed.

(** What [skt_to_txt] reads from a response that begins with a status, a
    sweep count and a ray count. *)
Lemma scatter_rh_rps (st num_swps num_rays : Z) (rest : list Z) :
  exists swp_tm tz,
    scatter [ le_bytes (Z.to_nat sizeof_enum) (Status_val SigmetRawError);
              le_bytes (Z.to_nat sizeof_int) (to_unsigned (-1));
              le_bytes (Z.to_nat sizeof_int) (to_unsigned (-1));
              bytes_of_double NANd;
              replicate (Z.to_nat SIGMET_TZ_STRLEN) 0 ]
      (le_bytes 4 st ++ le_bytes 4 num_swps ++ le_bytes 4 num_rays ++ rest)
    = [ le_bytes 4 st; le_bytes 4 num_swps; le_bytes 4 num_rays; swp_tm; tz ].
Proof.
  eexists _, _. cbn [scatter].
  change (Z.to_nat sizeof_enum) with 4%nat. change (Z.to_nat sizeof_int) with 4%nat.
  cbn [le_bytes length app take drop]. rewrite drop_nil. reflexivity.
Qed.

(** X17.  [skt_to_txt] prints what it reads from the data pipe, once and in
    order.  When the response to the first request reports [R] rays, a run
    that exits with success has read the first [R] wide ray headers from
    the headers pipe and as many values from the data pipe as their bin
    counts add up to; it has printed one line for each header, and the
    values of the lines, without their NaN padding, are those values
    in the order of the pipe: no value is dropped, repeated or moved to
    another ray. *)
Theorem skt_to_txt_values (os : skt_env) (path : string) (type : Sigmet_DataType) (s : Z)
  (cmd : string) (st num_swps R : Z) (rest : list Z) :
  x_recvmsg (rh_x os)
  = Some (le_bytes 4 st ++ le_bytes 4 num_swps ++ le_bytes 4 (to_unsigned R) ++ rest) ->
  - 2 ^ 31 <= R < 2 ^ 31 ->
  Forall (fun h => 0 <= num_bins (wray_hdr h) <= INT_MAX) (rh_fl os) ->
  let run := skt_to_txt os path type s cmd in
  let hdrs := take (Z.to_nat R) (rh_fl os) in
  let tot := sum_list_with (fun h => Z.to_nat (num_bins (wray_hdr h))) hdrs in
  snd run = Exit EXIT_SUCCESS ->
  exists fmt rows,
    Sigmet_DataType_PrintFmt type = Some fmt /\
    0 < R /\ length hdrs = Z.to_nat R /\
    Forall2 (fun h vals => length vals = Z.to_nat (num_bins (wray_hdr h))) hdrs rows /\
    concat rows = take tot (dat_fl os) /\
    (tot <= length (dat_fl os))%nat /\
    stdout_of (fst run)
    = zip_with
        (fun h vals =>
           TxtLine fmt
             (vals ++ replicate (Z.to_nat (skt_num_bins_max_loop hdrs)
                                 - Z.to_nat (num_bins (wray_hdr h))) NANf))
        hdrs rows.
Proof.
  intros Hrecv HR Hnb run hdrs tot.
  set (Q := fun run : proc data_out unit =>
    snd run = Exit EXIT_SUCCESS ->
    exists fmt rows,
      Sigmet_DataType_PrintFmt type = Some fmt /\
      0 < R /\ length hdrs = Z.to_nat R /\
      Forall2 (fun h vals => length vals = Z.to_nat (num_bins (wray_hdr h))) hdrs rows /\
      concat rows = take tot (dat_fl os) /\
      (tot <= length (dat_fl os))%nat /\
      stdout_of (fst run)
      = zip_with
          (fun h vals =>
             TxtLine fmt
               (vals ++ replicate (Z.to_nat (skt_num_bins_max_loop hdrs)
                                   - Z.to_nat (num_bins (wray_hdr h))) NANf))
          hdrs rows).
  change (Q run).
  assert (Hfail : forall t, Q (t, Exit EXIT_FAILURE)) by (intros t Hs; discriminate Hs).
  assert (Hpre : forall t (p : proc data_out unit),
             stdout_of t = [] -> Q p -> Q (t ++ fst p, snd p)).
  { intros t p Ht Hp Hs. cbn [fst snd] in *. rewrite stdout_of_app, Ht. by apply Hp. }
  subst run. unfold skt_to_txt. rewrite Hrecv. walk Hfail Hpre.
  cbn [fmap option_fmap option_map].
  destruct (scatter_rh_rps st num_swps (to_unsigned R) rest) as (b_tm & b_tz & ->).
  walk Hfail Hpre.
  rewrite (le_value_le_bytes4 (to_unsigned R))
    by (unfold to_unsigned; apply Z.mod_pos_bound; done).
  rewrite (to_int_to_unsigned_int R HR).
  walk_status Hfail. walk Hfail Hpre.
  destruct (x_recvmsg (dat_x os)) as [dat_bytes|];
    cbn [fmap option_fmap option_map scatter]; walk Hfail Hpre.
  walk_status Hfail. walk Hfail Hpre.
  set (hdrs' := take (Z.to_nat R) (rh_fl os)) in *. subst hdrs. rename hdrs' into hdrs.
  assert (HRpos : 0 < R) by lia.
  assert (Hlen : length hdrs = Z.to_nat R) by (subst hdrs; rewrite length_take; lia).
  assert (Hnbh : Forall (fun h => 0 <= num_bins (wray_hdr h) <= INT_MAX) hdrs)
    by (subst hdrs; by apply Forall_take).
  assert (Htot : num_bins_tot_loop hdrs = Z.of_nat tot).
  { apply num_bins_tot_loop_sum; [done|]. rewrite Hlen. unfold INT_MAX. lia. }
  rewrite Htot in *. rewrite Nat2Z.id.
  match goal with
  | Hf : Sigmet_DataType_PrintFmt type = Some ?f |- _ => rename f into fmt
  end.
  destruct (skt_txt_loop_trace fmt (skt_num_bins_max_loop hdrs) hdrs (take tot (dat_fl os)))
    as (lines & r & -> & Hr & Hrows).
  intros Hs.
  destruct Hrows as [-> (rows & F & Hc & ->)]; [rewrite length_take; lia|].
  exists fmt, rows. split_and!; try done.
  - by rewrite take_take, Nat.min_id in Hc.
  - lia.
  - rewrite fst_bind. cbn [fst snd exit]. by rewrite app_nil_r, stdout_of_map_stdout.
Qed.

(** What [skt_to_txt] reads from a response of fewer than twelve bytes: the
    ray count is negative. *)
Lemma scatter_rh_short (bytes : list Z) :
  (length bytes < 12)%nat -> Forall (fun b => 0 <= b < 256) bytes ->
  exists b_st b_swps b_rays b_tm b_tz,
    scatter [ le_bytes (Z.to_nat sizeof_enum) (Status_val SigmetRawError);
              le_bytes (Z.to_nat sizeof_int) (to_unsigned (-1));
              le_bytes (Z.to_nat sizeof_int) (to_unsigned (-1));
              bytes_of_double NANd;
              replicate (Z.to_nat SIGMET_TZ_STRLEN) 0 ]
      bytes
    = [b_st; b_swps; b_rays; b_tm; b_tz] /\
    to_int (le_value b_rays) < 0.
Proof.
  intros Hlen Hb. eexists _, _, _, _, _. split; [reflexivity|].
  change (length (le_bytes (Z.to_nat sizeof_enum) (Status_val SigmetRawError))) with 4%nat.
  change (length (le_bytes (Z.to_nat sizeof_int) (to_unsigned (-1)))) with 4%nat.
  change (le_bytes (Z.to_nat sizeof_int) (to_unsigned (-1))) with [255; 255; 255; 255].
  apply le_value_short.
  - by do 2 apply Forall_drop.
  - rewrite !length_drop. lia.
Qed.

(** X18.  A response to the request for ray headers that is cut short never leads
    to output.  The program initialises the ray count to -1 before
    [recvmsg]; when fewer than twelve bytes arrive, the count stays
    negative whatever the bytes are, so the run exits with failure after a
    message on standard error and with nothing on standard output. *)
Theorem skt_to_txt_short_response (os : skt_env) (path : string) (type : Sigmet_DataType)
  (s : Z) (cmd : string) (bytes : list Z) :
  x_recvmsg (rh_x os) = Some bytes ->
  (length bytes < 12)%nat ->
  Forall (fun b => 0 <= b < 256) bytes ->
  let run := skt_to_txt os path type s cmd in
  snd run = Exit EXIT_FAILURE /\ failing (fst run).
Proof.
  intros Hrecv Hlen Hb run.
  set (Q := fun run : proc data_out unit => snd run = Exit EXIT_FAILURE /\ failing (fst run)).
  change (Q run).
  assert (Hfail : forall t, failing t -> Q (t, Exit EXIT_FAILURE)) by (by intros t Ht).
  assert (Hpre : forall t (p : proc data_out unit),
             silent t -> Q p -> Q (t ++ fst p, snd p)).
  { intros t p Ht [Hp1 Hp2]. split; [done|by apply failing_app]. }
  subst run. unfold skt_to_txt. rewrite Hrecv. walk Hfail Hpre.
  cbn [fmap option_fmap option_map].
  destruct (scatter_rh_short bytes Hlen Hb) as (b_st & b_swps & b_rays & b_tm & b_tz & -> & Hneg).
  walk Hfail Hpre.
  walk_status Hfail. walk Hfail Hpre.
  match goal with
  | Hc : (to_int (le_value b_rays) <=? 0) = false |- _ => apply Z.leb_gt in Hc; lia
  end.
Qed.

(** X19.  The program [data] never returns from [main]: a run that stays
    inside its arrays ends with [exit].  A run that exits with failure has
    written a message to standard error and nothing to standard output, and
    a run that exits with success has written nothing to standard error:
    output and diagnostics never mix, whatever the arguments and whatever
    the system and the daemon answer. *)
Theorem data_main_outcome (os : data_env) (argv : list string) :
  let run := main os argv in
  outcome run /\ forall status, snd run <> Ret status.
Proof.
  intros run.
  set (Q := fun run : proc data_out Z => outcome run /\ forall status, snd run <> Ret status).
  change (Q run).
  assert (Hfail : forall t, failing t -> Q (t, Exit EXIT_FAILURE)).
  { intros t Ht. split; [by apply outcome_fail|done]. }
  assert (Hpre : forall t (p : proc data_out Z),
             silent t -> Q p -> Q (t ++ fst p, snd p)).
  { intros t p Ht [Hp1 Hp2]. split; [by apply outcome_prefix|done]. }
  assert (Hend : forall (type : Sigmet_DataType) (s : Z) (path cmd : string) (txt : bool)
                        (k : file_kind),
             Q (match k with
                | S_IFREG | S_IFIFO => data_fm_fl (d_vol os) path type s txt cmd
                | S_IFSOCK =>
                    if txt then skt_to_txt (d_txt os) path type s cmd
                    else skt_to_bin (d_bin os) path type s cmd
                | S_IFOTHER =>
                    fprintf_stderr (cmd ++ ": " ++ path
                                      ++ " must be a file, fifo, or socket.")%string;;
                    exit EXIT_FAILURE
                end ≫= fun _ => mret 0)).
  { intros type s path cmd txt [| | |].
    - apply outcome_never_ret; apply data_fm_fl_outcome.
    - apply outcome_never_ret; apply data_fm_fl_outcome.
    - destruct txt; apply outcome_never_ret;
        first [apply skt_to_txt_outcome | apply skt_to_bin_outcome].
    - rewrite bind_fail. apply Hfail. unfold failing. by cbn. }
  subst run. unfold main.
  destruct argv as [|a0 [|a1 [|a2 [|a3 [|a4 [|a5 argv]]]]]]; walk Hfail Hpre;
    try apply Hend.
  destruct (String.eqb a1 "-b").
  - walk Hfail Hpre. apply Hend.
  - rewrite bind_fail. apply Hfail. unfold failing. by cbn.
Qed.

End data_run.




Import Model.

Lemma data_fm_fl_bin_chunks_witness :
  let run := data_fm_fl data_vol_env0 "vol.raw" "DB_DBZ"%string 0 false "data" in
  exists sweep,
    Forall2 (fun r ray => rays_at rays0 0 r 1 = Some ray) (seqZ 0 3) sweep /\
    Forall2 (fun ray chunk =>
               exists b vals,
                 chunk = BinChunk vals /\
                 vals = take (Z.to_nat (num_bins (ray_hdr ray)))
                          (Sigmet_DataTypeStorToVal (Some "DB_DBZ"%string)
                             (num_bins (ray_hdr ray)) b (dat ray) vol_hdr0) /\
                 0 <= num_bins (ray_hdr ray) /\
                 length vals = Z.to_nat (num_bins (ray_hdr ray)))
      (filter (fun ray => is_Some (dat ray)) sweep) (stdout_of (fst run)).
Proof.
  assert (Hs : snd (data_fm_fl data_vol_env0 "vol.raw" "DB_DBZ"%string 0 false "data")
               = Exit EXIT_SUCCESS) by (vm_compute; reflexivity).
  exact (data_fm_fl_bin_chunks (H0 := model_lib) data_vol_env0 "vol.raw"%string
           "DB_DBZ"%string 0 "data"%string vol_hdr0 1 swp_hdrs0 rays0 eq_refl eq_refl Hs).
Defined.

Lemma data_fm_fl_in_bounds_witness :
  snd (data_fm_fl data_vol_env0 "vol.raw" "DB_DBZ"%string 0 true "data") <> Undefined.
Proof.
  assert (Ha : forall s' r' y', 0 <= s' < 1 -> 0 <= r' < 3 -> 0 <= y' < 2 ->
                                is_Some (rays_at rays0 s' r' y')).
  { intros s' r' y' Hs Hr Hy.
    assert (s' = 0) as -> by lia.
    assert (r' = 0 \/ r' = 1 \/ r' = 2) as [-> | [-> | ->]] by lia;
      (assert (y' = 0 \/ y' = 1) as [-> | ->] by lia); eexists; reflexivity. }
  assert (Hb : 1 = -1 \/ 0 <= 1 < 2) by (right; lia).
  assert (Hc : forall r ray, rays_at rays0 0 r 1 = Some ray -> 0 <= num_bins (ray_hdr ray)).
  { intros r ray Hr. unfold rays_at, array_at in Hr. simpl in Hr.
    destruct (r <? 0); [discriminate Hr|].
    destruct (Z.to_nat r) as [|[|[|n]]]; simpl in Hr; try discriminate Hr;
      injection Hr as <-; vm_compute; discriminate. }
  exact (data_fm_fl_in_bounds (H0 := model_lib) data_vol_env0 "vol.raw"%string
           "DB_DBZ"%string 0 true "data"%string vol_hdr0 1 swp_hdrs0 rays0
           eq_refl eq_refl Ha Hb Hc).
Defined.

Lemma skt_to_bin_request_witness :
  let run := skt_to_bin (exchange_env0 (Daemon.rps_bytes rps0)) "/tmp/sock"
               "DB_DBZ"%string 0 "data" in
  sends [ rqst_message (SubCmdN_val SigmetRawData)
            (abbrv (SigmetRaw_Rqst_Set_DataType SigmetRaw_Rqst_Init "DB_DBZ")) 0 7 1 ]
    run
  /\ stdout_of (fst run) = [].
Proof.
  assert (H1 : 0 <= snd (6, 7)) by (simpl; lia).
  assert (H2 : - 2 ^ 31 <= 0 < 2 ^ 31) by lia.
  exact (skt_to_bin_request (H0 := model_lib) (exchange_env0 (Daemon.rps_bytes rps0))
           "/tmp/sock"%string "DB_DBZ"%string 0 "data"%string (6, 7) eq_refl H1 H2).
Defined.

Lemma skt_to_txt_requests_witness :
  let field := abbrv (SigmetRaw_Rqst_Set_DataType SigmetRaw_Rqst_Init "DB_DBZ") in
  sends [ rqst_message (SubCmdN_val SigmetRawRayHeaders) field 0 7 5;
          rqst_message (SubCmdN_val SigmetRawData) field 0 7 5 ]
    (skt_to_txt data_skt_env0 "/tmp/sock" "DB_DBZ"%string 0 "data").
Proof.
  assert (H5 : 0 <= snd (4, 5)) by (simpl; lia).
  assert (H7 : 0 <= snd (6, 7)) by (simpl; lia).
  assert (H2 : - 2 ^ 31 <= 0 < 2 ^ 31) by lia.
  exact (skt_to_txt_requests (H0 := model_lib) data_skt_env0 "/tmp/sock"%string
           "DB_DBZ"%string 0 "data"%string (4, 5) (6, 7) (4, 5) (6, 7)
           eq_refl eq_refl eq_refl eq_refl H5 H7 H5 H7 H2).
Defined.

Lemma skt_to_txt_values_witness :
  let run := skt_to_txt data_skt_env0 "/tmp/sock" "DB_DBZ"%string 0 "data" in
  let hdrs := take (Z.to_nat 3) wray_hdrs0 in
  let tot := sum_list_with (fun h => Z.to_nat (num_bins (wray_hdr h))) hdrs in
  exists fmt rows,
    Sigmet_DataType_PrintFmt "DB_DBZ"%string = Some fmt /\
    0 < 3 /\ length hdrs = Z.to_nat 3 /\
    Forall2 (fun h vals => length vals = Z.to_nat (num_bins (wray_hdr h))) hdrs rows /\
    concat rows = take tot (dat_fl data_skt_env0) /\
    (tot <= length (dat_fl data_skt_env0))%nat /\
    stdout_of (fst run)
    = zip_with
        (fun h vals =>
           TxtLine fmt
             (vals ++ replicate (Z.to_nat (skt_num_bins_max_loop hdrs)
                                 - Z.to_nat (num_bins (wray_hdr h))) NANf))
        hdrs rows.
Proof.
  assert (H1 : x_recvmsg (rh_x data_skt_env0)
               = Some (le_bytes 4 (Status_val SigmetRawOkay) ++ le_bytes 4 1
                         ++ le_bytes 4 (to_unsigned 3)
                         ++ drop 12 (Daemon.rps_bytes rps0)))
    by (vm_compute; reflexivity).
  assert (H2 : - 2 ^ 31 <= 3 < 2 ^ 31) by lia.
  assert (H3 : Forall (fun h => 0 <= num_bins (wray_hdr h) <= INT_MAX) (rh_fl data_skt_env0))
    by (repeat constructor; vm_compute; discriminate).
  assert (H4 : snd (skt_to_txt data_skt_env0 "/tmp/sock" "DB_DBZ"%string 0 "data")
               = Exit EXIT_SUCCESS) by (vm_compute; reflexivity).
  exact (skt_to_txt_values (H0 := model_lib) data_skt_env0 "/tmp/sock"%string
           "DB_DBZ"%string 0 "data"%string (Status_val SigmetRawOkay) 1 3
           (drop 12 (Daemon.rps_bytes rps0)) H1 H2 H3 H4).
Defined.

Lemma skt_to_txt_short_response_witness :
  let os := {| rh_x := exchange_env0 [1; 0; 0; 0; 1; 0; 0; 0; 3; 0];
               calloc_wray_hdrs_ok := true; rh_fl := wray_hdrs0;
               calloc_dat_skt_ok := true;
               dat_x := exchange_env0 (Daemon.rps_bytes rps0);
               dat_fl := [] |} in
  let run := skt_to_txt os "/tmp/sock" "DB_DBZ"%string 0 "data" in
  snd run = Exit EXIT_FAILURE /\ failing (fst run).
Proof.
  intros os.
  assert (H1 : (length [1; 0; 0; 0; 1; 0; 0; 0; 3; 0] < 12)%nat) by (simpl; lia).
  assert (H2 : Forall (fun b => 0 <= b < 256) [1; 0; 0; 0; 1; 0; 0; 0; 3; 0])
    by (repeat constructor; lia).
  exact (skt_to_txt_short_response (H0 := model_lib) os "/tmp/sock"%string
           "DB_DBZ"%string 0 "data"%string [1; 0; 0; 0; 1; 0; 0; 0; 3; 0] eq_refl H1 H2).
Defined.

End DataRunFacts.

(** ** ray_headers.c: runs *)

Module RayHeadersRunFacts.
Import Platform Posix Sigmet SigmetRaw SigmetRawClient ProcFacts SigmetRawClientFacts.
Import RunFacts RayHeaders RayHeadersFacts.

Section ray_headers_run.
Context `{SigmetLib}.

(** Runs that write nothing to standard error and do not exit compose. *)
Lemma quiet_bind {L A B} (m : proc L A) (k : A -> proc L B) :
  (stderr_of (fst m) = [] /\ sent_messages (fst m) = []
   /\ forall status, snd m <> Exit status) ->
  (forall a, stderr_of (fst (k a)) = [] /\ sent_messages (fst (k a)) = []
             /\ forall status, snd (k a) <> Exit status) ->
  stderr_of (fst (m ≫= k)) = [] /\ sent_messages (fst (m ≫= k)) = []
  /\ forall status, snd (m ≫= k) <> Exit status.
Proof.
  intros (Hm1 & Hm2 & Hm3) Hk.
  rewrite stderr_of_bind, snd_bind, fst_bind, sent_messages_app, Hm1, Hm2.
  destruct (snd m) as [a|status|]; [apply Hk| |done].
  by destruct (Hm3 status).
Qed.

Lemma quiet_defined {L A} (o : option A) :
  stderr_of (fst (defined (L := L) o)) = []
  /\ sent_messages (fst (defined (L := L) o)) = []
  /\ forall status, snd (defined (L := L) o) <> Exit status.
Proof. by destruct o. Qed.

Lemma fl_ray_loop_quiet (vol_hdr : Sigmet_VolHdr) (hav_xhdr : bool)
  (xhdr : option Sigmet_DataType) (rays : list (list (list (Sigmet_Ray Storage))))
  (y y_hxdr s : Z) (swp_tm : double) (rs : list Z) :
  let run := fl_ray_loop vol_hdr hav_xhdr xhdr rays y y_hxdr s swp_tm rs in
  stderr_of (fst run) = [] /\ sent_messages (fst run) = []
  /\ forall status, snd run <> Exit status.
Proof.
  induction rs as [|r rs IH]; intros run; subst run; [done|].
  cbn [fl_ray_loop]. cbv zeta.
  apply quiet_bind; [apply quiet_defined|intros ray].
  apply quiet_bind.
  - destruct hav_xhdr; [|done].
    apply quiet_bind; [apply quiet_defined|done].
  - intros ray_tm. apply quiet_bind; [done|intros _; apply IH].
Qed.

Lemma fl_swp_loop_quiet (vol_hdr : Sigmet_VolHdr) (hav_xhdr : bool)
  (xhdr : option Sigmet_DataType) (swp_hdrs : list Sigmet_SwpHdr)
  (rays : list (list (list (Sigmet_Ray Storage)))) (y y_hxdr num_rays : Z)
  (ss : list Z) :
  let run := fl_swp_loop vol_hdr hav_xhdr xhdr swp_hdrs rays y y_hxdr num_rays ss in
  stderr_of (fst run) = [] /\ sent_messages (fst run) = []
  /\ forall status, snd run <> Exit status.
Proof.
  induction ss as [|s ss IH]; intros run; subst run; [done|].
  cbn [fl_swp_loop]. cbv zeta.
  apply quiet_bind; [apply quiet_defined|intros swp_hdr].
  apply quiet_bind; [apply fl_ray_loop_quiet|intros _; apply IH].
Qed.

Lemma skt_ray_loop_quiet (wray_hdrs : list SigmetRaw_RayHdr) (num_wray_hdrs s : Z)
  (rs : list Z) :
  forall n,
    let run := skt_ray_loop wray_hdrs num_wray_hdrs s rs n in
    stderr_of (fst run) = [] /\ sent_messages (fst run) = []
  /\ forall status, snd run <> Exit status.
Proof.
  induction rs as [|r rs IH]; intros n run; subst run; [done|].
  cbn [skt_ray_loop]. destruct (n <? num_wray_hdrs); [|done].
  apply quiet_bind; [apply quiet_defined|intros h].
  apply quiet_bind; [done|intros _; apply IH].
Qed.

Lemma skt_swp_loop_quiet (wray_hdrs : list SigmetRaw_RayHdr) (num_wray_hdrs num_rays : Z)
  (ss : list Z) :
  forall n,
    let run := skt_swp_loop wray_hdrs num_wray_hdrs num_rays ss n in
    stderr_of (fst run) = [] /\ sent_messages (fst run) = []
  /\ forall status, snd run <> Exit status.
Proof.
  induction ss as [|s ss IH]; intros n run; subst run; [done|].
  cbn [skt_swp_loop].
  apply quiet_bind; [apply skt_ray_loop_quiet|intros n'; apply IH].
Qed.

(** A run that returns or fails: what [ray_hdrs_fm_fl] and
    [ray_hdrs_fm_skt] have in common. *)
Lemma quiet_outcome {L A} (run : proc L A) :
  (stderr_of (fst run) = [] /\ sent_messages (fst run) = []
   /\ forall status, snd run <> Exit status) ->
  outcome run /\ snd run <> Exit EXIT_SUCCESS.
Proof.
  intros (H1 & _ & H2). split; [|apply H2].
  unfold outcome. destruct (snd run) as [a|status|]; [done| |done].
  by destruct (H2 status).
Qed.

Lemma ray_hdrs_fm_fl_outcome (os : vol_env) (path : string)
  (type : option Sigmet_DataType) (i_swp : Z) (cmd : string) :
  let run := ray_hdrs_fm_fl os path type i_swp cmd in
  outcome run /\ snd run <> Exit EXIT_SUCCESS.
Proof.
  intros run.
  set (Q := fun run : proc ray_hdr_line unit => outcome run /\ snd run <> Exit EXIT_SUCCESS).
  change (Q run).
  assert (Hfail : forall t, failing t -> Q (t, Exit EXIT_FAILURE)).
  { intros t Ht. split; [by apply outcome_fail|done]. }
  assert (Hpre : forall t (p : proc ray_hdr_line unit),
             silent t -> Q p -> Q (t ++ fst p, snd p)).
  { intros t p Ht [Hp1 Hp2]. split; [by apply outcome_prefix|done]. }
  subst run. unfold ray_hdrs_fm_fl. walk Hfail Hpre.
  destruct (Sigmet_VolReadDat os) as [[rd swp_hdrs] rays].
  destruct type as [t|];
    [destruct (to_int (Sigmet_VolTypeIdx (Some t) s0) =? -1);
       [rewrite bind_fail; apply Hfail; trace_side|rewrite bind_ret]
    |rewrite bind_ret];
    walk Hfail Hpre;
    (destruct (Sigmet_VolXHdr s0); [rewrite bind_assoc|]); walk Hfail Hpre;
    apply quiet_outcome, fl_swp_loop_quiet.
Qed.

Lemma fl_ray_loop_ret (vol_hdr : Sigmet_VolHdr) (hav_xhdr : bool)
  (xhdr : option Sigmet_DataType) (rays : list (list (list (Sigmet_Ray Storage))))
  (y y_hxdr s : Z) (swp_tm : double) (rs : list Z) :
  (forall r, r ∈ rs -> is_Some (rays_at rays s r y)) ->
  (hav_xhdr = true -> forall r, r ∈ rs -> is_Some (rays_at rays s r y_hxdr)) ->
  snd (fl_ray_loop vol_hdr hav_xhdr xhdr rays y y_hxdr s swp_tm rs) = Ret tt.
Proof.
  induction rs as [|r rs IH]; intros Hrs Hxs; [done|].
  cbn [fl_ray_loop]. cbv zeta. unfold rays_get.
  destruct (Hrs r (list_elem_of_here _ _)) as [ray ->].
  cbn [defined]. rewrite bind_ret.
  assert (Htl : snd (fl_ray_loop vol_hdr hav_xhdr xhdr rays y y_hxdr s swp_tm rs) = Ret tt).
  { apply IH.
    - intros r' Hin. apply Hrs. by apply list_elem_of_further.
    - intros Hx r' Hin. apply Hxs; [done|]. by apply list_elem_of_further. }
  destruct hav_xhdr.
  - destruct (Hxs eq_refl r (list_elem_of_here _ _)) as [xray ->].
    cbn [defined]. rewrite !bind_ret, snd_bind. cbn [emit snd]. exact Htl.
  - rewrite bind_ret, snd_bind. cbn [emit snd]. exact Htl.
Qed.

Lemma fl_swp_loop_ret (vol_hdr : Sigmet_VolHdr) (hav_xhdr : bool)
  (xhdr : option Sigmet_DataType) (swp_hdrs : list Sigmet_SwpHdr)
  (rays : list (list (list (Sigmet_Ray Storage)))) (y y_hxdr num_rays : Z)
  (ss : list Z) :
  (forall s, s ∈ ss -> is_Some (array_at swp_hdrs s)) ->
  (forall s r, s ∈ ss -> r ∈ seqZ 0 num_rays -> is_Some (rays_at rays s r y)) ->
  (hav_xhdr = true ->
   forall s r, s ∈ ss -> r ∈ seqZ 0 num_rays -> is_Some (rays_at rays s r y_hxdr)) ->
  snd (fl_swp_loop vol_hdr hav_xhdr xhdr swp_hdrs rays y y_hxdr num_rays ss) = Ret tt.
Proof.
  induction ss as [|s ss IH]; intros Hss Hrs Hxs; [done|].
  cbn [fl_swp_loop]. cbv zeta. unfold array_get.
  destruct (Hss s (list_elem_of_here _ _)) as [swp_hdr ->].
  cbn [defined]. rewrite bind_ret, snd_bind.
  rewrite fl_ray_loop_ret.
  - apply IH.
    + intros s' Hin. apply Hss. by apply list_elem_of_further.
    + intros s' r Hin. apply Hrs. by apply list_elem_of_further.
    + intros Hx s' r Hin. apply Hxs; [done|]. by apply list_elem_of_further.
  - intros r. apply Hrs, list_elem_of_here.
  - intros Hx r. apply Hxs; [done|]. apply list_elem_of_here.
Qed.

(** The sweeps [ray_hdrs_fm_fl] visits once it has checked the sweep index
    are sweeps of the volume. *)
Lemma swp_range_bounds (i_swp num_swps s : Z) :
  0 <= i_swp -> 0 <= num_swps ->
  negb (SigmetRaw_GetAllSwps i_swp) && (num_swps <=? i_swp) = false ->
  s ∈ swp_range i_swp num_swps -> 0 <= s < num_swps.
Proof.
  intros Hi Hn Hchk Hin. unfold swp_range in Hin.
  destruct (SigmetRaw_GetAllSwps i_swp); cbn [negb andb] in Hchk.
  - apply elem_of_seqZ in Hin. lia.
  - apply Z.leb_gt in Hchk. apply elem_of_seqZ in Hin.
    assert (to_unsigned (i_swp + 1) <= i_swp + 1)
      by (unfold to_unsigned; apply Z.mod_le; [lia|done]).
    lia.
Qed.

(** X20.  [ray_hdrs_fm_fl] stays inside its arrays.  When the arrays of sweep
    headers and of rays have the dimensions they are allocated with, the
    type whose rays are read is a type of the volume and, in a volume with
    extended headers, so is the extended header type, then no run indexes
    outside an array: every run returns or exits.  Without a data type the
    function reads type 1 of a volume with extended headers and type 0
    otherwise, and does not check that the volume has that type. *)
Theorem ray_hdrs_fm_fl_in_bounds (os : vol_env) (path : string)
  (type : option Sigmet_DataType) (i_swp : Z) (cmd : string) (vol_hdr : Sigmet_VolHdr)
  (rd : Z) (swp_hdrs : list Sigmet_SwpHdr)
  (rays : list (list (list (Sigmet_Ray Storage)))) :
  Sigmet_VolReadVHdr os = Some vol_hdr ->
  Sigmet_VolReadDat os = (rd, swp_hdrs, rays) ->
  let num_swps := Sigmet_VolNumSwps vol_hdr in
  let num_rays := Sigmet_VolNumRays vol_hdr in
  let num_types := Sigmet_VolNumTypes vol_hdr in
  let hav_xhdr := Sigmet_VolXHdr vol_hdr in
  let y_ := to_int (Sigmet_VolTypeIdx type vol_hdr) in
  let y_hxdr := to_int (Sigmet_VolTypeIdx (Sigmet_DataTypeGet "DB_XHDR") vol_hdr) in
  0 <= i_swp ->
  (forall s, 0 <= s < num_swps -> is_Some (array_at swp_hdrs s)) ->
  (forall s r y, 0 <= s < num_swps -> 0 <= r < num_rays -> 0 <= y < num_types ->
                 is_Some (rays_at rays s r y)) ->
  match type with
  | Some _ => y_ = -1 \/ 0 <= y_ < num_types
  | None => (if hav_xhdr then 1 else 0) < num_types
  end ->
  (hav_xhdr = true -> 0 <= y_hxdr < num_types) ->
  snd (ray_hdrs_fm_fl os path type i_swp cmd) <> Undefined.
Proof.
  intros Hvol Hdat num_swps num_rays num_types hav_xhdr y_ y_hxdr Hi Hswp Hdims Hy Hx.
  subst num_swps num_rays num_types hav_xhdr y_ y_hxdr.
  set (Q := fun run : proc ray_hdr_line unit => snd run <> Undefined).
  change (Q (ray_hdrs_fm_fl os path type i_swp cmd)).
  assert (Hfail : forall t, failing t -> Q (t, Exit EXIT_FAILURE)) by done.
  assert (Hpre : forall t (p : proc ray_hdr_line unit),
             stdout_of t = [] -> Q p -> Q (t ++ fst p, snd p)) by done.
  assert (Hn : 0 <= Sigmet_VolNumSwps vol_hdr)
    by (unfold Sigmet_VolNumSwps, to_unsigned; apply Z.mod_pos_bound; done).
  assert (Hloop : forall y : Z,
    0 <= y < Sigmet_VolNumTypes vol_hdr ->
    negb (SigmetRaw_GetAllSwps i_swp) && (Sigmet_VolNumSwps vol_hdr <=? i_swp) = false ->
    snd (fl_swp_loop vol_hdr (Sigmet_VolXHdr vol_hdr) (Sigmet_DataTypeGet "DB_XHDR")
           swp_hdrs rays y
           (to_int (Sigmet_VolTypeIdx (Sigmet_DataTypeGet "DB_XHDR") vol_hdr))
           (Sigmet_VolNumRays vol_hdr) (swp_range i_swp (Sigmet_VolNumSwps vol_hdr)))
    = Ret tt).
  { intros y Hyr Hchk. apply fl_swp_loop_ret.
    - intros s Hin. apply Hswp. exact (swp_range_bounds i_swp _ s Hi Hn Hchk Hin).
    - intros s r Hin Hr. apply elem_of_seqZ in Hr.
      apply Hdims; [exact (swp_range_bounds i_swp _ s Hi Hn Hchk Hin)|lia|done].
    - intros Hxh s r Hin Hr. apply elem_of_seqZ in Hr.
      apply Hdims; [exact (swp_range_bounds i_swp _ s Hi Hn Hchk Hin)|lia|by apply Hx]. }
  unfold ray_hdrs_fm_fl. rewrite Hvol, Hdat. walk Hfail Hpre.
  destruct type as [t|].
  - destruct (to_int (Sigmet_VolTypeIdx (Some t) vol_hdr) =? -1) eqn:Hm1;
      [rewrite bind_fail; apply Hfail; trace_side|rewrite bind_ret].
    apply Z.eqb_neq in Hm1. destruct Hy as [Hy|Hy]; [done|].
    assert (Hu : to_unsigned (to_int (Sigmet_VolTypeIdx (Some t) vol_hdr))
                 = to_int (Sigmet_VolTypeIdx (Some t) vol_hdr)).
    { apply to_unsigned_small. split; [lia|].
      assert (Sigmet_VolNumTypes vol_hdr < 2 ^ 32)
        by (unfold Sigmet_VolNumTypes, to_unsigned; apply Z.mod_pos_bound; done).
      lia. }
    rewrite Hu. walk Hfail Hpre.
    (destruct (Sigmet_VolXHdr vol_hdr); [rewrite bind_assoc|]); walk Hfail Hpre;
      unfold Q; by rewrite Hloop.
  - rewrite bind_ret. walk Hfail Hpre.
    (destruct (Sigmet_VolXHdr vol_hdr); [rewrite bind_assoc|]); walk Hfail Hpre;
      unfold Q; rewrite Hloop; (done || lia).
Qed.

Lemma ray_hdrs_fm_skt_outcome (os : skt_env) (path : string)
  (type : option Sigmet_DataType) (i_swp : Z) (cmd : string) :
  let run := ray_hdrs_fm_skt os path type i_swp cmd in
  outcome run /\ snd run <> Exit EXIT_SUCCESS.
Proof.
  intros run.
  set (Q := fun run : proc ray_hdr_line unit => outcome run /\ snd run <> Exit EXIT_SUCCESS).
  change (Q run).
  assert (Hfail : forall t, failing t -> Q (t, Exit EXIT_FAILURE)).
  { intros t Ht. split; [by apply outcome_fail|done]. }
  assert (Hpre : forall t (p : proc ray_hdr_line unit),
             silent t -> Q p -> Q (t ++ fst p, snd p)).
  { intros t p Ht [Hp1 Hp2]. split; [by apply outcome_prefix|done]. }
  subst run. unfold ray_hdrs_fm_skt. walk Hfail Hpre.
  destruct (x_recvmsg (rh_x os)) as [bytes|]; cbn [fmap option_fmap option_map scatter];
    walk Hfail Hpre.
  walk_status Hfail. walk Hfail Hpre.
  apply quiet_outcome, skt_swp_loop_quiet.
Qed.

(** The inner loop of [ray_hdrs_fm_skt] on the headers that are left: it
    prints a line for each of the next [len] headers, as far as there are
    any, and counts them. *)
Lemma skt_ray_loop_run (s : Z) :
  forall (len : nat) (pre suf : list SigmetRaw_RayHdr) (r0 : Z),
    Z.of_nat (length (pre ++ suf)) < 2 ^ 32 ->
    skt_ray_loop (pre ++ suf) (Z.of_nat (length (pre ++ suf))) s
      (seqZ r0 (Z.of_nat len)) (Z.of_nat (length pre))
    = (map EvStdout
         (imap (fun k h => {| ln_s := s; ln_r := r0 + Z.of_nat k;
                              ln_time := bk_time (wray_tm h);
                              ln_ray_hdr := wray_hdr h |})
            (take len suf)),
       Ret (Z.of_nat (length pre + min len (length suf)))).
Proof.
  induction len as [|len IH]; intros pre suf r0 Hlen.
  - rewrite Nat.add_0_r. reflexivity.
  - rewrite seqZ_cons by lia.
    replace (Z.pred (Z.of_nat (S len))) with (Z.of_nat len) by lia.
    cbn [skt_ray_loop]. destruct suf as [|h suf].
    + rewrite app_nil_r in *. rewrite (proj2 (Z.ltb_ge _ _)) by lia.
      cbn [length]. rewrite Nat.min_0_r, Nat.add_0_r. reflexivity.
    + rewrite (proj2 (Z.ltb_lt _ _)) by (rewrite length_app; cbn [length]; lia).
      unfold array_get, array_at. rewrite (proj2 (Z.ltb_ge _ 0)) by lia.
      rewrite Nat2Z.id, list_lookup_middle by done. cbn [defined].
      rewrite bind_ret, bind_emit.
      replace (to_unsigned (Z.of_nat (length pre) + 1))
        with (Z.of_nat (length (pre ++ [h]))).
      2:{ rewrite length_app in *. cbn [length] in *. unfold to_unsigned.
          rewrite Z.mod_small; lia. }
      rewrite (cons_middle h pre suf), app_assoc.
      rewrite IH by (by rewrite <- app_assoc, <- cons_middle).
      cbn [fst snd take]. rewrite imap_cons. cbn [map app]. f_equal.
      * f_equal; [do 2 f_equal; lia|]. f_equal. apply imap_ext. intros k x _.
        unfold compose. f_equal. lia.
      * rewrite length_app. cbn [length]. do 2 f_equal. lia.
Qed.

(** The outer loop of [ray_hdrs_fm_skt] on the headers that are left, from
    sweep [s0] on: it numbers the headers in the order it read them and
    prints header [n] as ray [n mod num_rays] of sweep [n / num_rays]. *)
Lemma skt_swp_loop_run (R : nat) :
  (0 < R)%nat ->
  forall (k s0 : nat) (pre suf : list SigmetRaw_RayHdr),
    Z.of_nat (length (pre ++ suf)) < 2 ^ 32 ->
    length pre = (s0 * R)%nat \/ suf = [] ->
    skt_swp_loop (pre ++ suf) (Z.of_nat (length (pre ++ suf))) (Z.of_nat R)
      (seqZ (Z.of_nat s0) (Z.of_nat k)) (Z.of_nat (length pre))
    = (map EvStdout
         (imap (fun j h => skt_line (Z.of_nat R) (length pre + j) h) (take (k * R) suf)),
       Ret tt).
Proof.
  intros HR. induction k as [|k IH]; intros s0 pre suf Hlen Hinv.
  - done.
  - rewrite seqZ_cons by lia.
    replace (Z.pred (Z.of_nat (S k))) with (Z.of_nat k) by lia.
    replace (Z.succ (Z.of_nat s0)) with (Z.of_nat (S s0)) by lia.
    cbn [skt_swp_loop]. rewrite skt_ray_loop_run by done.
    unfold mbind, proc_mbind, proc_bind. cbn [fst snd].
    replace (length pre + min R (length suf))%nat with (length (pre ++ take R suf))
      by (rewrite length_app, length_take; lia).
    rewrite <- (take_drop R suf) at 1 2.
    rewrite app_assoc.
    rewrite IH.
    + cbn [fst snd]. f_equal. rewrite <- map_app. f_equal.
      replace (S k * R)%nat with (R + k * R)%nat by lia.
      rewrite <- take_take_drop, imap_app. f_equal.
      * apply imap_ext. intros j x Hj.
        destruct Hinv as [Hpre| ->]; [|by rewrite take_nil in Hj].
        apply lookup_lt_Some in Hj. rewrite length_take in Hj.
        unfold skt_line. rewrite Hpre. f_equal.
        -- rewrite Nat2Z.inj_add, Nat2Z.inj_mul.
           rewrite Z.div_add_l by lia. rewrite Z.div_small by lia. lia.
        -- rewrite Nat2Z.inj_add, Nat2Z.inj_mul.
           rewrite (Z.add_comm (Z.of_nat s0 * Z.of_nat R)), Z.mod_add by lia.
           rewrite Z.mod_small by lia. lia.
      * apply imap_ext. intros j x _. rewrite length_app. f_equal. lia.
    + by rewrite <- app_assoc, take_drop.
    + destruct Hinv as [Hpre| ->]; [|right; by rewrite drop_nil].
      destruct (decide (R <= length suf)%nat) as [Hle|Hgt].
      * left. rewrite length_app, length_take. lia.
      * right. apply drop_ge. lia.
Qed.

(** What [ray_hdrs_fm_skt] reads from a response that begins with a status,
    a sweep count and a ray count. *)
Lemma scatter_rh4 (st num_swps num_rays : Z) (rest : list Z) :
  exists tz,
    scatter [ le_bytes (Z.to_nat sizeof_enum) (Status_val SigmetRawError);
              le_bytes (Z.to_nat sizeof_int) 0;
              le_bytes (Z.to_nat sizeof_int) 0;
              replicate (Z.to_nat SIGMET_TZ_STRLEN) 0 ]
      (le_bytes 4 st ++ le_bytes 4 num_swps ++ le_bytes 4 num_rays ++ rest)
    = [ le_bytes 4 st; le_bytes 4 num_swps; le_bytes 4 num_rays; tz ].
Proof.
  eexists _. cbn [scatter].
  change (Z.to_nat sizeof_enum) with 4%nat. change (Z.to_nat sizeof_int) with 4%nat.
  cbn [le_bytes length app take drop]. rewrite drop_nil. reflexivity.
Qed.

(** X21.  [ray_hdrs_fm_skt] prints the headers it reads from the pipe in the order
    it reads them and derives the sweep and ray index of a line from the
    position of the header alone.  When the response reports [S] sweeps of
    [R] rays, the program reads at most [S * R] (as an [unsigned] product)
    headers; an access to the array of headers is never out of bounds, and
    a run that returns has read at least one header and printed, for the
    [n]-th header it read, ray [n mod R] of sweep [n / R].  When the pipe
    holds fewer headers than announced, the output is just shorter. *)
Theorem ray_hdrs_fm_skt_lines (os : skt_env) (path : string)
  (type : option Sigmet_DataType) (i_swp : Z) (cmd : string) (st S R : Z)
  (rest : list Z) :
  x_recvmsg (rh_x os) = Some (le_bytes 4 st ++ le_bytes 4 S ++ le_bytes 4 R ++ rest) ->
  0 <= S < 2 ^ 32 -> 0 <= R < 2 ^ 32 ->
  let run := ray_hdrs_fm_skt os path type i_swp cmd in
  let hdrs := take (Z.to_nat (to_unsigned (S * R))) (ray_hdr_fl os) in
  snd run <> Undefined /\
  (snd run = Ret tt -> hdrs <> [] /\ stdout_of (fst run) = imap (skt_line R) hdrs).
Proof.
  intros Hrecv HS HR run hdrs.
  set (Q := fun run : proc ray_hdr_line unit =>
    snd run <> Undefined /\
    (snd run = Ret tt -> hdrs <> [] /\ stdout_of (fst run) = imap (skt_line R) hdrs)).
  change (Q run).
  assert (Hfail : forall t, Q (t, Exit EXIT_FAILURE)) by (by intros t).
  assert (Hpre : forall t (p : proc ray_hdr_line unit),
             stdout_of t = [] -> Q p -> Q (t ++ fst p, snd p)).
  { intros t p Ht [Hp1 Hp2]. split; [done|]. intros Hs. cbn [fst snd] in *.
    rewrite stdout_of_app, Ht. by apply Hp2. }
  subst run. unfold ray_hdrs_fm_skt. rewrite Hrecv. walk Hfail Hpre.
  cbn [fmap option_fmap option_map].
  destruct (scatter_rh4 st S R rest) as (tz & ->).
  rewrite (le_value_le_bytes4 S), (le_value_le_bytes4 R) by done.
  walk Hfail Hpre. walk_status Hfail. walk Hfail Hpre.
  set (hdrs' := take (Z.to_nat (to_unsigned (S * R))) (ray_hdr_fl os)) in *.
  subst hdrs. rename hdrs' into hdrs.
  assert (Hlen : Z.of_nat (length hdrs) <= to_unsigned (S * R)).
  { subst hdrs. rewrite length_take.
    assert (0 <= to_unsigned (S * R)) by (unfold to_unsigned; apply Z.mod_pos_bound; done).
    lia. }
  assert (Hu : to_unsigned (S * R) <= S * R /\ to_unsigned (S * R) < 2 ^ 32).
  { unfold to_unsigned. split; [apply Z.mod_le; [nia|done]|by apply Z.mod_pos_bound]. }
  rewrite (proj2 (to_unsigned_small (Z.of_nat (length hdrs)) ltac:(lia))).
  repeat match goal with
         | Hc : (_ =? 0) = false |- _ => apply Z.eqb_neq in Hc
         end.
  pose proof (skt_swp_loop_run (Z.to_nat R) ltac:(lia) (Z.to_nat S) 0 [] hdrs) as Hrun.
  cbn [app length] in Hrun. change (Z.of_nat 0) with 0 in Hrun.
  rewrite !Z2Nat.id in Hrun by lia. rewrite Hrun by first [lia | left; reflexivity].
  split; [done|]. intros _. cbn [fst]. split.
  - intros Hnil. rewrite Hnil in *. cbn [length] in *. lia.
  - rewrite stdout_of_map_stdout. rewrite take_ge by nia. done.
Qed.

(** X22.  The one request [ray_hdrs_fm_skt] sends asks for ray headers: it
    carries the sweep index as given (so 0xffffffff for all sweeps), the
    abbreviation of the data type, or an empty one when no type was given,
    the write end of the headers pipe in the headers slot and the write end
    of the error pipe in the error slot.  A run that returns has sent it. *)
Theorem ray_hdrs_fm_skt_request (os : skt_env) (path : string)
  (type : option Sigmet_DataType) (i_swp : Z) (cmd : string) (ray_hdr_fd err_fd : Z * Z) :
  x_pipe (rh_x os) = Some ray_hdr_fd -> x_err_pipe (rh_x os) = Some err_fd ->
  0 <= snd ray_hdr_fd -> 0 <= snd err_fd ->
  let field := abbrv (SigmetRaw_Rqst_Set_DataType SigmetRaw_Rqst_Init
                        match type with
                        | Some t => Sigmet_DataTypeAbbrv t
                        | None => EmptyString
                        end) in
  sends [ rqst_message (SubCmdN_val SigmetRawRayHeaders) field i_swp
            (snd err_fd) (snd ray_hdr_fd) ]
    (ray_hdrs_fm_skt os path type i_swp cmd).
Proof.
  intros Hp He N1 N2 field.
  rewrite (rqst_message_unsigned _ _ i_swp).
  set (m := rqst_message _ _ _ _ _).
  unfold ray_hdrs_fm_skt. rewrite Hp, He.
  walk (sends_fail (L := ray_hdr_line) (A := unit) [m])
       (sends_prefix (L := ray_hdr_line) (A := unit) [m]).
  walk_send.
  walk (sends_fail (L := ray_hdr_line) (A := unit) [])
       (sends_prefix (L := ray_hdr_line) (A := unit) []).
  destruct (x_recvmsg (rh_x os)) as [bytes|]; cbn [fmap option_fmap option_map scatter];
    walk (sends_fail (L := ray_hdr_line) (A := unit) [])
         (sends_prefix (L := ray_hdr_line) (A := unit) []).
  walk_status (sends_fail (L := ray_hdr_line) (A := unit) []).
  walk (sends_fail (L := ray_hdr_line) (A := unit) [])
       (sends_prefix (L := ray_hdr_line) (A := unit) []).
  apply sends_nil. apply skt_swp_loop_quiet.
Qed.

(** X23.  The program [ray_headers] keeps output and diagnostics apart and
    never exits with success: a run that stays inside its arrays either
    returns 0 from [main], with nothing on standard error, or exits with
    failure after a message on standard error and with nothing on standard
    output, whatever the arguments and whatever the system and the daemon
    answer. *)
Theorem ray_headers_main_outcome (os : ray_headers_env) (argv : list string) :
  let run := main os argv in
  outcome run /\ snd run <> Exit EXIT_SUCCESS /\
  forall status, snd run = Ret status -> status = 0.
Proof.
  intros run.
  set (Q := fun run : proc ray_hdr_line Z =>
    outcome run /\ snd run <> Exit EXIT_SUCCESS /\
    forall status, snd run = Ret status -> status = 0).
  change (Q run).
  assert (Hfail : forall t, failing t -> Q (t, Exit EXIT_FAILURE)).
  { intros t Ht. split; [by apply outcome_fail|done]. }
  assert (Hpre : forall t (p : proc ray_hdr_line Z),
             silent t -> Q p -> Q (t ++ fst p, snd p)).
  { intros t p Ht (Hp1 & Hp2 & Hp3). split; [by apply outcome_prefix|done]. }
  assert (Hret : forall m : proc ray_hdr_line unit,
             outcome m /\ snd m <> Exit EXIT_SUCCESS -> Q (m ≫= fun _ => mret 0)).
  { intros [t [[]|status|]] [Ho Hx]; unfold Q;
      unfold outcome, mbind, proc_mbind, proc_bind in Ho |- *;
      cbn [fst snd mret proc_ret] in Ho, Hx |- *.
    - rewrite app_nil_r. split; [done|]. split; [done|]. by intros status [= <-].
    - split; [exact Ho|]. split; [|intros st Hst; discriminate Hst].
      intros [= ->]. by apply Hx.
    - split; [done|]. split; [done|]. intros st Hst. discriminate Hst. }
  subst run. unfold main. walk Hfail Hpre.
  destruct (length argv =? 4)%nat;
    [destruct (Sigmet_DataTypeGet _) as [type|];
       [rewrite bind_ret|rewrite bind_fail; apply Hfail; trace_side]
    |rewrite bind_ret];
    walk Hfail Hpre;
    match goal with
    | |- Q (match ?k with S_IFREG => _ | S_IFIFO => _ | S_IFSOCK => _ | S_IFOTHER => _ end
            ≫= _) => destruct k
    end;
    first [ apply Hret, ray_hdrs_fm_fl_outcome
          | apply Hret, ray_hdrs_fm_skt_outcome
          | rewrite bind_fail; apply Hfail; unfold failing; by cbn ].
Qed.

End ray_headers_run.




Import Model.

Lemma ray_hdrs_fm_skt_lines_witness :
  let run := ray_hdrs_fm_skt (r_skt ray_headers_env0) "/tmp/sock" None UINT_MAX
               "ray_headers" in
  let hdrs := take (Z.to_nat (to_unsigned (1 * 3))) wray_hdrs0 in
  snd run <> Undefined /\
  (snd run = Ret tt -> hdrs <> [] /\ stdout_of (fst run) = imap (skt_line 3) hdrs).
Proof.
  assert (H1 : x_recvmsg (rh_x (r_skt ray_headers_env0))
               = Some (le_bytes 4 (Status_val SigmetRawOkay) ++ le_bytes 4 1
                         ++ le_bytes 4 3 ++ drop 12 (Daemon.rps_bytes rps0)))
    by (vm_compute; reflexivity).
  assert (H2 : 0 <= 1 < 2 ^ 32) by lia.
  assert (H3 : 0 <= 3 < 2 ^ 32) by lia.
  exact (ray_hdrs_fm_skt_lines (H0 := model_lib) (r_skt ray_headers_env0)
           "/tmp/sock"%string None UINT_MAX "ray_headers"%string
           (Status_val SigmetRawOkay) 1 3 (drop 12 (Daemon.rps_bytes rps0)) H1 H2 H3).
Defined.

Lemma ray_hdrs_fm_skt_request_witness :
  sends [ rqst_message (SubCmdN_val SigmetRawRayHeaders)
            (abbrv (SigmetRaw_Rqst_Set_DataType SigmetRaw_Rqst_Init EmptyString))
            UINT_MAX 7 5 ]
    (ray_hdrs_fm_skt (r_skt ray_headers_env0) "/tmp/sock" None UINT_MAX "ray_headers").
Proof.
  assert (H5 : 0 <= snd (4, 5)) by (simpl; lia).
  assert (H7 : 0 <= snd (6, 7)) by (simpl; lia).
  exact (ray_hdrs_fm_skt_request (H0 := model_lib) (r_skt ray_headers_env0)
           "/tmp/sock"%string None UINT_MAX "ray_headers"%string (4, 5) (6, 7)
           eq_refl eq_refl H5 H7).
Defined.

Lemma ray_hdrs_fm_fl_in_bounds_witness :
  snd (ray_hdrs_fm_fl ray_headers_vol_env0 "vol.raw" (Some "DB_DBZ"%string) UINT_MAX
         "ray_headers") <> Undefined.
Proof.
  assert (Hi : 0 <= UINT_MAX) by (unfold UINT_MAX; lia).
  assert (Hs : forall s, 0 <= s < 1 -> is_Some (array_at swp_hdrs0 s)).
  { intros s Hs. assert (s = 0) as -> by lia. eexists; reflexivity. }
  assert (Ha : forall s r y, 0 <= s < 1 -> 0 <= r < 3 -> 0 <= y < 2 ->
                             is_Some (rays_at rays0 s r y)).
  { intros s r y Hs' Hr Hy.
    assert (s = 0) as -> by lia.
    assert (r = 0 \/ r = 1 \/ r = 2) as [-> | [-> | ->]] by lia;
      (assert (y = 0 \/ y = 1) as [-> | ->] by lia); eexists; reflexivity. }
  assert (Hb : 1 = -1 \/ 0 <= 1 < 2) by (right; lia).
  assert (Hx : true = true -> 0 <= 0 < 2) by (intros _; lia).
  exact (ray_hdrs_fm_fl_in_bounds (H0 := model_lib) ray_headers_vol_env0 "vol.raw"%string
           (Some "DB_DBZ"%string) UINT_MAX "ray_headers"%string vol_hdr0 1 swp_hdrs0 rays0
           eq_refl eq_refl Hi Hs Ha Hb Hx).
Defined.

End RayHeadersRunFacts.

(** ** ray_headers.c: the sweep index *)

Module AllSweepsFacts.
Import Platform Posix Sigmet SigmetRaw SigmetRawClient ProcFacts SigmetRawClientFacts.
Import RunFacts RayHeaders RayHeadersFacts RayHeadersRunFacts.

Section all_sweeps.
Context `{SigmetLib}.

(** The sweeps [ray_hdrs_fm_fl] visits for an index that is an [unsigned]. *)
Lemma swp_range_all_or_one (i_swp num_swps : Z) :
  0 <= i_swp <= UINT_MAX ->
  swp_range i_swp num_swps
  = (if decide (i_swp = UINT_MAX) then seqZ 0 num_swps else [i_swp]).
Proof.
  intros Hi. unfold swp_range, SigmetRaw_GetAllSwps.
  destruct (decide (i_swp = UINT_MAX)) as [->|Hne].
  - simpl. f_equal. lia.
  - rewrite (proj2 (Z.eqb_neq _ _) Hne).
    unfold to_unsigned. rewrite Z.mod_small by (unfold UINT_MAX in *; lia).
    replace (i_swp + 1 - i_swp) with 1 by lia. reflexivity.
Qed.

(** [ray_hdrs_fm_fl] when every call succeeds and the arrays have the
    dimensions of the volume: it returns, and it has printed the rays of
    every sweep when the index is [UINT_MAX] and of the sweep the index
    names otherwise. *)
Lemma ray_hdrs_fm_fl_sweeps (os : vol_env) (path : string)
  (type : option Sigmet_DataType) (i_swp : Z) (cmd : string) (vol_hdr : Sigmet_VolHdr)
  (rd : Z) (swp_hdrs : list Sigmet_SwpHdr)
  (rays : list (list (list (Sigmet_Ray Storage)))) :
  let num_swps := Sigmet_VolNumSwps vol_hdr in
  let num_rays := Sigmet_VolNumRays vol_hdr in
  let num_types := Sigmet_VolNumTypes vol_hdr in
  let hav_xhdr := Sigmet_VolXHdr vol_hdr in
  let y_ := to_int (Sigmet_VolTypeIdx type vol_hdr) in
  let y_hxdr := to_int (Sigmet_VolTypeIdx (Sigmet_DataTypeGet "DB_XHDR") vol_hdr) in
  fopen_ok os = true ->
  Sigmet_VolReadVHdr os = Some vol_hdr ->
  calloc_swp_hdrs_ok os = true ->
  calloc_rays_ok os = true ->
  (hav_xhdr = true -> Sigmet_VolIDatSz os <> 0 /\ malloc_dat_buf_ok os = true
                      /\ 0 <= y_hxdr < num_types) ->
  Sigmet_VolReadDat os = (rd, swp_hdrs, rays) ->
  rd <> 0 ->
  Sigmet_VolTZSet os = true ->
  (forall s, 0 <= s < num_swps -> is_Some (array_at swp_hdrs s)) ->
  (forall s r y, 0 <= s < num_swps -> 0 <= r < num_rays -> 0 <= y < num_types ->
                 is_Some (rays_at rays s r y)) ->
  match type with
  | Some _ => 0 <= y_ < num_types
  | None => (if hav_xhdr then 1 else 0) < num_types
  end ->
  0 <= i_swp <= UINT_MAX ->
  i_swp = UINT_MAX \/ i_swp < num_swps ->
  let run := ray_hdrs_fm_fl os path type i_swp cmd in
  snd run = Ret tt /\
  map (fun line => (ln_s line, ln_r line)) (stdout_of (fst run))
  = s ← (if decide (i_swp = UINT_MAX) then seqZ 0 num_swps else [i_swp]);
    map (fun r => (s, r)) (seqZ 0 num_rays).
Proof.
  intros num_swps num_rays num_types hav_xhdr y_ y_hxdr
    Hfopen Hvol Hcs Hcr Hxh Hdat Hrd Htz Hswp Hdims Hy Hi Hsel run.
  assert (Hn : 0 <= num_swps)
    by (unfold num_swps, Sigmet_VolNumSwps, to_unsigned; apply Z.mod_pos_bound; done).
  assert (Hchk : negb (SigmetRaw_GetAllSwps i_swp) && (num_swps <=? i_swp) = false).
  { unfold SigmetRaw_GetAllSwps. destruct Hsel as [->|Hlt].
    - by rewrite Z.eqb_refl.
    - rewrite (proj2 (Z.leb_gt _ _) Hlt). by destruct (negb _). }
  assert (Hloop : forall y : Z, 0 <= y < num_types ->
    let loop := fl_swp_loop vol_hdr hav_xhdr (Sigmet_DataTypeGet "DB_XHDR") swp_hdrs rays
                  y y_hxdr num_rays (swp_range i_swp num_swps) in
    snd loop = Ret tt /\
    map (fun line => (ln_s line, ln_r line)) (stdout_of (fst loop))
    = s ← (if decide (i_swp = UINT_MAX) then seqZ 0 num_swps else [i_swp]);
      map (fun r => (s, r)) (seqZ 0 num_rays)).
  { intros y Hyr loop.
    assert (Hret : snd loop = Ret tt).
    { apply fl_swp_loop_ret.
      - intros s Hin. apply Hswp. exact (swp_range_bounds i_swp _ s (proj1 Hi) Hn Hchk Hin).
      - intros s r Hin Hr. apply elem_of_seqZ in Hr.
        apply Hdims; [exact (swp_range_bounds i_swp _ s (proj1 Hi) Hn Hchk Hin)|lia|done].
      - intros Hx s r Hin Hr. apply elem_of_seqZ in Hr.
        apply Hdims; [exact (swp_range_bounds i_swp _ s (proj1 Hi) Hn Hchk Hin)|lia|].
        by apply Hxh. }
    split; [exact Hret|].
    rewrite <- (swp_range_all_or_one i_swp num_swps Hi).
    by apply (fl_swp_loop_lines vol_hdr hav_xhdr (Sigmet_DataTypeGet "DB_XHDR") swp_hdrs rays
                y y_hxdr num_rays (swp_range i_swp num_swps)). }
  subst run. unfold ray_hdrs_fm_fl.
  rewrite Hfopen, bind_ret, Hvol, bind_ret. cbv zeta.
  fold num_swps. rewrite Hchk, bind_ret.
  assert (Hx : forall k : unit -> proc ray_hdr_line unit,
             ((if Sigmet_VolXHdr vol_hdr
               then (if Sigmet_VolIDatSz os =? 0
                     then fprintf_stderr (cmd ++ ": could not determine size of input data buffer. "
                                            ++ err_msg_str os ++ nl)%string;;
                          exit EXIT_FAILURE
                     else mret tt);;
                    (if malloc_dat_buf_ok os then mret tt
                     else fprintf_stderr (cmd ++ ": could not allocate memory for "
                                            ++ pretty (Sigmet_VolIDatSz os)
                                            ++ " bytes of data." ++ nl)%string;;
                          exit EXIT_FAILURE)
               else mret tt) ≫= k) = k tt).
  { intros k. fold hav_xhdr. destruct hav_xhdr eqn:Hh; [|by rewrite bind_ret].
    destruct (Hxh eq_refl) as (Hsz & Hm & _).
    by rewrite (proj2 (Z.eqb_neq _ 0) Hsz), Hm, !bind_ret. }
  destruct type as [t|].
  - fold y_. rewrite (proj2 (Z.eqb_neq y_ (-1))) by lia.
    rewrite bind_ret, Hcs, bind_ret, Hcr, bind_ret, Hx, Hdat.
    rewrite (proj2 (Z.eqb_neq rd 0) Hrd), bind_ret, Htz, bind_ret.
    assert (Hu : to_unsigned y_ = y_).
    { apply to_unsigned_small. split; [lia|].
      assert (num_types < 2 ^ 32)
        by (unfold num_types, Sigmet_VolNumTypes, to_unsigned; apply Z.mod_pos_bound; done).
      lia. }
    rewrite Hu. by apply Hloop.
  - rewrite bind_ret, Hcs, bind_ret, Hcr, bind_ret, Hx, Hdat.
    rewrite (proj2 (Z.eqb_neq rd 0) Hrd), bind_ret, Htz, bind_ret.
    apply Hloop. fold hav_xhdr. destruct hav_xhdr; lia.
Qed.


(** An index beyond the last sweep that is not [UINT_MAX] is refused before
    anything is printed. *)
Lemma ray_hdrs_fm_fl_no_sweep (os : vol_env) (path : string)
  (type : option Sigmet_DataType) (i_swp : Z) (cmd : string) (vol_hdr : Sigmet_VolHdr) :
  fopen_ok os = true ->
  Sigmet_VolReadVHdr os = Some vol_hdr ->
  i_swp <> UINT_MAX -> Sigmet_VolNumSwps vol_hdr <= i_swp ->
  let run := ray_hdrs_fm_fl os path type i_swp cmd in
  snd run = Exit EXIT_FAILURE /\ stdout_of (fst run) = [].
Proof.
  intros Hfopen Hvol Hne Hle run. subst run. unfold ray_hdrs_fm_fl.
  rewrite Hfopen, bind_ret, Hvol, bind_ret. cbv zeta.
  unfold SigmetRaw_GetAllSwps.
  rewrite (proj2 (Z.eqb_neq _ _) Hne), (proj2 (Z.leb_le _ _) Hle).
  cbn [negb andb]. rewrite bind_fail. done.
Qed.

(** A request whose descriptors are set, when the control message has room
    and [sendmsg] succeeds: the value is 1 and the message has gone out. *)
Lemma Rqst_Send_sent_ok {L} (os : send_env) (skt_fd : Z) (rqst : SigmetRaw_Rqst) :
  cmsg_firsthdr os = true -> sendmsg_ret os <> -1 ->
  0 <= err_fd rqst -> 0 <= hd_fd rqst ->
  let r := SigmetRaw_Rqst_Send (L := L) os skt_fd rqst in
  send_ret r = 1 /\
  sent_messages (send_trace r)
  = [rqst_message (sub_cmd_n rqst) (abbrv rqst) (s rqst) (err_fd rqst) (hd_fd rqst)].
Proof.
  intros Hc Hw He Hh r. subst r. unfold SigmetRaw_Rqst_Send.
  rewrite (proj2 (Z.ltb_ge (err_fd rqst) 0)), (proj2 (Z.ltb_ge (hd_fd rqst) 0)) by lia.
  rewrite (proj2 (Z.leb_le 0 (err_fd rqst))), (proj2 (Z.leb_le 0 (hd_fd rqst))) by lia.
  cbv zeta. cbn [orb andb]. rewrite Hc. cbn [negb].
  rewrite (proj2 (Z.eqb_neq _ _) Hw). split; [done|].
  cbn. rewrite ?(proj2 (Z.eqb_neq _ _) Hw). done.
Qed.

(** [ray_hdrs_fm_skt] once it is connected and has its pipes: the one
    message it sends is the request for ray headers with the sweep index it
    was given. *)
Lemma ray_hdrs_fm_skt_sent (os : skt_env) (path : string)
  (type : option Sigmet_DataType) (i_swp : Z) (cmd : string) (ray_hdr_fd err_fd : Z * Z) :
  conn_ret (SigmetRaw_DmnConnect (L := ray_hdr_line) (x_connect (rh_x os)) path) <> -1 ->
  x_pipe (rh_x os) = Some ray_hdr_fd -> x_fdopen_ok (rh_x os) = true ->
  x_err_pipe (rh_x os) = Some err_fd ->
  0 <= snd ray_hdr_fd -> 0 <= snd err_fd ->
  cmsg_firsthdr (x_send (rh_x os)) = true -> sendmsg_ret (x_send (rh_x os)) <> -1 ->
  let field := abbrv (SigmetRaw_Rqst_Set_DataType SigmetRaw_Rqst_Init
                        match type with
                        | Some t => Sigmet_DataTypeAbbrv t
                        | None => EmptyString
                        end) in
  sent_messages (fst (ray_hdrs_fm_skt os path type i_swp cmd))
  = [ rqst_message (SubCmdN_val SigmetRawRayHeaders) field i_swp
        (snd err_fd) (snd ray_hdr_fd) ].
Proof.
  intros Hconn Hp Hf He N1 N2 Hc Hw field.
  rewrite (rqst_message_unsigned _ _ i_swp).
  set (m := rqst_message _ _ _ _ _).
  unfold ray_hdrs_fm_skt. cbv zeta. rewrite Hp, He, Hf.
  rewrite bind_traced. cbn [fst]. rewrite sent_messages_app, sent_DmnConnect.
  cbn [app]. rewrite (proj2 (Z.eqb_neq _ _) Hconn), !bind_ret.
  rewrite bind_traced. cbn [fst]. rewrite sent_messages_app.
  match goal with
  | |- sent_messages (send_trace (SigmetRaw_Rqst_Send ?o ?fd ?rq)) ++ _ = _ =>
      destruct (Rqst_Send_sent_ok (L := ray_hdr_line) o fd rq Hc Hw) as [Hret Hsent];
      [simpl; lia|simpl; lia|]
  end.
  rewrite Hsent, Hret. change (1 =? 0) with false.
  change ([m] ++ ?l = [m]) with (m :: l = [m]). f_equal.
  apply prefix_nil_inv.
  match goal with |- sent_messages (fst ?run) `prefix_of` [] => cut (sends [] run) end;
    [by intros [Hpre _]|].
  walk (sends_fail (L := ray_hdr_line) (A := unit) [])
       (sends_prefix (L := ray_hdr_line) (A := unit) []).
  destruct (x_recvmsg (rh_x os)) as [bytes|]; cbn [fmap option_fmap option_map scatter];
    walk (sends_fail (L := ray_hdr_line) (A := unit) [])
         (sends_prefix (L := ray_hdr_line) (A := unit) []).
  walk_status (sends_fail (L := ray_hdr_line) (A := unit) []).
  walk (sends_fail (L := ray_hdr_line) (A := unit) [])
       (sends_prefix (L := ray_hdr_line) (A := unit) []).
  apply sends_nil. apply skt_swp_loop_quiet.
Qed.

(** The four bytes of [UINT_MAX] stand for no other sweep index. *)
Lemma le_bytes_UINT_MAX (i_swp : Z) :
  0 <= i_swp <= UINT_MAX ->
  le_bytes 4 (to_unsigned i_swp) = [255; 255; 255; 255] <-> i_swp = UINT_MAX.
Proof.
  intros Hi. split; [|by intros ->].
  intros Hb. apply (f_equal le_value) in Hb.
  assert (Hs : 0 <= i_swp < 2 ^ 32) by (unfold UINT_MAX in Hi; lia).
  rewrite (proj2 (to_unsigned_small i_swp Hs)) in Hb.
  rewrite le_value_le_bytes4 in Hb by exact Hs. by rewrite Hb.
Qed.

(** [main] with a sweep index it could read hands the index to the function
    that serves the kind of file at [path]. *)
Lemma main_passes_i_swp (os : ray_headers_env) (a0 s_swp path : string) (targ : option string)
  (i_swp : Z) :
  let argv := match targ with
              | Some abbrv => [a0; s_swp; abbrv; path]
              | None => [a0; s_swp; path]
              end in
  let type := match targ with
              | Some abbrv => Sigmet_DataTypeGet abbrv
              | None => None
              end in
  let cmd := match getenv_APP_NAME (r_main os) with
             | Some app_name => app_name
             | None => basename (r_main os) a0
             end in
  (forall abbrv, targ = Some abbrv -> is_Some (Sigmet_DataTypeGet abbrv)) ->
  parse_i_swp (r_main os) s_swp = Some i_swp ->
  (stat (r_main os) path = Some S_IFREG ->
   main os argv = (ray_hdrs_fm_fl (r_vol os) path type i_swp cmd;; mret 0)) /\
  (stat (r_main os) path = Some S_IFSOCK ->
   main os argv = (ray_hdrs_fm_skt (r_skt os) path type i_swp cmd;; mret 0)).
Proof.
  intros argv type cmd Hknown Hparse. subst argv type cmd.
  destruct targ as [abbrv|]; [destruct (Hknown abbrv eq_refl) as [t Ht]|];
    (split; intros Hst; unfold main;
     repeat (cbn [length Nat.eqb orb negb Nat.sub lookup list_lookup default from_option id];
             cbv zeta;
             first [rewrite bind_ret | rewrite Ht | rewrite Hparse | rewrite Hst]);
     reflexivity).
Qed.

(** A sweep argument that is neither "all" nor an integer ends the run. *)
Lemma main_no_i_swp (os : ray_headers_env) (a0 s_swp path : string) (targ : option string) :
  parse_i_swp (r_main os) s_swp = None ->
  let run := main os match targ with
                     | Some abbrv => [a0; s_swp; abbrv; path]
                     | None => [a0; s_swp; path]
                     end in
  snd run = Exit EXIT_FAILURE /\ stdout_of (fst run) = [].
Proof.
  intros Hparse run. subst run.
  destruct targ as [abbrv|]; unfold main;
    cbn [length Nat.eqb orb negb Nat.sub lookup list_lookup default from_option id];
    cbv zeta; rewrite bind_ret;
    cbn [length Nat.eqb orb negb Nat.sub lookup list_lookup default from_option id].
  - destruct (Sigmet_DataTypeGet abbrv); [rewrite bind_ret, Hparse|]; done.
  - rewrite bind_ret, Hparse. done.
Qed.


(** C8.  The sweep index [UINT_MAX] means all sweeps, from the argument of
    [ray_headers] to the sweeps that are printed.  [main] reads "all" as
    [UINT_MAX] and any other argument with [sscanf], and ends the run when
    that fails; [SigmetRaw_GetAllSwps] holds of [UINT_MAX] and of no other
    index.  When [path] is a file and every call succeeds, the run returns 0
    and has printed the rays of every sweep of the volume if the index is
    [UINT_MAX], and the rays of the sweep the index names if it names one;
    an index that names no sweep ends the run with nothing printed.  When
    [path] is a socket, the one request that goes to the daemon carries the
    index, which is four bytes 0xff exactly when it is [UINT_MAX]. *)
Theorem all_sweeps_is_UINT_MAX (os : ray_headers_env) (a0 s_swp path : string)
  (targ : option string) (i_swp : Z) (vol_hdr : Sigmet_VolHdr) (rd : Z)
  (swp_hdrs : list Sigmet_SwpHdr) (rays : list (list (list (Sigmet_Ray Storage))))
  (ray_hdr_fd err_fd : Z * Z) :
  let argv := fun s : string => match targ with
                                | Some abbrv => [a0; s; abbrv; path]
                                | None => [a0; s; path]
                                end in
  let type := match targ with
              | Some abbrv => Sigmet_DataTypeGet abbrv
              | None => None
              end in
  let vol := r_vol os in
  let x := rh_x (r_skt os) in
  let num_swps := Sigmet_VolNumSwps vol_hdr in
  let num_rays := Sigmet_VolNumRays vol_hdr in
  let num_types := Sigmet_VolNumTypes vol_hdr in
  let hav_xhdr := Sigmet_VolXHdr vol_hdr in
  let y_ := to_int (Sigmet_VolTypeIdx type vol_hdr) in
  let y_hxdr := to_int (Sigmet_VolTypeIdx (Sigmet_DataTypeGet "DB_XHDR") vol_hdr) in
  (forall abbrv, targ = Some abbrv -> is_Some (Sigmet_DataTypeGet abbrv)) ->
  (s_swp = "all"%string /\ i_swp = UINT_MAX) \/
  (s_swp <> "all"%string /\ sscanf_u (r_main os) s_swp = Some i_swp) ->
  0 <= i_swp <= UINT_MAX ->
  fopen_ok vol = true ->
  Sigmet_VolReadVHdr vol = Some vol_hdr ->
  calloc_swp_hdrs_ok vol = true ->
  calloc_rays_ok vol = true ->
  (hav_xhdr = true -> Sigmet_VolIDatSz vol <> 0 /\ malloc_dat_buf_ok vol = true
                      /\ 0 <= y_hxdr < num_types) ->
  Sigmet_VolReadDat vol = (rd, swp_hdrs, rays) ->
  rd <> 0 ->
  Sigmet_VolTZSet vol = true ->
  (forall s, 0 <= s < num_swps -> is_Some (array_at swp_hdrs s)) ->
  (forall s r y, 0 <= s < num_swps -> 0 <= r < num_rays -> 0 <= y < num_types ->
                 is_Some (rays_at rays s r y)) ->
  match type with
  | Some _ => 0 <= y_ < num_types
  | None => (if hav_xhdr then 1 else 0) < num_types
  end ->
  conn_ret (SigmetRaw_DmnConnect (L := ray_hdr_line) (x_connect x) path) <> -1 ->
  x_pipe x = Some ray_hdr_fd -> x_fdopen_ok x = true -> x_err_pipe x = Some err_fd ->
  0 <= snd ray_hdr_fd -> 0 <= snd err_fd ->
  cmsg_firsthdr (x_send x) = true -> sendmsg_ret (x_send x) <> -1 ->
  parse_i_swp (r_main os) "all" = Some UINT_MAX /\
  parse_i_swp (r_main os) s_swp = Some i_swp /\
  (forall s, s <> "all"%string -> sscanf_u (r_main os) s = None ->
             snd (main os (argv s)) = Exit EXIT_FAILURE /\
             stdout_of (fst (main os (argv s))) = []) /\
  (SigmetRaw_GetAllSwps i_swp = true <-> i_swp = UINT_MAX) /\
  (stat (r_main os) path = Some S_IFREG ->
   let run := main os (argv s_swp) in
   if decide (i_swp = UINT_MAX \/ i_swp < num_swps) then
     snd run = Ret 0 /\
     map (fun line => (ln_s line, ln_r line)) (stdout_of (fst run))
     = s ← (if decide (i_swp = UINT_MAX) then seqZ 0 num_swps else [i_swp]);
       map (fun r => (s, r)) (seqZ 0 num_rays)
   else snd run = Exit EXIT_FAILURE /\ stdout_of (fst run) = []) /\
  (stat (r_main os) path = Some S_IFSOCK ->
   let field := abbrv (SigmetRaw_Rqst_Set_DataType SigmetRaw_Rqst_Init
                         match type with
                         | Some t => Sigmet_DataTypeAbbrv t
                         | None => EmptyString
                         end) in
   sent_messages (fst (main os (argv s_swp)))
   = [ rqst_message (SubCmdN_val SigmetRawRayHeaders) field i_swp
         (snd err_fd) (snd ray_hdr_fd) ] /\
   (le_bytes 4 (to_unsigned i_swp) = [255; 255; 255; 255] <-> i_swp = UINT_MAX)).
Proof.
  intros argv type vol x num_swps num_rays num_types hav_xhdr y_ y_hxdr
    Hknown Harg Hi Hfopen Hvol Hcs Hcr Hxh Hdat Hrd Htz Hswp Hdims Hy
    Hconn Hp Hf He N1 N2 Hc Hw.
  subst argv vol x. cbv beta.
  assert (Hneq : forall s, s <> "all"%string ->
                           parse_i_swp (r_main os) s = sscanf_u (r_main os) s).
  { intros s Hs. unfold parse_i_swp.
    by rewrite (proj2 (String.eqb_neq s "all") Hs). }
  assert (Hparse : parse_i_swp (r_main os) s_swp = Some i_swp).
  { destruct Harg as [[-> ->]|[Hs Hscan]]; [reflexivity|]. by rewrite Hneq. }
  destruct (main_passes_i_swp os a0 s_swp path targ i_swp Hknown Hparse) as [Hfl Hskt].
  set (cmd := match getenv_APP_NAME (r_main os) with
              | Some app_name => app_name
              | None => basename (r_main os) a0
              end) in Hfl, Hskt.
  fold type in Hfl, Hskt.
  split; [reflexivity|]. split; [exact Hparse|]. split; [|split; [|split]].
  - intros s Hs Hnone. apply (main_no_i_swp os a0 s path targ). by rewrite Hneq.
  - unfold SigmetRaw_GetAllSwps. apply Z.eqb_eq.
  - intros Hst run. subst run. rewrite (Hfl Hst).
    rewrite snd_bind, stdout_of_bind.
    destruct (decide (i_swp = UINT_MAX \/ i_swp < num_swps)) as [Hsel|Hsel].
    + destruct (ray_hdrs_fm_fl_sweeps _ path type i_swp cmd vol_hdr rd swp_hdrs rays
                  Hfopen Hvol Hcs Hcr Hxh Hdat Hrd Htz Hswp Hdims Hy Hi Hsel) as [Hret Hout].
      rewrite Hret. cbn [snd fst mret proc_ret stdout_of]. split; [done|].
      cbn [omap]. rewrite app_nil_r. exact Hout.
    + destruct (ray_hdrs_fm_fl_no_sweep _ path type i_swp cmd vol_hdr Hfopen Hvol)
        as [Hret Hout]; [lia|fold num_swps; lia|].
      rewrite Hret, Hout. done.
  - intros Hst field. split; [|by apply le_bytes_UINT_MAX].
    rewrite (Hskt Hst), fst_bind, sent_messages_app.
    rewrite (ray_hdrs_fm_skt_sent (r_skt os) path type i_swp cmd ray_hdr_fd err_fd
               Hconn Hp Hf He N1 N2 Hc Hw).
    by destruct (snd (ray_hdrs_fm_skt _ _ _ _ _)).
Qed.

End all_sweeps.

Lemma all_sweeps_is_UINT_MAX_witness :
  let os := Model.ray_headers_env2 in
  let run := fun s_swp : string => main os ["ray_headers"; s_swp; "vol.raw"]%string in
  let skt := fun s_swp : string => main os ["ray_headers"; s_swp; "/tmp/sock"]%string in
  let swp_bytes := fun m : msghdr => iov_base <$> msg_iov m !! 2%nat in
  (snd (run "all"%string) = Ret 0 /\
   map (fun line => (ln_s line, ln_r line)) (stdout_of (fst (run "all"%string)))
   = [(0, 0); (0, 1); (1, 0); (1, 1)]) /\
  (snd (run "1"%string) = Ret 0 /\
   map (fun line => (ln_s line, ln_r line)) (stdout_of (fst (run "1"%string)))
   = [(1, 0); (1, 1)]) /\
  map swp_bytes (sent_messages (fst (skt "all"%string))) = [Some [255; 255; 255; 255]] /\
  map swp_bytes (sent_messages (fst (skt "1"%string))) = [Some [1; 0; 0; 0]].
Proof.
  intros os run skt swp_bytes.
  assert (Hk : forall abbrv : string,
             @None string = Some abbrv ->
             is_Some (Sigmet_DataTypeGet (SigmetLib := Model.model_lib) abbrv))
    by (intros abbrv [=]).
  assert (Hs : forall s, 0 <= s < 2 -> is_Some (array_at Model.swp_hdrs2 s)).
  { intros s Hs. assert (s = 0 \/ s = 1) as [-> | ->] by lia; eexists; reflexivity. }
  assert (Ha : forall s r y, 0 <= s < 2 -> 0 <= r < 2 -> 0 <= y < 2 ->
                             is_Some (rays_at Model.rays2 s r y)).
  { intros s r y Hs' Hr Hy.
    assert (s = 0 \/ s = 1) as [-> | ->] by lia;
      (assert (r = 0 \/ r = 1) as [-> | ->] by lia);
      (assert (y = 0 \/ y = 1) as [-> | ->] by lia); eexists; reflexivity. }
  assert (Hx : true = true -> 64 <> 0 /\ true = true /\ 0 <= 0 < 2)
    by (intros _; split; [lia|split; [reflexivity|lia]]).
  assert (Hy : 1 < 2) by lia.
  assert (Hrd : 1 <> 0) by lia.
  assert (Hall : 0 <= UINT_MAX <= UINT_MAX) by (unfold UINT_MAX; lia).
  assert (Hone : 0 <= 1 <= UINT_MAX) by (unfold UINT_MAX; lia).
  assert (Hc : 3 <> -1) by lia.
  assert (N1 : 0 <= 5) by lia.
  assert (N2 : 0 <= 7) by lia.
  assert (Hw : 24 <> -1) by lia.
  assert (Hne : "1"%string <> "all"%string) by discriminate.
  pose proof (fun s_swp i_swp Harg Hi =>
    all_sweeps_is_UINT_MAX (H0 := Model.model_lib) os "ray_headers" s_swp "vol.raw" None
      i_swp Model.vol_hdr2 1 Model.swp_hdrs2 Model.rays2 (4, 5) (6, 7)
      Hk Harg Hi eq_refl eq_refl eq_refl eq_refl Hx eq_refl Hrd eq_refl Hs Ha Hy
      Hc eq_refl eq_refl eq_refl N1 N2 eq_refl Hw) as Hfl.
  pose proof (fun s_swp i_swp Harg Hi =>
    all_sweeps_is_UINT_MAX (H0 := Model.model_lib) os "ray_headers" s_swp "/tmp/sock" None
      i_swp Model.vol_hdr2 1 Model.swp_hdrs2 Model.rays2 (4, 5) (6, 7)
      Hk Harg Hi eq_refl eq_refl eq_refl eq_refl Hx eq_refl Hrd eq_refl Hs Ha Hy
      Hc eq_refl eq_refl eq_refl N1 N2 eq_refl Hw) as Hskt.
  pose proof (Hfl "all" UINT_MAX (or_introl (conj eq_refl eq_refl)) Hall)%string
    as (_ & _ & _ & _ & Hfl_all & _).
  pose proof (Hfl "1" 1 (or_intror (conj Hne eq_refl)) Hone)%string
    as (_ & _ & _ & _ & Hfl_one & _).
  pose proof (Hskt "all" UINT_MAX (or_introl (conj eq_refl eq_refl)) Hall)%string
    as (_ & _ & _ & _ & _ & Hskt_all).
  pose proof (Hskt "1" 1 (or_intror (conj Hne eq_refl)) Hone)%string
    as (_ & _ & _ & _ & _ & Hskt_one).
  split; [exact (Hfl_all eq_refl)|]. split; [exact (Hfl_one eq_refl)|].
  subst skt. cbv beta.
  rewrite (proj1 (Hskt_all eq_refl)), (proj1 (Hskt_one eq_refl)).
  split; reflexivity.
Defined.


End AllSweepsFacts.

(** ** Binary angles: the round trip through radians *)

Module BinaryAngleFacts.
Import PrimFloat FloatOps FloatAxioms SpecFloat BinaryAngle.

(** The number of binary digits of a positive integer. *)
Lemma digits2_pos_size (p : positive) : digits2_pos p = Pos.size p.
Proof. induction p as [p IH|p IH|]; simpl; congruence. Qed.

Lemma Zdigits2_log2 (m : Z) : 0 < m -> Zdigits2 m = Z.log2 m + 1.
Proof.
  destruct m as [|p|p]; try lia. intros _. simpl. rewrite digits2_pos_size.
  destruct p; simpl; lia.
Qed.

Lemma Zdigits2_bounds (m : Z) :
  0 < m -> 2 ^ (Zdigits2 m - 1) <= m < 2 ^ Zdigits2 m.
Proof.
  intros Hm. rewrite Zdigits2_log2 by done.
  replace (Z.log2 m + 1 - 1) with (Z.log2 m) by lia.
  apply Z.log2_spec. done.
Qed.

Lemma Zdigits2_unique (m d : Z) :
  0 < d -> 2 ^ (d - 1) <= m < 2 ^ d -> Zdigits2 m = d.
Proof.
  intros Hd Hm.
  assert (0 < m) by (pose proof (Z.pow_pos_nonneg 2 (d - 1)); lia).
  rewrite Zdigits2_log2 by done.
  rewrite (Z.log2_unique m (d - 1)); [lia|lia|].
  replace (Z.succ (d - 1)) with d by lia. done.
Qed.

(** Shifting a mantissa to the right divides it. *)
Lemma shr_1_m (mrs : shr_record) :
  0 <= shr_m mrs -> shr_m (shr_1 mrs) = shr_m mrs / 2 /\ 0 <= shr_m (shr_1 mrs).
Proof.
  destruct mrs as [m r s]. cbn [shr_m shr_1].
  destruct m as [|[p|p|]|p]; cbn [shr_m]; intros Hm; try lia; try (split; [reflexivity|lia]).
  - split; [|lia]. apply (Z.div_unique _ _ _ 1); lia.
  - split; [|lia]. apply (Z.div_unique _ _ _ 0); lia.
Qed.

Lemma iter_shr_1_m (p : positive) (mrs : shr_record) :
  0 <= shr_m mrs ->
  shr_m (iter_pos shr_1 p mrs) = shr_m mrs / 2 ^ Z.pos p /\
  0 <= shr_m (iter_pos shr_1 p mrs).
Proof.
  revert mrs. induction p as [p IH|p IH|]; intros mrs Hm; cbn [iter_pos].
  - destruct (shr_1_m mrs Hm) as [E1 N1].
    destruct (IH _ N1) as [E2 N2]. destruct (IH _ N2) as [E3 N3].
    split; [|done]. rewrite E3, E2, E1.
    assert (0 < 2 ^ Z.pos p) by (apply Z.pow_pos_nonneg; lia).
    rewrite !Z.div_div by lia. f_equal.
    rewrite (Pos2Z.inj_xI p).
    replace (2 * Z.pos p + 1) with (1 + Z.pos p + Z.pos p) by lia.
    rewrite !Z.pow_add_r by lia. lia.
  - destruct (IH _ Hm) as [E2 N2]. destruct (IH _ N2) as [E3 N3].
    split; [|done]. rewrite E3, E2.
    assert (0 < 2 ^ Z.pos p) by (apply Z.pow_pos_nonneg; lia).
    rewrite !Z.div_div by lia. f_equal.
    rewrite (Pos2Z.inj_xO p).
    replace (2 * Z.pos p) with (Z.pos p + Z.pos p) by lia.
    rewrite !Z.pow_add_r by lia. lia.
  - destruct (shr_1_m mrs Hm) as [E1 N1]. split; [|done]. by rewrite E1.
Qed.

Lemma shr_record_of_loc_m (m : Z) (l : location) : shr_m (shr_record_of_loc m l) = m.
Proof. destruct l as [|[]]; reflexivity. Qed.

(** The truncation of a mantissa of at least 53 digits to 53 digits, away
    from the subnormal range. *)
Lemma shr_fexp_m (m e : Z) (l : location) :
  0 < m -> 53 <= Zdigits2 m -> -1074 <= e + Zdigits2 m - 53 ->
  shr_m (fst (shr_fexp prec emax m e l)) = m / 2 ^ (Zdigits2 m - 53) /\
  snd (shr_fexp prec emax m e l) = e + (Zdigits2 m - 53).
Proof.
  intros Hm Hd He. unfold shr_fexp, fexp.
  change (SpecFloat.emin prec emax) with (-1074). change prec with 53.
  rewrite Z.max_l by lia.
  replace (Zdigits2 m + e - 53 - e) with (Zdigits2 m - 53) by lia.
  unfold shr. destruct (Zdigits2 m - 53) as [|p|p] eqn:En; try lia.
  - cbn [fst snd]. rewrite shr_record_of_loc_m, Z.pow_0_r, Z.div_1_r. split; lia.
  - cbn [fst snd]. split; [|done].
    destruct (iter_shr_1_m p (shr_record_of_loc m l)) as [E _].
    + rewrite shr_record_of_loc_m. lia.
    + by rewrite E, shr_record_of_loc_m.
Qed.

Lemma round_nearest_even_cases (m : Z) (l : location) :
  round_nearest_even m l = m \/ round_nearest_even m l = m + 1.
Proof.
  unfold round_nearest_even. destruct l as [|[]]; auto. destruct (Z.even m); auto.
Qed.

(** Rounding a mantissa of at least 53 digits, away from the subnormal
    range and from overflow: the result is a normal number within one part
    in [2^52] of the value rounded.  Values are scaled by [2^s]. *)
Lemma binary_round_aux_spec (s : Z) (sx : bool) (mx ex : Z) (lx : location) :
  0 < mx -> 53 <= Zdigits2 mx ->
  -1074 <= ex + Zdigits2 mx - 53 -> ex + Zdigits2 mx - 52 <= 971 -> 0 <= ex + s ->
  exists (m' : positive) (e' : Z),
    binary_round_aux prec emax sx mx ex lx = S754_finite sx m' e' /\
    2 ^ 52 <= Z.pos m' < 2 ^ 53 /\
    ex + Zdigits2 mx - 53 <= e' <= ex + Zdigits2 mx - 52 /\
    Z.abs (Z.pos m' * 2 ^ (e' + s) - mx * 2 ^ (ex + s)) * 2 ^ 52 <= mx * 2 ^ (ex + s).
Proof.
  intros Hm Hd Hlo Hhi Hs.
  set (d := Zdigits2 mx) in *. set (n := d - 53).
  destruct (shr_fexp_m mx ex lx Hm Hd Hlo) as [E1 E1'].
  fold d n in E1, E1'.
  pose proof (Zdigits2_bounds mx Hm) as Hb. fold d in Hb.
  assert (HN : 0 < 2 ^ n) by (apply Z.pow_pos_nonneg; lia).
  assert (Hd1 : 2 ^ (d - 1) = 2 ^ 52 * 2 ^ n).
  { replace (d - 1) with (52 + n) by lia. apply Z.pow_add_r; lia. }
  assert (Hd2 : 2 ^ d = 2 ^ 53 * 2 ^ n).
  { replace d with (53 + n) at 1 by lia. apply Z.pow_add_r; lia. }
  set (m1 := mx / 2 ^ n) in *.
  assert (Hm1 : 2 ^ 52 <= m1 < 2 ^ 53).
  { split.
    - apply Z.div_le_lower_bound; lia.
    - apply Z.div_lt_upper_bound; lia. }
  assert (Hmx : m1 * 2 ^ n <= mx < (m1 + 1) * 2 ^ n).
  { pose proof (Z.mul_div_le mx (2 ^ n) HN).
    pose proof (Z.mul_succ_div_gt mx (2 ^ n) HN). fold m1 in H, H0. lia. }
  unfold binary_round_aux.
  destruct (shr_fexp prec emax mx ex lx) as [mrs1 e1]. cbn [fst snd] in E1, E1'.
  set (m2 := round_nearest_even (shr_m mrs1) (loc_of_shr_record mrs1)).
  assert (Hm2 : m2 = m1 \/ m2 = m1 + 1).
  { subst m2. rewrite <- E1. apply round_nearest_even_cases. }
  assert (Hm2' : 0 < m2) by lia.
  assert (Hd2' : (Zdigits2 m2 = 53 /\ m2 < 2 ^ 53) \/ (Zdigits2 m2 = 54 /\ m2 = 2 ^ 53)).
  { destruct (Z_lt_le_dec m2 (2 ^ 53)) as [Hlt|Hge].
    - left. split; [|done]. apply Zdigits2_unique; [lia|]. change (53 - 1) with 52. lia.
    - right. assert (m2 = 2 ^ 53) as -> by lia. split; [|done]. reflexivity. }
  destruct (shr_fexp_m m2 e1 loc_Exact Hm2') as [E2 E2']; [lia|lia|].
  destruct (shr_fexp prec emax m2 e1 loc_Exact) as [mrs2 e2]. cbn [fst snd] in E2, E2'.
  set (P := 2 ^ (ex + s)).
  assert (HP : 0 < P) by (apply Z.pow_pos_nonneg; lia).
  assert (HW : 2 ^ (e1 + s) = 2 ^ n * P).
  { replace (e1 + s) with (n + (ex + s)) by lia. apply Z.pow_add_r; lia. }
  assert (HW0 : 0 < 2 ^ n * P) by (apply Z.mul_pos_pos; lia).
  assert (HT1 : m1 * (2 ^ n * P) <= mx * P)
    by (rewrite Z.mul_assoc; apply Z.mul_le_mono_nonneg_r; lia).
  assert (HT2 : mx * P < m1 * (2 ^ n * P) + 2 ^ n * P).
  { replace (m1 * (2 ^ n * P) + 2 ^ n * P) with ((m1 + 1) * 2 ^ n * P) by ring.
    apply Z.mul_lt_mono_pos_r; lia. }
  assert (HT3 : 2 ^ 52 * (2 ^ n * P) <= m1 * (2 ^ n * P))
    by (apply Z.mul_le_mono_nonneg_r; lia).
  destruct Hd2' as [[Hd53 Hlt53]|[Hd54 Hm53]].
  - rewrite Hd53 in E2, E2'. change (53 - 53) with 0 in E2, E2'.
    rewrite Z.pow_0_r, Z.div_1_r in E2. rewrite E2.
    destruct m2 as [|p2|p2] eqn:Ep; try lia.
    assert (Hle : (e2 <=? emax - prec) = true)
      by (apply Z.leb_le; change (emax - prec) with 971; lia).
    rewrite Hle. exists p2, e2. split; [done|]. split; [lia|]. split; [lia|].
    replace (e2 + s) with (e1 + s) by lia. rewrite HW.
    assert (HV : Z.pos p2 * (2 ^ n * P) = m1 * (2 ^ n * P) \/
                 Z.pos p2 * (2 ^ n * P) = m1 * (2 ^ n * P) + 2 ^ n * P).
    { destruct Hm2 as [E|E]; rewrite E; [left|right]; ring. }
    set (W := 2 ^ n * P) in *. set (T := m1 * W) in *. set (V := mx * P) in *.
    lia.
  - rewrite Hd54 in E2, E2'. rewrite Hm53 in E2. change (54 - 53) with 1 in E2, E2'.
    change (2 ^ 53 / 2 ^ 1) with (Z.pos 4503599627370496) in E2. rewrite E2.
    assert (Hle : (e2 <=? emax - prec) = true)
      by (apply Z.leb_le; change (emax - prec) with 971; lia).
    rewrite Hle. eexists _, e2. split; [reflexivity|]. split; [lia|]. split; [lia|].
    replace (e2 + s) with (1 + (e1 + s)) by lia.
    rewrite Z.pow_add_r by lia. rewrite HW.
    assert (Hm1' : m1 + 1 = 2 ^ 53) by lia.
    assert (HV : 4503599627370496 * (2 ^ 1 * (2 ^ n * P))
                 = m1 * (2 ^ n * P) + 2 ^ n * P).
    { replace (m1 * (2 ^ n * P) + 2 ^ n * P) with ((m1 + 1) * (2 ^ n * P)) by ring.
      rewrite Hm1'. change (2 ^ 53) with (4503599627370496 * 2 ^ 1). ring. }
    set (W := 2 ^ n * P) in *. set (T := m1 * W) in *. set (V := mx * P) in *.
    lia.
Qed.


Lemma Zdigits2_range (m lo hi : Z) :
  0 <= lo -> 2 ^ lo <= m < 2 ^ hi -> lo + 1 <= Zdigits2 m <= hi.
Proof.
  intros Hlo Hm.
  assert (Hpos : 0 < m) by (pose proof (Z.pow_pos_nonneg 2 lo); lia).
  pose proof (Zdigits2_bounds m Hpos) as Hb.
  assert (0 < Zdigits2 m) by (rewrite Zdigits2_log2 by done; pose proof (Z.log2_nonneg m); lia).
  split.
  - assert (lo < Zdigits2 m); [|lia].
    apply (Z.pow_lt_mono_r_iff 2); lia.
  - assert (Zdigits2 m - 1 < hi); [|lia].
    destruct (Z_lt_le_dec hi 0) as [Hneg|Hnn].
    + rewrite (Z.pow_neg_r 2 hi) in Hm by done. lia.
    + apply (Z.pow_lt_mono_r_iff 2); lia.
Qed.

Lemma iter_xO (m k : positive) : Z.pos (Pos.iter xO m k) = Z.pos m * 2 ^ Z.pos k.
Proof.
  change (Pos.iter xO m k) with (shift_pos k m).
  rewrite shift_pos_correct. change (Z.pow_pos 2 k) with (2 ^ Z.pos k). ring.
Qed.

(** The mantissa [shl_align] gives when the exponent is lowered to [e']. *)
Lemma shl_align_m (m : positive) (e e' : Z) :
  e' <= e ->
  Z.pos (fst (shl_align m e e')) = Z.pos m * 2 ^ (e - e') /\
  snd (shl_align m e e') = e'.
Proof.
  intros He. unfold shl_align. destruct (e' - e) as [|p|p] eqn:Ed; try lia.
  - cbn [fst snd]. replace (e - e') with 0 by lia. rewrite Z.pow_0_r. lia.
  - cbn [fst snd]. rewrite iter_xO. replace (e - e') with (Z.pos p) by lia. done.
Qed.

(** The product of two normal positive numbers, away from the subnormal
    range and from overflow, is within one part in [2^52] of the exact
    product.  Values are scaled by [2^s]. *)
Lemma SFmul_spec (s : Z) (mx my : positive) (ex ey : Z) :
  2 ^ 52 <= Z.pos mx < 2 ^ 53 -> 2 ^ 52 <= Z.pos my < 2 ^ 53 ->
  -1074 <= ex + ey + 52 -> ex + ey + 54 <= 971 ->
  0 <= s -> 0 <= ex + s -> 0 <= ey + s -> 0 <= ex + ey + s ->
  exists (m' : positive) (e' : Z),
    SFmul prec emax (S754_finite false mx ex) (S754_finite false my ey)
    = S754_finite false m' e' /\
    2 ^ 52 <= Z.pos m' < 2 ^ 53 /\
    ex + ey + 52 <= e' <= ex + ey + 54 /\
    Z.abs (Z.pos m' * 2 ^ (e' + s) * 2 ^ s
           - Z.pos mx * 2 ^ (ex + s) * (Z.pos my * 2 ^ (ey + s))) * 2 ^ 52
    <= Z.pos mx * 2 ^ (ex + s) * (Z.pos my * 2 ^ (ey + s)).
Proof.
  intros Hx Hy Hlo Hhi Hs Hxs Hys Hxys. cbn [SFmul xorb].
  assert (Hp : 2 ^ 104 <= Z.pos (mx * my) < 2 ^ 106).
  { rewrite Pos2Z.inj_mul.
    change (2 ^ 104) with (2 ^ 52 * 2 ^ 52). change (2 ^ 106) with (2 ^ 53 * 2 ^ 53).
    split; [apply Z.mul_le_mono_nonneg|apply Z.mul_lt_mono_nonneg]; lia. }
  pose proof (Zdigits2_range _ 104 106 ltac:(lia) Hp) as Hd.
  destruct (binary_round_aux_spec s false (Z.pos (mx * my)) (ex + ey) loc_Exact)
    as (m' & e' & E & Hm' & He' & Hv); try lia.
  exists m', e'. split; [exact E|]. split; [exact Hm'|]. split; [lia|].
  assert (HS : 0 < 2 ^ s) by (apply Z.pow_pos_nonneg; lia).
  assert (Hpow : 2 ^ (ex + ey + s) * 2 ^ s = 2 ^ (ex + s) * 2 ^ (ey + s)).
  { rewrite <- !Z.pow_add_r by lia. f_equal. lia. }
  rewrite Pos2Z.inj_mul in Hv.
  set (V' := Z.pos m' * 2 ^ (e' + s)) in *.
  replace (Z.pos mx * 2 ^ (ex + s) * (Z.pos my * 2 ^ (ey + s)))
    with (Z.pos mx * Z.pos my * 2 ^ (ex + ey + s) * 2 ^ s)
    by (rewrite <- !Z.mul_assoc, Hpow; ring).
  set (Ve := Z.pos mx * Z.pos my * 2 ^ (ex + ey + s)) in *.
  replace (V' * 2 ^ s - Ve * 2 ^ s) with ((V' - Ve) * 2 ^ s) by ring.
  rewrite Z.abs_mul, (Z.abs_eq (2 ^ s)) by lia.
  replace (Z.abs (V' - Ve) * 2 ^ s * 2 ^ 52) with (Z.abs (V' - Ve) * 2 ^ 52 * 2 ^ s) by ring.
  apply Z.mul_le_mono_nonneg_r; lia.
Qed.

(** The quotient of two normal positive numbers, away from the subnormal
    range and from overflow, is within one part in [2^51] of the exact
    quotient. *)
Lemma SFdiv_spec (s : Z) (mx my : positive) (ex ey : Z) :
  2 ^ 52 <= Z.pos mx < 2 ^ 53 -> 2 ^ 52 <= Z.pos my < 2 ^ 53 ->
  -1074 <= ex - ey - 53 -> ex - ey - 51 <= 971 ->
  0 <= s -> 0 <= ex + s -> 0 <= ey + s -> 0 <= ex - ey - 53 + s ->
  exists (m' : positive) (e' : Z),
    SFdiv prec emax (S754_finite false mx ex) (S754_finite false my ey)
    = S754_finite false m' e' /\
    2 ^ 52 <= Z.pos m' < 2 ^ 53 /\
    ex - ey - 53 <= e' <= ex - ey - 51 /\
    Z.abs (Z.pos m' * 2 ^ (e' + s) * (Z.pos my * 2 ^ (ey + s))
           - Z.pos mx * 2 ^ (ex + s) * 2 ^ s) * 2 ^ 51
    <= Z.pos mx * 2 ^ (ex + s) * 2 ^ s.
Proof.
  intros Hx Hy Hlo Hhi Hs Hxs Hys Hqs. cbn [SFdiv xorb].
  unfold SFdiv_core_binary.
  assert (Hdx : Zdigits2 (Z.pos mx) = 53) by (apply Zdigits2_unique; [lia|done]).
  assert (Hdy : Zdigits2 (Z.pos my) = 53) by (apply Zdigits2_unique; [lia|done]).
  rewrite Hdx, Hdy. unfold fexp.
  change (SpecFloat.emin prec emax) with (-1074). change prec with 53.
  replace (Z.min (Z.max (53 + ex - (53 + ey) - 53) (-1074)) (ex - ey))
    with (ex - ey - 53) by lia.
  replace (ex - ey - (ex - ey - 53)) with 53 by lia.
  cbv zeta. rewrite Z.shiftl_mul_pow2 by lia.
  set (q := Z.pos mx * 2 ^ 53 / Z.pos my).
  assert (Eq : Z.div_eucl (Z.pos mx * 2 ^ 53) (Z.pos my)
               = (q, Z.pos mx * 2 ^ 53 mod Z.pos my)).
  { unfold q, Z.div, Z.modulo. by destruct (Z.div_eucl _ _). }
  rewrite Eq.
  assert (Hq1 : q * Z.pos my <= Z.pos mx * 2 ^ 53 < (q + 1) * Z.pos my).
  { pose proof (Z.mul_div_le (Z.pos mx * 2 ^ 53) (Z.pos my) ltac:(lia)).
    pose proof (Z.mul_succ_div_gt (Z.pos mx * 2 ^ 53) (Z.pos my) ltac:(lia)).
    fold q in H, H0. lia. }
  assert (Hq2 : 2 ^ 52 <= q < 2 ^ 54).
  { split.
    - apply Z.div_le_lower_bound; [lia|]. change (2 ^ 53) with 9007199254740992 in *.
      change (2 ^ 52) with 4503599627370496 in *. lia.
    - apply Z.div_lt_upper_bound; [lia|]. change (2 ^ 53) with 9007199254740992 in *.
      change (2 ^ 52) with 4503599627370496 in *.
      change (2 ^ 54) with 18014398509481984. lia. }
  pose proof (Zdigits2_range q 52 54 ltac:(lia) Hq2) as Hd.
  destruct (binary_round_aux_spec s false q (ex - ey - 53)
              (new_location (Z.pos my) (Z.pos mx * 2 ^ 53 mod Z.pos my)))
    as (m' & e' & E & Hm' & He' & Hv); try lia.
  exists m', e'. split; [exact E|]. split; [exact Hm'|]. split; [lia|].
  set (Eq' := 2 ^ (ex - ey - 53 + s)) in *.
  assert (HE : 0 < Eq') by (apply Z.pow_pos_nonneg; lia).
  set (Y := 2 ^ (ey + s)).
  assert (HY : 0 < Y) by (apply Z.pow_pos_nonneg; lia).
  assert (Hpow : 2 ^ 53 * Eq' * Y = 2 ^ (ex + s) * 2 ^ s).
  { unfold Eq', Y. rewrite <- !Z.pow_add_r by lia. f_equal. lia. }
  set (V' := Z.pos m' * 2 ^ (e' + s)) in *.
  set (Vy := Z.pos my * Y).
  assert (HVy : 0 < Vy) by (apply Z.mul_pos_pos; lia).
  assert (HEY : 0 < Eq' * Y) by (apply Z.mul_pos_pos; lia).
  replace (Z.pos mx * 2 ^ (ex + s) * 2 ^ s) with (Z.pos mx * 2 ^ 53 * (Eq' * Y))
    by (rewrite <- !Z.mul_assoc, <- Hpow; ring).
  assert (Hb1 : q * Eq' * Vy <= Z.pos mx * 2 ^ 53 * (Eq' * Y)).
  { replace (q * Eq' * Vy) with (q * Z.pos my * (Eq' * Y)) by (unfold Vy; ring).
    apply Z.mul_le_mono_nonneg_r; lia. }
  assert (Hb2 : Z.pos mx * 2 ^ 53 * (Eq' * Y) < q * Eq' * Vy + Eq' * Vy).
  { replace (q * Eq' * Vy + Eq' * Vy) with ((q + 1) * Z.pos my * (Eq' * Y))
      by (unfold Vy; ring).
    apply Z.mul_lt_mono_pos_r; lia. }
  assert (Hb3 : Z.abs (V' * Vy - q * Eq' * Vy) * 2 ^ 52 <= q * Eq' * Vy).
  { replace (V' * Vy - q * Eq' * Vy) with ((V' - q * Eq') * Vy) by ring.
    rewrite Z.abs_mul, (Z.abs_eq Vy) by lia.
    replace (Z.abs (V' - q * Eq') * Vy * 2 ^ 52)
      with (Z.abs (V' - q * Eq') * 2 ^ 52 * Vy) by ring.
    apply Z.mul_le_mono_nonneg_r; lia. }
  assert (Hb4 : Eq' * Vy * 2 ^ 52 <= q * Eq' * Vy).
  { replace (Eq' * Vy * 2 ^ 52) with (2 ^ 52 * (Eq' * Vy)) by ring.
    replace (q * Eq' * Vy) with (q * (Eq' * Vy)) by ring.
    apply Z.mul_le_mono_nonneg_r; [|lia].
    apply Z.lt_le_incl, Z.mul_pos_pos; lia. }
  set (a := V' * Vy) in *. set (b := q * Eq' * Vy) in *.
  set (c := Z.pos mx * 2 ^ 53 * (Eq' * Y)) in *. set (e := Eq' * Vy) in *.
  change (2 ^ 52) with (2 * 2 ^ 51) in Hb3, Hb4. lia.
Qed.


(** Rounding a positive integer multiple of a power of two, away from the
    subnormal range and from overflow. *)
Lemma binary_round_spec (s : Z) (sx : bool) (m : positive) (e : Z) :
  -1074 <= e + Zdigits2 (Z.pos m) - 53 -> e + Zdigits2 (Z.pos m) - 52 <= 971 ->
  0 <= e + s -> 0 <= e + Zdigits2 (Z.pos m) - 53 + s ->
  exists (m' : positive) (e' : Z),
    binary_round prec emax sx m e = S754_finite sx m' e' /\
    2 ^ 52 <= Z.pos m' < 2 ^ 53 /\
    e + Zdigits2 (Z.pos m) - 53 <= e' <= e + Zdigits2 (Z.pos m) - 52 /\
    Z.abs (Z.pos m' * 2 ^ (e' + s) - Z.pos m * 2 ^ (e + s)) * 2 ^ 52
    <= Z.pos m * 2 ^ (e + s).
Proof.
  set (d := Zdigits2 (Z.pos m)).
  intros Hlo Hhi Hs Hds. unfold binary_round.
  change (Z.pos (digits2_pos m)) with d. unfold fexp.
  change (SpecFloat.emin prec emax) with (-1074). change prec with 53.
  rewrite Z.max_l by lia.
  pose proof (Zdigits2_bounds (Z.pos m) ltac:(lia)) as Hb. fold d in Hb.
  destruct (Z_le_gt_dec 53 d) as [Hge|Hlt].
  - unfold shl_align. destruct (d + e - 53 - e) as [|p|p] eqn:Ed; try lia;
      apply binary_round_aux_spec; fold d; lia.
  - destruct (shl_align_m m e (d + e - 53) ltac:(lia)) as [Em Ee].
    destruct (shl_align m e (d + e - 53)) as [mz ez]. cbn [fst snd] in Em, Ee. subst ez.
    replace (e - (d + e - 53)) with (53 - d) in Em by lia.
    assert (Hd0 : 0 < d).
    { unfold d. cbn [Zdigits2]. lia. }
    assert (Hdz : Zdigits2 (Z.pos mz) = 53).
    { apply Zdigits2_unique; [lia|]. rewrite Em.
      replace (2 ^ (53 - 1)) with (2 ^ (d - 1) * 2 ^ (53 - d))
        by (rewrite <- Z.pow_add_r by lia; f_equal; lia).
      replace (2 ^ 53) with (2 ^ d * 2 ^ (53 - d))
        by (rewrite <- Z.pow_add_r by lia; f_equal; lia).
      assert (0 < 2 ^ (53 - d)) by (apply Z.pow_pos_nonneg; lia).
      split; [apply Z.mul_le_mono_nonneg_r|apply Z.mul_lt_mono_pos_r]; lia. }
    destruct (binary_round_aux_spec s sx (Z.pos mz) (d + e - 53) loc_Exact)
      as (m' & e' & E & Hm' & He' & Hv); try lia.
    exists m', e'. split; [exact E|]. split; [exact Hm'|]. split; [lia|].
    replace (Z.pos mz * 2 ^ (d + e - 53 + s)) with (Z.pos m * 2 ^ (e + s)) in Hv; [exact Hv|].
    rewrite Em, <- Z.mul_assoc, <- Z.pow_add_r by lia. do 2 f_equal. lia.
Qed.

(** Two normal positive numbers less than [2^(-3)] apart: the absolute
    value of their difference, as the processor computes it, compares less
    than one half. *)
Lemma SFsub_small (s : Z) (mx my : positive) (ex ey : Z) :
  2 ^ 52 <= Z.pos mx < 2 ^ 53 -> 2 ^ 52 <= Z.pos my < 2 ^ 53 ->
  3 <= s <= 1000 -> 53 - s <= ex <= 0 -> 53 - s <= ey <= 0 ->
  Z.abs (Z.pos mx * 2 ^ (ex + s) - Z.pos my * 2 ^ (ey + s)) < 2 ^ (s - 3) ->
  SFltb (SFabs (SFsub prec emax (S754_finite false mx ex) (S754_finite false my ey)))
        (S754_finite false 4503599627370496 (-53)) = true.
Proof.
  intros Hx Hy Hs Hex Hey Hsmall. cbn [SFsub cond_Zopp].
  set (e0 := Z.min ex ey).
  destruct (shl_align_m mx ex e0 ltac:(lia)) as [Ex _].
  destruct (shl_align_m my ey e0 ltac:(lia)) as [Ey _].
  rewrite Ex, Ey.
  set (M := Z.pos mx * 2 ^ (ex - e0) - Z.pos my * 2 ^ (ey - e0)).
  assert (HM : M * 2 ^ (e0 + s) = Z.pos mx * 2 ^ (ex + s) - Z.pos my * 2 ^ (ey + s)).
  { unfold M. rewrite Z.mul_sub_distr_r, <- !Z.mul_assoc, <- !Z.pow_add_r by lia.
    do 2 f_equal; f_equal; lia. }
  rewrite <- HM in Hsmall.
  assert (HE : 0 < 2 ^ (e0 + s)) by (apply Z.pow_pos_nonneg; lia).
  rewrite Z.abs_mul, (Z.abs_eq (2 ^ (e0 + s))) in Hsmall by lia.
  assert (Hgen : forall (sx : bool) (p : positive), Z.abs M = Z.pos p ->
            SFltb (SFabs (binary_round prec emax sx p e0))
                  (S754_finite false 4503599627370496 (-53)) = true).
  { intros sx p Hp. rewrite Hp in Hsmall.
    set (d := Zdigits2 (Z.pos p)).
    pose proof (Zdigits2_bounds (Z.pos p) ltac:(lia)) as Hb. fold d in Hb.
    assert (Hd0 : 0 < d) by (unfold d; cbn [Zdigits2]; lia).
    assert (Hde : d - 1 + (e0 + s) < s - 3).
    { apply (Z.pow_lt_mono_r_iff 2); [lia|lia|].
      rewrite Z.pow_add_r by lia.
      apply Z.le_lt_trans with (Z.pos p * 2 ^ (e0 + s)); [|done].
      apply Z.mul_le_mono_nonneg_r; lia. }
    destruct (binary_round_spec s sx p e0) as (m' & e' & E & _ & He' & _);
      fold d; try lia.
    rewrite E. cbn [SFabs]. unfold SFltb, SFcompare.
    fold d in He'.
    assert (Hlt : e' < -53) by lia.
    apply Z.compare_lt_iff in Hlt. by rewrite Hlt. }
  unfold binary_normalize. destruct M as [|p|p] eqn:EM.
  - reflexivity.
  - apply Hgen. reflexivity.
  - apply Hgen. reflexivity.
Qed.


(** Dividing a normal number [a] between 1 and [2^33] by [2^16] or [2^32],
    multiplying by [twopi], dividing by [twopi] and multiplying by the same
    power of two gives a number that compares less than one half away from
    [a]. *)
Lemma angle_chain (ma : positive) (ea eD : Z) :
  2 ^ 52 <= Z.pos ma < 2 ^ 53 -> -52 <= ea <= -20 -> eD = -36 \/ eD = -20 ->
  let a := S754_finite false ma ea in
  let D := S754_finite false 4503599627370496 eD in
  let c := S754_finite false 7074237752028440 (-50) in
  SFltb (SFabs (SFsub prec emax
                  (SFmul prec emax
                     (SFdiv prec emax (SFmul prec emax (SFdiv prec emax a D) c) c) D) a))
        (S754_finite false 4503599627370496 (-53)) = true.
Proof.
  intros Hma Hea HeD a D c. subst a D c.
  assert (HmD : 2 ^ 52 <= Z.pos 4503599627370496 < 2 ^ 53) by (split; [reflexivity|reflexivity]).
  assert (Hmc : 2 ^ 52 <= Z.pos 7074237752028440 < 2 ^ 53) by (split; [discriminate|reflexivity]).
  destruct (SFdiv_spec 200 ma 4503599627370496 ea eD Hma HmD)
    as (mb & eb & Eb & Hmb & Heb & Hvb); try lia.
  rewrite Eb.
  destruct (SFmul_spec 200 mb 7074237752028440 eb (-50) Hmb Hmc)
    as (mx & ex & Ex & Hmx & Hex & Hvx); try lia.
  rewrite Ex.
  destruct (SFdiv_spec 200 mx 7074237752028440 ex (-50) Hmx Hmc)
    as (my & ey & Ey & Hmy & Hey & Hvy); try lia.
  rewrite Ey.
  destruct (SFmul_spec 200 my 4503599627370496 ey eD Hmy HmD)
    as (mz & ez & Ez & Hmz & Hez & Hvz); try lia.
  rewrite Ez.
  apply (SFsub_small 200); try lia.
  assert (HA : 0 < Z.pos ma * 2 ^ (ea + 200) < 2 ^ 53 * 2 ^ 180).
  { assert (0 < 2 ^ (ea + 200)) by (apply Z.pow_pos_nonneg; lia).
    assert (2 ^ (ea + 200) <= 2 ^ 180) by (apply Z.pow_le_mono_r; lia).
    split; [lia|].
    apply Z.lt_le_trans with (2 ^ 53 * 2 ^ (ea + 200)).
    - apply Z.mul_lt_mono_pos_r; lia.
    - apply Z.mul_le_mono_nonneg_l; lia. }
  set (A := Z.pos ma * 2 ^ (ea + 200)) in *.
  set (B := Z.pos mb * 2 ^ (eb + 200)) in *.
  set (X := Z.pos mx * 2 ^ (ex + 200)) in *.
  set (Y := Z.pos my * 2 ^ (ey + 200)) in *.
  set (Zv := Z.pos mz * 2 ^ (ez + 200)) in *.
  clearbody A B X Y Zv.
  clear Eb Ex Ey Ez Hmb Hmx Hmy Hmz Heb Hex Hey Hez Hma Hea HmD Hmc.
  destruct HeD as [-> | ->].
  - change (Z.pos 4503599627370496 * 2 ^ (-36 + 200)) with (2 ^ 216) in *.
    change (Z.pos 7074237752028440 * 2 ^ (-50 + 200)) with (7074237752028440 * 2 ^ 150) in *.
    lia.
  - change (Z.pos 4503599627370496 * 2 ^ (-20 + 200)) with (2 ^ 232) in *.
    change (Z.pos 7074237752028440 * 2 ^ (-50 + 200)) with (7074237752028440 * 2 ^ 150) in *.
    lia.
Qed.


(** The double nearest a positive integer below [2^32]. *)
Lemma of_uint63_normal (u : Z) :
  0 < u < 2 ^ 32 ->
  exists (ma : positive) (ea : Z),
    Prim2SF (of_uint63 (Uint63.of_Z u)) = S754_finite false ma ea /\
    2 ^ 52 <= Z.pos ma < 2 ^ 53 /\ -52 <= ea <= -20.
Proof.
  intros Hu. rewrite of_uint63_spec, Uint63.of_Z_spec.
  rewrite Z.mod_small by (change Uint63.wB with (2 ^ 63); lia).
  destruct u as [|p|p]; try lia. cbn [binary_normalize].
  pose proof (Zdigits2_range (Z.pos p) 0 32 ltac:(lia) ltac:(change (2 ^ 0) with 1; lia)) as Hd.
  destruct (binary_round_spec 200 false p 0) as (ma & ea & E & Hma & Hea & _); try lia.
  exists ma, ea. split; [exact E|]. split; [exact Hma|lia].
Qed.

(** C9.  The round trip of a binary angle through radians.  In double
    precision, [bin4_to_radians u] divided by [twopi] and multiplied by
    [2^32] is less than one half away from [u] for every 32-bit [u], and
    [bin2_to_radians u] divided by [twopi] and multiplied by 65536 is less
    than one half away from [u] for every 16-bit [u]. *)
Theorem binary_angle_roundtrip (u : Z) :
  0 <= u < 2 ^ 32 ->
  (bin4_roundtrip u <? 0.5)%float = true /\
  (u < 65536 -> (bin2_roundtrip u <? 0.5)%float = true).
Proof.
  intros Hu.
  destruct (Z.eq_dec u 0) as [->|Hnz]; [split; [|intros _]; reflexivity|].
  destruct (of_uint63_normal u ltac:(lia)) as (ma & ea & Ea & Hma & Hea).
  split; [|intros _].
  - unfold bin4_roundtrip, bin4_to_radians.
    rewrite ltb_spec, abs_spec, sub_spec, mul_spec, div_spec, mul_spec, div_spec, Ea.
    apply (angle_chain ma ea (-20) Hma Hea). by right.
  - unfold bin2_roundtrip, bin2_to_radians.
    rewrite ltb_spec, abs_spec, sub_spec, mul_spec, div_spec, mul_spec, div_spec, Ea.
    apply (angle_chain ma ea (-36) Hma Hea). by left.
Qed.

Lemma binary_angle_roundtrip_witness :
  0 <= 40000 < 2 ^ 32 /\
  (bin4_roundtrip 40000 <? 0.5)%float = true /\
  (bin2_roundtrip 40000 <? 0.5)%float = true.
Proof.
  assert (Hu : 0 <= 40000 < 2 ^ 32) by (split; [discriminate|reflexivity]).
  split; [exact Hu|].
  destruct (binary_angle_roundtrip 40000 Hu) as [H4 H2].
  split; [exact H4|]. apply H2. reflexivity.
Defined.

End BinaryAngleFacts.
